(** * CYD terminal: scrollback store, escape interpreter, UTF-8 decoder
      and command history, embedded from the C++ sources.

    The C++ globals of terminal.cpp and keyboard.cpp become fields of state
    records that every operation takes and returns.  Calls into the display
    driver (tft.*, drawUnicodeChar), the SD logger and the UART are output
    only; they never feed back into the variables modelled here and are left
    out of the modules Terminal and Keyboard.  The modules SdCard, Link and
    Touch add the session log, what is written to Serial2 and the touch
    handler of the on-screen keyboard.  [int] is the 32-bit int of the ESP32
    target: every arithmetic result on an int goes through [Int.wrap]. *)

From Stdlib Require Import ZArith Lia Bool String Ascii.
From stdpp Require Import base list.

Local Open Scope Z_scope.

(** ** Machine integers *)

Module Int.

Definition int_min : Z := -2147483648.
Definition int_max : Z := 2147483647.

(** Two's complement reduction of a mathematical result to a 32-bit int. *)
Definition wrap (z : Z) : Z := (z + 2147483648) mod 4294967296 - 2147483648.

Definition add (a b : Z) : Z := wrap (a + b).
Definition sub (a b : Z) : Z := wrap (a - b).
Definition mul (a b : Z) : Z := wrap (a * b).

Definition in_range (z : Z) : Prop := int_min <= z <= int_max.

(** Unsigned reductions for uint8_t and uint32_t (size_t is 32 bits too). *)
Definition u8 (z : Z) : Z := z mod 256.
Definition u32 (z : Z) : Z := z mod 4294967296.

End Int.

(** ** utf8.cpp: the incremental decoder *)

Module Utf8.

(** struct UTF8Decoder (uint8_t state; uint32_t codepoint; uint8_t
    bytesNeeded; uint8_t bytesReceived). *)
Record UTF8Decoder : Type := mkDecoder {
  state : Z;
  codepoint : Z;
  bytesNeeded : Z;
  bytesReceived : Z
}.

Definition utf8Init (_ : UTF8Decoder) : UTF8Decoder :=
  {| state := 0; codepoint := 0; bytesNeeded := 0; bytesReceived := 0 |}.

(** The decoder after its constructor-like reset. *)
Definition initial : UTF8Decoder := utf8Init (mkDecoder 0 0 0 0).

Definition start_sequence (d : UTF8Decoder) (cp needed : Z) : UTF8Decoder :=
  {| state := state d; codepoint := cp; bytesNeeded := needed; bytesReceived := 0 |}.

Definition utf8Decode (d : UTF8Decoder) (byte : Z) : UTF8Decoder * bool :=
  if bytesNeeded d =? 0 then
    if Z.land byte 0x80 =? 0 then
      ({| state := state d; codepoint := byte;
          bytesNeeded := bytesNeeded d; bytesReceived := bytesReceived d |}, true)
    else if Z.land byte 0xE0 =? 0xC0 then
      (start_sequence d (Z.land byte 0x1F) 1, false)
    else if Z.land byte 0xF0 =? 0xE0 then
      (start_sequence d (Z.land byte 0x0F) 2, false)
    else if Z.land byte 0xF8 =? 0xF0 then
      (start_sequence d (Z.land byte 0x07) 3, false)
    else
      (utf8Init d, false)
  else
    if Z.land byte 0xC0 =? 0x80 then
      let cp := Int.u32 (Z.lor (Z.shiftl (codepoint d) 6) (Z.land byte 0x3F)) in
      let received := Int.u8 (bytesReceived d + 1) in
      if received >=? bytesNeeded d then
        ({| state := state d; codepoint := cp;
            bytesNeeded := 0; bytesReceived := received |}, true)
      else
        ({| state := state d; codepoint := cp;
            bytesNeeded := bytesNeeded d; bytesReceived := received |}, false)
    else
      (utf8Init d, false).

Definition utf8GetCodepoint (d : UTF8Decoder) : Z := codepoint d.

(** Byte classes of the encoding, by value range. *)
Definition is_byte (b : Z) : Prop := 0 <= b < 256.
Definition continuation_byte (b : Z) : Prop := 0x80 <= b <= 0xBF.
Definition leading_byte (b : Z) : Prop :=
  0 <= b <= 0x7F \/ 0xC0 <= b <= 0xDF \/ 0xE0 <= b <= 0xEF \/ 0xF0 <= b <= 0xF7.

(** The byte the decoder cannot accept in its current state. *)
Definition offending (d : UTF8Decoder) (b : Z) : Prop :=
  (bytesNeeded d = 0 /\ ~ leading_byte b) \/
  (bytesNeeded d <> 0 /\ ~ continuation_byte b).

(** Boolean classification as the code tests it, for the enumeration below. *)
Definition lead_class (b : Z) : Z :=
  if Z.land b 0x80 =? 0 then 1
  else if Z.land b 0xE0 =? 0xC0 then 2
  else if Z.land b 0xF0 =? 0xE0 then 3
  else if Z.land b 0xF8 =? 0xF0 then 4
  else 0.

Definition range_class (b : Z) : Z :=
  if b <=? 0x7F then 1
  else if b <=? 0xBF then 0
  else if b <=? 0xDF then 2
  else if b <=? 0xEF then 3
  else if b <=? 0xF7 then 4
  else 0.

End Utf8.

(** ** terminal.cpp: screen buffer, cursor and viewport *)

Module Terminal.

Import Utf8.

(** config.h *)
Definition SCREEN_HEIGHT : Z := 240.
Definition TERMINAL_COLS : Z := 53.
Definition TERMINAL_ROWS : Z := 27.
Definition TERMINAL_BUFFER_ROWS : Z := 100.
Definition TERMINAL_START_Y : Z := 22.
Definition KEYBOARD_Y_POS : Z := 80.

(** The TFT_eSPI colour constants the terminal uses, by name. *)
Inductive Color : Type :=
  | TFT_BLACK | TFT_RED | TFT_GREEN | TFT_YELLOW
  | TFT_BLUE | TFT_MAGENTA | TFT_CYAN | TFT_WHITE.

(** The file-level statics of terminal.cpp, together with the global
    [keyboardVisible] of the main sketch that terminal.cpp reads through
    [extern].  [fault] is not a variable of the program: it records that a
    [screenBuffer] access fell outside the 100x53 array, where C++ gives the
    program no meaning. *)
Record Terminal : Type := mkTerminal {
  screenBuffer : list (list Z);
  cursorX : Z;
  cursorY : Z;
  scrollOffset : Z;
  totalLines : Z;
  fgColor : Color;
  bgColor : Color;
  escBuffer : list Z;
  escIndex : Z;
  inEscSequence : bool;
  utf8Decoder : UTF8Decoder;
  keyboardVisible : bool;
  fault : bool
}.

Definition set_screenBuffer (b : list (list Z)) (t : Terminal) : Terminal :=
  mkTerminal b (cursorX t) (cursorY t) (scrollOffset t) (totalLines t)
    (fgColor t) (bgColor t) (escBuffer t) (escIndex t) (inEscSequence t)
    (utf8Decoder t) (keyboardVisible t) (fault t).
Definition set_cursorX (v : Z) (t : Terminal) : Terminal :=
  mkTerminal (screenBuffer t) v (cursorY t) (scrollOffset t) (totalLines t)
    (fgColor t) (bgColor t) (escBuffer t) (escIndex t) (inEscSequence t)
    (utf8Decoder t) (keyboardVisible t) (fault t).
Definition set_cursorY (v : Z) (t : Terminal) : Terminal :=
  mkTerminal (screenBuffer t) (cursorX t) v (scrollOffset t) (totalLines t)
    (fgColor t) (bgColor t) (escBuffer t) (escIndex t) (inEscSequence t)
    (utf8Decoder t) (keyboardVisible t) (fault t).
Definition set_scrollOffset (v : Z) (t : Terminal) : Terminal :=
  mkTerminal (screenBuffer t) (cursorX t) (cursorY t) v (totalLines t)
    (fgColor t) (bgColor t) (escBuffer t) (escIndex t) (inEscSequence t)
    (utf8Decoder t) (keyboardVisible t) (fault t).
Definition set_totalLines (v : Z) (t : Terminal) : Terminal :=
  mkTerminal (screenBuffer t) (cursorX t) (cursorY t) (scrollOffset t) v
    (fgColor t) (bgColor t) (escBuffer t) (escIndex t) (inEscSequence t)
    (utf8Decoder t) (keyboardVisible t) (fault t).
Definition set_fgColor (c : Color) (t : Terminal) : Terminal :=
  mkTerminal (screenBuffer t) (cursorX t) (cursorY t) (scrollOffset t) (totalLines t)
    c (bgColor t) (escBuffer t) (escIndex t) (inEscSequence t)
    (utf8Decoder t) (keyboardVisible t) (fault t).
Definition set_bgColor (c : Color) (t : Terminal) : Terminal :=
  mkTerminal (screenBuffer t) (cursorX t) (cursorY t) (scrollOffset t) (totalLines t)
    (fgColor t) c (escBuffer t) (escIndex t) (inEscSequence t)
    (utf8Decoder t) (keyboardVisible t) (fault t).
Definition set_esc (buf : list Z) (idx : Z) (active : bool) (t : Terminal) : Terminal :=
  mkTerminal (screenBuffer t) (cursorX t) (cursorY t) (scrollOffset t) (totalLines t)
    (fgColor t) (bgColor t) buf idx active
    (utf8Decoder t) (keyboardVisible t) (fault t).
Definition set_utf8Decoder (d : UTF8Decoder) (t : Terminal) : Terminal :=
  mkTerminal (screenBuffer t) (cursorX t) (cursorY t) (scrollOffset t) (totalLines t)
    (fgColor t) (bgColor t) (escBuffer t) (escIndex t) (inEscSequence t)
    d (keyboardVisible t) (fault t).
Definition set_keyboardVisible (k : bool) (t : Terminal) : Terminal :=
  mkTerminal (screenBuffer t) (cursorX t) (cursorY t) (scrollOffset t) (totalLines t)
    (fgColor t) (bgColor t) (escBuffer t) (escIndex t) (inEscSequence t)
    (utf8Decoder t) k (fault t).
Definition set_fault (t : Terminal) : Terminal :=
  mkTerminal (screenBuffer t) (cursorX t) (cursorY t) (scrollOffset t) (totalLines t)
    (fgColor t) (bgColor t) (escBuffer t) (escIndex t) (inEscSequence t)
    (utf8Decoder t) (keyboardVisible t) true.

(** *** Array accesses *)

Definition in_bounds (y x : Z) : bool :=
  (0 <=? y) && (y <? TERMINAL_BUFFER_ROWS) && (0 <=? x) && (x <? TERMINAL_COLS).

(** screenBuffer[y][x] = v *)
Definition store (y x v : Z) (t : Terminal) : Terminal :=
  if in_bounds y x then
    set_screenBuffer
      (alter (fun row => <[Z.to_nat x := v]> row) (Z.to_nat y) (screenBuffer t)) t
  else set_fault t.

(** screenBuffer[y][x], read by the renderer. *)
Definition cell (t : Terminal) (y x : Z) : option Z :=
  if in_bounds y x then
    match screenBuffer t !! Z.to_nat y with
    | Some row => row !! Z.to_nat x
    | None => None
    end
  else None.

(** The whole row a renderer pass reads for buffer slot [y]. *)
Definition slot (t : Terminal) (y : Z) : option (list Z) :=
  if (0 <=? y) && (y <? TERMINAL_BUFFER_ROWS) then screenBuffer t !! Z.to_nat y
  else None.

Definition space : Z := 32.

(** for (int x = x0; x < TERMINAL_COLS; x++) screenBuffer[y][x] = ' '; *)
Definition clearRowFrom (y x0 : Z) (t : Terminal) : Terminal :=
  fold_left (fun s x => store y x space s) (seqZ x0 (TERMINAL_COLS - x0)) t.

(** The nested loop of terminalInit and terminalClear over all rows. *)
Definition clearBuffer (t : Terminal) : Terminal :=
  fold_left (fun s y => clearRowFrom y 0 s) (seqZ 0 TERMINAL_BUFFER_ROWS) t.

(** The statics before terminalInit runs: zero-initialised arrays and the
    initialisers written in the source. *)
Definition power_on : Terminal :=
  {| screenBuffer := replicate 100 (replicate 53 0);
     cursorX := 0; cursorY := 0; scrollOffset := 0; totalLines := 0;
     fgColor := TFT_GREEN; bgColor := TFT_BLACK;
     escBuffer := replicate 32 0; escIndex := 0; inEscSequence := false;
     utf8Decoder := mkDecoder 0 0 0 0;
     keyboardVisible := false; fault := false |}.

(** *** Viewport arithmetic of terminalRedraw *)

Definition visibleRows (t : Terminal) : Z :=
  let maxY := if keyboardVisible t then KEYBOARD_Y_POS else SCREEN_HEIGHT in
  let v := Z.quot (maxY - TERMINAL_START_Y) 8 in
  let v := if v >? TERMINAL_ROWS then TERMINAL_ROWS else v in
  if keyboardVisible t && (v >? 5) then 5 else v.

Definition firstLineToShow (t : Terminal) : Z :=
  let f := Int.sub (Int.sub (totalLines t) (visibleRows t)) (scrollOffset t) in
  if f <? 0 then 0 else f.

(** One entry per line the drawing loop of terminalRedraw paints: screen
    row, absolute line number, buffer slot read. [break] ends the list,
    [continue] skips the row. *)
Fixpoint drawLoop (t : Terminal) (first : Z) (ys : list Z) : list (Z * Z * Z) :=
  match ys with
  | [] => []
  | y :: rest =>
      let lineNumber := Int.add first y in
      if lineNumber >=? totalLines t then []
      else if totalLines t <=? TERMINAL_BUFFER_ROWS then
        (y, lineNumber, lineNumber) :: drawLoop t first rest
      else
        let oldestLineNumber := Int.sub (totalLines t) TERMINAL_BUFFER_ROWS in
        if lineNumber <? oldestLineNumber then drawLoop t first rest
        else (y, lineNumber, Z.rem lineNumber TERMINAL_BUFFER_ROWS)
               :: drawLoop t first rest
  end.

(** The absolute line number the source computes for the cursor row (the
    same block appears in terminalRedraw, ensureCursorVisible, putChar and
    terminalScrollForKeyboard). *)
Definition cursorLineNumber (t : Terminal) : Z :=
  if totalLines t <=? TERMINAL_BUFFER_ROWS then cursorY t
  else
    let newestLinePos := Z.rem (Int.sub (totalLines t) 1) TERMINAL_BUFFER_ROWS in
    let offset :=
      Z.rem (Int.add (Int.sub newestLinePos (cursorY t)) TERMINAL_BUFFER_ROWS)
            TERMINAL_BUFFER_ROWS in
    Int.sub (Int.sub (totalLines t) 1) offset.

(** The block of terminalRedraw that, with the keyboard shown, paints the
    cursor line on the screen row just below the visible rows. *)
Definition cursorLinePaint (t : Terminal) : list (Z * Z * Z) :=
  if keyboardVisible t then
    let maxY := KEYBOARD_Y_POS in
    let cursorLine := cursorLineNumber t in
    if (cursorLine =? Int.add (firstLineToShow t) (visibleRows t))
       && (cursorLine <=? Int.sub (totalLines t) 1) then
      let bufferLine :=
        if totalLines t <=? TERMINAL_BUFFER_ROWS then cursorLine
        else Z.rem cursorLine TERMINAL_BUFFER_ROWS in
      let screenY := Int.add TERMINAL_START_Y (Int.mul (visibleRows t) 8) in
      if Int.add screenY 8 <=? maxY then [(visibleRows t, cursorLine, bufferLine)]
      else []
    else []
  else [].

(** The lines of the buffer that one call of terminalRedraw paints. *)
Definition terminalRedraw (t : Terminal) : list (Z * Z * Z) :=
  drawLoop t (firstLineToShow t) (seqZ 0 (visibleRows t)) ++ cursorLinePaint t.

Definition terminalInit (t : Terminal) : Terminal :=
  let t := set_utf8Decoder (utf8Init (utf8Decoder t)) t in
  let t := clearBuffer t in
  set_totalLines 0 (set_scrollOffset 0 (set_cursorY 0 (set_cursorX 0 t))).

Definition terminalClear (t : Terminal) : Terminal :=
  let t := clearBuffer t in
  set_totalLines 0 (set_scrollOffset 0 (set_cursorY 0 (set_cursorX 0 t))).

Definition ensureCursorVisible (t : Terminal) : Terminal :=
  if negb (keyboardVisible t) then
    if negb (scrollOffset t =? 0) then set_scrollOffset 0 t else t
  else
    let visibleRows := Z.quot (KEYBOARD_Y_POS - TERMINAL_START_Y) 8 in
    let visibleRows := if visibleRows >? 5 then 5 else visibleRows in
    let cursorAbsoluteLine := cursorLineNumber t in
    let targetCursorScreenPos := visibleRows in
    let targetFirstLine := Int.sub cursorAbsoluteLine targetCursorScreenPos in
    let targetFirstLine := if targetFirstLine <? 0 then 0 else targetFirstLine in
    let newScrollOffset :=
      Int.sub (Int.sub (totalLines t) visibleRows) targetFirstLine in
    let newScrollOffset := if newScrollOffset <? 0 then 0 else newScrollOffset in
    let maxScroll := Int.sub (totalLines t) visibleRows in
    let maxScroll := if maxScroll <? 0 then 0 else maxScroll in
    let newScrollOffset :=
      if newScrollOffset >? maxScroll then maxScroll else newScrollOffset in
    set_scrollOffset newScrollOffset t.

Definition scrollUp (t : Terminal) : Terminal :=
  let nextLine := Z.rem (totalLines t) TERMINAL_BUFFER_ROWS in
  let t := clearRowFrom nextLine 0 t in
  let t := set_cursorY nextLine t in
  set_totalLines (Int.add (totalLines t) 1) t.

(** The block that follows [cursorY++] in both the line-feed branch and the
    column-overflow branch of putChar (the two copies differ only in the
    redraw calls). *)
Definition openLine (t : Terminal) : Terminal :=
  let t :=
    if cursorY t <? TERMINAL_BUFFER_ROWS then clearRowFrom (cursorY t) 0 t else t in
  let t :=
    if totalLines t <? TERMINAL_BUFFER_ROWS then
      if cursorY t >=? totalLines t then set_totalLines (Int.add (cursorY t) 1) t
      else t
    else t in
  if cursorY t >=? TERMINAL_BUFFER_ROWS then
    let t := set_cursorY (TERMINAL_BUFFER_ROWS - 1) t in
    let t := scrollUp t in
    ensureCursorVisible t
  else
    ensureCursorVisible t.

Definition putChar (codepoint : Z) (t : Terminal) : Terminal :=
  if codepoint =? 13 then set_cursorX 0 t
  else if codepoint =? 10 then
    let t := set_cursorX 0 t in
    let t := set_cursorY (Int.add (cursorY t) 1) t in
    openLine t
  else if codepoint =? 8 then
    if cursorX t >? 0 then
      let t := set_cursorX (Int.sub (cursorX t) 1) t in
      store (cursorY t) (cursorX t) space t
    else t
  else if codepoint >=? 32 then
    let t := store (cursorY t) (cursorX t) codepoint t in
    let t := set_cursorX (Int.add (cursorX t) 1) t in
    if cursorX t >=? TERMINAL_COLS then
      let t := set_cursorX 0 t in
      let t := set_cursorY (Int.add (cursorY t) 1) t in
      openLine t
    else t
  else t.

(** *** The escape-sequence interpreter *)

(** escBuffer[i] for an int index; the array has 32 chars. *)
Definition esc_at (buf : list Z) (i : Z) : Z :=
  if (0 <=? i) && (i <? 32) then default 0 (buf !! Z.to_nat i) else 0.

(** The locals of the parameter-extraction loop. *)
Record Params : Type := mkParams {
  params : list Z;
  paramCount : Z;
  num : Z;
  hasNum : bool
}.

(** params[i] of the local int params[4]. *)
Definition param (ps : Params) (i : Z) : Z :=
  default 0 (params ps !! Z.to_nat i).

(** if (hasNum && paramCount < 4) params[paramCount++] = num; *)
Definition pushParam (ps : Params) : Params :=
  if hasNum ps && (paramCount ps <? 4) then
    mkParams (<[Z.to_nat (paramCount ps) := num ps]> (params ps))
             (Int.add (paramCount ps) 1) (num ps) (hasNum ps)
  else ps.

(** The body of the extraction loop for the char [c] = escBuffer[i]. *)
Definition parseByte (ps : Params) (c : Z) : Params :=
  if (c >=? 48) && (c <=? 57) then
    mkParams (params ps) (paramCount ps)
             (Int.add (Int.mul (num ps) 10) (Int.sub c 48)) true
  else if c =? 59 then
    let ps := pushParam ps in
    mkParams (params ps) (paramCount ps) 0 false
  else ps.

Definition parseStep (buf : list Z) (ps : Params) (i : Z) : Params :=
  parseByte ps (esc_at buf i).

Definition noParams : Params := mkParams [0; 0; 0; 0] 0 0 false.

(** The extraction loop run over the chars themselves. *)
Definition parseBytes (body : list Z) : Params :=
  pushParam (fold_left parseByte body noParams).

(** The loop over escBuffer[1 .. escIndex-2] and the push after it. *)
Definition parseParams (buf : list Z) (idx : Z) : Params :=
  pushParam
    (fold_left (parseStep buf) (seqZ 1 (idx - 2)) noParams).

(** Arduino's constrain(x, lo, hi) macro. *)
Definition constrain (x lo hi : Z) : Z :=
  if x <? lo then lo else if x >? hi then hi else x.

(** The foreground switch of the 'm' command for one parameter. *)
Definition applyColor (t : Terminal) (p : Z) : Terminal :=
  if (p >=? 30) && (p <=? 37) then
    if p =? 30 then set_fgColor TFT_BLACK t
    else if p =? 31 then set_fgColor TFT_RED t
    else if p =? 32 then set_fgColor TFT_GREEN t
    else if p =? 33 then set_fgColor TFT_YELLOW t
    else if p =? 34 then set_fgColor TFT_BLUE t
    else if p =? 35 then set_fgColor TFT_MAGENTA t
    else if p =? 36 then set_fgColor TFT_CYAN t
    else set_fgColor TFT_WHITE t
  else t.

(** if (params[0] == 0) params[0] = 1; *)
Definition countOrOne (ps : Params) : Z :=
  if param ps 0 =? 0 then 1 else param ps 0.

(** The switch on the final byte of a CSI sequence. *)
Definition runCommand (cmd : Z) (ps : Params) (t : Terminal) : Terminal :=
  if (cmd =? 72) || (cmd =? 102) then
    let y := if (paramCount ps >? 0) && (param ps 0 >? 0)
             then Int.sub (param ps 0) 1 else 0 in
    let x := if (paramCount ps >? 1) && (param ps 1 >? 0)
             then Int.sub (param ps 1) 1 else 0 in
    let t := set_cursorY y t in
    let t := set_cursorX x t in
    let t := set_cursorX (constrain (cursorX t) 0 (TERMINAL_COLS - 1)) t in
    set_cursorY (constrain (cursorY t) 0 (TERMINAL_ROWS - 1)) t
  else if cmd =? 74 then
    if param ps 0 =? 2 then terminalClear t else t
  else if cmd =? 75 then
    clearRowFrom (cursorY t) (cursorX t) t
  else if cmd =? 109 then
    if (paramCount ps =? 0) || (param ps 0 =? 0) then
      set_bgColor TFT_BLACK (set_fgColor TFT_GREEN t)
    else
      fold_left (fun s i => applyColor s (param ps i)) (seqZ 0 (paramCount ps)) t
  else if cmd =? 65 then
    let t := set_cursorY (Int.sub (cursorY t) (countOrOne ps)) t in
    if cursorY t <? 0 then set_cursorY 0 t else t
  else if cmd =? 66 then
    let t := set_cursorY (Int.add (cursorY t) (countOrOne ps)) t in
    if cursorY t >=? TERMINAL_ROWS then set_cursorY (TERMINAL_ROWS - 1) t else t
  else if cmd =? 67 then
    let t := set_cursorX (Int.add (cursorX t) (countOrOne ps)) t in
    if cursorX t >=? TERMINAL_COLS then set_cursorX (TERMINAL_COLS - 1) t else t
  else if cmd =? 68 then
    let t := set_cursorX (Int.sub (cursorX t) (countOrOne ps)) t in
    if cursorX t <? 0 then set_cursorX 0 t else t
  else t.

Definition processEscSequence (t : Terminal) : Terminal :=
  let buf := <[Z.to_nat (escIndex t) := 0]> (escBuffer t) in
  let t := set_esc buf (escIndex t) (inEscSequence t) t in
  let t :=
    if (escIndex t >=? 2) && (esc_at buf 0 =? 91) then
      let cmd := esc_at buf (escIndex t - 1) in
      runCommand cmd (parseParams buf (escIndex t)) t
    else t in
  set_esc (escBuffer t) 0 false t.

(** (byte >= 'A' && byte <= 'Z') || (byte >= 'a' && byte <= 'z') *)
Definition is_letter (byte : Z) : bool :=
  ((byte >=? 65) && (byte <=? 90)) || ((byte >=? 97) && (byte <=? 122)).

(** One pass of terminalUpdate with [byte] read from the UART. *)
Definition terminalUpdate (byte : Z) (t : Terminal) : Terminal :=
  if inEscSequence t then
    if Int.u32 (escIndex t) <? 31 then
      let t := set_esc (<[Z.to_nat (escIndex t) := byte]> (escBuffer t))
                       (Int.add (escIndex t) 1) (inEscSequence t) t in
      if is_letter byte then processEscSequence t else t
    else set_esc (escBuffer t) 0 false t
  else if byte =? 0x1B then set_esc (escBuffer t) 0 true t
  else
    let '(d, complete) := utf8Decode (utf8Decoder t) byte in
    let t := set_utf8Decoder d t in
    if complete then
      let t := putChar (utf8GetCodepoint d) t in
      set_utf8Decoder (utf8Init (utf8Decoder t)) t
    else t.

(** escBuffer[i++] = b for each byte of [body] in turn. *)
Fixpoint write_at (i : Z) (body : list Z) (buf : list Z) : list Z :=
  match body with
  | [] => buf
  | b :: rest => write_at (i + 1) rest (<[Z.to_nat i := b]> buf)
  end.

(** The byte stream of the serial port, one byte per scheduling step. *)
Definition feed (bytes : list Z) (t : Terminal) : Terminal :=
  fold_left (fun s b => terminalUpdate b s) bytes t.

(** terminalLocalEcho(char c): the char converts to the uint32_t parameter
    of putChar. *)
Definition terminalLocalEcho (c : Z) (t : Terminal) : Terminal :=
  putChar (Int.u32 c) t.

(** The decoding loop of terminalLocalEchoText over a NUL-terminated text,
    with its own local decoder. *)
Fixpoint echoLoop (text : list Z) (d : UTF8Decoder) (t : Terminal) : Terminal :=
  match text with
  | [] => t
  | b :: rest =>
      if b =? 0 then t
      else
        let '(d, complete) := utf8Decode d b in
        if complete then echoLoop rest (utf8Init d) (putChar (utf8GetCodepoint d) t)
        else echoLoop rest d t
  end.

Definition terminalLocalEchoText (text : list Z) (t : Terminal) : Terminal :=
  echoLoop text (utf8Init (mkDecoder 0 0 0 0)) t.

(** *** Scrolling *)

Definition terminalScroll (delta : Z) (t : Terminal) : Terminal :=
  let t := set_scrollOffset (Int.add (scrollOffset t) delta) t in
  let maxScroll := Int.sub (totalLines t) TERMINAL_ROWS in
  let maxScroll := if maxScroll <? 0 then 0 else maxScroll in
  let t := if scrollOffset t <? 0 then set_scrollOffset 0 t else t in
  if scrollOffset t >? maxScroll then set_scrollOffset maxScroll t else t.

Definition terminalGetMaxScroll (t : Terminal) : Z :=
  let maxScroll := Int.sub (totalLines t) TERMINAL_ROWS in
  if maxScroll >? 0 then maxScroll else 0.

Definition terminalScrollForKeyboard (visible : bool) (t : Terminal) : Terminal :=
  if visible then
    let visibleRows := Z.quot (KEYBOARD_Y_POS - TERMINAL_START_Y) 8 in
    let cursorAbsoluteLine := cursorLineNumber t in
    let targetFirstLine := Int.sub cursorAbsoluteLine 2 in
    let targetFirstLine := if targetFirstLine <? 0 then 0 else targetFirstLine in
    let t := set_scrollOffset
               (Int.sub (Int.sub (totalLines t) visibleRows) targetFirstLine) t in
    let t := if scrollOffset t <? 0 then set_scrollOffset 0 t else t in
    let maxScroll := Int.sub (totalLines t) visibleRows in
    let maxScroll := if maxScroll <? 0 then 0 else maxScroll in
    if scrollOffset t >? maxScroll then set_scrollOffset maxScroll t else t
  else set_scrollOffset 0 t.

(** toggleKeyboard of the main sketch, as far as the terminal sees it. *)
Definition toggleKeyboard (t : Terminal) : Terminal :=
  let t := set_keyboardVisible (negb (keyboardVisible t)) t in
  terminalScrollForKeyboard (keyboardVisible t) t.

(** Two terminals that differ at most in the bytes left in escBuffer; both
    are compared as if in Ground. *)
Definition same_display (a b : Terminal) : Prop :=
  set_esc [] 0 false a = set_esc [] 0 false b.

(** *** Test inputs *)

(** Line number [i] as text: a letter for the tens, a digit for the units,
    then a line feed ("A0", "A1", ..., "K4"). *)
Definition line_bytes (i : Z) : list Z := [65 + i / 10; 48 + i mod 10; 10].

(** The byte stream that writes lines 0 .. n-1. *)
Definition write_lines (n : Z) : list Z := concat (map line_bytes (seqZ 0 n)).

(** Printable codepoints through putChar, one call each. *)
Definition type_codepoints (cps : list Z) (t : Terminal) : Terminal :=
  fold_left (fun s cp => putChar cp s) cps t.

(** *** Well-formedness *)

(** The array types of the statics: screenBuffer is 100 rows of 53 cells. *)
Definition shaped (t : Terminal) : Prop :=
  length (screenBuffer t) = 100%nat /\
  Forall (fun row => length row = 53%nat) (screenBuffer t).

(** The cursor addresses a cell of the buffer. *)
Definition cursor_in_buffer (t : Terminal) : Prop :=
  0 <= cursorX t < TERMINAL_COLS /\ 0 <= cursorY t < TERMINAL_BUFFER_ROWS.

Definition blank_row : list Z := replicate 53 space.

(** The shape test, for concrete states. *)
Definition shapedb (t : Terminal) : bool :=
  Nat.eqb (length (screenBuffer t)) 100 &&
  forallb (fun row => Nat.eqb (length row) 53) (screenBuffer t).

End Terminal.

(** ** keyboard.cpp: input line and command history *)

Module Keyboard.

Import Terminal.

Definition MAX_HISTORY : Z := 10.
Definition INPUT_BUFFER_SIZE : Z := 256.

(** An Arduino String, as its bytes. *)
Definition Str : Type := list Z.

(** The bytes of a literal. *)
Definition lit (s : string) : Str :=
  map (fun a => Z.of_N (N_of_ascii a)) (list_ascii_of_string s).

(** The file-level statics of keyboard.cpp that the history uses. *)
Record Keyboard : Type := mkKeyboard {
  commandHistory : list Str;
  historyCount : Z;
  inputBuffer : list Z;
  inputBufferPos : Z;
  currentHistoryIndex : Z;
  savedNewCommand : Str
}.

Definition power_on : Keyboard :=
  {| commandHistory := replicate 10 [];
     historyCount := 0;
     inputBuffer := replicate 256 0;
     inputBufferPos := 0;
     currentHistoryIndex := -1;
     savedNewCommand := [] |}.

(** commandHistory[i] *)
Definition entry (h : list Str) (i : Z) : Str :=
  if (0 <=? i) && (i <? MAX_HISTORY) then default [] (h !! Z.to_nat i) else [].

(** String(inputBuffer): the chars before the first NUL. *)
Fixpoint c_str (buf : list Z) : Str :=
  match buf with
  | [] => []
  | c :: rest => if c =? 0 then [] else c :: c_str rest
  end.

(** The text being edited: inputBuffer[0 .. inputBufferPos). *)
Definition editBuffer (k : Keyboard) : Str :=
  take (Z.to_nat (inputBufferPos k)) (inputBuffer k).

(** for (int i = MAX_HISTORY - 1; i > 0; i--) commandHistory[i] = commandHistory[i-1]; *)
Definition shiftDown (h : list Str) : list Str :=
  fold_left (fun h i => <[Z.to_nat i := entry h (i - 1)]> h)
            (reverse (seqZ 1 (MAX_HISTORY - 1))) h.

Definition saveCommandToHistory (command : Str) (k : Keyboard) : Keyboard :=
  if Z.of_nat (length command) =? 0 then k
  else
    let h := <[0%nat := command]> (shiftDown (commandHistory k)) in
    let n := if historyCount k <? MAX_HISTORY
             then Int.add (historyCount k) 1 else historyCount k in
    mkKeyboard h n (inputBuffer k) (inputBufferPos k)
               (currentHistoryIndex k) (savedNewCommand k).

Definition clearCommandHistory (k : Keyboard) : Keyboard :=
  mkKeyboard (commandHistory k) 0 (inputBuffer k) (inputBufferPos k)
             (-1) (savedNewCommand k).

(** clearInputLine: one backspace echoed per byte of the input line. *)
Definition clearInputLine (k : Keyboard) (t : Terminal) : Terminal :=
  fold_left (fun s _ => terminalLocalEcho 8 s) (seqZ 0 (inputBufferPos k)) t.

(** The copy loop of loadCommandToBuffer, which stops at the first index
    where the buffer is full. *)
Fixpoint copyLoop (cmd : Str) (buf : list Z) (pos : Z) : list Z * Z :=
  match cmd with
  | [] => (buf, pos)
  | c :: rest =>
      if pos <? INPUT_BUFFER_SIZE - 1
      then copyLoop rest (<[Z.to_nat pos := c]> buf) (Int.add pos 1)
      else (buf, pos)
  end.

Definition loadCommandToBuffer (cmd : Str) (kt : Keyboard * Terminal)
  : Keyboard * Terminal :=
  let '(k, t) := kt in
  let t := clearInputLine k t in
  let '(buf, pos) := copyLoop cmd (inputBuffer k) 0 in
  let k := mkKeyboard (commandHistory k) (historyCount k) buf pos
                      (currentHistoryIndex k) (savedNewCommand k) in
  (k, terminalLocalEchoText cmd t).

Definition historyUp (kt : Keyboard * Terminal) : Keyboard * Terminal :=
  let '(k, t) := kt in
  if historyCount k =? 0 then kt
  else if currentHistoryIndex k =? -1 then
    let buf := <[Z.to_nat (inputBufferPos k) := 0]> (inputBuffer k) in
    let k := mkKeyboard (commandHistory k) (historyCount k) buf (inputBufferPos k)
                        0 (c_str buf) in
    loadCommandToBuffer (entry (commandHistory k) (currentHistoryIndex k)) (k, t)
  else if currentHistoryIndex k <? Int.sub (historyCount k) 1 then
    let k := mkKeyboard (commandHistory k) (historyCount k) (inputBuffer k)
                        (inputBufferPos k) (Int.add (currentHistoryIndex k) 1)
                        (savedNewCommand k) in
    loadCommandToBuffer (entry (commandHistory k) (currentHistoryIndex k)) (k, t)
  else kt.

Definition historyDown (kt : Keyboard * Terminal) : Keyboard * Terminal :=
  let '(k, t) := kt in
  if currentHistoryIndex k =? -1 then kt
  else
    let k := mkKeyboard (commandHistory k) (historyCount k) (inputBuffer k)
                        (inputBufferPos k) (Int.sub (currentHistoryIndex k) 1)
                        (savedNewCommand k) in
    if currentHistoryIndex k =? -1 then
      let '(k, t) := loadCommandToBuffer (savedNewCommand k) (k, t) in
      (mkKeyboard (commandHistory k) (historyCount k) (inputBuffer k)
                  (inputBufferPos k) (currentHistoryIndex k) [], t)
    else
      loadCommandToBuffer (entry (commandHistory k) (currentHistoryIndex k)) (k, t).

(** The Editing | Browsing(index) reading of currentHistoryIndex. *)
Inductive Mode : Type :=
  | Editing
  | Browsing (index : Z).

Definition mode (k : Keyboard) : Mode :=
  if currentHistoryIndex k =? -1 then Editing else Browsing (currentHistoryIndex k).

(** The array type of inputBuffer, the range the key handlers keep
    inputBufferPos in, the absence of NUL in what was typed, and a saved
    edit that came out of the 256-byte buffer. *)
Definition well_formed (k : Keyboard) : Prop :=
  length (inputBuffer k) = 256%nat /\
  0 <= inputBufferPos k <= INPUT_BUFFER_SIZE - 1 /\
  Forall (fun c => c <> 0) (editBuffer k) /\
  (length (savedNewCommand k) <= 255)%nat.

(** "cd" typed and not yet submitted, with three commands in the history. *)
Definition typing_cd : Keyboard :=
  mkKeyboard (commandHistory (saveCommandToHistory (lit "ls -la")
                (saveCommandToHistory (lit "pwd")
                   (saveCommandToHistory (lit "ls") power_on))))
             3 (<[1%nat := 100]> (<[0%nat := 99]> (replicate 256 0))) 2 (-1) [].

(** "ls", "pwd", "ls -la" submitted in this order on a fresh keyboard. *)
Definition three_commands : Keyboard :=
  saveCommandToHistory (lit "ls -la")
    (saveCommandToHistory (lit "pwd")
       (saveCommandToHistory (lit "ls") power_on)).

End Keyboard.

(** ** terminal.cpp: scroll bar and the remaining viewport entry points *)

Module View.

Import Terminal.

(** What drawScrollbar(maxY) paints over the grey track: the thumb as
    (thumbY, thumbHeight), or nothing when the content fits. *)
Definition drawScrollbar (maxY : Z) (t : Terminal) : option (Z * Z) :=
  let scrollbarHeight := Int.sub maxY TERMINAL_START_Y in
  let totalContentHeight := Int.mul (totalLines t) 8 in
  let visibleHeight := scrollbarHeight in
  if totalContentHeight >? visibleHeight then
    let thumbHeight :=
      Z.quot (Int.mul visibleHeight visibleHeight) totalContentHeight in
    let thumbHeight := if thumbHeight <? 10 then 10 else thumbHeight in
    let maxScroll := Int.sub (totalLines t) (Z.quot visibleHeight 8) in
    let maxScroll := if maxScroll <? 1 then 1 else maxScroll in
    let thumbRange := Int.sub visibleHeight thumbHeight in
    let thumbY :=
      Int.sub (Int.add TERMINAL_START_Y thumbRange)
              (Z.quot (Int.mul thumbRange (scrollOffset t)) maxScroll) in
    Some (thumbY, thumbHeight)
  else None.

(** The scroll bar block at the end of terminalRedraw. *)
Definition redrawScrollbar (t : Terminal) : option (Z * Z) :=
  let maxY := if keyboardVisible t then KEYBOARD_Y_POS else SCREEN_HEIGHT in
  if totalLines t >? visibleRows t then drawScrollbar maxY t else None.

Definition terminalReset (t : Terminal) : Terminal :=
  let t := terminalClear t in
  set_bgColor TFT_BLACK (set_fgColor TFT_GREEN t).

Definition terminalGetScrollOffset (t : Terminal) : Z := scrollOffset t.

Definition terminalScrollToBottom (t : Terminal) : Terminal := set_scrollOffset 0 t.

Definition terminalGetCursorY (t : Terminal) : Z := cursorY t.

(** The lines of the buffer that are on screen: the rows one redraw paints. *)
Definition painted (t : Terminal) (lineNumber : Z) : Prop :=
  exists y bufferLine, In (y, lineNumber, bufferLine) (terminalRedraw t).

End View.

(** ** sdcard.cpp: the session log *)

Module SdCard.

Definition BUFFER_SIZE : Z := 512.
Definition FLUSH_INTERVAL : Z := 5000.
Definition LINE_BUFFER_SIZE : Z := 256.

(** The file-level statics of sdcard.cpp on the logging path.  [fileOpen] is
    the truth value of [sessionFile] and [fileData] the bytes handed to
    sessionFile.write so far, in order.  [overrun] is not a variable of the
    program: it records an access outside writeBuffer, rxLineBuffer or
    txLineBuffer. *)
Record Logger : Type := mkLogger {
  isRecording : bool;
  fileOpen : bool;
  fileData : list Z;
  writeBuffer : list Z;
  bufferPos : Z;
  lastFlushTime : Z;
  rxLineBuffer : list Z;
  rxLinePos : Z;
  txLineBuffer : list Z;
  txLinePos : Z;
  overrun : bool
}.

Definition set_file (data : list Z) (s : Logger) : Logger :=
  mkLogger (isRecording s) (fileOpen s) data (writeBuffer s) (bufferPos s)
    (lastFlushTime s) (rxLineBuffer s) (rxLinePos s) (txLineBuffer s) (txLinePos s)
    (overrun s).
Definition set_write (buf : list Z) (pos : Z) (s : Logger) : Logger :=
  mkLogger (isRecording s) (fileOpen s) (fileData s) buf pos
    (lastFlushTime s) (rxLineBuffer s) (rxLinePos s) (txLineBuffer s) (txLinePos s)
    (overrun s).
Definition set_lastFlushTime (now : Z) (s : Logger) : Logger :=
  mkLogger (isRecording s) (fileOpen s) (fileData s) (writeBuffer s) (bufferPos s)
    now (rxLineBuffer s) (rxLinePos s) (txLineBuffer s) (txLinePos s)
    (overrun s).
Definition set_rx (buf : list Z) (pos : Z) (s : Logger) : Logger :=
  mkLogger (isRecording s) (fileOpen s) (fileData s) (writeBuffer s) (bufferPos s)
    (lastFlushTime s) buf pos (txLineBuffer s) (txLinePos s)
    (overrun s).
Definition set_tx (buf : list Z) (pos : Z) (s : Logger) : Logger :=
  mkLogger (isRecording s) (fileOpen s) (fileData s) (writeBuffer s) (bufferPos s)
    (lastFlushTime s) (rxLineBuffer s) (rxLinePos s) buf pos
    (overrun s).
Definition set_overrun (s : Logger) : Logger :=
  mkLogger (isRecording s) (fileOpen s) (fileData s) (writeBuffer s) (bufferPos s)
    (lastFlushTime s) (rxLineBuffer s) (rxLinePos s) (txLineBuffer s) (txLinePos s)
    true.

(** sessionFile.write((uint8_t* )writeBuffer, bufferPos) appends the first
    bufferPos bytes of the buffer to the file. *)
Definition flushBuffer (s : Logger) : Logger :=
  if (bufferPos s =? 0) || negb (isRecording s) || negb (fileOpen s) then s
  else
    let s := if (0 <=? bufferPos s) && (bufferPos s <=? BUFFER_SIZE) then s
             else set_overrun s in
    let s := set_file (fileData s ++ take (Z.to_nat (bufferPos s)) (writeBuffer s)) s in
    set_write (writeBuffer s) 0 s.

(** writeBuffer[bufferPos++] = c *)
Definition appendByte (c : Z) (s : Logger) : Logger :=
  let s := if (0 <=? bufferPos s) && (bufferPos s <? BUFFER_SIZE)
           then set_write (<[Z.to_nat (bufferPos s) := c]> (writeBuffer s)) (bufferPos s) s
           else set_overrun s in
  set_write (writeBuffer s) (Int.add (bufferPos s) 1) s.

(** The body of the loop of writeToBuffer for the char [c] = data[i]. *)
Definition writeStep (s : Logger) (c : Z) : Logger :=
  let s := appendByte c s in
  if (bufferPos s >=? BUFFER_SIZE - 1) || (c =? 10) then flushBuffer s else s.

Definition writeToBuffer (data : list Z) (s : Logger) : Logger :=
  if negb (isRecording s) then s else fold_left writeStep data s.

(** The end-of-line branch of the RX loops: "<< ", the line, "\n". *)
Definition rxLineOut (s : Logger) : Logger :=
  if rxLinePos s >? 0 then
    let s := writeToBuffer [60; 60; 32] s in
    let s := writeToBuffer (take (Z.to_nat (rxLinePos s)) (rxLineBuffer s)) s in
    let s := writeToBuffer [10] s in
    set_rx (rxLineBuffer s) 0 s
  else s.

(** The end-of-line branch of the TX loops: ">> ", the line, "\n". *)
Definition txLineOut (s : Logger) : Logger :=
  if txLinePos s >? 0 then
    let s := writeToBuffer [62; 62; 32] s in
    let s := writeToBuffer (take (Z.to_nat (txLinePos s)) (txLineBuffer s)) s in
    let s := writeToBuffer [10] s in
    set_tx (txLineBuffer s) 0 s
  else s.

(** The body of the accumulation loops for one char. *)
Definition rxStep (s : Logger) (c : Z) : Logger :=
  if (c =? 10) || (c =? 13) then rxLineOut s
  else if rxLinePos s <? LINE_BUFFER_SIZE - 1 then
    let s := if 0 <=? rxLinePos s then s else set_overrun s in
    set_rx (<[Z.to_nat (rxLinePos s) := c]> (rxLineBuffer s))
           (Int.add (rxLinePos s) 1) s
  else s.

Definition txStep (s : Logger) (c : Z) : Logger :=
  if (c =? 10) || (c =? 13) then txLineOut s
  else if txLinePos s <? LINE_BUFFER_SIZE - 1 then
    let s := if 0 <=? txLinePos s then s else set_overrun s in
    set_tx (<[Z.to_nat (txLinePos s) := c]> (txLineBuffer s))
           (Int.add (txLinePos s) 1) s
  else s.

(** The conversion at the head of sdLogRXCodepoint and sdLogTXCodepoint:
    the chars utf8[0 .. len) for a uint32_t codepoint. *)
Definition utf8Bytes (codepoint : Z) : list Z :=
  if codepoint <? 0x80 then [Int.u8 codepoint]
  else if codepoint <? 0x800 then
    [Int.u8 (Z.lor 0xC0 (Z.shiftr codepoint 6));
     Int.u8 (Z.lor 0x80 (Z.land codepoint 0x3F))]
  else if codepoint <? 0x10000 then
    [Int.u8 (Z.lor 0xE0 (Z.shiftr codepoint 12));
     Int.u8 (Z.lor 0x80 (Z.land (Z.shiftr codepoint 6) 0x3F));
     Int.u8 (Z.lor 0x80 (Z.land codepoint 0x3F))]
  else if codepoint <? 0x110000 then
    [Int.u8 (Z.lor 0xF0 (Z.shiftr codepoint 18));
     Int.u8 (Z.lor 0x80 (Z.land (Z.shiftr codepoint 12) 0x3F));
     Int.u8 (Z.lor 0x80 (Z.land (Z.shiftr codepoint 6) 0x3F));
     Int.u8 (Z.lor 0x80 (Z.land codepoint 0x3F))]
  else [].

Definition sdLogRX (data : list Z) (s : Logger) : Logger :=
  if negb (isRecording s) || (Z.of_nat (length data) =? 0) then s
  else writeToBuffer data (writeToBuffer [60; 60; 32] s).

Definition sdLogTX (data : list Z) (s : Logger) : Logger :=
  if negb (isRecording s) || (Z.of_nat (length data) =? 0) then s
  else fold_left txStep data s.

Definition sdLogRXChar (c : Z) (s : Logger) : Logger :=
  if negb (isRecording s) then s else writeToBuffer [60; 60; 32; c] s.

Definition sdLogTXChar (c : Z) (s : Logger) : Logger :=
  if negb (isRecording s) then s else writeToBuffer [62; 62; 32; c] s.

Definition sdLogRXCodepoint (codepoint : Z) (s : Logger) : Logger :=
  if negb (isRecording s) then s else fold_left rxStep (utf8Bytes codepoint) s.

Definition sdLogTXCodepoint (codepoint : Z) (s : Logger) : Logger :=
  if negb (isRecording s) then s else fold_left txStep (utf8Bytes codepoint) s.

(** sdFlush with [now] the value millis() returns. *)
Definition sdFlush (now : Z) (s : Logger) : Logger :=
  if negb (isRecording s) then s
  else if Int.u32 (now - lastFlushTime s) >=? FLUSH_INTERVAL
  then set_lastFlushTime now (flushBuffer s)
  else s.

(** Everything logged so far: what is on the card followed by what still
    waits in writeBuffer. *)
Definition logged (s : Logger) : list Z :=
  fileData s ++ take (Z.to_nat (bufferPos s)) (writeBuffer s).

(** A session in progress: the file is open, the arrays have their declared
    sizes and the positions are where the functions above leave them. *)
Definition recording (s : Logger) : Prop :=
  isRecording s = true /\ fileOpen s = true /\ overrun s = false /\
  length (writeBuffer s) = 512%nat /\ 0 <= bufferPos s < BUFFER_SIZE - 1 /\
  length (rxLineBuffer s) = 256%nat /\ 0 <= rxLinePos s <= LINE_BUFFER_SIZE - 1 /\
  length (txLineBuffer s) = 256%nat /\ 0 <= txLinePos s <= LINE_BUFFER_SIZE - 1.

(** The statics as sdStartRecording leaves them once the file is open, with
    [header] the bytes of the session header already on the card. *)
Definition started (header : list Z) : Logger :=
  {| isRecording := true; fileOpen := true; fileData := header;
     writeBuffer := replicate 512 0; bufferPos := 0; lastFlushTime := 0;
     rxLineBuffer := replicate 256 0; rxLinePos := 0;
     txLineBuffer := replicate 256 0; txLinePos := 0; overrun := false |}.

(** The statics before any session. *)
Definition idle : Logger :=
  {| isRecording := false; fileOpen := false; fileData := [];
     writeBuffer := replicate 512 0; bufferPos := 0; lastFlushTime := 0;
     rxLineBuffer := replicate 256 0; rxLinePos := 0;
     txLineBuffer := replicate 256 0; txLinePos := 0; overrun := false |}.

End SdCard.

(** ** terminal.cpp: the UART side *)

Module Link.

Import Utf8 Terminal SdCard.

(** What terminalSerial points to once terminalInit has run: Serial, the USB
    port (mode 0), or Serial2, the UART on the GPIO pins. *)
Inductive Port : Type :=
  | USB
  | External.

(** The terminal together with the logger it calls and the serial side:
    [terminalSerial] is the pointer of that name, None while it is null, and
    [serial2] the bytes written to Serial2 so far.  What is written to
    Serial is not modelled: in USB mode that is the terminal's own traffic,
    and in either mode Serial also carries the diagnostics that
    drawUnicodeChar prints for a codepoint without a glyph and that the
    send functions print when terminalSerial is null. *)
Record Device : Type := mkDevice {
  term : Terminal;
  card : Logger;
  terminalSerial : option Port;
  serial2 : list Z
}.

(** if (terminalSerial) *)
Definition serialOpen (dv : Device) : bool :=
  match terminalSerial dv with
  | Some _ => true
  | None => false
  end.

(** Serial2 after terminalSerial->print(text) or terminalSerial->write(c)
    with the chars [bytes]. *)
Definition written (bytes : list Z) (dv : Device) : list Z :=
  match terminalSerial dv with
  | Some External => serial2 dv ++ bytes
  | _ => serial2 dv
  end.

(** terminalUpdate as a whole, for one [byte] available on the port: the
    pass of [Terminal.terminalUpdate] over the terminal, and the call of
    sdLogRXCodepoint that precedes putChar. *)
Definition serialUpdate (byte : Z) (dv : Device) : Device :=
  if serialOpen dv then
    let t := term dv in
    let log :=
      if inEscSequence t then card dv
      else if byte =? 0x1B then card dv
      else
        let '(d, complete) := utf8Decode (utf8Decoder t) byte in
        if complete then sdLogRXCodepoint (utf8GetCodepoint d) (card dv)
        else card dv in
    mkDevice (terminalUpdate byte t) log (terminalSerial dv) (serial2 dv)
  else dv.

(** The bytes of the port, one per pass. *)
Definition receive (bytes : list Z) (dv : Device) : Device :=
  fold_left (fun s b => serialUpdate b s) bytes dv.

Definition terminalSendText (text : list Z) (dv : Device) : Device :=
  if serialOpen dv then
    mkDevice (terminalLocalEchoText text (term dv))
             (sdLogTX (Keyboard.c_str text) (card dv))
             (terminalSerial dv)
             (written (Keyboard.c_str text) dv)
  else dv.

Definition terminalSendTextNoEcho (text : list Z) (dv : Device) : Device :=
  if serialOpen dv then
    mkDevice (term dv)
             (sdLogTX (Keyboard.c_str text) (card dv))
             (terminalSerial dv)
             (written (Keyboard.c_str text) dv)
  else dv.

(** terminalSendChar(char c): the char goes out as one byte and converts to
    the uint32_t parameter of putChar. *)
Definition terminalSendChar (c : Z) (dv : Device) : Device :=
  if serialOpen dv then
    mkDevice (putChar (Int.u32 c) (term dv)) (card dv) (terminalSerial dv)
             (written [Int.u8 c] dv)
  else dv.

End Link.

(** ** keyboard.cpp: the touch handler *)

Module Touch.

Import Terminal Keyboard Link.

Inductive KeyboardLayout : Type :=
  | LAYOUT_EN | LAYOUT_RU | LAYOUT_SYM | LAYOUT_NAV.

(** The chars of the three English rows. *)
Definition keyboardEN : list (list Z) :=
  [lit "qwertyuiop"; lit "asdfghjkl"; lit "zxcvbnm"].

(** The Russian rows, two chars per key as the UTF-8 source file stores
    them. *)
Definition keyboardRU : list (list (Z * Z)) :=
  [ [(208, 185); (209, 134); (209, 131); (208, 186); (208, 181); (208, 189);
     (208, 179); (209, 136); (209, 137); (208, 183); (209, 133); (209, 138)];
    [(209, 132); (209, 139); (208, 178); (208, 176); (208, 191); (209, 128);
     (208, 190); (208, 187); (208, 180); (208, 182); (209, 141)];
    [(209, 143); (209, 135); (209, 129); (208, 188); (208, 184); (209, 130);
     (209, 140); (208, 177); (209, 142)] ].

(** The four symbol rows; the last two hold a backslash and a double quote
    and are given by their char codes. *)
Definition keyboardSYM : list (list Z) :=
  [ lit "1234567890";
    lit "!@#$%^&*()";
    [45; 95; 61; 43; 91; 93; 123; 125; 92; 124];
    [59; 58; 39; 34; 60; 62; 44; 46; 47; 63; 126; 96] ].

(** config.h *)
Definition SCREEN_WIDTH : Z := 320.

Definition keyWidth : Z := 30.
Definition keyHeight : Z := 30.
Definition keySpacing : Z := 2.
Definition touchDebounce : Z := 250.

(** The statics of keyboard.cpp with the terminal, logger and port the
    handler drives.  [stray] is not a variable of the program: it records an
    access outside inputBuffer[256]. *)
Record Panel : Type := mkPanel {
  keys : Keyboard;
  device : Device;
  shiftPressed : bool;
  currentLayout : KeyboardLayout;
  lastTouchTime : Z;
  stray : bool
}.

Definition set_keys (k : Keyboard) (p : Panel) : Panel :=
  mkPanel k (device p) (shiftPressed p) (currentLayout p) (lastTouchTime p) (stray p).
Definition set_device (d : Device) (p : Panel) : Panel :=
  mkPanel (keys p) d (shiftPressed p) (currentLayout p) (lastTouchTime p) (stray p).
Definition set_shift (b : bool) (p : Panel) : Panel :=
  mkPanel (keys p) (device p) b (currentLayout p) (lastTouchTime p) (stray p).
Definition set_layout (l : KeyboardLayout) (p : Panel) : Panel :=
  mkPanel (keys p) (device p) (shiftPressed p) l (lastTouchTime p) (stray p).
Definition set_lastTouchTime (now : Z) (p : Panel) : Panel :=
  mkPanel (keys p) (device p) (shiftPressed p) (currentLayout p) now (stray p).
Definition set_stray (p : Panel) : Panel :=
  mkPanel (keys p) (device p) (shiftPressed p) (currentLayout p) (lastTouchTime p) true.

Definition set_term (t : Terminal) (p : Panel) : Panel :=
  set_device (mkDevice t (card (device p)) (terminalSerial (device p))
                       (serial2 (device p))) p.

Definition set_input (buf : list Z) (pos : Z) (p : Panel) : Panel :=
  set_keys (mkKeyboard (commandHistory (keys p)) (historyCount (keys p)) buf pos
                       (currentHistoryIndex (keys p)) (savedNewCommand (keys p))) p.

(** inputBuffer[i] = c for an int index. *)
Definition poke (i c : Z) (p : Panel) : Panel :=
  if (0 <=? i) && (i <? INPUT_BUFFER_SIZE) then
    set_input (<[Z.to_nat i := c]> (inputBuffer (keys p))) (inputBufferPos (keys p)) p
  else set_stray p.

(** inputBuffer[i], read. *)
Definition peek (p : Panel) (i : Z) : Z :=
  default 0 (inputBuffer (keys p) !! Z.to_nat i).

(** if (inputBufferPos < INPUT_BUFFER_SIZE - 1) inputBuffer[inputBufferPos++] = c; *)
Definition pushByte (c : Z) (p : Panel) : Panel :=
  if inputBufferPos (keys p) <? INPUT_BUFFER_SIZE - 1 then
    let p := poke (inputBufferPos (keys p)) c p in
    set_input (inputBuffer (keys p)) (Int.add (inputBufferPos (keys p)) 1) p
  else p.

(** Calls into terminal.cpp and the history, on the panel's terminal. *)
Definition echo (c : Z) (p : Panel) : Panel :=
  set_term (terminalLocalEcho c (term (device p))) p.

Definition echoText (text : list Z) (p : Panel) : Panel :=
  set_term (terminalLocalEchoText text (term (device p))) p.

Definition history (f : Keyboard * Terminal -> Keyboard * Terminal) (p : Panel) : Panel :=
  let '(k, t) := f (keys p, term (device p)) in
  set_term t (set_keys k p).

(** The while loop of the BKSP and DEL keys; it runs at most inputBufferPos
    times, which is the fuel [backspaceKey] gives it. *)
Fixpoint skipContinuation (fuel : nat) (p : Panel) : Panel :=
  match fuel with
  | O => p
  | S fuel =>
      if (inputBufferPos (keys p) >? 0)
         && (Z.land (peek p (inputBufferPos (keys p))) 0xC0 =? 0x80)
      then skipContinuation fuel
             (set_input (inputBuffer (keys p)) (Int.sub (inputBufferPos (keys p)) 1) p)
      else p
  end.

(** The BKSP key, and the DEL key of the navigation layout. *)
Definition backspaceKey (p : Panel) : Panel :=
  let p :=
    if inputBufferPos (keys p) >? 0 then
      let p := set_input (inputBuffer (keys p)) (Int.sub (inputBufferPos (keys p)) 1) p in
      let p := if inputBufferPos (keys p) <? INPUT_BUFFER_SIZE then p else set_stray p in
      skipContinuation (Z.to_nat (inputBufferPos (keys p))) p
    else p in
  echo 8 p.

(** The ENTER key. *)
Definition enterKey (p : Panel) : Panel :=
  let p :=
    if inputBufferPos (keys p) >? 0 then
      let p := poke (inputBufferPos (keys p)) 0 p in
      let p := set_keys (saveCommandToHistory (c_str (inputBuffer (keys p))) (keys p)) p in
      let p := set_device (terminalSendTextNoEcho (inputBuffer (keys p)) (device p)) p in
      set_keys (mkKeyboard (commandHistory (keys p)) (historyCount (keys p))
                           (inputBuffer (keys p)) 0 (-1) []) p
    else p in
  set_device (terminalSendText [13; 10] (device p)) p.

(** A key of the English layout. *)
Definition englishKey (key : Z) (p : Panel) : Panel :=
  let key := if shiftPressed p then Int.u8 (key - 32) else key in
  let p := if shiftPressed p then set_shift false p else p in
  echo key (pushByte key p).

(** A key of the symbols layout; the TAB key of the navigation layout. *)
Definition plainKey (key : Z) (p : Panel) : Panel :=
  echo key (pushByte key p).

(** for (j = 0; j < utf8len && inputBufferPos < INPUT_BUFFER_SIZE - 1; j++) *)
Fixpoint pushBytes (chars : list Z) (p : Panel) : Panel :=
  match chars with
  | [] => p
  | c :: rest =>
      if inputBufferPos (keys p) <? INPUT_BUFFER_SIZE - 1
      then pushBytes rest (pushByte c p)
      else p
  end.

(** A key of the Russian layout, stored as the chars [b1], [b2]. *)
Definition russianKey (b : Z * Z) (p : Panel) : Panel :=
  let '(b1, b2) := b in
  let codepoint :=
    if (Z.land b1 0xE0 =? 0xC0) && (Z.land b2 0xC0 =? 0x80)
    then Z.lor (Z.shiftl (Z.land b1 0x1F) 6) (Z.land b2 0x3F) else 0 in
  let shifted := shiftPressed p && (codepoint >=? 0x0430) && (codepoint <=? 0x044F) in
  let codepoint := if shifted then Int.u32 (codepoint - 0x20) else codepoint in
  let p := if shifted then set_shift false p else p in
  let utf8char :=
    if codepoint <? 0x80 then [Int.u8 codepoint]
    else if codepoint <? 0x800 then
      [Int.u8 (Z.lor 0xC0 (Z.shiftr codepoint 6));
       Int.u8 (Z.lor 0x80 (Z.land codepoint 0x3F))]
    else [b1; b2] in
  echoText (utf8char ++ [0]) (pushBytes utf8char p).

(** touch >= lo && touch <= hi *)
Definition within (touch lo hi : Z) : bool := (touch >=? lo) && (touch <=? hi).

(** KEYBOARD_Y_POS + row * (keyHeight + keySpacing) *)
Definition rowY (row : Z) : Z := KEYBOARD_Y_POS + row * (keyHeight + keySpacing).

(** The loop over the keys of one row: the first key whose rectangle holds
    touchX, if any. *)
Fixpoint scanRow {A : Type} (offset keyW touchX col : Z) (row : list A) : option A :=
  match row with
  | [] => None
  | key :: rest =>
      let x := offset + col * (keyW + keySpacing) in
      if within touchX x (x + keyW) then Some key
      else scanRow offset keyW touchX (col + 1) rest
  end.

(** The loop over the rows of a layout, with the row offsets of that
    layout. *)
Fixpoint scanRows {A : Type} (keyW touchX touchY row : Z)
    (offsets : list Z) (rows : list (list A)) : option A :=
  match rows, offsets with
  | keysOfRow :: rest, offset :: others =>
      if within touchY (rowY row) (rowY row + keyHeight) then
        match scanRow offset keyW touchX 0 keysOfRow with
        | Some key => Some key
        | None => scanRows keyW touchX touchY (row + 1) others rest
        end
      else scanRows keyW touchX touchY (row + 1) others rest
  | _, _ => None
  end.

(** The branch for the bottom row of special keys; None when the touch is
    on none of them and the handler goes on to the regular keys. *)
Definition specialKeys (touchX touchY : Z) (p : Panel) : option Panel :=
  let bottomY := KEYBOARD_Y_POS + 4 * (keyHeight + keySpacing) in
  if within touchY bottomY (bottomY + keyHeight) then
    if within touchX 5 60 then Some (set_shift (negb (shiftPressed p)) p)
    else if within touchX 65 105 then
      let next := match currentLayout p with
                  | LAYOUT_EN => LAYOUT_RU
                  | LAYOUT_RU => LAYOUT_NAV
                  | LAYOUT_NAV => LAYOUT_EN
                  | LAYOUT_SYM => LAYOUT_EN
                  end in
      Some (set_shift false (set_layout next p))
    else if within touchX 110 150 then
      let next := match currentLayout p with
                  | LAYOUT_SYM => LAYOUT_EN
                  | _ => LAYOUT_SYM
                  end in
      Some (set_shift false (set_layout next p))
    else if within touchX 155 215 then Some (plainKey 32 p)
    else if within touchX 220 265 then Some (backspaceKey p)
    else if within touchX 270 315 then Some (enterKey p)
    else None
  else None.

(** The navigation layout: four row blocks in turn, each of which returns
    from the handler (Some) when the touch is on one of its keys. *)
Definition navigationRow0 (touchX touchY : Z) (p : Panel) : option Panel :=
  if within touchY (rowY 0) (rowY 0 + keyHeight) then
    if within touchX 135 185 then Some (history historyUp p) else None
  else None.

Definition navigationRow1 (touchX touchY : Z) (p : Panel) : option Panel :=
  if within touchY (rowY 1) (rowY 1 + keyHeight) then
    if within touchX 85 135 then Some p
    else if within touchX 140 190 then Some (history historyDown p)
    else if within touchX 195 245 then Some p
    else None
  else None.

Definition navigationRow2 (touchX touchY : Z) (p : Panel) : option Panel :=
  if within touchY (rowY 2) (rowY 2 + keyHeight) then
    if within touchX 5 50 then Some (set_device (terminalSendText [0x1B] (device p)) p)
    else if within touchX 55 100 then Some (plainKey 9 p)
    else if within touchX 105 150 then Some (backspaceKey p)
    else if within touchX 155 205 then Some p
    else if within touchX 210 260 then Some p
    else None
  else None.

Definition navigationRow3 (touchX touchY : Z) (p : Panel) : option Panel :=
  if within touchY (rowY 3) (rowY 3 + keyHeight) then
    if within touchX 5 45
    then Some (set_device (terminalSendText [0x1B; 79; 80] (device p)) p)
    else if within touchX 50 90
    then Some (set_device (terminalSendText [0x1B; 79; 81] (device p)) p)
    else if within touchX 95 135
    then Some (set_device (terminalSendText [0x1B; 79; 82] (device p)) p)
    else if within touchX 140 180
    then Some (set_device (terminalSendText [0x1B; 79; 83] (device p)) p)
    else if within touchX 185 235 then Some p
    else if within touchX 240 290 then Some p
    else None
  else None.

Definition navigationKeys (touchX touchY : Z) (p : Panel) : Panel :=
  match navigationRow0 touchX touchY p with
  | Some p' => p'
  | None =>
      match navigationRow1 touchX touchY p with
      | Some p' => p'
      | None =>
          match navigationRow2 touchX touchY p with
          | Some p' => p'
          | None => default p (navigationRow3 touchX touchY p)
          end
      end
  end.

(** handleKeyboardTouch with [currentTime] the value of millis() and [touch]
    what getTouch reports: the coordinates while the panel is pressed. *)
Definition handleKeyboardTouch (currentTime : Z) (touch : option (Z * Z)) (p : Panel)
  : Panel :=
  if Int.u32 (currentTime - lastTouchTime p) <? touchDebounce then p
  else
    match touch with
    | None => p
    | Some (touchX, touchY) =>
        let p := set_lastTouchTime currentTime p in
        if touchY <? KEYBOARD_Y_POS then p
        else
          match specialKeys touchX touchY p with
          | Some p' => p'
          | None =>
              match currentLayout p with
              | LAYOUT_EN =>
                  match scanRows keyWidth touchX touchY 0 [2; 10; 25] keyboardEN with
                  | Some key => englishKey key p
                  | None => p
                  end
              | LAYOUT_RU =>
                  match scanRows 24 touchX touchY 0 [5; 10; 30] keyboardRU with
                  | Some b => russianKey b p
                  | None => p
                  end
              | LAYOUT_SYM =>
                  match scanRows keyWidth touchX touchY 0 [5; 5; 5; 5] keyboardSYM with
                  | Some key => plainKey key p
                  | None => p
                  end
              | LAYOUT_NAV => navigationKeys touchX touchY p
              end
          end
    end.

(** The panel when the sketch starts: English layout, nothing typed. *)
Definition power_on (d : Device) : Panel :=
  mkPanel Keyboard.power_on d false LAYOUT_EN 0 false.

(** What a handler branch leaves alone when it only stores typed chars. *)
Definition same_but_input (p q : Panel) : Prop :=
  commandHistory (keys q) = commandHistory (keys p) /\
  historyCount (keys q) = historyCount (keys p) /\
  currentHistoryIndex (keys q) = currentHistoryIndex (keys p) /\
  savedNewCommand (keys q) = savedNewCommand (keys p) /\
  device q = device p /\ shiftPressed q = shiftPressed p /\
  currentLayout q = currentLayout p /\ lastTouchTime q = lastTouchTime p /\
  stray q = stray p.

End Touch.

(** ** utf8.cpp: font selection *)

Module Font.

Definition isCyrillic (codepoint : Z) : bool :=
  (codepoint >=? 0x0400) && (codepoint <=? 0x052F).

Definition unicodeToFontIndex (codepoint : Z) : Z :=
  if codepoint <? 0x80 then codepoint
  else if (codepoint >=? 0x0400) && (codepoint <=? 0x04FF)
  then 128 + (codepoint - 0x0400)
  else 63.

(** Number of glyphs in cyrillicFont6x8: sizeof(cyrillicFont6x8) / 6. *)
Definition glyphCount : Z := 64.

(** What drawUnicodeChar draws for a codepoint: the char itself with the
    built-in font, a glyph of cyrillicFont6x8, or a question mark. *)
Inductive Drawn : Type :=
  | BuiltIn (c : Z)
  | Glyph (index : Z)
  | QuestionMark.

Definition drawUnicodeChar (codepoint : Z) : Drawn :=
  if codepoint <? 128 then BuiltIn codepoint
  else
    let index :=
      if (codepoint >=? 0x0410) && (codepoint <=? 0x042F) then codepoint - 0x0410
      else if codepoint =? 0x0401 then 5
      else if (codepoint >=? 0x0430) && (codepoint <=? 0x044F)
      then 32 + (codepoint - 0x0430)
      else if codepoint =? 0x0451 then 32 + 5
      else -1 in
    if (index >=? 0) && (index <? glyphCount) then Glyph index else QuestionMark.

End Font.

(** ** What the host at the other end of the UART sends *)

Module Host.

(** The decimal text of a parameter below 100. *)
Definition digits (n : Z) : list Z :=
  if n <? 10 then [48 + n] else [48 + n / 10; 48 + n mod 10].

(** ESC [ row ; col H *)
Definition cursorTo (row col : Z) : list Z :=
  0x1B :: 91 :: (digits row ++ 59 :: digits col) ++ [72].

(** ESC [ n m *)
Definition colour (n : Z) : list Z := 0x1B :: 91 :: digits n ++ [109].

(** Lines of text, each ended by a line feed. *)
Definition text (lines : list (list Z)) : list Z :=
  concat (map (fun line => line ++ [10]) lines).

(** A line as its row of the buffer holds it: the text, then spaces. *)
Definition padded (line : list Z) : list Z :=
  line ++ replicate (53 - length line) Terminal.space.

(** A decoder run over [bytes] the way terminalUpdate and
    terminalLocalEchoText run it, with utf8Init after every complete
    codepoint: the codepoints it hands to its caller, and the decoder it is
    left in. *)
Fixpoint decode (d : Utf8.UTF8Decoder) (bytes : list Z) : list Z * Utf8.UTF8Decoder :=
  match bytes with
  | [] => ([], d)
  | b :: rest =>
      let '(d, complete) := Utf8.utf8Decode d b in
      if complete then
        let '(cps, e) := decode (Utf8.utf8Init d) rest in
        (Utf8.utf8GetCodepoint d :: cps, e)
      else decode d rest
  end.

Definition decoded (d : Utf8.UTF8Decoder) (bytes : list Z) : list Z :=
  fst (decode d bytes).

(** Text as the bytes its codepoints are encoded to. *)
Definition utf8 (cps : list Z) : list Z := concat (map SdCard.utf8Bytes cps).

End Host.

(** ** Reading the history state *)

Module HistorySpec.

Import Keyboard.

(** The keyboard [k] shows history entry [i] of the keyboard [k0] that was
    being edited when browsing started: same history, the edit of [k0] kept
    in savedNewCommand, and the entry (cut to the 255 bytes the input buffer
    takes) as the text being edited. *)
Definition browsing_from (k0 : Keyboard) (i : Z) (k : Keyboard) : Prop :=
  commandHistory k = commandHistory k0 /\
  historyCount k = historyCount k0 /\
  currentHistoryIndex k = i /\
  savedNewCommand k = editBuffer k0 /\
  length (inputBuffer k) = 256%nat /\
  0 <= inputBufferPos k <= 255 /\
  editBuffer k = take 255 (entry (commandHistory k0) i).

End HistorySpec.

(** * Properties *)

Import Utf8 Terminal.


(** ** Machine integers *)

Lemma int_wrap_small z : Int.in_range z -> Int.wrap z = z.
Proof.
  unfold Int.in_range, Int.int_min, Int.int_max, Int.wrap. intros Hz.
  rewrite Z.mod_small by lia. lia.
Qed.

Lemma int_wrap_range z : Int.in_range (Int.wrap z).
Proof.
  unfold Int.in_range, Int.int_min, Int.int_max, Int.wrap.
  pose proof (Z.mod_pos_bound (z + 2147483648) 4294967296). lia.
Qed.

Lemma int_add_small a b : Int.in_range (a + b) -> Int.add a b = a + b.
Proof. apply int_wrap_small. Qed.

Lemma int_sub_small a b : Int.in_range (a - b) -> Int.sub a b = a - b.
Proof. apply int_wrap_small. Qed.

Lemma int_mul_small a b : Int.in_range (a * b) -> Int.mul a b = a * b.
Proof. apply int_wrap_small. Qed.

(** Rewrites away the wrap of every int operation whose exact result is
    shown by [lia] to fit. *)
Ltac int_fits := unfold Int.in_range, Int.int_min, Int.int_max; lia.

Ltac int_simpl :=
  repeat match goal with
  | |- context [Int.add ?a ?b] => rewrite (int_add_small a b) by int_fits
  | |- context [Int.sub ?a ?b] => rewrite (int_sub_small a b) by int_fits
  | |- context [Int.mul ?a ?b] => rewrite (int_mul_small a b) by int_fits
  end.

(** Splits the boolean comparisons of a goal into their arithmetic cases. *)
Ltac destruct_tests :=
  repeat match goal with
  | |- context [?a =? ?b] => destruct (Z.eqb_spec a b)
  | |- context [?a <? ?b] => destruct (Z.ltb_spec a b)
  | |- context [?a <=? ?b] => destruct (Z.leb_spec a b)
  | |- context [?a >? ?b] => rewrite (Z.gtb_ltb a b)
  | |- context [?a >=? ?b] => rewrite (Z.geb_leb a b)
  end.

(** ** The decoder *)

(** Every byte value is one of the 256 naturals below 256. *)
Lemma byte_enum (f : Z -> bool) :
  forallb (fun n => f (Z.of_nat n)) (seq 0 256) = true ->
  forall b, is_byte b -> f b = true.
Proof.
  intros Hall b [Hlo Hhi].
  rewrite forallb_forall in Hall.
  specialize (Hall (Z.to_nat b)).
  rewrite Z2Nat.id in Hall by lia.
  apply Hall, in_seq. lia.
Qed.

Lemma lead_class_range b : is_byte b -> lead_class b = range_class b.
Proof.
  intros Hb. apply Z.eqb_eq.
  apply (byte_enum (fun b => lead_class b =? range_class b)); [|exact Hb].
  vm_compute. reflexivity.
Qed.

Lemma continuation_test b :
  is_byte b -> (Z.land b 0xC0 =? 0x80) = ((0x80 <=? b) && (b <=? 0xBF)).
Proof.
  intros Hb. apply eqb_prop.
  apply (byte_enum (fun b => eqb (Z.land b 0xC0 =? 0x80) ((0x80 <=? b) && (b <=? 0xBF))));
    [|exact Hb].
  vm_compute. reflexivity.
Qed.

Lemma not_leading_class b : is_byte b -> ~ leading_byte b -> lead_class b = 0.
Proof.
  intros Hb Hn. rewrite lead_class_range by exact Hb.
  unfold leading_byte, is_byte, range_class in *.
  destruct_tests; lia.
Qed.

Lemma not_continuation_test b :
  is_byte b -> ~ continuation_byte b -> (Z.land b 0xC0 =? 0x80) = false.
Proof.
  intros Hb Hn. rewrite continuation_test by exact Hb.
  unfold continuation_byte in Hn.
  destruct (Z.leb_spec 0x80 b), (Z.leb_spec b 0xBF); simpl; try reflexivity. lia.
Qed.

Lemma utf8Decode_lead d b :
  bytesNeeded d = 0 -> lead_class b = 0 -> utf8Decode d b = (utf8Init d, false).
Proof.
  intros Hn Hc. unfold utf8Decode, lead_class in *. rewrite Hn. simpl.
  destruct (Z.land b 128 =? 0); [discriminate|].
  destruct (Z.land b 224 =? 192); [discriminate|].
  destruct (Z.land b 240 =? 224); [discriminate|].
  destruct (Z.land b 248 =? 240); [discriminate|].
  reflexivity.
Qed.

(** C6: in every decoder state, a byte that is an invalid leading byte (when
    no sequence is open) or not a 10xxxxxx continuation byte (when one is
    open) resets the decoder to its initial value and emits nothing; the
    byte is gone: whatever byte comes next is decoded from the initial state,
    the offending one is never looked at again as a leading byte. *)
Theorem utf8Decode_offending_dropped (d : UTF8Decoder) (b : Z) :
  is_byte b -> offending d b ->
  utf8Decode d b = (Utf8.initial, false) /\
  (forall next, utf8Decode (fst (utf8Decode d b)) next = utf8Decode Utf8.initial next).
Proof.
  intros Hb Hoff.
  assert (Hreset : utf8Decode d b = (Utf8.initial, false)).
  { destruct Hoff as [[Hn Hlead] | [Hn Hcont]].
    - apply utf8Decode_lead; [exact Hn|]. now apply not_leading_class.
    - unfold utf8Decode.
      destruct (Z.eqb_spec (bytesNeeded d) 0) as [He|_]; [contradiction|].
      rewrite not_continuation_test by assumption. reflexivity. }
  split; [exact Hreset|]. intros next. rewrite Hreset. reflexivity.
Qed.

(** A 2-byte sequence is open (0xC3 was read) and 'A' arrives. *)
Lemma utf8Decode_offending_dropped_witness :
  is_byte 0x41 /\ offending (mkDecoder 0 3 1 0) 0x41 /\
  utf8Decode (mkDecoder 0 3 1 0) 0x41 = (Utf8.initial, false).
Proof.
  assert (Hb : is_byte 0x41) by (unfold is_byte; lia).
  assert (Ho : offending (mkDecoder 0 3 1 0) 0x41).
  { right. simpl. unfold continuation_byte. split; lia. }
  split; [exact Hb|]. split; [exact Ho|].
  exact (proj1 (utf8Decode_offending_dropped (mkDecoder 0 3 1 0) 0x41 Hb Ho)).
Defined.

(** The same at the level of the byte stream: the lead byte 0xC3 followed
    by "AB" shows only "B"; the 'A' that broke the sequence is neither shown
    nor decoded. *)
Lemma dropped_byte_not_shown :
  let t := feed [0xC3; 0x41; 0x42] (terminalInit Terminal.power_on) in
  cell t 0 0 = Some 0x42 /\ cursorX t = 1 /\ cell t 0 1 = Some space.
Proof. vm_compute. repeat split. Qed.

(** ** Control codepoints *)

(** C10: a control codepoint (below 0x20) other than CR, LF and BS leaves
    the whole terminal state as it was: buffer, cursor, line counter and
    scroll offset. *)
Theorem putChar_other_control_ignored (cp : Z) (t : Terminal) :
  0 <= cp < 32 -> cp <> 13 -> cp <> 10 -> cp <> 8 ->
  putChar cp t = t.
Proof.
  intros Hcp H13 H10 H8. unfold putChar.
  destruct_tests; try lia; reflexivity.
Qed.

(** Tab after "ab" on a fresh terminal. *)
Lemma putChar_other_control_ignored_witness :
  let t := feed [0x61; 0x62] (terminalInit Terminal.power_on) in
  0 <= 9 < 32 /\ 9 <> 13 /\ 9 <> 10 /\ 9 <> 8 /\ putChar 9 t = t.
Proof.
  intros t.
  split; [lia|]. split; [lia|]. split; [lia|]. split; [lia|].
  apply (putChar_other_control_ignored 9 t); lia.
Defined.

(** ** The screen buffer as an array *)

Lemma set_screenBuffer_same t : set_screenBuffer (screenBuffer t) t = t.
Proof. destruct t; reflexivity. Qed.

Lemma store_in_bounds y x v t :
  in_bounds y x = true ->
  store y x v t =
  set_screenBuffer
    (alter (fun row => <[Z.to_nat x := v]> row) (Z.to_nat y) (screenBuffer t)) t.
Proof. intros H. unfold store. rewrite H. reflexivity. Qed.

Lemma in_bounds_true y x :
  0 <= y < TERMINAL_BUFFER_ROWS -> 0 <= x < TERMINAL_COLS -> in_bounds y x = true.
Proof.
  unfold in_bounds, TERMINAL_BUFFER_ROWS, TERMINAL_COLS. intros Hy Hx.
  destruct_tests; try lia; reflexivity.
Qed.

(** A run of blanking stores on one row only alters that row. *)
Lemma store_fold y cols t :
  0 <= y < TERMINAL_BUFFER_ROWS ->
  Forall (fun x => 0 <= x < TERMINAL_COLS) cols ->
  fold_left (fun s x => store y x space s) cols t =
  set_screenBuffer
    (alter (fun row => fold_left (fun r x => <[Z.to_nat x := space]> r) cols row)
           (Z.to_nat y) (screenBuffer t)) t.
Proof.
  intros Hy Hcols. revert t.
  induction Hcols as [|x cols Hx Hcols IH]; intros t; simpl.
  - rewrite list_alter_id by reflexivity. symmetry. apply set_screenBuffer_same.
  - rewrite IH. rewrite store_in_bounds by (apply in_bounds_true; assumption).
    destruct t; simpl. unfold set_screenBuffer; simpl. f_equal.
    apply (list_alter_alter_eq
             (fun row => fold_left (fun r x0 => <[Z.to_nat x0 := space]> r) cols row)
             (fun row => <[Z.to_nat x := space]> row)).
Qed.

Lemma clearRowFrom_alter y x0 t :
  0 <= y < TERMINAL_BUFFER_ROWS -> 0 <= x0 ->
  clearRowFrom y x0 t =
  set_screenBuffer
    (alter (fun row => fold_left (fun r x => <[Z.to_nat x := space]> r)
                                 (seqZ x0 (TERMINAL_COLS - x0)) row)
           (Z.to_nat y) (screenBuffer t)) t.
Proof.
  intros Hy Hx. unfold clearRowFrom. apply store_fold; [exact Hy|].
  apply Forall_forall. intros x Hin. apply elem_of_seqZ in Hin. lia.
Qed.

Lemma fill_row row :
  length row = 53%nat ->
  fold_left (fun r x => <[Z.to_nat x := space]> r) (seqZ 0 (TERMINAL_COLS - 0)) row
  = blank_row.
Proof.
  intros H.
  do 53 (destruct row as [|? row]; [discriminate H|]).
  destruct row; [reflexivity | discriminate H].
Qed.

Lemma shapedb_shaped t : shapedb t = true -> shaped t.
Proof.
  unfold shapedb, shaped. intros H.
  apply andb_true_iff in H. destruct H as [Hlen Hrows].
  apply Nat.eqb_eq in Hlen. split; [exact Hlen|].
  apply Forall_forall. intros row Hin.
  rewrite forallb_forall in Hrows.
  apply Nat.eqb_eq, Hrows, list_elem_of_In, Hin.
Qed.

Lemma shaped_row t y row :
  shaped t -> screenBuffer t !! y = Some row -> length row = 53%nat.
Proof.
  intros [_ Hall] Hrow. rewrite Forall_forall in Hall.
  apply Hall. eapply list_elem_of_lookup_2. exact Hrow.
Qed.

Lemma shaped_lookup t y :
  shaped t -> 0 <= y < TERMINAL_BUFFER_ROWS -> is_Some (screenBuffer t !! Z.to_nat y).
Proof.
  intros [Hlen _] Hy. apply lookup_lt_is_Some. rewrite Hlen.
  unfold TERMINAL_BUFFER_ROWS in Hy. lia.
Qed.

Create HintDb buffer.
#[local] Hint Resolve in_bounds_true shapedb_shaped : buffer.

(** Blanking a whole row: the row reads as 53 spaces afterwards, every other
    slot reads as before, and nothing else in the state moves. *)
Lemma clearRow_slot t y :
  shaped t -> 0 <= y < TERMINAL_BUFFER_ROWS ->
  slot (clearRowFrom y 0 t) y = Some blank_row.
Proof.
  intros Hs Hy. rewrite clearRowFrom_alter by lia.
  unfold slot. cbn [screenBuffer set_screenBuffer].
  replace ((0 <=? y) && (y <? TERMINAL_BUFFER_ROWS)) with true
    by (symmetry; apply andb_true_iff; split; [apply Z.leb_le|apply Z.ltb_lt]; lia).
  rewrite list_lookup_alter_eq.
  destruct (shaped_lookup t y Hs Hy) as [row Hrow]. rewrite Hrow.
  apply (f_equal Some), fill_row. eapply shaped_row; eassumption.
Qed.

Lemma clearRow_slot_other t y y' :
  0 <= y < TERMINAL_BUFFER_ROWS -> y' <> y ->
  slot (clearRowFrom y 0 t) y' = slot t y'.
Proof.
  intros Hy Hne. rewrite clearRowFrom_alter by lia.
  unfold slot. cbn [screenBuffer set_screenBuffer].
  destruct ((0 <=? y') && (y' <? TERMINAL_BUFFER_ROWS)) eqn:Hb; [|reflexivity].
  apply andb_true_iff in Hb. destruct Hb as [H0 H1].
  apply Z.leb_le in H0. apply Z.ltb_lt in H1.
  apply list_lookup_alter_ne. lia.
Qed.

Lemma clearRow_frame t y x0 :
  0 <= y < TERMINAL_BUFFER_ROWS -> 0 <= x0 ->
  let t' := clearRowFrom y x0 t in
  cursorX t' = cursorX t /\ cursorY t' = cursorY t /\
  scrollOffset t' = scrollOffset t /\ totalLines t' = totalLines t /\
  keyboardVisible t' = keyboardVisible t /\ fault t' = fault t.
Proof.
  intros Hy Hx. cbv zeta. rewrite clearRowFrom_alter by assumption.
  repeat split.
Qed.

Lemma clearRow_shaped t y x0 :
  shaped t -> 0 <= y < TERMINAL_BUFFER_ROWS -> 0 <= x0 ->
  shaped (clearRowFrom y x0 t).
Proof.
  intros [Hlen Hall] Hy Hx. rewrite clearRowFrom_alter by assumption.
  unfold shaped. cbn [screenBuffer set_screenBuffer]. split.
  - rewrite length_alter. exact Hlen.
  - apply Forall_alter; [exact Hall|].
    intros row _ Hrow. clear -Hrow.
    revert row Hrow. induction (seqZ x0 (TERMINAL_COLS - x0)) as [|x cols IH];
      intros row Hrow; simpl; [exact Hrow|].
    apply IH. rewrite length_insert. exact Hrow.
Qed.

(** Projects fields out of the setters without touching anything else. *)
Ltac fields :=
  cbn [screenBuffer cursorX cursorY scrollOffset totalLines fgColor bgColor
       escBuffer escIndex inEscSequence utf8Decoder keyboardVisible fault
       set_screenBuffer set_cursorX set_cursorY set_scrollOffset set_totalLines
       set_fgColor set_bgColor set_esc set_utf8Decoder set_keyboardVisible
       set_fault].

Lemma rem_buffer_rows n :
  0 <= n -> Z.rem n TERMINAL_BUFFER_ROWS = n mod TERMINAL_BUFFER_ROWS.
Proof. intros Hn. apply Z.rem_mod_nonneg; unfold TERMINAL_BUFFER_ROWS; lia. Qed.

Lemma mod_buffer_rows n :
  0 <= n mod TERMINAL_BUFFER_ROWS < TERMINAL_BUFFER_ROWS.
Proof. apply Z.mod_pos_bound. unfold TERMINAL_BUFFER_ROWS. lia. Qed.

(** ensureCursorVisible only ever writes scrollOffset. *)
Lemma ensureCursorVisible_frame t :
  let t' := ensureCursorVisible t in
  screenBuffer t' = screenBuffer t /\ cursorX t' = cursorX t /\
  cursorY t' = cursorY t /\ totalLines t' = totalLines t /\
  keyboardVisible t' = keyboardVisible t /\ fault t' = fault t.
Proof.
  cbv zeta. unfold ensureCursorVisible.
  destruct (keyboardVisible t) eqn:Hk; cbn [negb].
  - fields. rewrite Hk. repeat split.
  - destruct (negb (scrollOffset t =? 0)); fields; rewrite ?Hk; repeat split.
Qed.

(** ** scrollUp *)

Lemma scrollUp_effect t :
  shaped t -> 0 <= totalLines t < Int.int_max ->
  let n := totalLines t mod TERMINAL_BUFFER_ROWS in
  let t' := scrollUp t in
  slot t' n = Some blank_row /\
  cursorY t' = n /\
  totalLines t' = totalLines t + 1 /\
  (forall y, y <> n -> slot t' y = slot t y) /\
  cursorX t' = cursorX t /\ scrollOffset t' = scrollOffset t /\
  keyboardVisible t' = keyboardVisible t /\ fault t' = fault t /\
  shaped t'.
Proof.
  intros Hs Htl. cbv zeta. unfold scrollUp.
  rewrite rem_buffer_rows by lia.
  pose proof (mod_buffer_rows (totalLines t)) as Hn.
  set (n := totalLines t mod TERMINAL_BUFFER_ROWS) in *.
  destruct (clearRow_frame t n 0 Hn ltac:(lia)) as (Hx & Hy & Hso & Htot & Hk & Hf).
  pose proof (clearRow_slot t n Hs Hn) as Hblank.
  pose proof (clearRow_shaped t n 0 Hs Hn ltac:(lia)) as Hshape.
  set (t1 := clearRowFrom n 0 t) in *.
  fields. rewrite Htot. unfold Int.int_max in Htl. int_simpl.
  repeat match goal with |- _ /\ _ => split end;
    try assumption; try exact Hblank; try exact Hshape; try reflexivity.
  intros y Hy'. change (slot t1 y = slot t y). unfold t1.
  apply clearRow_slot_other; assumption.
Qed.

(** ** Line feed *)

Lemma putChar_lf t :
  putChar 10 t = openLine (set_cursorY (Int.add (cursorY t) 1) (set_cursorX 0 t)).
Proof. reflexivity. Qed.

(** The cursor stepped past the last slot of a full buffer: scrollUp runs. *)
Lemma openLine_scroll t :
  cursorY t = TERMINAL_BUFFER_ROWS ->
  TERMINAL_BUFFER_ROWS <= totalLines t ->
  openLine t = ensureCursorVisible (scrollUp (set_cursorY (TERMINAL_BUFFER_ROWS - 1) t)).
Proof.
  intros Hy Htl. unfold openLine. rewrite Hy.
  rewrite Z.ltb_irrefl.
  replace (totalLines t <? TERMINAL_BUFFER_ROWS) with false
    by (symmetry; apply Z.ltb_ge; lia).
  rewrite Hy. rewrite Z.geb_leb, Z.leb_refl. reflexivity.
Qed.

(** The cursor stepped onto a slot inside the buffer: the slot is blanked and
    totalLines follows the cursor only while the buffer has never been full. *)
Lemma openLine_inside t :
  0 <= cursorY t < TERMINAL_BUFFER_ROWS ->
  openLine t =
  ensureCursorVisible
    (let t1 := clearRowFrom (cursorY t) 0 t in
     if (totalLines t <? TERMINAL_BUFFER_ROWS) && (cursorY t >=? totalLines t)
     then set_totalLines (Int.add (cursorY t) 1) t1 else t1).
Proof.
  intros Hy. unfold openLine.
  replace (cursorY t <? TERMINAL_BUFFER_ROWS) with true
    by (symmetry; apply Z.ltb_lt; lia).
  destruct (clearRow_frame t (cursorY t) 0 Hy ltac:(lia)) as (_ & Ey & _ & Et & _).
  cbv zeta. set (t1 := clearRowFrom (cursorY t) 0 t) in *.
  rewrite Et, Ey.
  destruct (totalLines t <? TERMINAL_BUFFER_ROWS) eqn:Hfull;
    destruct (cursorY t >=? totalLines t) eqn:Hge; cbn [andb]; fields;
    rewrite ?Ey;
    (replace (cursorY t >=? TERMINAL_BUFFER_ROWS) with false
       by (symmetry; rewrite Z.geb_leb; apply Z.leb_gt; lia));
    reflexivity.
Qed.

(** scrollUp by itself: once totalLines has reached BUFFER_ROWS, it
    blank-fills the slot totalLines % BUFFER_ROWS, puts the cursor row there,
    adds one to totalLines and leaves every other slot of the buffer as it
    was; a line feed typed on the last slot of the buffer, the one place
    where putChar calls scrollUp, does exactly this. *)
Theorem scrollUp_reuses_one_slot (t : Terminal) :
  shaped t ->
  TERMINAL_BUFFER_ROWS <= totalLines t < Int.int_max ->
  let n := totalLines t mod TERMINAL_BUFFER_ROWS in
  let t' := scrollUp t in
  (slot t' n = Some blank_row /\
   cursorY t' = n /\
   totalLines t' = totalLines t + 1 /\
   (forall y, y <> n -> slot t' y = slot t y) /\
   cursorX t' = cursorX t /\ scrollOffset t' = scrollOffset t /\ fault t' = fault t) /\
  (cursorY t = TERMINAL_BUFFER_ROWS - 1 ->
   let t2 := putChar 10 t in
   slot t2 n = Some blank_row /\
   cursorY t2 = n /\
   totalLines t2 = totalLines t + 1 /\
   (forall y, y <> n -> slot t2 y = slot t y) /\
   cursorX t2 = 0 /\ fault t2 = fault t).
Proof.
  intros Hs Htl. cbv zeta.
  assert (Htl0 : 0 <= totalLines t < Int.int_max)
    by (unfold TERMINAL_BUFFER_ROWS in Htl; lia).
  destruct (scrollUp_effect t Hs Htl0) as (H1 & H2 & H3 & H4 & H5 & H6 & _ & H7 & _).
  split; [repeat match goal with |- _ /\ _ => split end; assumption|].
  intros Hy. rewrite putChar_lf, Hy.
  replace (Int.add (TERMINAL_BUFFER_ROWS - 1) 1) with TERMINAL_BUFFER_ROWS by reflexivity.
  rewrite openLine_scroll by (fields; lia).
  set (u := set_cursorY (TERMINAL_BUFFER_ROWS - 1)
              (set_cursorY TERMINAL_BUFFER_ROWS (set_cursorX 0 t))).
  destruct (ensureCursorVisible_frame (scrollUp u)) as (Eb & Ex & Ey & Et & _ & Ef).
  assert (Hslot : forall y, slot (ensureCursorVisible (scrollUp u)) y = slot (scrollUp u) y)
    by (intros y; unfold slot; rewrite Eb; reflexivity).
  rewrite !Hslot, Ex, Ey, Et, Ef.
  destruct (scrollUp_effect u Hs Htl0) as (G1 & G2 & G3 & G4 & G5 & _ & _ & G7 & _).
  repeat match goal with |- _ /\ _ => split end; try assumption.
  intros y Hne. rewrite Hslot. apply G4. exact Hne.
Qed.

(** A terminal that has received 100 line feeds: the buffer has wrapped once
    and totalLines is 101. *)
Lemma scrollUp_reuses_one_slot_witness :
  let t := feed (replicate 100 10) (terminalInit Terminal.power_on) in
  shaped t /\ TERMINAL_BUFFER_ROWS <= totalLines t < Int.int_max /\
  slot (scrollUp t) 1 = Some blank_row /\ cursorY (scrollUp t) = 1 /\
  totalLines (scrollUp t) = 102.
Proof.
  intros t.
  assert (Hs : shaped t).
  { apply shapedb_shaped. vm_compute. reflexivity. }
  assert (Htl : TERMINAL_BUFFER_ROWS <= totalLines t < Int.int_max)
    by (vm_compute; split; [discriminate|reflexivity]).
  split; [exact Hs|]. split; [exact Htl|].
  destruct (scrollUp_reuses_one_slot t Hs Htl) as ((W1 & W2 & W3 & _) & _).
  split; [exact W1|]. split; [exact W2|]. exact W3.
Defined.

(** ** The escape-sequence interpreter *)



Lemma esc_at_insert_ne buf i j v :
  0 <= i -> 0 <= j -> i <> j -> esc_at (<[Z.to_nat i := v]> buf) j = esc_at buf j.
Proof.
  intros Hi Hj Hne. unfold esc_at.
  destruct ((0 <=? j) && (j <? 32)); [|reflexivity].
  rewrite list_lookup_insert_ne by lia. reflexivity.
Qed.

Lemma esc_at_insert_eq buf i v :
  length buf = 32%nat -> 0 <= i < 32 -> esc_at (<[Z.to_nat i := v]> buf) i = v.
Proof.
  intros Hlen Hi. unfold esc_at.
  replace ((0 <=? i) && (i <? 32)) with true
    by (symmetry; apply andb_true_iff; split; [apply Z.leb_le|apply Z.ltb_lt]; lia).
  rewrite list_lookup_insert_eq by lia. reflexivity.
Qed.

(** A finished CSI sequence in the buffer runs its command on the parsed
    parameters and returns the interpreter to Ground. *)
Lemma processEscSequence_csi t :
  2 <= escIndex t ->
  esc_at (escBuffer t) 0 = 91 ->
  processEscSequence t =
  let buf := <[Z.to_nat (escIndex t) := 0]> (escBuffer t) in
  let t1 := runCommand (esc_at (escBuffer t) (escIndex t - 1))
                       (parseParams buf (escIndex t))
                       (set_esc buf (escIndex t) (inEscSequence t) t) in
  set_esc (escBuffer t1) 0 false t1.
Proof.
  intros Hidx Hcsi. unfold processEscSequence. cbv zeta. fields.
  rewrite !esc_at_insert_ne by lia. rewrite Hcsi.
  replace (escIndex t >=? 2) with true by (symmetry; rewrite Z.geb_leb; apply Z.leb_le; lia).
  reflexivity.
Qed.

(** Collecting: a byte that is not a letter is appended and nothing else
    happens, as long as the buffer has room. *)
Lemma terminalUpdate_collect b t :
  inEscSequence t = true -> 0 <= escIndex t < 31 ->
  terminalUpdate b t =
  let t1 := set_esc (<[Z.to_nat (escIndex t) := b]> (escBuffer t))
                    (escIndex t + 1) true t in
  if is_letter b then processEscSequence t1 else t1.
Proof.
  intros Hin Hidx. unfold terminalUpdate. rewrite Hin.
  unfold Int.u32. rewrite Z.mod_small by lia.
  replace (escIndex t <? 31) with true by (symmetry; apply Z.ltb_lt; lia).
  int_simpl. reflexivity.
Qed.

Lemma feed_app l1 l2 t : feed (l1 ++ l2) t = feed l2 (feed l1 t).
Proof. unfold feed. apply fold_left_app. Qed.

Lemma feed_cons b l t : feed (b :: l) t = feed l (terminalUpdate b t).
Proof. reflexivity. Qed.

(** *** Commands do not look at the escape buffer *)

Lemma fold_left_commute {A B : Type} (f : A -> B -> A) (g : A -> A) (l : list B) :
  (forall s x, f (g s) x = g (f s x)) ->
  forall s, fold_left f l (g s) = g (fold_left f l s).
Proof.
  intros Hfg. induction l as [|x l IH]; intros s; cbn [fold_left]; [reflexivity|].
  rewrite Hfg. apply IH.
Qed.

Lemma store_set_esc y x v b i a t :
  store y x v (set_esc b i a t) = set_esc b i a (store y x v t).
Proof. unfold store. destruct (in_bounds y x); reflexivity. Qed.

Lemma clearRowFrom_set_esc y x0 b i a t :
  clearRowFrom y x0 (set_esc b i a t) = set_esc b i a (clearRowFrom y x0 t).
Proof.
  unfold clearRowFrom.
  apply (fold_left_commute (fun s x => store y x space s) (set_esc b i a)).
  intros s x. apply store_set_esc.
Qed.

Lemma clearBuffer_set_esc b i a t :
  clearBuffer (set_esc b i a t) = set_esc b i a (clearBuffer t).
Proof.
  unfold clearBuffer.
  apply (fold_left_commute (fun s y => clearRowFrom y 0 s) (set_esc b i a)).
  intros s y. apply clearRowFrom_set_esc.
Qed.

Lemma applyColor_set_esc p b i a t :
  applyColor (set_esc b i a t) p = set_esc b i a (applyColor t p).
Proof.
  unfold applyColor.
  destruct ((p >=? 30) && (p <=? 37)); [|reflexivity].
  repeat match goal with |- context [if ?c then _ else _] => destruct c end;
    reflexivity.
Qed.

Lemma home_set_esc b i a u :
  set_totalLines 0 (set_scrollOffset 0 (set_cursorY 0 (set_cursorX 0 (set_esc b i a u)))) =
  set_esc b i a (set_totalLines 0 (set_scrollOffset 0 (set_cursorY 0 (set_cursorX 0 u)))).
Proof. reflexivity. Qed.

Lemma terminalClear_set_esc b i a t :
  terminalClear (set_esc b i a t) = set_esc b i a (terminalClear t).
Proof.
  unfold terminalClear. cbv zeta. rewrite clearBuffer_set_esc. apply home_set_esc.
Qed.

Lemma runCommand_set_esc cmd ps b i a t :
  runCommand cmd ps (set_esc b i a t) = set_esc b i a (runCommand cmd ps t).
Proof.
  unfold runCommand.
  destruct ((cmd =? 72) || (cmd =? 102)); [reflexivity|].
  destruct (cmd =? 74).
  { destruct (param ps 0 =? 2); [|reflexivity].
    apply terminalClear_set_esc. }
  destruct (cmd =? 75).
  { rewrite <- clearRowFrom_set_esc. reflexivity. }
  destruct (cmd =? 109).
  { destruct ((paramCount ps =? 0) || (param ps 0 =? 0)); [reflexivity|].
    apply (fold_left_commute (fun s j => applyColor s (param ps j)) (set_esc b i a)).
    intros s j. apply applyColor_set_esc. }
  fields.
  destruct (cmd =? 65).
  { destruct (Int.sub (cursorY t) (countOrOne ps) <? 0); reflexivity. }
  destruct (cmd =? 66).
  { destruct (Int.add (cursorY t) (countOrOne ps) >=? TERMINAL_ROWS); reflexivity. }
  destruct (cmd =? 67).
  { destruct (Int.add (cursorX t) (countOrOne ps) >=? TERMINAL_COLS); reflexivity. }
  destruct (cmd =? 68).
  { destruct (Int.sub (cursorX t) (countOrOne ps) <? 0); reflexivity. }
  reflexivity.
Qed.

(** *** What the collected bytes are *)

Lemma fold_left_parseStep buf idxs ps :
  fold_left (parseStep buf) idxs ps = fold_left parseByte (map (esc_at buf) idxs) ps.
Proof.
  revert ps. induction idxs as [|i idxs IH]; intros ps; [reflexivity|].
  cbn [fold_left map]. apply IH.
Qed.

Lemma parseParams_bytes buf idx :
  parseParams buf idx = parseBytes (map (esc_at buf) (seqZ 1 (idx - 2))).
Proof. unfold parseParams, parseBytes. rewrite fold_left_parseStep. reflexivity. Qed.

Lemma write_at_length body : forall i buf, length (write_at i body buf) = length buf.
Proof.
  induction body as [|b body IH]; intros i buf; cbn [write_at]; [reflexivity|].
  rewrite IH. apply length_insert.
Qed.

Lemma write_at_before body : forall i buf j,
  0 <= j < i -> esc_at (write_at i body buf) j = esc_at buf j.
Proof.
  induction body as [|b body IH]; intros i buf j Hj; cbn [write_at]; [reflexivity|].
  rewrite IH by lia. apply esc_at_insert_ne; lia.
Qed.

Lemma seqZ_cons_len m n : seqZ m (Z.of_nat (S n)) = m :: seqZ (m + 1) (Z.of_nat n).
Proof.
  rewrite seqZ_cons by lia. f_equal. f_equal; lia.
Qed.

Lemma write_at_read body : forall i buf,
  0 <= i -> i + Z.of_nat (length body) <= 32 -> length buf = 32%nat ->
  map (esc_at (write_at i body buf)) (seqZ i (Z.of_nat (length body))) = body.
Proof.
  induction body as [|b body IH]; intros i buf Hi Hroom Hlen; [reflexivity|].
  cbn [length] in *. rewrite seqZ_cons_len. cbn [map write_at]. f_equal.
  - rewrite write_at_before by lia. apply esc_at_insert_eq; [exact Hlen|lia].
  - apply IH; [lia|lia|]. rewrite length_insert. exact Hlen.
Qed.

Lemma map_esc_at_insert_after buf i v m n :
  0 <= m -> m + n <= i ->
  map (esc_at (<[Z.to_nat i := v]> buf)) (seqZ m n) = map (esc_at buf) (seqZ m n).
Proof.
  intros Hm Hi. apply map_ext_in. intros j Hin.
  apply list_elem_of_In, elem_of_seqZ in Hin.
  apply esc_at_insert_ne; lia.
Qed.

(** The buffer while a sequence is collected, byte for byte. *)
Lemma feed_collect_buffer body : forall t,
  inEscSequence t = true ->
  0 <= escIndex t ->
  escIndex t + Z.of_nat (length body) <= 30 ->
  Forall (fun b => is_letter b = false) body ->
  feed body t =
  set_esc (write_at (escIndex t) body (escBuffer t))
          (escIndex t + Z.of_nat (length body)) true t.
Proof.
  induction body as [|b body IH]; intros t Hin Hidx Hroom Hbody.
  - cbn [feed fold_left length write_at]. rewrite Z.add_0_r.
    destruct t; cbn in Hin; subst; reflexivity.
  - rewrite feed_cons. cbn [length] in Hroom.
    inversion Hbody as [|? ? Hb Hrest]; subst.
    rewrite terminalUpdate_collect by (try assumption; lia).
    cbv zeta. rewrite Hb. rewrite IH by (fields; try reflexivity; try assumption; lia).
    fields. cbn [write_at length]. unfold set_esc. fields. f_equal. lia.
Qed.

Lemma set_esc_set_esc b i a b' i' a' t :
  set_esc b i a (set_esc b' i' a' t) = set_esc b i a t.
Proof. reflexivity. Qed.

(** *** A complete sequence received in Ground *)

Section GroundSequence.

Variable t : Terminal.
Hypothesis Hground : inEscSequence t = false.
Hypothesis Hbuffer : length (escBuffer t) = 32%nat.

(** ESC in Ground opens a sequence; '[' is its first collected byte. *)
Lemma feed_csi_prefix :
  feed [0x1B; 91] t = set_esc (<[0%nat := 91]> (escBuffer t)) 1 true t.
Proof.
  rewrite !feed_cons. cbn [feed fold_left].
  assert (H0 : terminalUpdate 0x1B t = set_esc (escBuffer t) 0 true t).
  { unfold terminalUpdate. rewrite Hground. reflexivity. }
  rewrite H0. rewrite terminalUpdate_collect by (fields; try reflexivity; lia).
  cbv zeta. fields. reflexivity.
Qed.

Variable body : list Z.
Variable fin : Z.
Hypothesis Hbody : Forall (fun b => is_letter b = false) body.
Hypothesis Hroom : (length body <= 29)%nat.
Hypothesis Hfin : is_letter fin = true.

(** The meaning of a complete CSI sequence: the command of its final byte
    runs on the parameters parsed from the bytes between '[' and that byte,
    and the interpreter is back in Ground.  Only the bytes left in the
    escape buffer depend on anything else. *)
Lemma feed_csi_sequence :
  exists buf,
    feed (0x1B :: 91 :: body ++ [fin]) t =
    set_esc buf 0 false (runCommand fin (parseBytes body) t).
Proof.
  change (0x1B :: 91 :: body ++ [fin]) with ([0x1B; 91] ++ (body ++ [fin])).
  rewrite !feed_app. rewrite feed_csi_prefix.
  rewrite (feed_collect_buffer body) by (fields; try reflexivity; try assumption; lia).
  fields. rewrite set_esc_set_esc.
  set (n := Z.of_nat (length body)).
  set (B := write_at 1 body (<[0%nat := 91]> (escBuffer t))).
  assert (HB : length B = 32%nat)
    by (unfold B; rewrite write_at_length, length_insert; exact Hbuffer).
  assert (HB0 : esc_at B 0 = 91).
  { unfold B. rewrite write_at_before by lia.
    apply (esc_at_insert_eq (escBuffer t) 0 91 Hbuffer). lia. }
  assert (HBbody : map (esc_at B) (seqZ 1 n) = body).
  { unfold B, n. apply write_at_read; [lia|lia|]. rewrite length_insert. exact Hbuffer. }
  rewrite feed_cons. cbn [feed fold_left].
  rewrite terminalUpdate_collect by (fields; try reflexivity; lia).
  cbv zeta. rewrite Hfin. fields. rewrite set_esc_set_esc.
  rewrite processEscSequence_csi
    by (fields; try lia; rewrite esc_at_insert_ne by lia; exact HB0).
  cbv zeta. fields. rewrite set_esc_set_esc.
  replace (1 + n + 1 - 1) with (1 + n) by lia.
  rewrite esc_at_insert_eq by (try assumption; lia).
  rewrite parseParams_bytes.
  replace (1 + n + 1 - 2) with n by lia.
  rewrite !map_esc_at_insert_after by lia.
  rewrite HBbody.
  rewrite runCommand_set_esc. fields. rewrite set_esc_set_esc.
  eexists. reflexivity.
Qed.

Lemma feed_csi_cursor :
  cursorY (feed (0x1B :: 91 :: body ++ [fin]) t)
    = cursorY (runCommand fin (parseBytes body) t) /\
  cursorX (feed (0x1B :: 91 :: body ++ [fin]) t)
    = cursorX (runCommand fin (parseBytes body) t).
Proof.
  destruct feed_csi_sequence as [buf ->]. split; reflexivity.
Qed.

Lemma feed_csi_ground : inEscSequence (feed (0x1B :: 91 :: body ++ [fin]) t) = false.
Proof. destruct feed_csi_sequence as [buf ->]. reflexivity. Qed.

End GroundSequence.



Lemma position_clamped_example :
  let t := feed (0x1B :: 91 :: [57; 57; 59; 57; 57] ++ [102])
                (terminalInit Terminal.power_on) in
  cursorY t = 26 /\ cursorX t = 52.
Proof. vm_compute. split; reflexivity. Qed.

(** *** Parameters that are not there *)

Lemma parseByte_separator ps :
  parseByte ps 59 = mkParams (params (pushParam ps)) (paramCount (pushParam ps)) 0 false.
Proof. reflexivity. Qed.

Lemma pushParam_no_number p c n : pushParam (mkParams p c n false) = mkParams p c n false.
Proof. reflexivity. Qed.

(** A separator right after a separator, or at the very start, records
    nothing: the parser is in the same state as without it. *)
Lemma parseByte_separator_twice ps : parseByte (parseByte ps 59) 59 = parseByte ps 59.
Proof. rewrite !parseByte_separator. rewrite pushParam_no_number. reflexivity. Qed.

Lemma parseBytes_leading_separator body : parseBytes (59 :: body) = parseBytes body.
Proof. reflexivity. Qed.

Lemma parseBytes_double_separator pre post :
  parseBytes (pre ++ 59 :: 59 :: post) = parseBytes (pre ++ 59 :: post).
Proof.
  unfold parseBytes. rewrite !fold_left_app. cbn [fold_left].
  rewrite parseByte_separator_twice. reflexivity.
Qed.

Lemma countOrOne_default ps : param ps 0 = 0 -> countOrOne ps = 1.
Proof. intros H. unfold countOrOne. rewrite H. reflexivity. Qed.

(** The four relative moves with no count, or count 0, move by one cell and
    stop at the edge. *)
Lemma runCommand_default_moves ps t :
  param ps 0 = 0 -> cursor_in_buffer t ->
  cursorY (runCommand 65 ps t) = Z.max 0 (cursorY t - 1) /\
  cursorY (runCommand 66 ps t) = Z.min (TERMINAL_ROWS - 1) (cursorY t + 1) /\
  cursorX (runCommand 67 ps t) = Z.min (TERMINAL_COLS - 1) (cursorX t + 1) /\
  cursorX (runCommand 68 ps t) = Z.max 0 (cursorX t - 1).
Proof.
  intros Hp [Hx Hy]. unfold runCommand. cbn [Z.eqb Pos.eqb orb].
  rewrite (countOrOne_default ps Hp). fields.
  unfold TERMINAL_COLS, TERMINAL_BUFFER_ROWS, TERMINAL_ROWS in *.
  int_simpl.
  repeat split; destruct_tests; fields; lia.
Qed.

(** Cursor position with no parameter at all, and with the row only. *)
Lemma runCommand_position_defaults fin ps t :
  fin = 72 \/ fin = 102 ->
  (paramCount ps = 0 ->
   cursorY (runCommand fin ps t) = 0 /\ cursorX (runCommand fin ps t) = 0) /\
  (paramCount ps = 1 -> cursorX (runCommand fin ps t) = 0).
Proof.
  intros Hfin. unfold runCommand.
  replace ((fin =? 72) || (fin =? 102)) with true
    by (destruct Hfin; subst fin; reflexivity).
  split; intros Hc; rewrite Hc; fields; cbn [Z.gtb Z.compare andb];
    try split; reflexivity.
Qed.

Lemma same_display_set_esc b1 b2 t :
  same_display (set_esc b1 0 false t) (set_esc b2 0 false t).
Proof. reflexivity. Qed.

(** The reading of ESC [ ; 5 H in which the 5 stays the column parameter
    (row default 1, column 5: cell (0, 4)) is not what the interpreter does:
    the empty position is not recorded and the 5 becomes the row. *)
Lemma empty_position_shifts_parameters :
  let t := feed [0x1B; 91; 59; 53; 72] (terminalInit Terminal.power_on) in
  (cursorY t = 4 /\ cursorX t = 0) /\ ~ (cursorY t = 0 /\ cursorX t = 4).
Proof.
  vm_compute. split; [split; reflexivity|]. intros [H _]. discriminate H.
Qed.

(** ** An overflowing count *)

(** C9 fails on the code: the ten digits of 4294967295 wrap the int
    accumulator to -1, cursor-down adds it with no lower clamp, and the next
    printable character is stored at row -1, outside the buffer. *)
Theorem cursor_leaves_buffer_on_overflowing_count :
  let t0 := terminalInit Terminal.power_on in
  let t1 := feed [0x1B; 91; 52; 50; 57; 52; 57; 54; 55; 50; 57; 53; 66] t0 in
  cursor_in_buffer t0 /\ fault t0 = false /\
  param (parseBytes [52; 50; 57; 52; 57; 54; 55; 50; 57; 53]) 0 = -1 /\
  cursorY t1 = -1 /\ ~ cursor_in_buffer t1 /\
  fault t1 = false /\ fault (feed [65] t1) = true.
Proof.
  vm_compute. repeat split; try discriminate; try reflexivity.
  intros [_ [H _]]. apply H. reflexivity.
Qed.

(** ** Command history *)

Import Keyboard.

Lemma loadCommandToBuffer_keyboard cmd k t :
  fst (loadCommandToBuffer cmd (k, t)) =
  mkKeyboard (commandHistory k) (historyCount k)
             (fst (copyLoop cmd (inputBuffer k) 0)) (snd (copyLoop cmd (inputBuffer k) 0))
             (currentHistoryIndex k) (savedNewCommand k).
Proof.
  unfold loadCommandToBuffer.
  destruct (copyLoop cmd (inputBuffer k) 0) as [buf pos]. reflexivity.
Qed.

(** The copy loop writes the command behind what is already in the buffer,
    as long as it fits in the 255 usable bytes. *)
Lemma copyLoop_fits cmd : forall buf pos,
  length buf = 256%nat -> 0 <= pos ->
  pos + Z.of_nat (length cmd) <= 255 ->
  snd (copyLoop cmd buf pos) = pos + Z.of_nat (length cmd) /\
  take (Z.to_nat (pos + Z.of_nat (length cmd))) (fst (copyLoop cmd buf pos))
    = take (Z.to_nat pos) buf ++ cmd.
Proof.
  induction cmd as [|c cmd IH]; intros buf pos Hlen Hpos Hfit.
  - cbn [copyLoop length fst snd]. rewrite Z.add_0_r, app_nil_r. split; reflexivity.
  - cbn [copyLoop length] in *. unfold INPUT_BUFFER_SIZE.
    replace (pos <? 256 - 1) with true by (symmetry; apply Z.ltb_lt; lia).
    int_simpl.
    destruct (IH (<[Z.to_nat pos := c]> buf) (pos + 1)) as [IH1 IH2];
      [rewrite length_insert; exact Hlen | lia | lia |].
    split; [rewrite IH1; lia|].
    replace (pos + Z.of_nat (S (length cmd))) with (pos + 1 + Z.of_nat (length cmd)) by lia.
    rewrite IH2.
    replace (Z.to_nat (pos + 1)) with (S (Z.to_nat pos)) by lia.
    rewrite (take_S_r _ _ c) by (apply list_lookup_insert_eq; lia).
    rewrite take_insert_ge by lia.
    rewrite <- app_assoc. reflexivity.
Qed.

(** String(inputBuffer) after the terminating NUL is stored at
    inputBufferPos: the text being edited. *)
Lemma c_str_terminated : forall (n : nat) (buf : list Z),
  (n < length buf)%nat ->
  Forall (fun c => c <> 0) (take n buf) ->
  c_str (<[n := 0]> buf) = take n buf.
Proof.
  induction n as [|n IH]; intros buf Hn Hnz.
  - destruct buf as [|c buf]; [cbn in Hn; lia|]. reflexivity.
  - destruct buf as [|c buf]; [cbn in Hn; lia|].
    cbn [take] in Hnz. inversion Hnz as [|? ? Hc Hrest]; subst.
    cbn [length] in Hn.
    change (<[S n := 0]> (c :: buf)) with (c :: <[n := 0]> buf).
    cbn [c_str take].
    destruct (Z.eqb_spec c 0) as [E|_]; [contradiction|].
    f_equal. apply IH; [lia|exact Hrest].
Qed.

(** What the keyboard state becomes does not depend on the terminal that
    receives the echo. *)
Lemma historyUp_keyboard k t t' : fst (historyUp (k, t)) = fst (historyUp (k, t')).
Proof.
  unfold historyUp.
  repeat match goal with
  | |- context [if ?c then _ else _] => destruct c
  end; rewrite ?loadCommandToBuffer_keyboard; reflexivity.
Qed.

Lemma historyDown_keyboard k t t' : fst (historyDown (k, t)) = fst (historyDown (k, t')).
Proof.
  unfold historyDown.
  destruct (currentHistoryIndex k =? -1); [reflexivity|].
  cbn [currentHistoryIndex savedNewCommand commandHistory].
  destruct (Int.sub (currentHistoryIndex k) 1 =? -1).
  - match goal with
    | |- context [loadCommandToBuffer ?c (?x, t)] =>
        pose proof (loadCommandToBuffer_keyboard c x t) as H1;
        pose proof (loadCommandToBuffer_keyboard c x t') as H2;
        destruct (loadCommandToBuffer c (x, t)) as [k1 u1];
        destruct (loadCommandToBuffer c (x, t')) as [k2 u2]
    end.
    cbn [fst] in *. subst. reflexivity.
  - rewrite !loadCommandToBuffer_keyboard. reflexivity.
Qed.

(** The first Up press in Editing, with a history that is not empty. *)
Lemma historyUp_snapshot k t :
  well_formed k -> historyCount k <> 0 -> mode k = Editing ->
  let k' := fst (historyUp (k, t)) in
  savedNewCommand k' = editBuffer k /\ mode k' = Browsing 0.
Proof.
  intros (Hlen & Hpos & Hnz & _) Hcount Hmode. cbv zeta.
  unfold mode in Hmode.
  destruct (Z.eqb_spec (currentHistoryIndex k) (-1)) as [Hidx|]; [|discriminate Hmode].
  unfold historyUp.
  destruct (Z.eqb_spec (historyCount k) 0) as [|_]; [contradiction|].
  rewrite Hidx. cbn [Z.eqb Pos.eqb].
  rewrite loadCommandToBuffer_keyboard.
  cbn [savedNewCommand currentHistoryIndex mode fst]. split; [|reflexivity].
  unfold INPUT_BUFFER_SIZE in Hpos.
  apply c_str_terminated; [lia | exact Hnz].
Qed.

(** Down on the newest entry. *)
Lemma historyDown_restore k t :
  well_formed k -> currentHistoryIndex k = 0 ->
  let k' := fst (historyDown (k, t)) in
  editBuffer k' = savedNewCommand k /\ mode k' = Editing /\ savedNewCommand k' = [].
Proof.
  intros (Hlen & _ & _ & Hsaved) Hidx. cbv zeta.
  unfold historyDown. rewrite Hidx. cbn [Z.eqb]. cbn [currentHistoryIndex savedNewCommand].
  change (Int.sub 0 1 =? -1) with true. cbv iota.
  pose proof (loadCommandToBuffer_keyboard (savedNewCommand k)
    (mkKeyboard (commandHistory k) (historyCount k) (inputBuffer k)
                (inputBufferPos k) (Int.sub 0 1) (savedNewCommand k)) t) as Hload.
  destruct (loadCommandToBuffer (savedNewCommand k) _) as [k1 t1].
  cbn [fst] in Hload. subst k1.
  cbn [fst commandHistory historyCount inputBuffer inputBufferPos currentHistoryIndex
       savedNewCommand].
  destruct (copyLoop_fits (savedNewCommand k) (inputBuffer k) 0 Hlen ltac:(lia) ltac:(lia))
    as [Hp Htake].
  split; [|split; reflexivity].
  unfold editBuffer. cbn [inputBuffer inputBufferPos].
  rewrite Hp. rewrite Htake. reflexivity.
Qed.

(** C5: after "ls", "pwd", "ls -la" are pushed on an empty history with an
    empty edit buffer, Up, Up, Up, Down leave "pwd" in the edit buffer; the
    first Up in Editing saves the text being edited in savedNewCommand
    before Browsing(0) starts, and Down from Browsing(0) puts that saved
    text back in the edit buffer and returns to Editing. *)
Theorem history_recall :
  (forall t,
     editBuffer (fst (historyDown (historyUp (historyUp (historyUp (three_commands, t))))))
     = lit "pwd") /\
  (forall k t,
     well_formed k -> historyCount k <> 0 -> mode k = Editing ->
     savedNewCommand (fst (historyUp (k, t))) = editBuffer k /\
     mode (fst (historyUp (k, t))) = Browsing 0) /\
  (forall k t,
     well_formed k -> mode k = Browsing 0 ->
     editBuffer (fst (historyDown (k, t))) = savedNewCommand k /\
     mode (fst (historyDown (k, t))) = Editing).
Proof.
  split; [|split].
  - intros t.
    pose (up := fun k => fst (historyUp (k, terminalInit Terminal.power_on))).
    pose (down := fun k => fst (historyDown (k, terminalInit Terminal.power_on))).
    assert (Hup : forall kt, fst (historyUp kt) = up (fst kt))
      by (intros [k u]; apply historyUp_keyboard).
    assert (Hdown : forall kt, fst (historyDown kt) = down (fst kt))
      by (intros [k u]; apply historyDown_keyboard).
    rewrite Hdown, !Hup. cbn [fst]. unfold up, down.
    vm_compute. reflexivity.
  - intros k t Hwf Hcount Hmode. exact (historyUp_snapshot k t Hwf Hcount Hmode).
  - intros k t Hwf Hmode.
    assert (Hidx : currentHistoryIndex k = 0).
    { unfold mode in Hmode.
      destruct (currentHistoryIndex k =? -1); [discriminate Hmode|].
      injection Hmode as ->. reflexivity. }
    destruct (historyDown_restore k t Hwf Hidx) as (H1 & H2 & _).
    split; assumption.
Qed.

(** "cd" is being typed; Up shows "ls -la" and keeps "cd" aside, Down
    brings "cd" back. *)
Lemma history_recall_witness :
  let t := terminalInit Terminal.power_on in
  let up := fst (historyUp (typing_cd, t)) in
  (well_formed typing_cd /\ historyCount typing_cd <> 0 /\ mode typing_cd = Editing) /\
  (well_formed up /\ mode up = Browsing 0) /\
  savedNewCommand up = lit "cd" /\
  editBuffer up = lit "ls -la" /\
  editBuffer (fst (historyDown (up, t))) = lit "cd".
Proof.
  intros t up.
  assert (Hwf : well_formed typing_cd).
  { split; [vm_compute; reflexivity|]. split; [vm_compute; split; discriminate|].
    split; [|vm_compute; lia].
    change (editBuffer typing_cd) with [99; 100].
    repeat (constructor; [discriminate|]). constructor. }
  assert (Hcount : historyCount typing_cd <> 0) by discriminate.
  assert (Hmode : mode typing_cd = Editing) by reflexivity.
  destruct (proj1 (proj2 history_recall) typing_cd t Hwf Hcount Hmode) as [Hsaved Hup].
  fold up in Hsaved, Hup.
  assert (Hwf' : well_formed up).
  { split; [vm_compute; reflexivity|]. split; [vm_compute; split; discriminate|].
    split; [|vm_compute; lia].
    change (editBuffer up) with (lit "ls -la").
    repeat (constructor; [discriminate|]). constructor. }
  destruct (proj2 (proj2 history_recall) up t Hwf' Hup) as [Hback _].
  split; [split; [exact Hwf | split; [exact Hcount | exact Hmode]]|].
  split; [split; [exact Hwf' | exact Hup]|].
  split; [exact Hsaved|]. split; [reflexivity|].
  rewrite Hback. exact Hsaved.
Defined.

(** ** Scrolling *)

(** With the keyboard shown the viewport has 5 rows, but terminalScroll
    still clamps against the 27 rows of the full screen: after 50 line feeds
    and the keyboard toggled on, scrolling up by a million leaves line 22 at
    the top of the view, not line 0. *)
Lemma terminalScroll_keyboard_shown :
  let t := toggleKeyboard (feed (replicate 50 10) (terminalInit Terminal.power_on)) in
  let t' := terminalScroll 1000000 t in
  keyboardVisible t = true /\ visibleRows t' = 5 /\ totalLines t' = 51 /\
  scrollOffset t' = 24 /\ firstLineToShow t' = 22 /\ firstLineToShow t' <> 0.
Proof. vm_compute. repeat split; try reflexivity. discriminate. Qed.

(** The delta of a million is a fixed number and totalLines has no bound
    below INT_MAX: on a terminal that has counted two million lines, a
    scroll by a million stops half way in either direction. *)
Lemma terminalScroll_past_a_million :
  let t := set_totalLines 2000027 (terminalInit Terminal.power_on) in
  firstLineToShow (terminalScroll 1000000 t) = 1000000 /\
  scrollOffset (terminalScroll (-1000000) (set_scrollOffset 1500000 t)) = 500000.
Proof. vm_compute. split; reflexivity. Qed.

Lemma visibleRows_keyboard_hidden t :
  keyboardVisible t = false -> visibleRows t = TERMINAL_ROWS.
Proof. intros H. unfold visibleRows. rewrite H. reflexivity. Qed.

Lemma terminalScroll_frame delta t :
  let t' := terminalScroll delta t in
  totalLines t' = totalLines t /\ keyboardVisible t' = keyboardVisible t /\
  cursorX t' = cursorX t /\ cursorY t' = cursorY t /\
  screenBuffer t' = screenBuffer t.
Proof.
  cbv zeta. unfold terminalScroll. fields.
  repeat match goal with
  | |- context [if ?c then _ else _] => destruct c
  end; fields; repeat split.
Qed.

Lemma terminalScroll_offset delta t :
  0 <= totalLines t <= Int.int_max ->
  scrollOffset (terminalScroll delta t) =
  Z.min (Z.max 0 (totalLines t - TERMINAL_ROWS))
        (Z.max 0 (Int.add (scrollOffset t) delta)).
Proof.
  intros Htl. unfold terminalScroll. fields.
  unfold TERMINAL_ROWS, Int.int_max in *. int_simpl.
  set (s := Int.add (scrollOffset t) delta).
  destruct (Z.ltb_spec (totalLines t - 27) 0);
    destruct (Z.ltb_spec s 0); fields;
    rewrite Z.gtb_ltb;
    match goal with
    | |- context [?a <? ?b] => destruct (Z.ltb_spec a b)
    end; fields; lia.
Qed.

(** C2 (amended): every terminalScroll(delta) leaves scrollOffset in
    [0, max(0, totalLines - TERMINAL_ROWS)], TERMINAL_ROWS = 27 being the
    height of the view while the keyboard is hidden; in that situation, and
    while no more than a million lines can be scrolled,
    terminalScroll(+1000000) followed by the visible-range computation gives
    first = 0, and terminalScroll(-1000000) from an offset of at most a
    million leaves scrollOffset = 0. *)
Theorem terminalScroll_clamped (t : Terminal) :
  0 <= totalLines t <= Int.int_max ->
  (forall delta,
     0 <= scrollOffset (terminalScroll delta t)
       <= Z.max 0 (totalLines t - TERMINAL_ROWS)) /\
  (keyboardVisible t = false -> totalLines t <= 1000027 ->
   0 <= scrollOffset t <= 1000000 ->
   firstLineToShow (terminalScroll 1000000 t) = 0) /\
  (0 <= scrollOffset t <= 1000000 ->
   scrollOffset (terminalScroll (-1000000) t) = 0).
Proof.
  intros Htl. split; [|split].
  - intros delta. rewrite terminalScroll_offset by exact Htl. lia.
  - intros Hk Hmax Hso.
    destruct (terminalScroll_frame 1000000 t) as (Et & Ek & _).
    unfold firstLineToShow.
    rewrite visibleRows_keyboard_hidden by (rewrite Ek; exact Hk).
    rewrite Et, terminalScroll_offset by exact Htl.
    unfold TERMINAL_ROWS, Int.int_max in *. int_simpl.
    destruct_tests; lia.
  - intros Hso. rewrite terminalScroll_offset by exact Htl.
    unfold Int.int_max in *. int_simpl. lia.
Qed.

(** Sixty lines written, keyboard hidden, view scrolled back by 10. *)
Lemma terminalScroll_clamped_witness :
  let t := terminalScroll 10 (feed (write_lines 60) (terminalInit Terminal.power_on)) in
  0 <= totalLines t <= Int.int_max /\
  keyboardVisible t = false /\ totalLines t <= 1000027 /\
  0 <= scrollOffset t <= 1000000 /\
  0 <= scrollOffset (terminalScroll 5 t) <= Z.max 0 (totalLines t - TERMINAL_ROWS) /\
  firstLineToShow (terminalScroll 1000000 t) = 0 /\
  scrollOffset (terminalScroll (-1000000) t) = 0.
Proof.
  intros t.
  assert (Htl : 0 <= totalLines t <= Int.int_max) by (vm_compute; split; discriminate).
  assert (Hk : keyboardVisible t = false) by (vm_compute; reflexivity).
  assert (Hmax : totalLines t <= 1000027) by (vm_compute; discriminate).
  assert (Hso : 0 <= scrollOffset t <= 1000000) by (vm_compute; split; discriminate).
  destruct (terminalScroll_clamped t Htl) as (H1 & H2 & H3).
  split; [exact Htl|]. split; [exact Hk|]. split; [exact Hmax|]. split; [exact Hso|].
  split; [exact (H1 5)|]. split; [exact (H2 Hk Hmax Hso)|]. exact (H3 Hso).
Defined.

(** ** The visible range *)

(** Once the buffer has wrapped, every line the drawing loop paints lies in
    the last BUFFER_ROWS lines counted by totalLines and is read from slot
    lineNumber % BUFFER_ROWS. *)
Lemma drawLoop_wrapped t first ys :
  TERMINAL_BUFFER_ROWS < totalLines t <= Int.int_max ->
  0 <= first <= Int.int_max - TERMINAL_ROWS ->
  Forall (fun y => 0 <= y <= TERMINAL_ROWS) ys ->
  Forall (fun e => match e with
                   | (y, lineNumber, bufferLine) =>
                       totalLines t - TERMINAL_BUFFER_ROWS <= lineNumber < totalLines t /\
                       bufferLine = lineNumber mod TERMINAL_BUFFER_ROWS
                   end)
         (drawLoop t first ys).
Proof.
  intros Htl Hfirst Hys.
  unfold TERMINAL_BUFFER_ROWS, TERMINAL_ROWS, Int.int_max in *.
  induction Hys as [|y ys Hy Hys IH]; cbn [drawLoop]; [constructor|].
  unfold TERMINAL_BUFFER_ROWS. int_simpl.
  rewrite Z.geb_leb.
  destruct (Z.leb_spec (totalLines t) (first + y)); [constructor|].
  destruct (Z.leb_spec (totalLines t) 100); [lia|].
  destruct (Z.ltb_spec (first + y) (totalLines t - 100)); [exact IH|].
  constructor; [|exact IH].
  split; [lia|]. apply Z.rem_mod_nonneg; lia.
Qed.

Lemma visibleRows_range t : 0 <= visibleRows t <= TERMINAL_ROWS.
Proof.
  unfold visibleRows. destruct (keyboardVisible t); vm_compute; split; discriminate.
Qed.

Lemma firstLineToShow_range t :
  0 <= totalLines t <= Int.int_max -> 0 <= scrollOffset t <= totalLines t ->
  0 <= firstLineToShow t <= totalLines t.
Proof.
  intros Htl Hso. unfold firstLineToShow.
  pose proof (visibleRows_range t) as Hv.
  unfold Int.int_max, TERMINAL_ROWS in *. int_simpl. destruct_tests; lia.
Qed.

(** The ring offset of the cursor slot behind the newest slot. *)
Lemma cursorLineNumber_wrapped t :
  TERMINAL_BUFFER_ROWS < totalLines t <= Int.int_max ->
  0 <= cursorY t < TERMINAL_BUFFER_ROWS ->
  totalLines t - TERMINAL_BUFFER_ROWS <= cursorLineNumber t < totalLines t.
Proof.
  intros Htl Hy. unfold cursorLineNumber.
  unfold TERMINAL_BUFFER_ROWS, Int.int_max in *.
  destruct (Z.leb_spec (totalLines t) 100); [lia|].
  int_simpl.
  rewrite (Z.rem_mod_nonneg (totalLines t - 1) 100) by lia.
  pose proof (Z.mod_pos_bound (totalLines t - 1) 100 ltac:(lia)) as Hn.
  int_simpl.
  rewrite (Z.rem_mod_nonneg ((totalLines t - 1) mod 100 - cursorY t + 100) 100) by lia.
  pose proof (Z.mod_pos_bound ((totalLines t - 1) mod 100 - cursorY t + 100) 100
                ltac:(lia)) as Ho.
  int_simpl. lia.
Qed.

(** The same for a whole redraw, whatever the scroll offset and the state
    of the keyboard. *)
Lemma terminalRedraw_wrapped t :
  TERMINAL_BUFFER_ROWS < totalLines t <= Int.int_max - TERMINAL_ROWS ->
  0 <= scrollOffset t <= totalLines t ->
  0 <= cursorY t < TERMINAL_BUFFER_ROWS ->
  Forall (fun e => match e with
                   | (y, lineNumber, bufferLine) =>
                       totalLines t - TERMINAL_BUFFER_ROWS <= lineNumber < totalLines t /\
                       bufferLine = lineNumber mod TERMINAL_BUFFER_ROWS
                   end)
         (terminalRedraw t).
Proof.
  intros Htl Hso Hcy. unfold terminalRedraw.
  pose proof (visibleRows_range t) as Hv.
  assert (Hf : 0 <= firstLineToShow t <= totalLines t).
  { apply firstLineToShow_range; [|exact Hso].
    unfold TERMINAL_BUFFER_ROWS, TERMINAL_ROWS, Int.int_max in *. lia. }
  apply Forall_app. split.
  - unfold TERMINAL_BUFFER_ROWS, TERMINAL_ROWS, Int.int_max in *.
    apply drawLoop_wrapped;
      unfold TERMINAL_BUFFER_ROWS, TERMINAL_ROWS, Int.int_max; try lia.
    apply Forall_forall. intros y Hy. apply elem_of_seqZ in Hy. lia.
  - unfold cursorLinePaint.
    destruct (keyboardVisible t); [|constructor].
    cbv zeta.
    match goal with |- context [if ?c then _ else _] => destruct c end; [|constructor].
    match goal with |- context [if ?c then _ else []] => destruct c end; [|constructor].
    constructor; [|constructor].
    assert (Hc : totalLines t - TERMINAL_BUFFER_ROWS <= cursorLineNumber t < totalLines t).
    { apply cursorLineNumber_wrapped; [|exact Hcy].
      unfold TERMINAL_BUFFER_ROWS, TERMINAL_ROWS, Int.int_max in *. lia. }
    split; [exact Hc|].
    unfold TERMINAL_BUFFER_ROWS in *.
    destruct (Z.leb_spec (totalLines t) 100); [lia|].
    apply Z.rem_mod_nonneg; lia.
Qed.

(** C1 fails on the code.  After 105 lines "A0" .. "K4", each ended by a
    line feed, totalLines is 101 although 105 lines were written: past the
    first wrap a line feed adds to totalLines only when the cursor leaves
    slot 99.  Scrolled
    to the top, the view paints absolute lines 1 .. 26, among them 1 .. 4 of
    the first five; slot 1 holds "K1", the text of line 101, not "A1"; and
    the bottom view ends on line 100 ("K0" in slot 0), so that lines
    101 .. 104 are in no view at their own number. *)
Theorem line_count_lags_after_wrap :
  let t := feed (write_lines 105) (terminalInit Terminal.power_on) in
  totalLines t = 101 /\ cursorY t = 5 /\
  terminalRedraw (terminalScroll 1000000 t) = map (fun i => (i, i, i)) (seqZ 1 26) /\
  (take 2 <$> slot t (1 mod TERMINAL_BUFFER_ROWS)) = Some (take 2 (line_bytes 101)) /\
  take 2 (line_bytes 101) <> take 2 (line_bytes 1) /\
  (take 2 <$> slot t (5 mod TERMINAL_BUFFER_ROWS)) = Some [space; space] /\
  last (terminalRedraw t) = Some (26, 100, 0).
Proof.
  vm_compute. repeat split; try reflexivity. discriminate.
Qed.

(** ** Printable codepoints and the column limit *)

Lemma store_frame y x v t :
  let t' := store y x v t in
  cursorX t' = cursorX t /\ cursorY t' = cursorY t /\
  scrollOffset t' = scrollOffset t /\ totalLines t' = totalLines t /\
  keyboardVisible t' = keyboardVisible t /\
  (in_bounds y x = true -> fault t' = fault t).
Proof.
  cbv zeta. unfold store. destruct (in_bounds y x); fields; repeat split.
  intros H. discriminate H.
Qed.

Lemma store_slot_other y x v t y' :
  y' <> y -> 0 <= y -> slot (store y x v t) y' = slot t y'.
Proof.
  intros Hne Hy. unfold store. destruct (in_bounds y x); [|reflexivity].
  unfold slot. fields.
  destruct ((0 <=? y') && (y' <? TERMINAL_BUFFER_ROWS)) eqn:Hb; [|reflexivity].
  apply andb_true_iff in Hb. destruct Hb as [H0 _]. apply Z.leb_le in H0.
  apply list_lookup_alter_ne. lia.
Qed.

Lemma store_cell y x v t :
  shaped t -> in_bounds y x = true -> cell (store y x v t) y x = Some v.
Proof.
  intros Hs Hb. unfold cell, store. rewrite Hb. fields.
  rewrite list_lookup_alter_eq.
  unfold in_bounds, TERMINAL_BUFFER_ROWS, TERMINAL_COLS in Hb.
  apply andb_true_iff in Hb. destruct Hb as [Hb Hx1].
  apply andb_true_iff in Hb. destruct Hb as [Hb Hx0].
  apply andb_true_iff in Hb. destruct Hb as [Hy0 Hy1].
  apply Z.leb_le in Hy0, Hx0. apply Z.ltb_lt in Hy1, Hx1.
  destruct (shaped_lookup t y Hs ltac:(unfold TERMINAL_BUFFER_ROWS; lia)) as [row Hrow].
  rewrite Hrow. unfold fmap, option_fmap, option_map.
  apply list_lookup_insert_eq.
  rewrite (shaped_row t _ row Hs Hrow). lia.
Qed.

(** A printable codepoint: store, advance, and wrap at the column limit. *)
Lemma putChar_printable cp t :
  32 <= cp ->
  putChar cp t =
  let t1 := set_cursorX (Int.add (cursorX t) 1) (store (cursorY t) (cursorX t) cp t) in
  if cursorX t1 >=? TERMINAL_COLS
  then openLine (set_cursorY (Int.add (cursorY t1) 1) (set_cursorX 0 t1))
  else t1.
Proof.
  intros Hcp. unfold putChar.
  destruct (Z.eqb_spec cp 13); [lia|].
  destruct (Z.eqb_spec cp 10); [lia|].
  destruct (Z.eqb_spec cp 8); [lia|].
  replace (cp >=? 32) with true by (symmetry; rewrite Z.geb_leb; apply Z.leb_le; lia).
  destruct (store_frame (cursorY t) (cursorX t) cp t) as (Ex & Ey & _).
  cbv zeta. fields. rewrite Ex. reflexivity.
Qed.

(** Before the last column the cursor just moves right. *)
Lemma putChar_inline cp t :
  32 <= cp -> cursor_in_buffer t -> cursorX t < TERMINAL_COLS - 1 ->
  putChar cp t = set_cursorX (cursorX t + 1) (store (cursorY t) (cursorX t) cp t).
Proof.
  intros Hcp [Hx Hy] Hroom. rewrite putChar_printable by exact Hcp.
  cbv zeta. fields. unfold TERMINAL_COLS in *. int_simpl.
  replace (cursorX t + 1 >=? 53) with false
    by (symmetry; rewrite Z.geb_leb; apply Z.leb_gt; lia).
  reflexivity.
Qed.

(** On the last column the wrap is the line feed of putChar, run after the
    cell is stored. *)
Lemma putChar_wrap_is_line_feed cp t :
  32 <= cp -> cursorX t = TERMINAL_COLS - 1 ->
  putChar cp t = putChar 10 (store (cursorY t) (cursorX t) cp t).
Proof.
  intros Hcp Hx. rewrite putChar_printable by exact Hcp. rewrite putChar_lf.
  cbv zeta. fields. rewrite Hx.
  change (Int.add (TERMINAL_COLS - 1) 1 >=? TERMINAL_COLS) with true. cbv iota.
  destruct (store_frame (cursorY t) (TERMINAL_COLS - 1) cp t) as (_ & Ey & _).
  rewrite Ey. reflexivity.
Qed.

(** N printable codepoints that fit before the last column: the cursor is N
    columns further on the same row, no line is opened, and the codepoints
    are in the cells the cursor passed. *)
Lemma type_codepoints_inline cps : forall t,
  Forall (fun cp => 32 <= cp) cps ->
  cursor_in_buffer t ->
  cursorX t + Z.of_nat (length cps) <= TERMINAL_COLS - 1 ->
  let t' := type_codepoints cps t in
  cursorX t' = cursorX t + Z.of_nat (length cps) /\
  cursorY t' = cursorY t /\
  totalLines t' = totalLines t /\
  scrollOffset t' = scrollOffset t /\
  keyboardVisible t' = keyboardVisible t /\
  fault t' = fault t /\
  (forall y, y <> cursorY t -> slot t' y = slot t y).
Proof.
  induction cps as [|cp cps IH]; intros t Hcps Hcur Hroom; cbv zeta.
  - cbn [type_codepoints fold_left length]. rewrite Z.add_0_r. repeat split.
  - unfold type_codepoints. cbn [fold_left]. fold (type_codepoints cps (putChar cp t)).
    inversion Hcps as [|? ? Hcp Hrest]; subst. cbn [length] in Hroom.
    destruct Hcur as [Hx Hy].
    rewrite putChar_inline by (try assumption; try split; try assumption; lia).
    destruct (store_frame (cursorY t) (cursorX t) cp t) as (Ex & Ey & Eso & Etl & Ek & Ef).
    set (u := set_cursorX (cursorX t + 1) (store (cursorY t) (cursorX t) cp t)).
    assert (Hu : cursor_in_buffer u).
    { unfold u, cursor_in_buffer. fields. rewrite Ey. split; [lia|exact Hy]. }
    destruct (IH u Hrest Hu) as (I1 & I2 & I3 & I4 & I5 & I6 & I7).
    { unfold u. fields. lia. }
    revert I1 I2 I3 I4 I5 I6 I7. unfold u at 2 4 6 8 10 12 13. fields.
    rewrite Ey, Etl, Eso, Ek. rewrite Ef by (apply in_bounds_true; assumption).
    intros I1 I2 I3 I4 I5 I6 I7.
    repeat match goal with |- _ /\ _ => split end; try assumption.
    { rewrite I1. cbn [length]. lia. }
    intros y Hne. rewrite I7 by exact Hne.
    change (slot (store (cursorY t) (cursorX t) cp t) y = slot t y).
    apply store_slot_other; [exact Hne | lia].
Qed.

Lemma scrollUp_counters t :
  0 <= totalLines t < Int.int_max ->
  let t' := scrollUp t in
  cursorX t' = cursorX t /\
  cursorY t' = totalLines t mod TERMINAL_BUFFER_ROWS /\
  totalLines t' = totalLines t + 1 /\
  fault t' = fault t.
Proof.
  intros Htl. cbv zeta. unfold scrollUp.
  rewrite rem_buffer_rows by lia.
  pose proof (mod_buffer_rows (totalLines t)) as Hn.
  destruct (clearRow_frame t (totalLines t mod TERMINAL_BUFFER_ROWS) 0 Hn ltac:(lia))
    as (Hx & _ & _ & Htot & _ & Hf).
  fields. rewrite Htot. unfold Int.int_max in Htl. int_simpl.
  repeat split; assumption.
Qed.

(** A line feed above the last slot: the cursor goes one slot down, and
    totalLines follows it only while the buffer has never been full. *)
Lemma line_feed_inside t :
  0 <= cursorY t < TERMINAL_BUFFER_ROWS - 1 ->
  let t' := putChar 10 t in
  cursorX t' = 0 /\ cursorY t' = cursorY t + 1 /\
  totalLines t' =
    (if (totalLines t <? TERMINAL_BUFFER_ROWS) && (cursorY t + 1 >=? totalLines t)
     then cursorY t + 2 else totalLines t) /\
  fault t' = fault t.
Proof.
  intros Hy. cbv zeta. rewrite putChar_lf.
  unfold TERMINAL_BUFFER_ROWS in Hy.
  set (v := set_cursorY (Int.add (cursorY t) 1) (set_cursorX 0 t)).
  assert (Hv : cursorY v = cursorY t + 1) by (unfold v; fields; int_simpl; reflexivity).
  rewrite openLine_inside by (rewrite Hv; unfold TERMINAL_BUFFER_ROWS; lia).
  match goal with
  | |- context [ensureCursorVisible ?w] =>
      destruct (ensureCursorVisible_frame w) as (_ & Ex & Ey & Et & _ & Ef)
  end.
  rewrite Ex, Ey, Et, Ef. clear Ex Ey Et Ef.
  destruct (clearRow_frame v (cursorY v) 0) as (Cx & Cy & _ & Ct & _ & Cf);
    [rewrite Hv; unfold TERMINAL_BUFFER_ROWS; lia | lia |].
  cbv zeta. rewrite Hv in *.
  change (totalLines v) with (totalLines t).
  destruct ((totalLines t <? TERMINAL_BUFFER_ROWS) && (cursorY t + 1 >=? totalLines t));
    fields; rewrite ?Cx, ?Cy, ?Ct, ?Cf; int_simpl;
    repeat split; try reflexivity; lia.
Qed.

(** A line feed on the last slot of a full buffer runs scrollUp. *)
Lemma line_feed_last t :
  cursorY t = TERMINAL_BUFFER_ROWS - 1 ->
  TERMINAL_BUFFER_ROWS <= totalLines t < Int.int_max ->
  let t' := putChar 10 t in
  cursorX t' = 0 /\ cursorY t' = totalLines t mod TERMINAL_BUFFER_ROWS /\
  totalLines t' = totalLines t + 1 /\ fault t' = fault t.
Proof.
  intros Hy Htl. cbv zeta. rewrite putChar_lf, Hy.
  replace (Int.add (TERMINAL_BUFFER_ROWS - 1) 1) with TERMINAL_BUFFER_ROWS by reflexivity.
  rewrite openLine_scroll by (fields; lia).
  match goal with
  | |- context [ensureCursorVisible ?w] =>
      destruct (ensureCursorVisible_frame w) as (_ & Ex & Ey & Et & _ & Ef)
  end.
  rewrite Ex, Ey, Et, Ef. clear Ex Ey Et Ef.
  match goal with
  | |- context [scrollUp ?w] =>
      destruct (scrollUp_counters w) as (Sx & Sy & St & Sf)
  end.
  { fields. unfold TERMINAL_BUFFER_ROWS in Htl. lia. }
  revert Sx Sy St Sf. fields. intros Sx Sy St Sf.
  repeat split; assumption.
Qed.

Lemma length_snoc_inv {A : Type} (l : list A) (n : nat) :
  length l = S n -> exists front x, l = front ++ [x] /\ length front = n.
Proof.
  intros Hlen. destruct l as [|a l] using rev_ind; [discriminate Hlen|].
  exists l, a. split; [reflexivity|].
  rewrite length_app in Hlen. cbn [length] in Hlen. lia.
Qed.

Lemma type_codepoints_snoc front cp t :
  type_codepoints (front ++ [cp]) t = putChar cp (type_codepoints front t).
Proof. unfold type_codepoints. rewrite fold_left_app. reflexivity. Qed.

(** A full row of printable codepoints typed from column 0: the first 52
    stay on the row, the 53rd is stored in the last column and followed by
    exactly the line feed of putChar. *)
Lemma type_full_row cps t :
  length cps = 53%nat ->
  Forall (fun cp => 32 <= cp) cps ->
  cursor_in_buffer t -> cursorX t = 0 ->
  exists front cp,
    cps = front ++ [cp] /\
    let u := type_codepoints front t in
    cursorX u = TERMINAL_COLS - 1 /\ cursorY u = cursorY t /\
    totalLines u = totalLines t /\ fault u = fault t /\
    type_codepoints cps t = putChar 10 (store (cursorY u) (cursorX u) cp u).
Proof.
  intros Hlen Hcps Hcur Hx.
  destruct (length_snoc_inv cps 52 Hlen) as (front & cp & -> & Hfront).
  exists front, cp. split; [reflexivity|]. cbv zeta.
  apply Forall_app in Hcps. destruct Hcps as [Hf Hcp].
  inversion Hcp as [|? ? Hcp32 _]; subst.
  destruct (type_codepoints_inline front t Hf Hcur) as (I1 & I2 & I3 & _ & _ & I6 & _).
  { rewrite Hx, Hfront. unfold TERMINAL_COLS. lia. }
  rewrite Hx, Hfront in I1.
  repeat match goal with |- _ /\ _ => split end; try assumption.
  rewrite type_codepoints_snoc.
  apply putChar_wrap_is_line_feed; assumption.
Qed.

(** While the buffer has not wrapped, a full row typed from column 0 ends
    with the cursor at column 0 of the next absolute line. *)
Lemma type_full_row_before_wrap cps t :
  length cps = 53%nat ->
  Forall (fun cp => 32 <= cp) cps ->
  cursor_in_buffer t -> cursorX t = 0 ->
  0 <= totalLines t <= TERMINAL_BUFFER_ROWS ->
  cursorY t < TERMINAL_BUFFER_ROWS - 1 \/ totalLines t = TERMINAL_BUFFER_ROWS ->
  let t' := type_codepoints cps t in
  cursorX t' = 0 /\ cursorLineNumber t' = cursorLineNumber t + 1 /\
  fault t' = fault t.
Proof.
  intros Hlen Hcps Hcur Hx Htl Hcase. cbv zeta.
  destruct (type_full_row cps t Hlen Hcps Hcur Hx)
    as (front & cp & _ & Ux & Uy & Ut & Uf & ->).
  set (u := type_codepoints front t) in *.
  destruct (store_frame (cursorY u) (cursorX u) cp u) as (_ & Wy & _ & Wt & _ & Wf).
  assert (Hb : in_bounds (cursorY u) (cursorX u) = true).
  { rewrite Ux, Uy. apply in_bounds_true; [apply Hcur|unfold TERMINAL_COLS; lia]. }
  specialize (Wf Hb).
  set (w := store (cursorY u) (cursorX u) cp u) in *.
  destruct Hcur as [_ Hy]. unfold TERMINAL_BUFFER_ROWS in *.
  assert (Hline : cursorLineNumber t = cursorY t).
  { unfold cursorLineNumber, TERMINAL_BUFFER_ROWS.
    replace (totalLines t <=? 100) with true by (symmetry; apply Z.leb_le; lia).
    reflexivity. }
  rewrite Hline.
  destruct (Z.eq_dec (cursorY t) 99) as [Hlast|Hnot].
  - assert (Hfull : totalLines t = 100) by lia.
    destruct (line_feed_last w) as (Lx & Ly & Lt & Lf).
    { rewrite Wy, Uy. exact Hlast. }
    { rewrite Wt, Ut, Hfull. unfold TERMINAL_BUFFER_ROWS, Int.int_max. lia. }
    rewrite Wt, Ut, Hfull in *.
    split; [exact Lx|]. split; [|rewrite Lf, Wf; exact Uf].
    unfold cursorLineNumber. rewrite Lt, Ly, Hlast. reflexivity.
  - destruct (line_feed_inside w) as (Lx & Ly & Lt & Lf).
    { rewrite Wy, Uy. unfold TERMINAL_BUFFER_ROWS. lia. }
    rewrite Wy, Uy in Ly. rewrite Wy, Wt, Uy, Ut in Lt.
    split; [exact Lx|]. split; [|rewrite Lf, Wf; exact Uf].
    unfold cursorLineNumber, TERMINAL_BUFFER_ROWS.
    replace (totalLines (putChar 10 w) <=? 100) with true; [exact Ly|].
    symmetry. apply Z.leb_le. rewrite Lt. unfold TERMINAL_BUFFER_ROWS.
    destruct ((totalLines t <? 100) && (cursorY t + 1 >=? totalLines t)); lia.
Qed.

(** C3 fails on the code past the first wrap.  After 199 line feeds the
    cursor is at column 0 of slot 99 and totalLines is 101; 53 printable
    codepoints then wrap once, but the cursor lands on slot 1, not on slot 0
    that follows slot 99 in the ring, and the absolute line the source
    computes for it goes from 99 to 101.  (After 100 line feeds the cursor is
    on the newest line, number 100; the wrap takes it to slot 1 and its
    computed number drops to 1.) *)
Theorem column_wrap_skips_a_line_after_buffer_wrap :
  let t := feed (replicate 199 10) (terminalInit Terminal.power_on) in
  let t' := type_codepoints (replicate 53 97) t in
  let s := feed (replicate 100 10) (terminalInit Terminal.power_on) in
  let s' := type_codepoints (replicate 53 97) s in
  (cursorX t = 0 /\ cursorY t = 99 /\ totalLines t = 101 /\ cursorLineNumber t = 99) /\
  (cursorX t' = 0 /\ cursorY t' = 1 /\ totalLines t' = 102 /\ cursorLineNumber t' = 101) /\
  (cursorX s = 0 /\ cursorY s = 0 /\ totalLines s = 101 /\ cursorLineNumber s = 100) /\
  (cursorX s' = 0 /\ cursorY s' = 1 /\ totalLines s' = 101 /\ cursorLineNumber s' = 1).
Proof. vm_compute. repeat split; reflexivity. Qed.

(** ** Where the cursor can go *)

(** A line feed on the last slot before the buffer was ever full (the
    cursor can be there only if totalLines lags): totalLines jumps to 101 and
    scrollUp runs on it. *)
Lemma line_feed_last_early t :
  cursorY t = TERMINAL_BUFFER_ROWS - 1 ->
  0 <= totalLines t < TERMINAL_BUFFER_ROWS ->
  let t' := putChar 10 t in
  cursorX t' = 0 /\ cursorY t' = 1 /\ totalLines t' = 102 /\ fault t' = fault t.
Proof.
  intros Hy Htl. cbv zeta. rewrite putChar_lf, Hy.
  replace (Int.add (TERMINAL_BUFFER_ROWS - 1) 1) with TERMINAL_BUFFER_ROWS by reflexivity.
  assert (Hlt : (totalLines t <? TERMINAL_BUFFER_ROWS) = true) by (apply Z.ltb_lt; lia).
  assert (Hge : (TERMINAL_BUFFER_ROWS >=? totalLines t) = true)
    by (rewrite Z.geb_leb; apply Z.leb_le; lia).
  unfold openLine. fields. rewrite Z.ltb_irrefl. fields. rewrite Hlt. fields.
  rewrite Hge. fields. rewrite Z.geb_leb, Z.leb_refl.
  match goal with
  | |- context [ensureCursorVisible ?w] =>
      destruct (ensureCursorVisible_frame w) as (_ & Ex & Ey & Et & _ & Ef)
  end.
  rewrite Ex, Ey, Et, Ef. clear Ex Ey Et Ef.
  match goal with
  | |- context [scrollUp ?w] =>
      destruct (scrollUp_counters w) as (Sx & Sy & St & Sf)
  end.
  { fields. vm_compute. split; [discriminate|reflexivity]. }
  revert Sx Sy St Sf. fields. intros Sx Sy St Sf.
  repeat split; assumption.
Qed.

Lemma line_feed_cursor t :
  cursor_in_buffer t -> 0 <= totalLines t < Int.int_max ->
  cursor_in_buffer (putChar 10 t) /\ fault (putChar 10 t) = fault t /\
  totalLines t <= totalLines (putChar 10 t).
Proof.
  intros [Hx Hy] Htl. unfold cursor_in_buffer, TERMINAL_COLS, TERMINAL_BUFFER_ROWS in *.
  destruct (Z.eq_dec (cursorY t) 99) as [Hlast|Hnot].
  - destruct (Z.lt_ge_cases (totalLines t) 100) as [Hearly|Hfull].
    + destruct (line_feed_last_early t Hlast) as (Lx & Ly & Lt & Lf);
        [unfold TERMINAL_BUFFER_ROWS; lia|].
      rewrite Lx, Ly, Lt, Lf. repeat split; lia.
    + destruct (line_feed_last t Hlast) as (Lx & Ly & Lt & Lf);
        [unfold TERMINAL_BUFFER_ROWS; lia|].
      pose proof (mod_buffer_rows (totalLines t)) as Hm.
      unfold TERMINAL_BUFFER_ROWS in *.
      rewrite Lx, Ly, Lt, Lf. repeat split; lia.
  - destruct (line_feed_inside t) as (Lx & Ly & Lt & Lf);
      [unfold TERMINAL_BUFFER_ROWS; lia|].
    rewrite Lx, Ly, Lt, Lf. unfold TERMINAL_BUFFER_ROWS.
    repeat split; try lia.
    destruct (Z.ltb_spec (totalLines t) 100); cbn [andb]; [|lia].
    rewrite Z.geb_leb. destruct (Z.leb_spec (totalLines t) (cursorY t + 1)); lia.
Qed.

(** putChar keeps the cursor inside the buffer for every codepoint, and
    every store it makes is in bounds. *)
Lemma putChar_cursor_in_buffer cp t :
  cursor_in_buffer t -> 0 <= totalLines t < Int.int_max ->
  cursor_in_buffer (putChar cp t) /\ fault (putChar cp t) = fault t /\
  totalLines t <= totalLines (putChar cp t).
Proof.
  intros Hcur Htl.
  destruct (Z.eq_dec cp 10) as [->|H10]; [apply line_feed_cursor; assumption|].
  destruct (Z.eq_dec cp 13) as [->|H13].
  { destruct Hcur as [Hx Hy]. unfold cursor_in_buffer, TERMINAL_COLS in *.
    change (putChar 13 t) with (set_cursorX 0 t). fields. repeat split; lia. }
  destruct (Z.eq_dec cp 8) as [->|H8].
  { destruct Hcur as [Hx Hy]. unfold cursor_in_buffer, TERMINAL_COLS in *.
    change (putChar 8 t)
      with (if cursorX t >? 0
            then store (cursorY (set_cursorX (Int.sub (cursorX t) 1) t))
                       (cursorX (set_cursorX (Int.sub (cursorX t) 1) t)) space
                       (set_cursorX (Int.sub (cursorX t) 1) t)
            else t).
    rewrite Z.gtb_ltb. destruct (Z.ltb_spec 0 (cursorX t)); [|repeat split; lia].
    fields. int_simpl.
    destruct (store_frame (cursorY t) (cursorX t - 1) space
                          (set_cursorX (cursorX t - 1) t)) as (Ex & Ey & _ & Et & _ & Ef).
    rewrite Ex, Ey, Et, Ef by (apply in_bounds_true; unfold TERMINAL_COLS; fields; lia).
    fields. repeat split; lia. }
  destruct (Z.lt_ge_cases cp 32) as [Hctl|Hprint].
  { assert (E : putChar cp t = t).
    { unfold putChar.
      destruct (Z.eqb_spec cp 13); [contradiction|].
      destruct (Z.eqb_spec cp 10); [contradiction|].
      destruct (Z.eqb_spec cp 8); [contradiction|].
      replace (cp >=? 32) with false
        by (symmetry; rewrite Z.geb_leb; apply Z.leb_gt; lia).
      reflexivity. }
    rewrite E. repeat split; try apply Hcur; lia. }
  destruct Hcur as [Hx Hy].
  destruct (Z.eq_dec (cursorX t) (TERMINAL_COLS - 1)) as [Hlastcol|Hroom].
  - rewrite putChar_wrap_is_line_feed by assumption.
    destruct (store_frame (cursorY t) (cursorX t) cp t) as (Ex & Ey & _ & Et & _ & Ef).
    specialize (Ef ltac:(auto with buffer)).
    destruct (line_feed_cursor (store (cursorY t) (cursorX t) cp t)) as (L1 & L2 & L3).
    { unfold cursor_in_buffer. rewrite Ex, Ey. split; assumption. }
    { rewrite Et. exact Htl. }
    rewrite L2, Ef. rewrite Et in L3. repeat split; try apply L1; try assumption.
  - rewrite putChar_inline by (try assumption; try (split; assumption); lia).
    destruct (store_frame (cursorY t) (cursorX t) cp t) as (Ex & Ey & _ & Et & _ & Ef).
    specialize (Ef ltac:(auto with buffer)).
    unfold cursor_in_buffer. fields. rewrite Ey, Et, Ef.
    unfold TERMINAL_COLS in *. repeat split; lia.
Qed.

(** A cursor command keeps the cursor inside the buffer as long as its
    count is not negative and adding it to a row number does not wrap. *)
Lemma runCommand_move_in_buffer cmd ps t :
  cmd = 65 \/ cmd = 66 \/ cmd = 67 \/ cmd = 68 ->
  0 <= param ps 0 <= Int.int_max - TERMINAL_BUFFER_ROWS ->
  cursor_in_buffer t ->
  cursor_in_buffer (runCommand cmd ps t).
Proof.
  intros Hcmd Hp [Hx Hy].
  assert (Hc : 1 <= countOrOne ps <= Int.int_max - TERMINAL_BUFFER_ROWS).
  { unfold countOrOne, Int.int_max, TERMINAL_BUFFER_ROWS in *.
    destruct (Z.eqb_spec (param ps 0) 0); lia. }
  unfold cursor_in_buffer, TERMINAL_COLS, TERMINAL_BUFFER_ROWS, Int.int_max in *.
  unfold runCommand.
  destruct Hcmd as [-> | [-> | [-> | ->]]]; cbn [Z.eqb Pos.eqb orb]; fields;
    unfold TERMINAL_ROWS, TERMINAL_COLS; int_simpl;
    destruct_tests; fields; lia.
Qed.

(** ** No line feed moves stored lines *)

Lemma slot_ensureCursorVisible t y : slot (ensureCursorVisible t) y = slot t y.
Proof.
  destruct (ensureCursorVisible_frame t) as (Eb & _).
  unfold slot. rewrite Eb. reflexivity.
Qed.

(** Whatever the state of the counters, a line feed blank-fills the one slot
    the cursor moves to and leaves every other slot of the buffer as it was:
    lines are evicted by being overwritten, never moved. *)
Lemma line_feed_frame t :
  shaped t -> cursor_in_buffer t -> 0 <= totalLines t < Int.int_max ->
  let t' := putChar 10 t in
  slot t' (cursorY t') = Some blank_row /\
  (forall y, y <> cursorY t' -> slot t' y = slot t y).
Proof.
  intros Hs [Hx Hy] Htl. cbv zeta.
  unfold TERMINAL_BUFFER_ROWS, TERMINAL_COLS in *.
  destruct (Z.eq_dec (cursorY t) 99) as [Hlast|Hnot].
  - (* the cursor leaves slot 99: scrollUp picks the slot *)
    assert (E : exists u, shaped u /\ 0 <= totalLines u < Int.int_max /\
                          (forall y, slot u y = slot t y) /\
                          putChar 10 t = ensureCursorVisible (scrollUp u)).
    { rewrite putChar_lf, Hlast. change (Int.add 99 1) with TERMINAL_BUFFER_ROWS.
      destruct (Z.lt_ge_cases (totalLines t) 100) as [Hearly|Hfull].
      - exists (set_cursorY (TERMINAL_BUFFER_ROWS - 1)
                  (set_totalLines 101 (set_cursorY TERMINAL_BUFFER_ROWS (set_cursorX 0 t)))).
        split; [exact Hs|]. split; [vm_compute; split; [discriminate|reflexivity]|].
        split; [reflexivity|].
        unfold openLine. fields. rewrite Z.ltb_irrefl. fields.
        replace (totalLines t <? TERMINAL_BUFFER_ROWS) with true
          by (symmetry; apply Z.ltb_lt; unfold TERMINAL_BUFFER_ROWS; lia).
        fields.
        replace (TERMINAL_BUFFER_ROWS >=? totalLines t) with true
          by (symmetry; rewrite Z.geb_leb; apply Z.leb_le; unfold TERMINAL_BUFFER_ROWS; lia).
        fields. rewrite Z.geb_leb, Z.leb_refl. reflexivity.
      - exists (set_cursorY (TERMINAL_BUFFER_ROWS - 1)
                  (set_cursorY TERMINAL_BUFFER_ROWS (set_cursorX 0 t))).
        split; [exact Hs|]. split; [exact Htl|]. split; [reflexivity|].
        apply openLine_scroll; fields; [reflexivity|unfold TERMINAL_BUFFER_ROWS; lia]. }
    destruct E as (u & Hus & Hutl & Hslot & ->).
    destruct (ensureCursorVisible_frame (scrollUp u)) as (_ & _ & Ey & _).
    rewrite Ey. clear Ey.
    destruct (scrollUp_effect u Hus Hutl) as (S1 & S2 & _ & S4 & _).
    rewrite S2. split.
    + rewrite slot_ensureCursorVisible. exact S1.
    + intros y Hne. rewrite slot_ensureCursorVisible, S4 by exact Hne. apply Hslot.
  - (* the cursor steps onto the next slot, which is blanked *)
    destruct (line_feed_inside t) as (_ & Ly & _); [unfold TERMINAL_BUFFER_ROWS; lia|].
    rewrite Ly. rewrite putChar_lf.
    set (v := set_cursorY (Int.add (cursorY t) 1) (set_cursorX 0 t)).
    assert (Hv : cursorY v = cursorY t + 1) by (unfold v; fields; int_simpl; reflexivity).
    rewrite openLine_inside by (rewrite Hv; unfold TERMINAL_BUFFER_ROWS; lia).
    assert (Hvs : shaped v) by exact Hs.
    assert (Hin : 0 <= cursorY t + 1 < TERMINAL_BUFFER_ROWS)
      by (unfold TERMINAL_BUFFER_ROWS; lia).
    pose proof (clearRow_slot v (cursorY t + 1) Hvs Hin) as Hblank.
    assert (Hother : forall y, y <> cursorY t + 1 ->
                       slot (clearRowFrom (cursorY t + 1) 0 v) y = slot t y).
    { intros y Hne. rewrite clearRow_slot_other by assumption. reflexivity. }
    cbv zeta. rewrite Hv.
    destruct ((totalLines v <? TERMINAL_BUFFER_ROWS) && (cursorY t + 1 >=? totalLines v));
      split; try (intros y Hne); rewrite slot_ensureCursorVisible;
      try exact Hblank; try (apply Hother; exact Hne).
Qed.

(** C4 fails on the code.  Once totalLines has reached BUFFER_ROWS, a line
    feed reuses the slot totalLines % BUFFER_ROWS only when the cursor is on
    slot 99, where putChar calls scrollUp.  On any other slot it blank-fills
    the slot after the cursor's, moves the cursor there and leaves
    totalLines as it is.  After the 105 lines "A0" .. "K4" the cursor is on
    slot 5 and totalLines is 101: the next line feed blanks slot 6, which
    held "A6", puts the cursor on slot 6 and keeps totalLines at 101, while
    slot 101 % 100 = 1 keeps "K1". *)
Theorem line_feed_after_wrap_reuses_the_next_slot :
  (let t := feed (write_lines 105) (terminalInit Terminal.power_on) in
   let t' := putChar 10 t in
   TERMINAL_BUFFER_ROWS <= totalLines t /\
   totalLines t mod TERMINAL_BUFFER_ROWS = 1 /\ cursorY t = 5 /\
   totalLines t' = totalLines t /\ cursorY t' = 6 /\
   slot t' 1 = slot t 1 /\ slot t' 1 <> Some blank_row /\
   (take 2 <$> slot t 6) = Some (take 2 (line_bytes 6)) /\
   slot t' 6 = Some blank_row) /\
  (forall t,
     shaped t -> cursor_in_buffer t ->
     TERMINAL_BUFFER_ROWS <= totalLines t < Int.int_max ->
     cursorY t <> TERMINAL_BUFFER_ROWS - 1 ->
     let t' := putChar 10 t in
     totalLines t' = totalLines t /\ cursorY t' = cursorY t + 1 /\
     slot t' (cursorY t + 1) = Some blank_row /\
     (forall y, y <> cursorY t + 1 -> slot t' y = slot t y)).
Proof.
  split.
  - vm_compute. repeat split; try reflexivity; discriminate.
  - intros t Hs Hc Htl Hnot. cbv zeta.
    assert (Htl0 : 0 <= totalLines t < Int.int_max)
      by (unfold TERMINAL_BUFFER_ROWS in Htl; lia).
    destruct (line_feed_frame t Hs Hc Htl0) as (F1 & F2).
    destruct Hc as [Hx Hy].
    assert (Ey : cursorY (putChar 10 t) = cursorY t + 1 /\
                 totalLines (putChar 10 t) = totalLines t).
    { rewrite putChar_lf.
      set (v := set_cursorY (Int.add (cursorY t) 1) (set_cursorX 0 t)).
      assert (Hv : cursorY v = cursorY t + 1)
        by (unfold v, TERMINAL_BUFFER_ROWS in *; fields; int_simpl; reflexivity).
      rewrite openLine_inside by (rewrite Hv; unfold TERMINAL_BUFFER_ROWS in *; lia).
      cbv zeta.
      replace (totalLines v <? TERMINAL_BUFFER_ROWS) with false
        by (symmetry; apply Z.ltb_ge; exact (proj1 Htl)).
      cbn [andb].
      destruct (ensureCursorVisible_frame (clearRowFrom (cursorY v) 0 v))
        as (_ & _ & E1 & E2 & _).
      destruct (clearRow_frame v (cursorY v) 0) as (_ & C1 & _ & C2 & _);
        [rewrite Hv; unfold TERMINAL_BUFFER_ROWS in *; lia|lia|].
      rewrite E1, E2, C1, C2, Hv. split; reflexivity. }
    destruct Ey as [Ey Et]. rewrite Ey in F1, F2.
    split; [exact Et|]. split; [exact Ey|]. split; [exact F1|exact F2].
Qed.

(** * Further properties of the code *)

(** ** Cells and rows under putChar *)

Lemma slot_in_range t y :
  0 <= y < TERMINAL_BUFFER_ROWS -> slot t y = screenBuffer t !! Z.to_nat y.
Proof.
  intros Hy. unfold slot, TERMINAL_BUFFER_ROWS in *.
  destruct (Z.leb_spec 0 y); [|lia]. destruct (Z.ltb_spec y 100); [|lia]. reflexivity.
Qed.

Lemma store_slot y x v t row :
  0 <= y < TERMINAL_BUFFER_ROWS -> 0 <= x < TERMINAL_COLS ->
  slot t y = Some row ->
  slot (store y x v t) y = Some (<[Z.to_nat x := v]> row).
Proof.
  intros Hy Hx Hrow. rewrite store_in_bounds by (apply in_bounds_true; assumption).
  rewrite slot_in_range in Hrow by assumption.
  rewrite slot_in_range by assumption. fields.
  rewrite list_lookup_alter_eq, Hrow. reflexivity.
Qed.

Lemma store_shaped y x v t : shaped t -> shaped (store y x v t).
Proof.
  intros [Hlen Hrows]. unfold store. destruct (in_bounds y x); [|split; assumption].
  split; fields.
  - rewrite length_alter. exact Hlen.
  - apply Forall_alter; [exact Hrows|]. intros row _ Hr. rewrite length_insert. exact Hr.
Qed.

(** X1: backspace moves the cursor one column to the left and blanks the
    cell it lands on; in column 0 it does nothing, so it never crosses to
    the line above.  Nothing else of the terminal changes. *)
Theorem putChar_backspace (t : Terminal) (row : list Z) :
  cursor_in_buffer t -> slot t (cursorY t) = Some row ->
  (cursorX t = 0 -> putChar 8 t = t) /\
  (0 < cursorX t ->
   let t' := putChar 8 t in
   cursorX t' = cursorX t - 1 /\ cursorY t' = cursorY t /\
   slot t' (cursorY t) = Some (<[Z.to_nat (cursorX t - 1) := space]> row) /\
   (forall y, y <> cursorY t -> slot t' y = slot t y) /\
   totalLines t' = totalLines t /\ scrollOffset t' = scrollOffset t /\
   fault t' = fault t).
Proof.
  intros [Hx Hy] Hrow. unfold TERMINAL_COLS, TERMINAL_BUFFER_ROWS in *. split.
  - intros H0. unfold putChar. rewrite H0. reflexivity.
  - intros Hpos. cbv zeta.
    assert (E : putChar 8 t =
                store (cursorY t) (cursorX t - 1) space (set_cursorX (cursorX t - 1) t)).
    { unfold putChar. cbn [Z.eqb Pos.eqb]. rewrite (Z.gtb_ltb (cursorX t) 0).
      destruct (Z.ltb_spec 0 (cursorX t)); [|lia]. fields.
      rewrite int_sub_small by int_fits. reflexivity. }
    rewrite E.
    pose proof (store_frame (cursorY t) (cursorX t - 1) space
                  (set_cursorX (cursorX t - 1) t)) as F.
    cbv zeta in F. revert F. fields. intros (F1 & F2 & F3 & F4 & _ & F6).
    repeat match goal with |- _ /\ _ => split end; try assumption.
    + apply store_slot; unfold TERMINAL_COLS, TERMINAL_BUFFER_ROWS; try lia.
      exact Hrow.
    + intros y Hne. rewrite store_slot_other by lia. reflexivity.
    + apply F6. apply in_bounds_true; unfold TERMINAL_COLS, TERMINAL_BUFFER_ROWS; lia.
Qed.

Lemma putChar_backspace_witness :
  let t := feed [97; 98; 99] (terminalInit Terminal.power_on) in
  cursor_in_buffer t /\
  slot t (cursorY t) = Some ([97; 98; 99] ++ replicate 50 space) /\
  cursorX (putChar 8 t) = 2 /\
  slot (putChar 8 t) 0 = Some ([97; 98] ++ replicate 51 space).
Proof.
  intros t.
  assert (Hc : cursor_in_buffer t) by (vm_compute; repeat split; discriminate).
  assert (Hr : slot t (cursorY t) = Some ([97; 98; 99] ++ replicate 50 space))
    by (vm_compute; reflexivity).
  destruct (putChar_backspace t _ Hc Hr) as [_ H].
  assert (Hp : 0 < cursorX t) by (vm_compute; reflexivity).
  destruct (H Hp) as (H1 & _ & H3 & _).
  split; [exact Hc|]. split; [exact Hr|]. split.
  - rewrite H1. vm_compute. reflexivity.
  - replace 0 with (cursorY t) at 1 by (vm_compute; reflexivity).
    rewrite H3. vm_compute. reflexivity.
Defined.

Lemma slot_set_cursorX v t y : slot (set_cursorX v t) y = slot t y.
Proof. reflexivity. Qed.

Lemma take_drop_insert {A : Type} (row : list A) (i n : nat) (c : A) (rest : list A) :
  (i < length row)%nat ->
  take (S i) (<[i := c]> row) ++ rest ++ drop (S i + n) (<[i := c]> row)
  = take i row ++ (c :: rest) ++ drop (i + S n) row.
Proof.
  intros Hi.
  rewrite (take_S_r _ _ c) by (apply list_lookup_insert_eq; exact Hi).
  rewrite take_insert_ge by lia.
  rewrite drop_insert_lt by lia.
  rewrite <- app_assoc. cbn [app].
  replace (S i + n)%nat with (i + S n)%nat by lia. reflexivity.
Qed.

Lemma type_codepoints_slot cps : forall t row,
  Forall (fun cp => 32 <= cp) cps ->
  cursor_in_buffer t ->
  cursorX t + Z.of_nat (length cps) <= TERMINAL_COLS - 1 ->
  slot t (cursorY t) = Some row -> length row = 53%nat ->
  slot (type_codepoints cps t) (cursorY t) =
  Some (take (Z.to_nat (cursorX t)) row ++ cps
        ++ drop (Z.to_nat (cursorX t) + length cps) row).
Proof.
  induction cps as [|c cps IH]; intros t row Hcps Hcur Hroom Hrow Hlen.
  - cbn [type_codepoints fold_left length app]. rewrite Nat.add_0_r, take_drop.
    exact Hrow.
  - inversion Hcps as [|? ? Hc Hrest]; subst.
    destruct Hcur as [Hx Hy]. unfold TERMINAL_COLS, TERMINAL_BUFFER_ROWS in *.
    cbn [length] in Hroom.
    unfold type_codepoints. cbn [fold_left].
    rewrite putChar_inline; [| exact Hc | split; assumption
                             | unfold TERMINAL_COLS; lia].
    fold (type_codepoints cps
            (set_cursorX (cursorX t + 1) (store (cursorY t) (cursorX t) c t))).
    set (t1 := set_cursorX (cursorX t + 1) (store (cursorY t) (cursorX t) c t)).
    pose proof (store_frame (cursorY t) (cursorX t) c t) as F. cbv zeta in F.
    destruct F as (_ & FY & _).
    assert (Y1 : cursorY t1 = cursorY t) by (subst t1; fields; exact FY).
    assert (X1 : cursorX t1 = cursorX t + 1) by (subst t1; reflexivity).
    assert (R1 : slot t1 (cursorY t1) = Some (<[Z.to_nat (cursorX t) := c]> row)).
    { rewrite Y1. subst t1. rewrite slot_set_cursorX.
      apply store_slot; unfold TERMINAL_COLS, TERMINAL_BUFFER_ROWS; try lia.
      exact Hrow. }
    specialize (IH t1 (<[Z.to_nat (cursorX t) := c]> row) Hrest).
    rewrite Y1, X1 in IH. rewrite Y1 in R1.
    rewrite IH.
    + f_equal. cbn [length].
      replace (Z.to_nat (cursorX t + 1)) with (S (Z.to_nat (cursorX t))) by lia.
      apply take_drop_insert. lia.
    + split; unfold TERMINAL_COLS, TERMINAL_BUFFER_ROWS; lia.
    + lia.
    + exact R1.
    + rewrite length_insert. exact Hlen.
Qed.

(** X2: printable codepoints that fit on the cursor's row are stored, in
    order, in the cells from the cursor onwards; the rest of that row and all
    other rows keep their content, and the cursor ends behind the text. *)
Theorem typed_text_is_stored (cps : list Z) (t : Terminal) (row : list Z) :
  Forall (fun cp => 32 <= cp) cps ->
  shaped t -> cursor_in_buffer t ->
  cursorX t + Z.of_nat (length cps) <= TERMINAL_COLS - 1 ->
  slot t (cursorY t) = Some row ->
  let t' := type_codepoints cps t in
  slot t' (cursorY t) =
    Some (take (Z.to_nat (cursorX t)) row ++ cps
          ++ drop (Z.to_nat (cursorX t) + length cps) row) /\
  (forall y, y <> cursorY t -> slot t' y = slot t y) /\
  cursorX t' = cursorX t + Z.of_nat (length cps) /\ cursorY t' = cursorY t /\
  totalLines t' = totalLines t /\ fault t' = fault t.
Proof.
  intros Hcps Hshape Hcur Hroom Hrow t'. subst t'.
  assert (Hlen : length row = 53%nat).
  { destruct Hcur as [_ Hy]. rewrite slot_in_range in Hrow by exact Hy.
    eapply shaped_row; eassumption. }
  destruct (type_codepoints_inline cps t Hcps Hcur Hroom) as (I1 & I2 & I3 & _ & _ & I6 & I7).
  split; [apply type_codepoints_slot; assumption|].
  repeat match goal with |- _ /\ _ => split end; assumption.
Qed.

Lemma typed_text_is_stored_witness :
  let t := feed [0x1B; 91; 50; 59; 52; 72] (terminalInit Terminal.power_on) in
  slot (type_codepoints [0x0416; 0x44F] t) 1 =
    Some (replicate 3 space ++ [0x0416; 0x44F] ++ replicate 48 space) /\
  cursorX (type_codepoints [0x0416; 0x44F] t) = 5.
Proof.
  intros t.
  assert (H1 : Forall (fun cp => 32 <= cp) [0x0416; 0x44F])
    by (repeat constructor; discriminate).
  assert (H2 : shaped t) by (apply shapedb_shaped; vm_compute; reflexivity).
  assert (H3 : cursor_in_buffer t) by (vm_compute; repeat split; discriminate).
  assert (H4 : cursorX t + Z.of_nat (length [0x0416; 0x44F]) <= TERMINAL_COLS - 1)
    by (vm_compute; discriminate).
  assert (H5 : slot t (cursorY t) = Some blank_row) by (vm_compute; reflexivity).
  destruct (typed_text_is_stored _ t _ H1 H2 H3 H4 H5) as (R & _ & X & _).
  split.
  - replace 1 with (cursorY t) at 1 by (vm_compute; reflexivity).
    rewrite R. vm_compute. reflexivity.
  - rewrite X. vm_compute. reflexivity.
Defined.

(** ** Erasing *)

Lemma fill_from (n : nat) : forall (x0 : nat) (row : list Z),
  length row = (x0 + n)%nat ->
  fold_left (fun r x => <[Z.to_nat x := space]> r)
            (seqZ (Z.of_nat x0) (Z.of_nat n)) row
  = take x0 row ++ replicate n space.
Proof.
  induction n as [|n IH]; intros x0 row Hlen.
  - cbn. rewrite take_ge by lia. rewrite app_nil_r. reflexivity.
  - rewrite seqZ_cons_len. cbn [fold_left].
    replace (Z.of_nat x0 + 1) with (Z.of_nat (S x0)) by lia.
    rewrite IH by (rewrite length_insert; lia).
    rewrite Nat2Z.id.
    rewrite (take_S_r _ _ space) by (apply list_lookup_insert_eq; lia).
    rewrite take_insert_ge by lia.
    rewrite <- app_assoc. reflexivity.
Qed.

Lemma clearRowFrom_slot t y x0 row :
  0 <= y < TERMINAL_BUFFER_ROWS -> 0 <= x0 <= TERMINAL_COLS ->
  slot t y = Some row -> length row = 53%nat ->
  slot (clearRowFrom y x0 t) y =
  Some (take (Z.to_nat x0) row ++ replicate (Z.to_nat (TERMINAL_COLS - x0)) space).
Proof.
  intros Hy Hx Hrow Hlen. rewrite clearRowFrom_alter by lia.
  rewrite slot_in_range in * by assumption. fields.
  rewrite list_lookup_alter_eq, Hrow. cbn [fmap option_fmap option_map].
  f_equal. unfold TERMINAL_COLS in *.
  rewrite <- (Z2Nat.id x0) at 1 by lia.
  rewrite <- (Z2Nat.id (53 - x0)) at 1 by lia.
  apply fill_from. lia.
Qed.

Lemma clearRowFrom_slot_other t y x0 y' :
  0 <= y < TERMINAL_BUFFER_ROWS -> 0 <= x0 -> y' <> y ->
  slot (clearRowFrom y x0 t) y' = slot t y'.
Proof.
  intros Hy Hx Hne. rewrite clearRowFrom_alter by lia.
  unfold slot. fields.
  destruct ((0 <=? y') && (y' <? TERMINAL_BUFFER_ROWS)) eqn:E; [|reflexivity].
  apply andb_prop in E as [E1 E2]. apply Z.leb_le in E1. apply Z.ltb_lt in E2.
  apply list_lookup_alter_ne. lia.
Qed.

Lemma runCommand_erase_line ps t :
  runCommand 75 ps t = clearRowFrom (cursorY t) (cursorX t) t.
Proof. reflexivity. Qed.

Lemma runCommand_erase_display ps t :
  runCommand 74 ps t = if param ps 0 =? 2 then terminalClear t else t.
Proof. reflexivity. Qed.

(** X3: every CSI sequence that ends in 'K', whatever its parameters,
    blanks the cursor's row from the cursor column to the last column and
    changes nothing else: the cells to the left of the cursor, the other
    rows, the cursor and the line count stay. *)
Theorem erase_to_end_of_line (t : Terminal) (body row : list Z) :
  inEscSequence t = false -> length (escBuffer t) = 32%nat ->
  shaped t -> cursor_in_buffer t ->
  Forall (fun b => is_letter b = false) body -> (length body <= 29)%nat ->
  slot t (cursorY t) = Some row ->
  let t' := feed (0x1B :: 91 :: body ++ [75]) t in
  slot t' (cursorY t) =
    Some (take (Z.to_nat (cursorX t)) row
          ++ replicate (Z.to_nat (TERMINAL_COLS - cursorX t)) space) /\
  (forall y, y <> cursorY t -> slot t' y = slot t y) /\
  cursorX t' = cursorX t /\ cursorY t' = cursorY t /\
  totalLines t' = totalLines t /\ scrollOffset t' = scrollOffset t /\
  fault t' = fault t /\ inEscSequence t' = false.
Proof.
  intros Hg Hb Hshape [Hx Hy] Hbody Hroom Hrow t'. subst t'.
  destruct (feed_csi_sequence t Hg Hb body 75 Hbody Hroom eq_refl) as [buf ->].
  rewrite runCommand_erase_line.
  assert (Hlen : length row = 53%nat).
  { rewrite slot_in_range in Hrow by exact Hy. eapply shaped_row; eassumption. }
  pose proof (clearRow_frame t (cursorY t) (cursorX t) Hy (proj1 Hx)) as F.
  cbv zeta in F. destruct F as (F1 & F2 & F3 & F4 & _ & F6).
  repeat match goal with |- _ /\ _ => split end; fields; try assumption;
    try reflexivity.
  - change (slot (set_esc buf 0 false (clearRowFrom (cursorY t) (cursorX t) t)) (cursorY t))
      with (slot (clearRowFrom (cursorY t) (cursorX t) t) (cursorY t)).
    apply clearRowFrom_slot; try assumption. unfold TERMINAL_COLS in *. lia.
  - intros y Hne.
    change (slot (set_esc buf 0 false (clearRowFrom (cursorY t) (cursorX t) t)) y)
      with (slot (clearRowFrom (cursorY t) (cursorX t) t) y).
    apply clearRowFrom_slot_other; try assumption. lia.
Qed.

Lemma erase_to_end_of_line_witness :
  let t := feed [104; 101; 108; 108; 111; 13; 0x1B; 91; 67; 0x1B; 91; 67]
                (terminalInit Terminal.power_on) in
  slot (feed (0x1B :: 91 :: [48] ++ [75]) t) 0 =
    Some ([104; 101] ++ replicate 51 space) /\
  cursorX (feed (0x1B :: 91 :: [48] ++ [75]) t) = 2.
Proof.
  intros t.
  assert (H1 : inEscSequence t = false) by (vm_compute; reflexivity).
  assert (H2 : length (escBuffer t) = 32%nat) by (vm_compute; reflexivity).
  assert (H3 : shaped t) by (apply shapedb_shaped; vm_compute; reflexivity).
  assert (H4 : cursor_in_buffer t) by (vm_compute; repeat split; discriminate).
  assert (H5 : Forall (fun b => is_letter b = false) [48])
    by (repeat constructor).
  assert (H6 : (length [48] <= 29)%nat) by (cbn; lia).
  assert (H7 : slot t (cursorY t) = Some ([104; 101; 108; 108; 111] ++ replicate 48 space))
    by (vm_compute; reflexivity).
  destruct (erase_to_end_of_line t [48] _ H1 H2 H3 H4 H5 H6 H7) as (R & _ & X & _).
  split.
  - replace 0 with (cursorY t) at 1 by (vm_compute; reflexivity).
    rewrite R. vm_compute. reflexivity.
  - rewrite X. vm_compute. reflexivity.
Defined.

Lemma alter_each {A : Type} (f : A -> A) (rows : list A) : forall (pre : list A),
  fold_left (fun b y => alter f (Z.to_nat y) b)
            (seqZ (Z.of_nat (length pre)) (Z.of_nat (length rows))) (pre ++ rows)
  = pre ++ map f rows.
Proof.
  induction rows as [|r rows IH]; intros pre.
  - reflexivity.
  - cbn [length]. rewrite seqZ_cons_len. cbn [fold_left map].
    rewrite Nat2Z.id.
    replace (alter f (length pre) (pre ++ r :: rows)) with ((pre ++ [f r]) ++ rows).
    + replace (Z.of_nat (length pre) + 1) with (Z.of_nat (length (pre ++ [f r])))
        by (rewrite length_app; cbn; lia).
      rewrite IH. rewrite <- app_assoc. reflexivity.
    + rewrite <- app_assoc. cbn [app].
      rewrite alter_app_r_alt by lia. rewrite Nat.sub_diag. reflexivity.
Qed.

Lemma clearRows_alter rows : forall t,
  Forall (fun y => 0 <= y < TERMINAL_BUFFER_ROWS) rows ->
  fold_left (fun s y => clearRowFrom y 0 s) rows t =
  set_screenBuffer
    (fold_left
       (fun b y =>
          alter (fun row => fold_left (fun r x => <[Z.to_nat x := space]> r)
                                      (seqZ 0 (TERMINAL_COLS - 0)) row)
                (Z.to_nat y) b)
       rows (screenBuffer t)) t.
Proof.
  induction rows as [|y rows IH]; intros t Hrows.
  - cbn [fold_left]. symmetry. apply set_screenBuffer_same.
  - inversion Hrows as [|? ? Hy Hrest]; subst. cbn [fold_left].
    rewrite IH by exact Hrest.
    rewrite clearRowFrom_alter by lia. fields. reflexivity.
Qed.

Lemma clearBuffer_blank t :
  shaped t -> clearBuffer t = set_screenBuffer (replicate 100 blank_row) t.
Proof.
  intros [Hlen Hrows]. unfold clearBuffer.
  rewrite clearRows_alter.
  - f_equal.
    change (seqZ 0 TERMINAL_BUFFER_ROWS)
      with (seqZ (Z.of_nat (length (@nil (list Z)))) (Z.of_nat 100)).
    rewrite <- Hlen.
    change (screenBuffer t) with ([] ++ screenBuffer t) at 2.
    rewrite alter_each. cbn [app].
    clear Hlen.
    induction Hrows as [|row rows Hrow _ IH]; [reflexivity|].
    cbn [map length replicate]. rewrite IH. f_equal. apply fill_row. exact Hrow.
  - apply Forall_forall. intros y Hy. apply elem_of_seqZ in Hy.
    unfold TERMINAL_BUFFER_ROWS in *. lia.
Qed.

(** X4: a CSI sequence that ends in 'J' clears the display only when its
    first parameter is 2: then every cell of the 100-row buffer is a space,
    the cursor is at the top left and the line count and scroll offset are
    back to 0, with colours and keyboard state kept.  With any other first
    parameter (none, 0, 1, ...) the sequence has no effect on the display. *)
Theorem erase_display (t : Terminal) (body : list Z) :
  inEscSequence t = false -> length (escBuffer t) = 32%nat -> shaped t ->
  Forall (fun b => is_letter b = false) body -> (length body <= 29)%nat ->
  let t' := feed (0x1B :: 91 :: body ++ [74]) t in
  (param (parseBytes body) 0 = 2 ->
   screenBuffer t' = replicate 100 blank_row /\
   cursorX t' = 0 /\ cursorY t' = 0 /\ totalLines t' = 0 /\ scrollOffset t' = 0 /\
   fgColor t' = fgColor t /\ bgColor t' = bgColor t /\
   keyboardVisible t' = keyboardVisible t /\ fault t' = fault t /\
   inEscSequence t' = false) /\
  (param (parseBytes body) 0 <> 2 -> same_display t' t).
Proof.
  intros Hg Hb Hshape Hbody Hroom t'. subst t'.
  destruct (feed_csi_sequence t Hg Hb body 74 Hbody Hroom eq_refl) as [buf ->].
  rewrite runCommand_erase_display. split.
  - intros ->. cbn [Z.eqb Pos.eqb]. unfold terminalClear.
    rewrite clearBuffer_blank by exact Hshape.
    repeat match goal with |- _ /\ _ => split end; reflexivity.
  - intros Hne. destruct (Z.eqb_spec (param (parseBytes body) 0) 2); [contradiction|].
    unfold same_display. rewrite set_esc_set_esc. reflexivity.
Qed.

Lemma erase_display_witness :
  let t := feed (write_lines 30) (terminalInit Terminal.power_on) in
  let t' := feed (0x1B :: 91 :: [50] ++ [74]) t in
  totalLines t = 31 /\ (take 2 <$> slot t 7) = Some [65; 55] /\
  screenBuffer t' = replicate 100 blank_row /\ totalLines t' = 0 /\ cursorY t' = 0 /\
  same_display (feed (0x1B :: 91 :: [] ++ [74]) t) t.
Proof.
  intros t t'.
  assert (H1 : inEscSequence t = false) by (vm_compute; reflexivity).
  assert (H2 : length (escBuffer t) = 32%nat) by (vm_compute; reflexivity).
  assert (H3 : shaped t) by (apply shapedb_shaped; vm_compute; reflexivity).
  assert (H4 : Forall (fun b => is_letter b = false) [50]) by (repeat constructor).
  assert (H5 : (length [50] <= 29)%nat) by (cbn; lia).
  destruct (erase_display t [50] H1 H2 H3 H4 H5) as [A _].
  destruct (A eq_refl) as (A1 & _ & A3 & A4 & _).
  destruct (erase_display t [] H1 H2 H3 (List.Forall_nil _) (Nat.le_0_l _)) as [_ B].
  split; [vm_compute; reflexivity|]. split; [vm_compute; reflexivity|].
  split; [exact A1|]. split; [exact A4|]. split; [exact A3|].
  apply B. vm_compute. discriminate.
Defined.

(** ** Escape sequences without effect *)

Lemma terminalUpdate_escape t :
  inEscSequence t = false -> terminalUpdate 0x1B t = set_esc (escBuffer t) 0 true t.
Proof. intros Hg. unfold terminalUpdate. rewrite Hg. reflexivity. Qed.

Lemma feed_escape_collect t body :
  inEscSequence t = false ->
  Forall (fun b => is_letter b = false) body -> (length body <= 30)%nat ->
  feed (0x1B :: body) t =
  set_esc (write_at 0 body (escBuffer t)) (Z.of_nat (length body)) true t.
Proof.
  intros Hg Hbody Hroom. rewrite feed_cons, terminalUpdate_escape by exact Hg.
  rewrite (feed_collect_buffer body) by (fields; try reflexivity; try assumption; lia).
  fields. rewrite set_esc_set_esc. reflexivity.
Qed.

Lemma write_at_head b rest buf :
  length buf = 32%nat -> esc_at (write_at 0 (b :: rest) buf) 0 = b.
Proof.
  intros Hlen. cbn [write_at]. rewrite write_at_before by lia.
  apply (esc_at_insert_eq buf 0 b Hlen). lia.
Qed.

Lemma processEscSequence_other t :
  escIndex t < 2 \/ (0 < escIndex t /\ esc_at (escBuffer t) 0 <> 91) ->
  exists buf, processEscSequence t = set_esc buf 0 false t.
Proof.
  intros H. unfold processEscSequence. cbv zeta. fields.
  assert (E : (escIndex t >=? 2)
              && (esc_at (<[Z.to_nat (escIndex t) := 0]> (escBuffer t)) 0 =? 91) = false).
  { destruct H as [H | [H0 H]].
    - rewrite Z.geb_leb. destruct (Z.leb_spec 2 (escIndex t)); [lia|reflexivity].
    - rewrite esc_at_insert_ne by lia.
      destruct (Z.eqb_spec (esc_at (escBuffer t) 0) 91); [contradiction|].
      apply andb_false_r. }
  rewrite E. fields. rewrite set_esc_set_esc. eexists. reflexivity.
Qed.

Lemma runCommand_unknown cmd ps t :
  cmd <> 72 -> cmd <> 102 -> cmd <> 74 -> cmd <> 75 -> cmd <> 109 ->
  cmd <> 65 -> cmd <> 66 -> cmd <> 67 -> cmd <> 68 ->
  runCommand cmd ps t = t.
Proof.
  intros. unfold runCommand.
  repeat match goal with
         | |- context [?a =? ?b] => destruct (Z.eqb_spec a b); [contradiction|]
         end.
  reflexivity.
Qed.

(** X5: an escape sequence the interpreter does not know leaves the display
    as it is and returns to Ground: a sequence whose first byte after ESC is
    not the bracket of CSI (ESC c, ESC ( B, ...), and a CSI sequence whose final
    letter is not one of H f J K m A B C D. *)
Theorem unknown_sequence_ignored (t : Terminal) (body : list Z) (fin : Z) :
  inEscSequence t = false -> length (escBuffer t) = 32%nat ->
  Forall (fun b => is_letter b = false) body -> is_letter fin = true ->
  ((length body <= 30)%nat -> head body <> Some 91 ->
   same_display (feed (0x1B :: body ++ [fin]) t) t /\
   inEscSequence (feed (0x1B :: body ++ [fin]) t) = false) /\
  ((length body <= 29)%nat ->
   ~ In fin [72; 102; 74; 75; 109; 65; 66; 67; 68] ->
   same_display (feed (0x1B :: 91 :: body ++ [fin]) t) t /\
   inEscSequence (feed (0x1B :: 91 :: body ++ [fin]) t) = false).
Proof.
  intros Hg Hb Hbody Hfin. split.
  - intros Hroom Hhead.
    change (0x1B :: body ++ [fin]) with ((0x1B :: body) ++ [fin]).
    rewrite feed_app, feed_escape_collect by assumption.
    rewrite feed_cons. cbn [feed fold_left].
    rewrite terminalUpdate_collect by (fields; try reflexivity; lia).
    cbv zeta. rewrite Hfin. fields. rewrite set_esc_set_esc.
    match goal with |- context [processEscSequence ?u] =>
      destruct (processEscSequence_other u) as [buf ->] end.
    + fields. destruct body as [|b rest]; [left; cbn; lia|].
      right. split; [lia|].
      rewrite esc_at_insert_ne by (cbn [length]; lia).
      rewrite write_at_head by exact Hb.
      intros ->. apply Hhead. reflexivity.
    + rewrite set_esc_set_esc. split; [|reflexivity].
      unfold same_display. rewrite set_esc_set_esc. reflexivity.
  - intros Hroom Hfinal.
    destruct (feed_csi_sequence t Hg Hb body fin Hbody Hroom Hfin) as [buf ->].
    rewrite runCommand_unknown
      by (intros ->; apply Hfinal; cbn; tauto).
    split; [|reflexivity].
    unfold same_display. rewrite set_esc_set_esc. reflexivity.
Qed.

Lemma unknown_sequence_ignored_witness :
  let t := feed [97; 98] (terminalInit Terminal.power_on) in
  same_display (feed (0x1B :: [40] ++ [66]) t) t /\
  same_display (feed (0x1B :: 91 :: [53] ++ [110]) t) t.
Proof.
  intros t.
  assert (H1 : inEscSequence t = false) by (vm_compute; reflexivity).
  assert (H2 : length (escBuffer t) = 32%nat) by (vm_compute; reflexivity).
  split.
  - assert (H3 : Forall (fun b => is_letter b = false) [40]) by (repeat constructor).
    destruct (unknown_sequence_ignored t [40] 66 H1 H2 H3 eq_refl) as [A _].
    apply A; [cbn; lia|]. cbn. discriminate.
  - assert (H3 : Forall (fun b => is_letter b = false) [53]) by (repeat constructor).
    destruct (unknown_sequence_ignored t [53] 110 H1 H2 H3 eq_refl) as [_ A].
    apply A; [cbn; lia|]. cbn. intros H.
    repeat (destruct H as [H | H]; [discriminate H|]). exact H.
Defined.

(** X6: the escape buffer takes 31 bytes.  When 31 bytes without a letter
    have followed ESC, the next byte, whatever it is, is swallowed: the
    interpreter goes back to Ground and the display is as before the ESC, so
    a sequence of that length is never run. *)
Theorem escape_buffer_overflow (t : Terminal) (body : list Z) (b : Z) :
  inEscSequence t = false ->
  Forall (fun c => is_letter c = false) body -> length body = 31%nat ->
  same_display (feed (0x1B :: body ++ [b]) t) t /\
  inEscSequence (feed (0x1B :: body ++ [b]) t) = false /\
  escIndex (feed (0x1B :: body ++ [b]) t) = 0.
Proof.
  intros Hg Hbody Hlen.
  destruct (length_snoc_inv body 30 Hlen) as (front & c & -> & Hfront).
  apply Forall_app in Hbody as [Hf Hc].
  inversion Hc as [|? ? Hc' _]; subst.
  change (0x1B :: (front ++ [c]) ++ [b]) with ((0x1B :: front ++ [c]) ++ [b]).
  rewrite feed_app.
  change (0x1B :: front ++ [c]) with ((0x1B :: front) ++ [c]).
  rewrite feed_app. rewrite feed_escape_collect by (try assumption; lia).
  rewrite Hfront. rewrite !feed_cons. cbn [feed fold_left].
  rewrite (terminalUpdate_collect c) by (fields; try reflexivity; lia).
  cbv zeta. rewrite Hc'. fields. rewrite set_esc_set_esc.
  unfold terminalUpdate. fields. cbn [Z.of_nat Pos.of_succ_nat Pos.succ Z.add Pos.add].
  change (Int.u32 31 <? 31) with false. cbv iota. fields.
  split; [unfold same_display; rewrite !set_esc_set_esc; reflexivity|].
  split; reflexivity.
Qed.

Lemma escape_buffer_overflow_witness :
  let t := feed [97; 98] (terminalInit Terminal.power_on) in
  let body := 91 :: replicate 30 49 in
  same_display (feed (0x1B :: body ++ [72]) t) t /\
  inEscSequence (feed (0x1B :: body ++ [72]) t) = false.
Proof.
  intros t body.
  assert (H1 : inEscSequence t = false) by (vm_compute; reflexivity).
  assert (H2 : Forall (fun c => is_letter c = false) body)
    by (apply Forall_forall; intros x Hx; vm_compute in Hx;
        repeat (inversion Hx as [| ? ? ? Hx']; subst; [reflexivity|]; clear Hx; rename Hx' into Hx);
        inversion Hx).
  destruct (escape_buffer_overflow t body 72 H1 H2 eq_refl) as (A & B & _).
  split; [exact A|exact B].
Defined.

(** ** Parameters of a CSI sequence *)

Lemma pushParam_bounded ps :
  0 <= paramCount ps <= 4 /\ length (params ps) = 4%nat ->
  0 <= paramCount (pushParam ps) <= 4 /\ length (params (pushParam ps)) = 4%nat.
Proof.
  intros [Hc Hl]. unfold pushParam.
  destruct (hasNum ps); cbn [andb]; [|split; assumption].
  destruct (Z.ltb_spec (paramCount ps) 4); [|split; assumption].
  cbn [paramCount params]. rewrite length_insert.
  rewrite int_add_small by int_fits. split; [lia|exact Hl].
Qed.

Lemma parseByte_bounded ps c :
  0 <= paramCount ps <= 4 /\ length (params ps) = 4%nat ->
  0 <= paramCount (parseByte ps c) <= 4 /\ length (params (parseByte ps c)) = 4%nat.
Proof.
  intros H. unfold parseByte.
  destruct ((c >=? 48) && (c <=? 57)); [exact H|].
  destruct (c =? 59); [|exact H].
  cbn [paramCount params]. apply pushParam_bounded. exact H.
Qed.

Lemma fold_parseByte_bounded body : forall ps,
  0 <= paramCount ps <= 4 /\ length (params ps) = 4%nat ->
  0 <= paramCount (fold_left parseByte body ps) <= 4 /\
  length (params (fold_left parseByte body ps)) = 4%nat.
Proof.
  induction body as [|c body IH]; intros ps H; [exact H|].
  cbn [fold_left]. apply IH, parseByte_bounded, H.
Qed.

Lemma pushParam_full ps : paramCount ps = 4 -> pushParam ps = ps.
Proof.
  intros H. unfold pushParam. rewrite H. rewrite andb_false_r. reflexivity.
Qed.

Lemma parseByte_full ps c :
  paramCount ps = 4 ->
  paramCount (parseByte ps c) = 4 /\ params (parseByte ps c) = params ps.
Proof.
  intros H. unfold parseByte.
  destruct ((c >=? 48) && (c <=? 57)); [split; [exact H|reflexivity]|].
  destruct (c =? 59); [|split; [exact H|reflexivity]].
  rewrite pushParam_full by exact H. split; [exact H|reflexivity].
Qed.

Lemma fold_parseByte_full body : forall ps,
  paramCount ps = 4 ->
  paramCount (fold_left parseByte body ps) = 4 /\
  params (fold_left parseByte body ps) = params ps.
Proof.
  induction body as [|c body IH]; intros ps H; [split; [exact H|reflexivity]|].
  cbn [fold_left]. destruct (parseByte_full ps c H) as [H1 H2].
  destruct (IH _ H1) as [H3 H4]. split; [exact H3|]. rewrite H4. exact H2.
Qed.

(** X7: the parameter loop of processEscSequence never writes outside
    params[4]: for every byte string between '[' and the final letter the
    count stays between 0 and 4, and once four parameters are stored the
    rest of the sequence changes none of them, so a fifth and later
    parameters are dropped. *)
Theorem parameters_bounded (body : list Z) :
  (0 <= paramCount (parseBytes body) <= 4 /\
   length (params (parseBytes body)) = 4%nat) /\
  (forall rest,
     paramCount (fold_left parseByte body noParams) = 4 ->
     paramCount (parseBytes (body ++ rest)) = 4 /\
     params (parseBytes (body ++ rest)) = params (fold_left parseByte body noParams)).
Proof.
  split.
  - unfold parseBytes. apply pushParam_bounded, fold_parseByte_bounded.
    cbn. split; [lia|reflexivity].
  - intros rest H. unfold parseBytes. rewrite fold_left_app.
    destruct (fold_parseByte_full rest _ H) as [H1 H2].
    rewrite pushParam_full by exact H1. split; assumption.
Qed.

Lemma parameters_bounded_witness :
  let body := [49; 59; 50; 59; 51; 59; 52; 59] in
  paramCount (fold_left parseByte body noParams) = 4 /\
  params (parseBytes (body ++ [53; 59; 54])) = [1; 2; 3; 4].
Proof.
  intros body.
  destruct (parameters_bounded body) as [_ H].
  assert (H4 : paramCount (fold_left parseByte body noParams) = 4)
    by (vm_compute; reflexivity).
  destruct (H [53; 59; 54] H4) as [_ E].
  split; [exact H4|]. rewrite E. vm_compute. reflexivity.
Defined.

Lemma forallb_seqZ (f : Z -> bool) (m n : Z) :
  forallb f (seqZ m n) = true -> forall k, m <= k < m + n -> f k = true.
Proof.
  intros H k Hk. rewrite forallb_forall in H. apply H.
  apply list_elem_of_In, elem_of_seqZ. exact Hk.
Qed.

Lemma digits_not_letters n :
  0 <= n <= 99 -> Forall (fun b => is_letter b = false) (Host.digits n).
Proof.
  intros Hn.
  assert (E : forallb (fun b => negb (is_letter b)) (Host.digits n) = true).
  { revert n Hn.
    assert (A : forall k, 0 <= k < 0 + 100 ->
                forallb (fun b => negb (is_letter b)) (Host.digits k) = true)
      by (apply forallb_seqZ; vm_compute; reflexivity).
    intros n Hn. apply A. lia. }
  rewrite forallb_forall in E. apply Forall_forall. intros b Hb.
  apply list_elem_of_In, E in Hb. destruct (is_letter b); [discriminate|reflexivity].
Qed.

Lemma digits_length n : (length (Host.digits n) <= 2)%nat.
Proof. unfold Host.digits. destruct (n <? 10); cbn; lia. Qed.

Lemma parse_row_col r c :
  0 <= r <= 99 -> 0 <= c <= 99 ->
  let ps := parseBytes (Host.digits r ++ 59 :: Host.digits c) in
  paramCount ps = 2 /\ param ps 0 = r /\ param ps 1 = c.
Proof.
  intros Hr Hc.
  pose (ok := fun r c =>
          let ps := parseBytes (Host.digits r ++ 59 :: Host.digits c) in
          (paramCount ps =? 2) && (param ps 0 =? r) && (param ps 1 =? c)).
  assert (A : forall r, 0 <= r < 0 + 100 ->
              forallb (ok r) (seqZ 0 100) = true)
    by (apply forallb_seqZ; vm_compute; reflexivity).
  assert (B : ok r c = true)
    by (apply (forallb_seqZ (ok r) 0 100); [apply A|]; lia).
  unfold ok in B. cbv zeta in *.
  apply andb_prop in B as [B B3]. apply andb_prop in B as [B1 B2].
  apply Z.eqb_eq in B1, B2, B3. repeat split; assumption.
Qed.

(** X8: cursor addressing.  ESC [ row ; col H with both numbers written in
    decimal (0 to 99) puts the cursor on row min(max(row,1),27) and column
    min(max(col,1),53), counted from 1, and changes nothing else; the
    interpreter is back in Ground. *)
Theorem cursor_addressing (t : Terminal) (row col : Z) :
  inEscSequence t = false -> length (escBuffer t) = 32%nat ->
  0 <= row <= 99 -> 0 <= col <= 99 ->
  let t' := feed (Host.cursorTo row col) t in
  cursorY t' = Z.min (Z.max row 1) TERMINAL_ROWS - 1 /\
  cursorX t' = Z.min (Z.max col 1) TERMINAL_COLS - 1 /\
  same_display t' (set_cursorY (cursorY t') (set_cursorX (cursorX t') t)).
Proof.
  intros Hg Hb Hr Hc t'. subst t'. unfold Host.cursorTo.
  assert (Hbody : Forall (fun b => is_letter b = false)
                         (Host.digits row ++ 59 :: Host.digits col)).
  { apply Forall_app. split; [apply digits_not_letters; exact Hr|].
    constructor; [reflexivity|apply digits_not_letters; exact Hc]. }
  assert (Hroom : (length (Host.digits row ++ 59%Z :: Host.digits col) <= 29)%nat).
  { rewrite length_app. cbn [length].
    pose proof (digits_length row). pose proof (digits_length col). lia. }
  destruct (feed_csi_sequence t Hg Hb _ 72 Hbody Hroom eq_refl) as [buf ->].
  destruct (parse_row_col row col Hr Hc) as (P0 & P1 & P2).
  set (ps := parseBytes (Host.digits row ++ 59 :: Host.digits col)) in *.
  unfold runCommand. cbn [Z.eqb Pos.eqb orb]. rewrite P0, P1, P2.
  cbn [Z.gtb Z.compare Pos.compare Pos.compare_cont andb]. fields.
  unfold constrain, TERMINAL_ROWS, TERMINAL_COLS.
  rewrite !Z.gtb_ltb.
  assert (Y : (if (if 0 <? row then Int.sub row 1 else 0) <? 0 then 0
               else if 27 - 1 <? (if 0 <? row then Int.sub row 1 else 0) then 27 - 1
                    else if 0 <? row then Int.sub row 1 else 0)
              = Z.min (Z.max row 1) 27 - 1).
  { destruct (Z.ltb_spec 0 row).
    - rewrite int_sub_small by int_fits.
      destruct (Z.ltb_spec (row - 1) 0); [lia|].
      destruct (Z.ltb_spec (27 - 1) (row - 1)); lia.
    - destruct (Z.ltb_spec 0 0); [lia|]. destruct (Z.ltb_spec (27 - 1) 0); lia. }
  assert (X : (if (if 0 <? col then Int.sub col 1 else 0) <? 0 then 0
               else if 53 - 1 <? (if 0 <? col then Int.sub col 1 else 0) then 53 - 1
                    else if 0 <? col then Int.sub col 1 else 0)
              = Z.min (Z.max col 1) 53 - 1).
  { destruct (Z.ltb_spec 0 col).
    - rewrite int_sub_small by int_fits.
      destruct (Z.ltb_spec (col - 1) 0); [lia|].
      destruct (Z.ltb_spec (53 - 1) (col - 1)); lia.
    - destruct (Z.ltb_spec 0 0); [lia|]. destruct (Z.ltb_spec (53 - 1) 0); lia. }
  rewrite X, Y. split; [reflexivity|]. split; [reflexivity|].
  unfold same_display. reflexivity.
Qed.

Lemma cursor_addressing_witness :
  let t := feed [104; 105; 10] (terminalInit Terminal.power_on) in
  Host.cursorTo 12 40 = [0x1B; 91; 49; 50; 59; 52; 48; 72] /\
  cursorY (feed (Host.cursorTo 12 40) t) = 11 /\
  cursorX (feed (Host.cursorTo 12 40) t) = 39 /\
  cursorY (feed (Host.cursorTo 99 0) t) = 26 /\
  cursorX (feed (Host.cursorTo 99 0) t) = 0.
Proof.
  intros t.
  assert (H1 : inEscSequence t = false) by (vm_compute; reflexivity).
  assert (H2 : length (escBuffer t) = 32%nat) by (vm_compute; reflexivity).
  destruct (cursor_addressing t 12 40 H1 H2) as (A & B & _); [lia|lia|].
  destruct (cursor_addressing t 99 0 H1 H2) as (C & D & _); [lia|lia|].
  split; [reflexivity|].
  rewrite A, B, C, D. vm_compute. repeat split; reflexivity.
Defined.

(** ** Colours *)

Lemma set_fgColor_same t : set_fgColor (fgColor t) t = t.
Proof. destruct t; reflexivity. Qed.

Lemma applyColor_foreground t p : exists c, applyColor t p = set_fgColor c t.
Proof.
  unfold applyColor.
  destruct ((p >=? 30) && (p <=? 37));
    [|exists (fgColor t); symmetry; apply set_fgColor_same].
  repeat match goal with
         | |- context [if ?b then _ else _] => destruct b; [eexists; reflexivity|]
         end.
  eexists; reflexivity.
Qed.

Lemma fold_applyColor_foreground ps idxs : forall t,
  exists c, fold_left (fun s i => applyColor s (param ps i)) idxs t = set_fgColor c t.
Proof.
  induction idxs as [|i idxs IH]; intros t.
  - exists (fgColor t). symmetry. apply set_fgColor_same.
  - cbn [fold_left]. destruct (applyColor_foreground t (param ps i)) as [c ->].
    destruct (IH (set_fgColor c t)) as [c' ->]. exists c'. reflexivity.
Qed.

Lemma runCommand_colour ps t :
  runCommand 109 ps t =
  if (paramCount ps =? 0) || (param ps 0 =? 0)
  then set_bgColor TFT_BLACK (set_fgColor TFT_GREEN t)
  else fold_left (fun s i => applyColor s (param ps i)) (seqZ 0 (paramCount ps)) t.
Proof. reflexivity. Qed.

Lemma parse_number n :
  0 <= n <= 99 ->
  paramCount (parseBytes (Host.digits n)) = 1 /\ param (parseBytes (Host.digits n)) 0 = n.
Proof.
  intros Hn.
  pose (ok := fun n => let ps := parseBytes (Host.digits n) in
                       (paramCount ps =? 1) && (param ps 0 =? n)).
  assert (A : ok n = true)
    by (apply (forallb_seqZ ok 0 100); [vm_compute; reflexivity|lia]).
  unfold ok in A. cbv zeta in A. apply andb_prop in A as [A1 A2].
  apply Z.eqb_eq in A1, A2. split; assumption.
Qed.

(** ** Parameters that are not given, at any position *)

(** The commands read the recorded parameters and their number only. *)
Lemma runCommand_recorded cmd ps n h t :
  runCommand cmd (mkParams (params ps) (paramCount ps) n h) t = runCommand cmd ps t.
Proof. destruct ps. reflexivity. Qed.

(** A separator at the end records what precedes it and nothing more. *)
Lemma parseBytes_trailing_separator body :
  parseBytes (body ++ [59]) =
  mkParams (params (parseBytes body)) (paramCount (parseBytes body)) 0 false.
Proof.
  unfold parseBytes. rewrite fold_left_app. cbn [fold_left].
  rewrite parseByte_separator. apply pushParam_no_number.
Qed.

Lemma runCommand_row_only fin ps t row :
  fin = 72 \/ fin = 102 -> 0 <= row <= 99 ->
  paramCount ps = 1 -> param ps 0 = row ->
  cursorY (runCommand fin ps t) = Z.min (Z.max row 1) TERMINAL_ROWS - 1 /\
  cursorX (runCommand fin ps t) = 0.
Proof.
  intros Hfin Hrow Hc Hp. unfold runCommand.
  replace ((fin =? 72) || (fin =? 102)) with true
    by (destruct Hfin; subst fin; reflexivity).
  rewrite Hc, Hp. cbn [Z.gtb Z.compare Pos.compare Pos.compare_cont andb]. fields.
  unfold constrain, TERMINAL_ROWS, TERMINAL_COLS. rewrite !Z.gtb_ltb.
  split; [|reflexivity].
  destruct (Z.ltb_spec 0 row).
  - rewrite int_sub_small by int_fits.
    destruct (Z.ltb_spec (row - 1) 0); [lia|].
    destruct (Z.ltb_spec (27 - 1) (row - 1)); lia.
  - destruct (Z.ltb_spec 0 0); [lia|]. destruct (Z.ltb_spec (27 - 1) 0); lia.
Qed.

(** C7 (amended): in a complete CSI sequence received in Ground, a count
    that is not given makes A/B/C/D move by 1, and coordinates that are not
    given make H/f use row 1 and column 1 (index 0): with no parameter the
    cursor goes to (0, 0), and with the row alone, whatever the row and
    whether or not a separator precedes or follows it, to column 0 of that
    row.  An empty parameter position records nothing, wherever it is, so
    that the parameters after it move up: a separator at the start, a
    separator right after another one and a separator at the end can each
    be dropped from the sequence without changing what it does.  ESC [ ; 5 H
    puts the cursor on row index 4, column index 0, as ESC [ 5 H does, and
    ESC [ 5 ; ; 7 H on row index 4, column index 6, as ESC [ 5 ; 7 H does. *)
Theorem csi_missing_parameters (t : Terminal) :
  inEscSequence t = false ->
  length (escBuffer t) = 32%nat ->
  cursor_in_buffer t ->
  (cursorY (feed [0x1B; 91; 65] t) = Z.max 0 (cursorY t - 1) /\
   cursorY (feed [0x1B; 91; 66] t) = Z.min (TERMINAL_ROWS - 1) (cursorY t + 1) /\
   cursorX (feed [0x1B; 91; 67] t) = Z.min (TERMINAL_COLS - 1) (cursorX t + 1) /\
   cursorX (feed [0x1B; 91; 68] t) = Z.max 0 (cursorX t - 1)) /\
  (forall fin, fin = 72 \/ fin = 102 ->
     (cursorY (feed [0x1B; 91; fin] t) = 0 /\ cursorX (feed [0x1B; 91; fin] t) = 0) /\
     (cursorY (feed [0x1B; 91; 53; fin] t) = 4 /\
      cursorX (feed [0x1B; 91; 53; fin] t) = 0) /\
     (cursorY (feed [0x1B; 91; 59; 53; fin] t) = 4 /\
      cursorX (feed [0x1B; 91; 59; 53; fin] t) = 0) /\
     (cursorY (feed [0x1B; 91; 53; 59; 59; 55; fin] t) = 4 /\
      cursorX (feed [0x1B; 91; 53; 59; 59; 55; fin] t) = 6) /\
     (forall row, 0 <= row <= 99 ->
        let given := feed (0x1B :: 91 :: Host.digits row ++ [fin]) t in
        let leading := feed (0x1B :: 91 :: (59 :: Host.digits row) ++ [fin]) t in
        let trailing := feed (0x1B :: 91 :: (Host.digits row ++ [59]) ++ [fin]) t in
        (cursorY given = Z.min (Z.max row 1) TERMINAL_ROWS - 1 /\ cursorX given = 0) /\
        (cursorY leading = cursorY given /\ cursorX leading = 0) /\
        (cursorY trailing = cursorY given /\ cursorX trailing = 0))) /\
  (forall body fin,
     Forall (fun b => is_letter b = false) body -> (length body <= 28)%nat ->
     is_letter fin = true ->
     same_display (feed (0x1B :: 91 :: 59 :: body ++ [fin]) t)
                  (feed (0x1B :: 91 :: body ++ [fin]) t) /\
     same_display (feed (0x1B :: 91 :: (body ++ [59]) ++ [fin]) t)
                  (feed (0x1B :: 91 :: body ++ [fin]) t)) /\
  (forall pre post fin,
     Forall (fun b => is_letter b = false) pre ->
     Forall (fun b => is_letter b = false) post ->
     (length pre + length post <= 27)%nat ->
     is_letter fin = true ->
     same_display (feed (0x1B :: 91 :: (pre ++ 59 :: 59 :: post) ++ [fin]) t)
                  (feed (0x1B :: 91 :: (pre ++ 59 :: post) ++ [fin]) t)).
Proof.
  intros Hin Hlen Hcur.
  assert (Hnil : Forall (fun b => is_letter b = false) []) by constructor.
  split; [|split; [|split]].
  - destruct (runCommand_default_moves (parseBytes []) t eq_refl Hcur)
      as (HA & HB & HC & HD).
    destruct (feed_csi_cursor t Hin Hlen [] 65 Hnil ltac:(cbn [length]; lia) eq_refl)
      as [EA _].
    destruct (feed_csi_cursor t Hin Hlen [] 66 Hnil ltac:(cbn [length]; lia) eq_refl)
      as [EB _].
    destruct (feed_csi_cursor t Hin Hlen [] 67 Hnil ltac:(cbn [length]; lia) eq_refl)
      as [_ EC].
    destruct (feed_csi_cursor t Hin Hlen [] 68 Hnil ltac:(cbn [length]; lia) eq_refl)
      as [_ ED].
    cbn [app] in EA, EB, EC, ED.
    rewrite EA, EB, EC, ED. repeat split; assumption.
  - intros fin Hfin.
    assert (Hlet : is_letter fin = true) by (destruct Hfin; subst fin; reflexivity).
    assert (Hfixed : forall body : list Z,
              forallb (fun b => negb (is_letter b)) body = true ->
              (length body <= 29)%nat ->
              cursorY (feed (0x1B :: 91 :: body ++ [fin]) t)
                = cursorY (runCommand fin (parseBytes body) t) /\
              cursorX (feed (0x1B :: 91 :: body ++ [fin]) t)
                = cursorX (runCommand fin (parseBytes body) t)).
    { intros body Hb Hroom. apply feed_csi_cursor; try assumption.
      apply Forall_forall. intros b Hbin.
      rewrite forallb_forall in Hb. apply negb_true_iff. apply Hb.
      apply list_elem_of_In. exact Hbin. }
    assert (Hrun : forall body y x,
              cursorY (runCommand 72 (parseBytes body) t) = y ->
              cursorX (runCommand 72 (parseBytes body) t) = x ->
              cursorY (runCommand 102 (parseBytes body) t) = y ->
              cursorX (runCommand 102 (parseBytes body) t) = x ->
              cursorY (runCommand fin (parseBytes body) t) = y /\
              cursorX (runCommand fin (parseBytes body) t) = x).
    { intros body y x H1 H2 H3 H4. destruct Hfin; subst fin; split; assumption. }
    split; [|split; [|split; [|split]]].
    + destruct (Hfixed [] eq_refl ltac:(cbn [length]; lia)) as [Ey Ex].
      cbn [app] in Ey, Ex. rewrite Ey, Ex. apply Hrun; reflexivity.
    + destruct (Hfixed [53] eq_refl ltac:(cbn [length]; lia)) as [Ey Ex].
      cbn [app] in Ey, Ex. rewrite Ey, Ex. apply Hrun; reflexivity.
    + destruct (Hfixed [59; 53] eq_refl ltac:(cbn [length]; lia)) as [Ey Ex].
      cbn [app] in Ey, Ex. rewrite Ey, Ex. apply Hrun; reflexivity.
    + destruct (Hfixed [53; 59; 59; 55] eq_refl ltac:(cbn [length]; lia)) as [Ey Ex].
      cbn [app] in Ey, Ex. rewrite Ey, Ex. apply Hrun; reflexivity.
    + intros row Hrow. cbv zeta.
      pose proof (digits_not_letters row Hrow) as Hd.
      pose proof (digits_length row) as Hl.
      destruct (parse_number row Hrow) as [Pc Pp].
      destruct (runCommand_row_only fin (parseBytes (Host.digits row)) t row
                  Hfin Hrow Pc Pp) as [Ry Rx].
      destruct (feed_csi_cursor t Hin Hlen (Host.digits row) fin Hd ltac:(lia) Hlet)
        as [Gy Gx].
      destruct (feed_csi_cursor t Hin Hlen (59 :: Host.digits row) fin
                  ltac:(constructor; [reflexivity|exact Hd])
                  ltac:(cbn [length]; lia) Hlet) as [Ly Lx].
      destruct (feed_csi_cursor t Hin Hlen (Host.digits row ++ [59]) fin
                  ltac:(apply Forall_app; split;
                        [exact Hd|constructor; [reflexivity|constructor]])
                  ltac:(rewrite length_app; cbn [length]; lia) Hlet) as [Ty Tx].
      rewrite Gy, Gx, Ly, Lx, Ty, Tx.
      rewrite parseBytes_leading_separator, parseBytes_trailing_separator,
        runCommand_recorded.
      rewrite Ry, Rx. repeat split; reflexivity.
  - intros body fin Hbody Hroom Hfin.
    assert (Hsep : Forall (fun b => is_letter b = false) (59 :: body))
      by (constructor; [reflexivity|exact Hbody]).
    assert (Hend : Forall (fun b => is_letter b = false) (body ++ [59]))
      by (apply Forall_app; split; [exact Hbody|constructor; [reflexivity|constructor]]).
    destruct (feed_csi_sequence t Hin Hlen (59 :: body) fin Hsep
                ltac:(cbn [length]; lia) Hfin) as [b1 E1].
    destruct (feed_csi_sequence t Hin Hlen body fin Hbody ltac:(lia) Hfin) as [b2 E2].
    destruct (feed_csi_sequence t Hin Hlen (body ++ [59]) fin Hend
                ltac:(rewrite length_app; cbn [length]; lia) Hfin) as [b3 E3].
    cbn [app] in E1. rewrite E1, E2, E3.
    rewrite parseBytes_leading_separator, parseBytes_trailing_separator,
      runCommand_recorded.
    split; apply same_display_set_esc.
  - intros pre post fin Hpre Hpost Hroom Hfin.
    assert (H1 : Forall (fun b => is_letter b = false) (pre ++ 59 :: post))
      by (apply Forall_app; split; [exact Hpre|constructor; [reflexivity|exact Hpost]]).
    assert (H2 : Forall (fun b => is_letter b = false) (pre ++ 59 :: 59 :: post))
      by (apply Forall_app; split;
          [exact Hpre|constructor; [reflexivity|constructor; [reflexivity|exact Hpost]]]).
    destruct (feed_csi_sequence t Hin Hlen (pre ++ 59 :: 59 :: post) fin H2
                ltac:(rewrite length_app; cbn [length]; lia) Hfin) as [b1 E1].
    destruct (feed_csi_sequence t Hin Hlen (pre ++ 59 :: post) fin H1
                ltac:(rewrite length_app; cbn [length]; lia) Hfin) as [b2 E2].
    rewrite E1, E2, parseBytes_double_separator. apply same_display_set_esc.
Qed.

(** On a fresh terminal moved to row 3, column 7. *)
Lemma csi_missing_parameters_witness :
  let t := feed [0x1B; 91; 52; 59; 56; 72] (terminalInit Terminal.power_on) in
  inEscSequence t = false /\ length (escBuffer t) = 32%nat /\ cursor_in_buffer t /\
  cursorY (feed [0x1B; 91; 65] t) = Z.max 0 (cursorY t - 1) /\
  cursorY (feed [0x1B; 91; 59; 53; 72] t) = 4 /\
  cursorX (feed [0x1B; 91; 53; 59; 59; 55; 72] t) = 6.
Proof.
  intros t.
  assert (Hin : inEscSequence t = false) by (vm_compute; reflexivity).
  assert (Hlen : length (escBuffer t) = 32%nat) by (vm_compute; reflexivity).
  assert (Hcur : cursor_in_buffer t)
    by (vm_compute; repeat split; (discriminate || reflexivity)).
  destruct (csi_missing_parameters t Hin Hlen Hcur) as ((HA & _) & Hpos & _).
  split; [exact Hin|]. split; [exact Hlen|]. split; [exact Hcur|].
  split; [exact HA|].
  destruct (Hpos 72 (or_introl eq_refl)) as (_ & _ & (H5 & _) & (_ & H7) & _).
  split; [exact H5|exact H7].
Defined.

(** X9: the 'm' sequence touches nothing but the two colours.  Without
    parameters, or with a first parameter 0 (also when others follow it, as
    in ESC [ 0 ; 31 m), both colours go back to green on black.  Otherwise
    the background stays and only the foreground may change; a single
    parameter 30..37 selects black, red, green, yellow, blue, magenta, cyan,
    white, and any other single value below 100 changes nothing. *)
Theorem select_colour (t : Terminal) :
  inEscSequence t = false -> length (escBuffer t) = 32%nat ->
  (forall body,
     Forall (fun b => is_letter b = false) body -> (length body <= 29)%nat ->
     let ps := parseBytes body in
     let t' := feed (0x1B :: 91 :: body ++ [109]) t in
     (paramCount ps = 0 \/ param ps 0 = 0 ->
      same_display t' (set_bgColor TFT_BLACK (set_fgColor TFT_GREEN t))) /\
     (paramCount ps <> 0 -> param ps 0 <> 0 ->
      same_display t' (set_fgColor (fgColor t') t))) /\
  (forall n, 30 <= n <= 37 ->
     [TFT_BLACK; TFT_RED; TFT_GREEN; TFT_YELLOW; TFT_BLUE; TFT_MAGENTA; TFT_CYAN;
      TFT_WHITE] !! Z.to_nat (n - 30) = Some (fgColor (feed (Host.colour n) t))) /\
  (forall n, 1 <= n <= 99 -> ~ 30 <= n <= 37 ->
     same_display (feed (Host.colour n) t) t).
Proof.
  intros Hg Hb.
  assert (single : forall n, 1 <= n <= 99 ->
            exists buf, feed (Host.colour n) t = set_esc buf 0 false (applyColor t n)).
  { intros n Hn. unfold Host.colour.
    destruct (feed_csi_sequence t Hg Hb (Host.digits n) 109) as [buf ->];
      [apply digits_not_letters; lia
      |pose proof (digits_length n); lia|reflexivity|].
    rewrite runCommand_colour.
    destruct (parse_number n) as [P0 P1]; [lia|]. rewrite P0, P1.
    destruct (Z.eqb_spec n 0); [lia|]. cbn [Z.eqb Pos.eqb orb].
    change (seqZ 0 1) with [0]. cbn [fold_left]. rewrite P1.
    exists buf. reflexivity. }
  split; [|split].
  - intros body Hbody Hroom ps t'. subst ps t'.
    destruct (feed_csi_sequence t Hg Hb body 109 Hbody Hroom eq_refl) as [buf ->].
    rewrite runCommand_colour. split.
    + intros H.
      assert (E : (paramCount (parseBytes body) =? 0)
                  || (param (parseBytes body) 0 =? 0) = true).
      { apply orb_true_iff. destruct H as [H | H]; rewrite H; [left|right]; reflexivity. }
      rewrite E. unfold same_display. reflexivity.
    + intros H1 H2.
      destruct (Z.eqb_spec (paramCount (parseBytes body)) 0); [contradiction|].
      destruct (Z.eqb_spec (param (parseBytes body) 0) 0); [contradiction|].
      cbn [orb].
      destruct (fold_applyColor_foreground (parseBytes body)
                  (seqZ 0 (paramCount (parseBytes body))) t) as [c ->].
      unfold same_display. reflexivity.
  - intros n Hn. destruct (single n) as [buf ->]; [lia|].
    assert (C : n = 30 \/ n = 31 \/ n = 32 \/ n = 33 \/ n = 34 \/ n = 35 \/ n = 36 \/ n = 37)
      by lia.
    repeat (destruct C as [-> | C]; [reflexivity|]). subst n. reflexivity.
  - intros n Hn Hout. destruct (single n Hn) as [buf ->].
    unfold applyColor.
    assert (E : (n >=? 30) && (n <=? 37) = false).
    { rewrite Z.geb_leb. destruct (Z.leb_spec 30 n); [|reflexivity].
      destruct (Z.leb_spec n 37); [lia|reflexivity]. }
    rewrite E. unfold same_display. rewrite set_esc_set_esc. reflexivity.
Qed.

Lemma select_colour_witness :
  let t := feed (Host.colour 33) (terminalInit Terminal.power_on) in
  fgColor t = TFT_YELLOW /\
  fgColor (feed (Host.colour 31) t) = TFT_RED /\
  same_display (feed (Host.colour 44) t) t /\
  same_display (feed (0x1B :: 91 :: [48; 59; 51; 49] ++ [109]) t)
               (set_bgColor TFT_BLACK (set_fgColor TFT_GREEN t)).
Proof.
  intros t.
  assert (H1 : inEscSequence t = false) by (vm_compute; reflexivity).
  assert (H2 : length (escBuffer t) = 32%nat) by (vm_compute; reflexivity).
  destruct (select_colour t H1 H2) as (A & B & C).
  split; [vm_compute; reflexivity|]. split; [|split].
  - symmetry. apply (inj Some). exact (B 31 ltac:(lia)).
  - apply C; lia.
  - destruct (A [48; 59; 51; 49]) as [A1 _]; [repeat constructor|cbn; lia|].
    apply A1. right. vm_compute. reflexivity.
Defined.

(** ** The viewport *)

Lemma drawLoop_rows t first ys :
  Forall (fun e => match e with (y, _, _) => y ∈ ys end) (drawLoop t first ys).
Proof.
  induction ys as [|y ys IH]; cbn [drawLoop]; [constructor|].
  assert (S : Forall (fun e : Z * Z * Z => match e with (y0, _, _) => y0 ∈ y :: ys end)
                     (drawLoop t first ys)).
  { eapply Forall_impl; [exact IH|]. intros [[y0 ?] ?] H. right. exact H. }
  destruct (Int.add first y >=? totalLines t); [constructor|].
  destruct (totalLines t <=? TERMINAL_BUFFER_ROWS).
  - constructor; [left|exact S].
  - destruct (Int.add first y <? Int.sub (totalLines t) TERMINAL_BUFFER_ROWS);
      [exact S|]. constructor; [left|exact S].
Qed.

Lemma drawLoop_early t first ys :
  0 <= totalLines t <= TERMINAL_BUFFER_ROWS -> 0 <= first <= totalLines t ->
  Forall (fun y => 0 <= y <= TERMINAL_ROWS) ys ->
  Forall (fun e => match e with
                   | (y, lineNumber, bufferLine) =>
                       0 <= lineNumber < totalLines t /\ bufferLine = lineNumber
                   end)
         (drawLoop t first ys).
Proof.
  intros Htl Hfirst Hys.
  unfold TERMINAL_BUFFER_ROWS, TERMINAL_ROWS in *.
  induction Hys as [|y ys Hy Hys IH]; cbn [drawLoop]; [constructor|].
  unfold TERMINAL_BUFFER_ROWS. int_simpl.
  rewrite Z.geb_leb.
  destruct (Z.leb_spec (totalLines t) (first + y)); [constructor|].
  destruct (Z.leb_spec (totalLines t) 100); [|lia].
  constructor; [|exact IH]. split; [lia|reflexivity].
Qed.

(** X10: a redraw never reads outside screenBuffer.  Whatever the scroll
    offset and the state of the keyboard, every line it paints exists
    (0 <= line < totalLines), is read from buffer row [line mod 100], which
    lies inside the 100 rows, and goes to a screen row between 0 and the
    number of visible rows. *)
Theorem terminalRedraw_reads_in_buffer (t : Terminal) :
  0 <= totalLines t <= Int.int_max - TERMINAL_ROWS ->
  0 <= scrollOffset t <= totalLines t ->
  0 <= cursorY t < TERMINAL_BUFFER_ROWS ->
  Forall (fun e => match e with
                   | (y, lineNumber, bufferLine) =>
                       0 <= y <= visibleRows t /\
                       0 <= lineNumber < totalLines t /\
                       0 <= bufferLine < TERMINAL_BUFFER_ROWS /\
                       bufferLine = lineNumber mod TERMINAL_BUFFER_ROWS
                   end)
         (terminalRedraw t).
Proof.
  intros Htl Hso Hcy.
  pose proof (visibleRows_range t) as Hv.
  assert (Hf : 0 <= firstLineToShow t <= totalLines t).
  { apply firstLineToShow_range; [|exact Hso].
    unfold TERMINAL_ROWS, Int.int_max in *. lia. }
  assert (Hrows : Forall (fun e : Z * Z * Z =>
                            match e with (y, _, _) => 0 <= y <= visibleRows t end)
                         (terminalRedraw t)).
  { unfold terminalRedraw. apply Forall_app. split.
    - eapply Forall_impl; [apply drawLoop_rows|].
      intros [[y ?] ?] Hy. apply elem_of_seqZ in Hy. lia.
    - unfold cursorLinePaint.
      destruct (keyboardVisible t); [|constructor]. cbv zeta.
      match goal with |- context [if ?c then _ else _] => destruct c end; [|constructor].
      match goal with |- context [if ?c then _ else []] => destruct c end; [|constructor].
      constructor; [lia|constructor]. }
  assert (Hlines : Forall (fun e : Z * Z * Z =>
                             match e with
                             | (_, lineNumber, bufferLine) =>
                                 0 <= lineNumber < totalLines t /\
                                 bufferLine = lineNumber mod TERMINAL_BUFFER_ROWS
                             end)
                          (terminalRedraw t)).
  { destruct (Z.le_gt_cases (totalLines t) TERMINAL_BUFFER_ROWS) as [Hearly | Hlate].
    - unfold terminalRedraw. apply Forall_app. split.
      + eapply Forall_impl.
        * apply drawLoop_early; [lia|exact Hf|].
          apply Forall_forall. intros y Hy. apply elem_of_seqZ in Hy. lia.
        * intros [[y ln] bl] [H1 H2]. split; [exact H1|].
          unfold TERMINAL_BUFFER_ROWS in *. rewrite Z.mod_small by lia. exact H2.
      + unfold cursorLinePaint, cursorLineNumber.
        destruct (keyboardVisible t); [|constructor]. cbv zeta.
        destruct (Z.leb_spec (totalLines t) TERMINAL_BUFFER_ROWS); [|lia].
        match goal with |- context [if ?c then _ else []] => destruct c eqn:E end;
          [|constructor].
        match goal with |- context [if ?c then _ else []] => destruct c end; [|constructor].
        apply andb_prop in E as [_ E]. apply Z.leb_le in E.
        unfold TERMINAL_ROWS, Int.int_max, TERMINAL_BUFFER_ROWS in *.
        rewrite int_sub_small in E by int_fits.
        constructor; [|constructor]. split; [lia|].
        rewrite Z.mod_small by lia. reflexivity.
    - eapply Forall_impl.
      + apply terminalRedraw_wrapped; [|exact Hso|exact Hcy].
        unfold TERMINAL_BUFFER_ROWS in *. lia.
      + intros [[y ln] bl] [H1 H2]. unfold TERMINAL_BUFFER_ROWS in *.
        split; [lia|exact H2]. }
  pose proof (List.Forall_and Hrows Hlines) as H.
  eapply Forall_impl; [exact H|].
  intros [[y ln] bl] [H1 [H2 H3]].
  repeat match goal with |- _ /\ _ => split end; try lia; try exact H3.
  all: rewrite H3; pose proof (Z.mod_pos_bound ln TERMINAL_BUFFER_ROWS);
    unfold TERMINAL_BUFFER_ROWS in *; lia.
Qed.

Lemma terminalRedraw_reads_in_buffer_witness :
  let t := terminalScroll 40 (toggleKeyboard
             (feed (write_lines 130) (terminalInit Terminal.power_on))) in
  (0 <= totalLines t <= Int.int_max - TERMINAL_ROWS /\
   0 <= scrollOffset t <= totalLines t /\
   0 <= cursorY t < TERMINAL_BUFFER_ROWS) /\
  terminalRedraw t <> [] /\
  Forall (fun e => match e with
                   | (y, lineNumber, bufferLine) =>
                       0 <= bufferLine < TERMINAL_BUFFER_ROWS
                   end)
         (terminalRedraw t).
Proof.
  intros t.
  assert (H1 : 0 <= totalLines t <= Int.int_max - TERMINAL_ROWS)
    by (vm_compute; split; discriminate).
  assert (H2 : 0 <= scrollOffset t <= totalLines t)
    by (vm_compute; split; discriminate).
  assert (H3 : 0 <= cursorY t < TERMINAL_BUFFER_ROWS)
    by (vm_compute; split; [discriminate|reflexivity]).
  split; [exact (conj H1 (conj H2 H3))|].
  split; [vm_compute; discriminate|].
  eapply Forall_impl; [exact (terminalRedraw_reads_in_buffer t H1 H2 H3)|].
  intros [[y ln] bl] (_ & _ & H & _). exact H.
Defined.

Lemma drawLoop_paints t first y (n : nat) : forall a,
  0 <= a -> a <= y < a + Z.of_nat n -> 0 <= first ->
  first + y < totalLines t -> totalLines t <= Int.int_max ->
  (totalLines t <= TERMINAL_BUFFER_ROWS \/
   totalLines t - TERMINAL_BUFFER_ROWS <= first + y) ->
  exists bufferLine, In (y, first + y, bufferLine) (drawLoop t first (seqZ a (Z.of_nat n))).
Proof.
  unfold TERMINAL_BUFFER_ROWS, Int.int_max.
  induction n as [|n IH]; intros a Ha Hy Hfirst Hline Htl Hold; [lia|].
  rewrite seqZ_cons_len. cbn [drawLoop]. unfold TERMINAL_BUFFER_ROWS.
  int_simpl. rewrite Z.geb_leb.
  destruct (Z.leb_spec (totalLines t) (first + a)); [lia|].
  destruct (Z.eq_dec a y) as [-> | Hne].
  - destruct (Z.leb_spec (totalLines t) 100).
    + eexists. left. reflexivity.
    + destruct (Z.ltb_spec (first + y) (totalLines t - 100)); [lia|].
      eexists. left. reflexivity.
  - destruct (IH (a + 1)) as [bl Hin]; try lia.
    exists bl.
    destruct (Z.leb_spec (totalLines t) 100); [right; exact Hin|].
    destruct (Z.ltb_spec (first + a) (totalLines t - 100)); [exact Hin|right; exact Hin].
Qed.

Lemma visibleRows_keyboard_shown t : keyboardVisible t = true -> visibleRows t = 5.
Proof. intros H. unfold visibleRows. rewrite H. reflexivity. Qed.

(** A line between the first line shown and the last visible row is
    painted; with the keyboard shown, so is the cursor line just below. *)
Lemma painted_in_view t line :
  0 <= totalLines t <= Int.int_max - TERMINAL_BUFFER_ROWS ->
  0 <= scrollOffset t <= totalLines t ->
  0 <= line < totalLines t ->
  (totalLines t <= TERMINAL_BUFFER_ROWS \/ totalLines t - TERMINAL_BUFFER_ROWS <= line) ->
  firstLineToShow t <= line < firstLineToShow t + visibleRows t \/
  (keyboardVisible t = true /\ line = cursorLineNumber t /\
   line = firstLineToShow t + visibleRows t) ->
  View.painted t line.
Proof.
  intros Htl Hso Hline Hold Hview.
  pose proof (visibleRows_range t) as Hv.
  assert (Hf : 0 <= firstLineToShow t <= totalLines t).
  { apply firstLineToShow_range; [|exact Hso].
    unfold TERMINAL_BUFFER_ROWS, Int.int_max in *. lia. }
  unfold View.painted, terminalRedraw.
  destruct Hview as [Hin | (Hk & Hc & Hlast)].
  - assert (E : firstLineToShow t + (line - firstLineToShow t) = line) by lia.
    assert (H1 : 0 <= line - firstLineToShow t < 0 + Z.of_nat (Z.to_nat (visibleRows t)))
      by lia.
    assert (H2 : firstLineToShow t + (line - firstLineToShow t) < totalLines t) by lia.
    assert (H3 : totalLines t <= Int.int_max)
      by (unfold Int.int_max, TERMINAL_BUFFER_ROWS in *; lia).
    assert (H4 : totalLines t <= TERMINAL_BUFFER_ROWS \/
                 totalLines t - TERMINAL_BUFFER_ROWS
                 <= firstLineToShow t + (line - firstLineToShow t))
      by (rewrite E; exact Hold).
    destruct (drawLoop_paints t (firstLineToShow t) (line - firstLineToShow t)
                (Z.to_nat (visibleRows t)) 0 (Z.le_refl 0) H1 (proj1 Hf) H2 H3 H4)
      as [bl Hbl].
    rewrite Z2Nat.id, E in Hbl by lia.
    exists (line - firstLineToShow t), bl. apply in_or_app. left. exact Hbl.
  - unfold cursorLinePaint. rewrite Hk. cbv zeta.
    rewrite (visibleRows_keyboard_shown t Hk) in *.
    rewrite <- Hc.
    unfold TERMINAL_ROWS, Int.int_max, TERMINAL_BUFFER_ROWS in *.
    rewrite (int_add_small (firstLineToShow t) 5) by int_fits.
    rewrite (int_sub_small (totalLines t) 1) by int_fits.
    destruct (Z.eqb_spec line (firstLineToShow t + 5)); [|lia].
    destruct (Z.leb_spec line (totalLines t - 1)); [|lia].
    cbn [andb].
    change (Int.add (Int.add TERMINAL_START_Y (Int.mul 5 8)) 8 <=? KEYBOARD_Y_POS)
      with true. cbv iota.
    eexists _, _. apply in_or_app. right. left. reflexivity.
Qed.

Lemma cursorLineNumber_frame t u :
  totalLines u = totalLines t -> cursorY u = cursorY t ->
  cursorLineNumber u = cursorLineNumber t.
Proof. intros H1 H2. unfold cursorLineNumber. rewrite H1, H2. reflexivity. Qed.

Lemma firstLineToShow_frame t u :
  totalLines u = totalLines t -> keyboardVisible u = keyboardVisible t ->
  firstLineToShow u =
  (let f := Int.sub (Int.sub (totalLines t) (visibleRows t)) (scrollOffset u) in
   if f <? 0 then 0 else f).
Proof.
  intros H1 H2. unfold firstLineToShow, visibleRows. rewrite H1, H2. reflexivity.
Qed.

Lemma clamp_low x : (if x <? 0 then 0 else x) = Z.max 0 x.
Proof. destruct (Z.ltb_spec x 0); lia. Qed.

Lemma clamp_high a b : (if a <? b then a else b) = Z.min a b.
Proof. destruct (Z.ltb_spec a b); lia. Qed.

Lemma ensureCursorVisible_offset t :
  0 <= totalLines t <= Int.int_max - TERMINAL_BUFFER_ROWS ->
  0 <= cursorLineNumber t <= totalLines t ->
  scrollOffset (ensureCursorVisible t) =
  if keyboardVisible t
  then Z.min (Z.max 0 (totalLines t - 5))
             (Z.max 0 (totalLines t - 5 - Z.max 0 (cursorLineNumber t - 5)))
  else 0.
Proof.
  intros Htl Hcl. unfold ensureCursorVisible.
  unfold Int.int_max, TERMINAL_BUFFER_ROWS in *.
  destruct (keyboardVisible t); cbn [negb].
  - change (Z.quot (KEYBOARD_Y_POS - TERMINAL_START_Y) 8) with 7.
    change (7 >? 5) with true. cbv iota zeta.
    set (cl := cursorLineNumber t) in *. fields.
    rewrite (int_sub_small cl 5) by int_fits.
    rewrite (int_sub_small (totalLines t) 5) by int_fits.
    rewrite (clamp_low (cl - 5)).
    rewrite (int_sub_small (totalLines t - 5) (Z.max 0 (cl - 5))) by int_fits.
    rewrite !Z.gtb_ltb, !clamp_low, clamp_high. reflexivity.
  - destruct (Z.eqb_spec (scrollOffset t) 0) as [E | E]; cbn [negb]; fields;
      [exact E|reflexivity].
Qed.

(** X11: ensureCursorVisible scrolls to where the next redraw paints the
    cursor's line.  With the keyboard shown this always holds (the line is
    among the five visible rows or on the cursor row just below them); with
    the keyboard hidden the view goes to the bottom, which shows the cursor
    whenever it is within the last 27 lines.  Buffer, cursor and line count
    are not changed. *)
Theorem ensureCursorVisible_shows_cursor (t : Terminal) :
  0 <= cursorY t < TERMINAL_BUFFER_ROWS ->
  totalLines t <= Int.int_max - TERMINAL_BUFFER_ROWS ->
  0 <= cursorLineNumber t < totalLines t ->
  keyboardVisible t = true \/ totalLines t - TERMINAL_ROWS <= cursorLineNumber t ->
  let t' := ensureCursorVisible t in
  View.painted t' (cursorLineNumber t') /\
  cursorLineNumber t' = cursorLineNumber t /\
  (keyboardVisible t = false -> scrollOffset t' = 0) /\
  screenBuffer t' = screenBuffer t /\ totalLines t' = totalLines t.
Proof.
  intros Hcy Htl Hcl Hnear t'. subst t'.
  destruct (ensureCursorVisible_frame t) as (F1 & _ & F3 & F4 & F5 & _).
  assert (Hso := ensureCursorVisible_offset t ltac:(lia) ltac:(lia)).
  assert (Ecl : cursorLineNumber (ensureCursorVisible t) = cursorLineNumber t)
    by (apply cursorLineNumber_frame; assumption).
  assert (Efirst := firstLineToShow_frame t (ensureCursorVisible t) F4 F5).
  assert (Evis : visibleRows (ensureCursorVisible t) = visibleRows t)
    by (unfold visibleRows; rewrite F5; reflexivity).
  assert (Hold : totalLines t <= TERMINAL_BUFFER_ROWS \/
                 totalLines t - TERMINAL_BUFFER_ROWS <= cursorLineNumber t).
  { destruct (Z.le_gt_cases (totalLines t) TERMINAL_BUFFER_ROWS) as [H | H];
      [left; exact H|right].
    apply cursorLineNumber_wrapped; [|exact Hcy].
    unfold Int.int_max, TERMINAL_BUFFER_ROWS in *. lia. }
  split; [|split; [exact Ecl|split; [|split; assumption]]].
  - rewrite Ecl. set (cl := cursorLineNumber t) in *.
    unfold Int.int_max, TERMINAL_BUFFER_ROWS, TERMINAL_ROWS in *.
    apply painted_in_view; rewrite ?F4, ?F5, ?Ecl, ?Evis;
      unfold Int.int_max, TERMINAL_BUFFER_ROWS; try lia.
    + rewrite Hso. destruct (keyboardVisible t); lia.
    + rewrite Efirst. cbv zeta. rewrite Hso.
      destruct (keyboardVisible t) eqn:Hk.
      * rewrite (visibleRows_keyboard_shown t Hk).
        rewrite (int_sub_small (totalLines t) 5) by int_fits.
        rewrite int_sub_small by int_fits.
        rewrite clamp_low. lia.
      * rewrite (visibleRows_keyboard_hidden t Hk). unfold TERMINAL_ROWS.
        rewrite (int_sub_small (totalLines t) 27) by int_fits.
        rewrite int_sub_small by int_fits.
        destruct Hnear as [Hnear | Hnear]; [discriminate|].
        unfold TERMINAL_ROWS in Hnear.
        rewrite clamp_low. left. lia.
  - intros Hk. rewrite Hso, Hk. reflexivity.
Qed.

Lemma ensureCursorVisible_shows_cursor_witness :
  let t := terminalScroll 20 (toggleKeyboard
             (feed (write_lines 50) (terminalInit Terminal.power_on))) in
  keyboardVisible t = true /\ cursorLineNumber t = 50 /\
  ~ View.painted t 50 /\
  View.painted (ensureCursorVisible t) 50.
Proof.
  intros t.
  assert (H1 : 0 <= cursorY t < TERMINAL_BUFFER_ROWS)
    by (vm_compute; split; [discriminate|reflexivity]).
  assert (H2 : totalLines t <= Int.int_max - TERMINAL_BUFFER_ROWS)
    by (vm_compute; discriminate).
  assert (H3 : 0 <= cursorLineNumber t < totalLines t)
    by (vm_compute; split; [discriminate|reflexivity]).
  assert (H4 : keyboardVisible t = true) by (vm_compute; reflexivity).
  destruct (ensureCursorVisible_shows_cursor t H1 H2 H3 (or_introl H4)) as (P & E & _).
  split; [exact H4|]. split; [vm_compute; reflexivity|]. split.
  - intros (y & bl & Hin). vm_compute in Hin.
    repeat (destruct Hin as [Hin | Hin]; [discriminate Hin|]). exact Hin.
  - rewrite E in P. exact P.
Defined.

Lemma drawLoop_from_first t first ys :
  0 <= first <= Int.int_max - TERMINAL_ROWS ->
  Forall (fun y => 0 <= y <= TERMINAL_ROWS) ys ->
  Forall (fun e => match e with (_, lineNumber, _) => first <= lineNumber end)
         (drawLoop t first ys).
Proof.
  intros Hfirst Hys. unfold TERMINAL_ROWS, Int.int_max in *.
  induction Hys as [|y ys Hy Hys IH]; cbn [drawLoop]; [constructor|].
  int_simpl.
  destruct (first + y >=? totalLines t); [constructor|].
  destruct (totalLines t <=? TERMINAL_BUFFER_ROWS).
  - constructor; [lia|exact IH].
  - destruct (first + y <? Int.sub (totalLines t) TERMINAL_BUFFER_ROWS); [exact IH|].
    constructor; [lia|exact IH].
Qed.

Lemma terminalRedraw_from_first t :
  0 <= totalLines t <= Int.int_max - TERMINAL_ROWS ->
  0 <= scrollOffset t <= totalLines t ->
  Forall (fun e => match e with (_, lineNumber, _) => firstLineToShow t <= lineNumber end)
         (terminalRedraw t).
Proof.
  intros Htl Hso.
  pose proof (visibleRows_range t) as Hv.
  assert (Hf : 0 <= firstLineToShow t <= totalLines t).
  { apply firstLineToShow_range; [|exact Hso].
    unfold TERMINAL_ROWS, Int.int_max in *. lia. }
  unfold terminalRedraw. apply Forall_app. split.
  - apply drawLoop_from_first; [lia|].
    apply Forall_forall. intros y Hy. apply elem_of_seqZ in Hy. lia.
  - unfold cursorLinePaint.
    destruct (keyboardVisible t); [|constructor]. cbv zeta.
    match goal with |- context [if ?c then _ else []] => destruct c eqn:E end;
      [|constructor].
    match goal with |- context [if ?c then _ else []] => destruct c end; [|constructor].
    apply andb_prop in E as [E _]. apply Z.eqb_eq in E.
    unfold TERMINAL_ROWS, Int.int_max in *.
    rewrite int_add_small in E by int_fits.
    constructor; [lia|constructor].
Qed.

Lemma terminalScrollForKeyboard_offset t :
  0 <= totalLines t <= Int.int_max - TERMINAL_BUFFER_ROWS ->
  0 <= cursorLineNumber t <= totalLines t ->
  scrollOffset (terminalScrollForKeyboard true t) =
  Z.min (Z.max 0 (totalLines t - 7))
        (Z.max 0 (totalLines t - 7 - Z.max 0 (cursorLineNumber t - 2))).
Proof.
  intros Htl Hcl. unfold terminalScrollForKeyboard.
  unfold Int.int_max, TERMINAL_BUFFER_ROWS in *.
  change (Z.quot (KEYBOARD_Y_POS - TERMINAL_START_Y) 8) with 7. cbv zeta.
  set (cl := cursorLineNumber t) in *. fields.
  rewrite (int_sub_small cl 2) by int_fits.
  rewrite (int_sub_small (totalLines t) 7) by int_fits.
  rewrite (clamp_low (cl - 2)).
  rewrite (int_sub_small (totalLines t - 7) (Z.max 0 (cl - 2))) by int_fits.
  set (so := totalLines t - 7 - Z.max 0 (cl - 2)).
  destruct (Z.ltb_spec so 0); fields;
    rewrite (int_sub_small (totalLines t) 7) by int_fits;
    rewrite (clamp_low (totalLines t - 7)), Z.gtb_ltb.
  - destruct (Z.ltb_spec (Z.max 0 (totalLines t - 7)) 0); fields; lia.
  - destruct (Z.ltb_spec (Z.max 0 (totalLines t - 7)) so); fields; lia.
Qed.

Lemma terminalScrollForKeyboard_frame v t :
  let t' := terminalScrollForKeyboard v t in
  screenBuffer t' = screenBuffer t /\ cursorX t' = cursorX t /\
  cursorY t' = cursorY t /\ totalLines t' = totalLines t /\
  keyboardVisible t' = keyboardVisible t /\ fault t' = fault t.
Proof.
  unfold terminalScrollForKeyboard. destruct v; cbv zeta; fields.
  - repeat match goal with
           | |- context [if ?c then _ else _] => destruct c; fields
           end; repeat split; reflexivity.
  - repeat split; reflexivity.
Qed.

Lemma drawLoop_below_total t first ys :
  Forall (fun e : Z * Z * Z => match e with (_, lineNumber, _) => lineNumber < totalLines t end)
         (drawLoop t first ys).
Proof.
  induction ys as [|y ys IH]; cbn [drawLoop]; [constructor|].
  cbv zeta.
  destruct (Z.geb_spec (Int.add first y) (totalLines t)); [constructor|].
  destruct (totalLines t <=? TERMINAL_BUFFER_ROWS); [constructor; [lia|exact IH]|].
  destruct (Int.add first y <? Int.sub (totalLines t) TERMINAL_BUFFER_ROWS);
    [exact IH|constructor; [lia|exact IH]].
Qed.

(** A redraw paints counted lines only. *)
Lemma painted_below_total t line :
  Int.int_min < totalLines t <= Int.int_max ->
  View.painted t line -> line < totalLines t.
Proof.
  intros Htl (y & bl & Hin). unfold terminalRedraw in Hin.
  apply in_app_or in Hin. destruct Hin as [Hin | Hin].
  - pose proof (drawLoop_below_total t (firstLineToShow t) (seqZ 0 (visibleRows t))) as H.
    rewrite Forall_forall in H. apply list_elem_of_In, H in Hin. exact Hin.
  - unfold cursorLinePaint in Hin.
    destruct (keyboardVisible t); [|destruct Hin]. cbv zeta in Hin.
    destruct (cursorLineNumber t =? Int.add (firstLineToShow t) (visibleRows t));
      [|destruct Hin].
    destruct (Z.leb_spec (cursorLineNumber t) (Int.sub (totalLines t) 1)) as [Hle|];
      cbn [andb] in Hin; [|destruct Hin].
    rewrite int_sub_small in Hle by (unfold Int.int_min, Int.int_max in *; int_fits).
    match type of Hin with
    | In _ (if ?c then _ else _) => destruct c
    end; [|destruct Hin].
    destruct Hin as [Hin | []]. injection Hin as _ <- _. lia.
Qed.

(** X12: showing and hiding the keyboard, in every state with the cursor
    row inside the buffer and 0 <= totalLines <= INT_MAX - 100.  Hiding the
    keyboard puts the view at the bottom.  Showing it leaves five visible
    rows, and the redraw paints the cursor's line exactly when that line is
    counted in totalLines and is either line 2 or later or one of the last
    six counted lines.  So the cursor's line is shown when the cursor is on
    line 2 or later of the counted lines; it is not painted with the cursor
    on line 0 or 1 of seven lines or more (the view starts at line 2), nor
    when the cursor was moved to a row that totalLines does not count, as by
    cursor addressing on a fresh screen. *)
Theorem toggleKeyboard_view (t : Terminal) :
  0 <= cursorY t < TERMINAL_BUFFER_ROWS ->
  0 <= totalLines t <= Int.int_max - TERMINAL_BUFFER_ROWS ->
  let t' := toggleKeyboard t in
  keyboardVisible t' = negb (keyboardVisible t) /\
  screenBuffer t' = screenBuffer t /\ totalLines t' = totalLines t /\
  cursorLineNumber t' = cursorLineNumber t /\
  (keyboardVisible t = true -> scrollOffset t' = 0) /\
  (keyboardVisible t = false ->
   visibleRows t' = 5 /\
   (View.painted t' (cursorLineNumber t) <->
    cursorLineNumber t < totalLines t /\
    (2 <= cursorLineNumber t \/ totalLines t <= cursorLineNumber t + 5)) /\
   (2 <= cursorLineNumber t < totalLines t ->
    firstLineToShow t' <= cursorLineNumber t < firstLineToShow t' + 5) /\
   (cursorLineNumber t < 2 -> 7 <= totalLines t -> firstLineToShow t' = 2) /\
   (totalLines t <= cursorLineNumber t -> ~ View.painted t' (cursorLineNumber t))).
Proof.
  intros Hcy Htl t'. subst t'. unfold toggleKeyboard. cbv zeta.
  cbn [keyboardVisible set_keyboardVisible].
  set (u := set_keyboardVisible (negb (keyboardVisible t)) t).
  destruct (terminalScrollForKeyboard_frame (negb (keyboardVisible t)) u)
    as (F1 & _ & F3 & F4 & F5 & _).
  assert (Ecl : cursorLineNumber (terminalScrollForKeyboard (negb (keyboardVisible t)) u)
                = cursorLineNumber t)
    by (apply cursorLineNumber_frame; assumption).
  split; [exact F5|]. split; [exact F1|]. split; [exact F4|]. split; [exact Ecl|].
  split.
  - intros Hk. rewrite Hk. reflexivity.
  - intros Hk. revert F1 F3 F4 F5 Ecl. rewrite Hk. cbn [negb].
    set (t' := terminalScrollForKeyboard true u). intros F1 F3 F4 F5 Ecl.
    change (keyboardVisible u) with (negb (keyboardVisible t)) in F5.
    rewrite Hk in F5. cbn [negb] in F5.
    change (totalLines u) with (totalLines t) in F4.
    assert (Hvis : visibleRows t' = 5) by (apply visibleRows_keyboard_shown; exact F5).
    assert (Hcl0 : 0 <= cursorLineNumber t).
    { destruct (Z.le_gt_cases (totalLines t) TERMINAL_BUFFER_ROWS) as [H | H].
      - unfold cursorLineNumber.
        replace (totalLines t <=? TERMINAL_BUFFER_ROWS) with true
          by (symmetry; apply Z.leb_le; exact H). lia.
      - pose proof (cursorLineNumber_wrapped t) as W.
        unfold Int.int_max, TERMINAL_BUFFER_ROWS in *. lia. }
    assert (Hbelow : View.painted t' (cursorLineNumber t) ->
                     cursorLineNumber t < totalLines t).
    { intros Hp. rewrite <- F4. apply painted_below_total; [|exact Hp].
      rewrite F4. unfold Int.int_min, Int.int_max, TERMINAL_BUFFER_ROWS in *. lia. }
    assert (Hcounted : cursorLineNumber t < totalLines t ->
      scrollOffset t' =
        Z.min (Z.max 0 (totalLines t - 7))
              (Z.max 0 (totalLines t - 7 - Z.max 0 (cursorLineNumber t - 2))) /\
      firstLineToShow t' = Z.max 0 (totalLines t - 5 - scrollOffset t')).
    { intros Hlt.
      assert (Hso : scrollOffset t' =
                    Z.min (Z.max 0 (totalLines t - 7))
                          (Z.max 0 (totalLines t - 7 - Z.max 0 (cursorLineNumber t - 2))))
        by (apply (terminalScrollForKeyboard_offset u);
            change (totalLines u) with (totalLines t);
            change (cursorLineNumber u) with (cursorLineNumber t); lia).
      split; [exact Hso|].
      unfold firstLineToShow. rewrite Hvis, F4.
      unfold Int.int_max, TERMINAL_BUFFER_ROWS in *.
      rewrite (int_sub_small (totalLines t) 5) by int_fits.
      rewrite int_sub_small by (rewrite Hso; int_fits).
      apply clamp_low. }
    assert (Hshown : cursorLineNumber t < totalLines t ->
              firstLineToShow t' <= cursorLineNumber t < firstLineToShow t' + 5 ->
              View.painted t' (cursorLineNumber t)).
    { intros Hlt Hin. destruct (Hcounted Hlt) as [Hso _].
      apply painted_in_view; rewrite ?F4, ?Hvis.
      - unfold Int.int_max, TERMINAL_BUFFER_ROWS in *. lia.
      - rewrite Hso. lia.
      - lia.
      - destruct (Z.le_gt_cases (totalLines t) TERMINAL_BUFFER_ROWS) as [H | H];
          [left; exact H|right].
        apply cursorLineNumber_wrapped; [|exact Hcy].
        unfold Int.int_max, TERMINAL_BUFFER_ROWS in *. lia.
      - left. exact Hin. }
    assert (Hfrom : cursorLineNumber t < totalLines t ->
              View.painted t' (cursorLineNumber t) ->
              firstLineToShow t' <= cursorLineNumber t).
    { intros Hlt (y & bl & Hin). destruct (Hcounted Hlt) as [Hso _].
      assert (R : Forall (fun e : Z * Z * Z =>
                            match e with (_, lineNumber, _) =>
                              firstLineToShow t' <= lineNumber end)
                         (terminalRedraw t')).
      { apply terminalRedraw_from_first; rewrite ?F4.
        - unfold Int.int_max, TERMINAL_BUFFER_ROWS, TERMINAL_ROWS in *. lia.
        - rewrite Hso. lia. }
      rewrite Forall_forall in R. apply list_elem_of_In, R in Hin. exact Hin. }
    split; [exact Hvis|]. split; [|split; [|split]].
    + split.
      * intros Hp. pose proof (Hbelow Hp) as Hlt. split; [exact Hlt|].
        pose proof (Hfrom Hlt Hp) as Hge.
        destruct (Hcounted Hlt) as [Hso Hfirst]. rewrite Hfirst, Hso in Hge. lia.
      * intros [Hlt Hcase]. apply (Hshown Hlt).
        destruct (Hcounted Hlt) as [Hso Hfirst]. rewrite Hfirst, Hso. lia.
    + intros H2. destruct (Hcounted ltac:(lia)) as [Hso Hfirst].
      rewrite Hfirst, Hso. lia.
    + intros Hlow H7. destruct (Hcounted ltac:(lia)) as [Hso Hfirst].
      rewrite Hfirst, Hso. lia.
    + intros Hbeyond Hp. pose proof (Hbelow Hp). lia.
Qed.

Lemma toggleKeyboard_view_witness :
  let t := feed (write_lines 40) (terminalInit Terminal.power_on) in
  let top := feed [0x1B; 91; 72] t in
  let fresh := feed [0x1B; 91; 49; 48; 59; 49; 72] (terminalInit Terminal.power_on) in
  View.painted (toggleKeyboard t) 40 /\
  cursorLineNumber top = 0 /\ ~ View.painted (toggleKeyboard top) 0 /\
  cursorLineNumber fresh = 9 /\ totalLines fresh = 0 /\
  ~ View.painted (toggleKeyboard fresh) 9 /\
  scrollOffset (toggleKeyboard (toggleKeyboard t)) = 0.
Proof.
  intros t top fresh.
  assert (range : forall u, u = t \/ u = top \/ u = fresh \/ u = toggleKeyboard t ->
            0 <= cursorY u < TERMINAL_BUFFER_ROWS /\
            0 <= totalLines u <= Int.int_max - TERMINAL_BUFFER_ROWS).
  { intros u [-> | [-> | [-> | ->]]]; vm_compute; repeat split; discriminate. }
  destruct (range t (or_introl eq_refl)) as (A1 & A2).
  destruct (range top (or_intror (or_introl eq_refl))) as (B1 & B2).
  destruct (range fresh (or_intror (or_intror (or_introl eq_refl)))) as (D1 & D2).
  destruct (range _ (or_intror (or_intror (or_intror eq_refl)))) as (C1 & C2).
  destruct (toggleKeyboard_view t A1 A2) as (_ & _ & _ & _ & _ & A).
  destruct (A eq_refl) as (_ & Ashow & _).
  destruct (toggleKeyboard_view top B1 B2) as (_ & _ & _ & _ & _ & B).
  destruct (B eq_refl) as (_ & Bshow & _).
  destruct (toggleKeyboard_view fresh D1 D2) as (_ & _ & _ & _ & _ & D).
  destruct (D eq_refl) as (_ & _ & _ & _ & Dhide).
  destruct (toggleKeyboard_view (toggleKeyboard t) C1 C2) as (_ & _ & _ & _ & C & _).
  split; [apply Ashow; vm_compute; split; [reflexivity|left; discriminate]|].
  split; [vm_compute; reflexivity|].
  split.
  { intros Hp. apply Bshow in Hp. revert Hp. vm_compute.
    intros [_ [H | H]]; apply H; reflexivity. }
  split; [vm_compute; reflexivity|]. split; [vm_compute; reflexivity|].
  split; [apply Dhide; vm_compute; discriminate|].
  apply C. vm_compute. reflexivity.
Defined.

(** ** The scroll bar *)

Lemma clamp_low_10 x : (if x <? 10 then 10 else x) = Z.max 10 x.
Proof. destruct (Z.ltb_spec x 10); lia. Qed.

Lemma clamp_low_1 x : (if x <? 1 then 1 else x) = Z.max 1 x.
Proof. destruct (Z.ltb_spec x 1); lia. Qed.

(** X13: the thumb of the scroll bar stays on its track.  For a track that
    ends at [maxY] (240, or 80 with the keyboard shown) and a scroll offset
    of at most max(1, totalLines - trackHeight/8), the thumb drawn by
    drawScrollbar is at least 10 pixels high and lies between the top of the
    terminal area and [maxY]; at offset 0 it touches the bottom.  The bound
    on the offset matters: after ensureCursorVisible has scrolled by its own
    limit with the keyboard shown, the thumb is drawn above the track. *)
Theorem scrollbar_thumb_on_track :
  (forall (t : Terminal) (maxY : Z),
     TERMINAL_START_Y + 10 <= maxY <= SCREEN_HEIGHT ->
     0 <= totalLines t <= 1000000 ->
     0 <= scrollOffset t
       <= Z.max 1 (totalLines t - Z.quot (maxY - TERMINAL_START_Y) 8) ->
     match View.drawScrollbar maxY t with
     | Some (thumbY, thumbHeight) =>
         10 <= thumbHeight /\ TERMINAL_START_Y <= thumbY /\
         thumbY + thumbHeight <= maxY /\
         (scrollOffset t = 0 -> thumbY + thumbHeight = maxY)
     | None => totalLines t * 8 <= maxY - TERMINAL_START_Y
     end) /\
  (let t := feed [10] (toggleKeyboard
              (feed ([0x1B; 91; 72]) (feed (replicate 7 10)
                 (terminalInit Terminal.power_on)))) in
   keyboardVisible t = true /\ totalLines t = 8 /\ scrollOffset t = 3 /\
   View.redrawScrollbar t = Some (10, 52)).
Proof.
  split; [|vm_compute; repeat split; reflexivity].
  intros t maxY HmaxY Htl Hso.
  unfold View.drawScrollbar, TERMINAL_START_Y, SCREEN_HEIGHT in *. cbv zeta.
  set (H := maxY - 22) in *.
  assert (HH : 10 <= H <= 218) by (unfold H; lia).
  rewrite (int_sub_small maxY 22) by int_fits. fold H.
  rewrite (int_mul_small (totalLines t) 8) by int_fits.
  rewrite (int_mul_small H H) by (unfold Int.in_range, Int.int_min, Int.int_max; nia).
  rewrite Z.gtb_ltb.
  destruct (Z.ltb_spec H (totalLines t * 8)) as [Hbig | Hsmall]; [|exact Hsmall].
  rewrite (Z.quot_div_nonneg (H * H)) by nia.
  rewrite (Z.quot_div_nonneg H 8) in * by lia.
  assert (Hq : 0 <= H * H / (totalLines t * 8) < H).
  { split; [apply Z.div_pos; nia|].
    apply Z.div_lt_upper_bound; nia. }
  rewrite (clamp_low_10 (H * H / (totalLines t * 8))).
  set (th := Z.max 10 (H * H / (totalLines t * 8))) in *.
  assert (Hth : 10 <= th <= H) by (unfold th; lia).
  assert (H8 : 0 <= H / 8 <= 27).
  { split; [apply Z.div_pos; lia|].
    assert (H / 8 < 28) by (apply Z.div_lt_upper_bound; lia). lia. }
  rewrite (int_sub_small (totalLines t) (H / 8)) by int_fits.
  rewrite (clamp_low_1 (totalLines t - H / 8)).
  set (ms := Z.max 1 (totalLines t - H / 8)) in *.
  rewrite (int_sub_small H th) by int_fits.
  rewrite (int_mul_small (H - th) (scrollOffset t))
    by (unfold Int.in_range, Int.int_min, Int.int_max; nia).
  rewrite (Z.quot_div_nonneg ((H - th) * scrollOffset t)) by nia.
  assert (Hd : 0 <= (H - th) * scrollOffset t / ms <= H - th).
  { split; [apply Z.div_pos; nia|]. apply Z.div_le_upper_bound; nia. }
  rewrite (int_add_small 22 (H - th)) by int_fits.
  rewrite int_sub_small by int_fits.
  repeat match goal with |- _ /\ _ => split end; try lia.
  intros ->. rewrite Z.mul_0_r, Z.div_0_l by lia. unfold H. lia.
Qed.

Lemma scrollbar_thumb_on_track_witness :
  let t := terminalScroll 10 (feed (write_lines 60) (terminalInit Terminal.power_on)) in
  scrollOffset t = 10 /\ totalLines t = 61 /\
  View.redrawScrollbar t = View.drawScrollbar SCREEN_HEIGHT t /\
  match View.drawScrollbar SCREEN_HEIGHT t with
  | Some (thumbY, thumbHeight) =>
      TERMINAL_START_Y <= thumbY /\ thumbY + thumbHeight <= SCREEN_HEIGHT
  | None => False
  end.
Proof.
  intros t.
  destruct scrollbar_thumb_on_track as [A _].
  assert (H1 : TERMINAL_START_Y + 10 <= SCREEN_HEIGHT <= SCREEN_HEIGHT)
    by (vm_compute; split; discriminate).
  assert (H2 : 0 <= totalLines t <= 1000000) by (vm_compute; split; discriminate).
  assert (H3 : 0 <= scrollOffset t
               <= Z.max 1 (totalLines t - Z.quot (SCREEN_HEIGHT - TERMINAL_START_Y) 8))
    by (vm_compute; split; discriminate).
  specialize (A t SCREEN_HEIGHT H1 H2 H3).
  split; [vm_compute; reflexivity|]. split; [vm_compute; reflexivity|].
  split; [vm_compute; reflexivity|].
  destruct (View.drawScrollbar SCREEN_HEIGHT t) as [[thumbY thumbHeight]|] eqn:E.
  - destruct A as (_ & A2 & A3 & _). split; assumption.
  - vm_compute in E. discriminate E.
Defined.

(** ** UTF-8: what the logger encodes, the decoder reads back *)

Lemma lor_disjoint a y : Z.land a y = 0 -> Z.lor a y = a + y.
Proof. intros H. pose proof (Z.add_lor_land a y). lia. Qed.

Lemma land_shiftl_low a y k : 0 <= k -> 0 <= y < 2 ^ k -> Z.land (Z.shiftl a k) y = 0.
Proof.
  intros Hk Hy.
  destruct (Z.eq_dec y 0) as [-> | Hy0]; [apply Z.land_0_r|].
  apply Z.bits_inj'. intros n Hn.
  rewrite Z.land_spec, Z.bits_0.
  destruct (Z.lt_ge_cases n k).
  - rewrite Z.shiftl_spec_low by lia. reflexivity.
  - rewrite (Z.bits_above_log2 y n); [apply andb_false_r|lia|].
    assert (Z.log2 y < k) by (apply Z.log2_lt_pow2; lia). lia.
Qed.

Lemma lor_shiftl a y k :
  0 <= k -> 0 <= y < 2 ^ k -> Z.lor (Z.shiftl a k) y = a * 2 ^ k + y.
Proof.
  intros Hk Hy. rewrite lor_disjoint by (apply land_shiftl_low; assumption).
  rewrite Z.shiftl_mul_pow2 by exact Hk. reflexivity.
Qed.

(** The lead and continuation bytes the encoder builds, by enumeration of
    the payload. *)
Lemma lead2_bits x : 0 <= x < 32 ->
  Z.lor 0xC0 x = 0xC0 + x /\ Z.land (0xC0 + x) 0x1F = x.
Proof.
  intros Hx.
  pose (ok := fun x => (Z.lor 0xC0 x =? 0xC0 + x) && (Z.land (0xC0 + x) 0x1F =? x)).
  assert (E : ok x = true)
    by (apply (forallb_seqZ ok 0 32); [vm_compute; reflexivity|lia]).
  unfold ok in E. apply andb_prop in E as [E1 E2]. apply Z.eqb_eq in E1, E2.
  split; assumption.
Qed.

Lemma lead3_bits x : 0 <= x < 16 ->
  Z.lor 0xE0 x = 0xE0 + x /\ Z.land (0xE0 + x) 0x0F = x.
Proof.
  intros Hx.
  pose (ok := fun x => (Z.lor 0xE0 x =? 0xE0 + x) && (Z.land (0xE0 + x) 0x0F =? x)).
  assert (E : ok x = true)
    by (apply (forallb_seqZ ok 0 16); [vm_compute; reflexivity|lia]).
  unfold ok in E. apply andb_prop in E as [E1 E2]. apply Z.eqb_eq in E1, E2.
  split; assumption.
Qed.

Lemma lead4_bits x : 0 <= x < 8 ->
  Z.lor 0xF0 x = 0xF0 + x /\ Z.land (0xF0 + x) 0x07 = x.
Proof.
  intros Hx.
  pose (ok := fun x => (Z.lor 0xF0 x =? 0xF0 + x) && (Z.land (0xF0 + x) 0x07 =? x)).
  assert (E : ok x = true)
    by (apply (forallb_seqZ ok 0 8); [vm_compute; reflexivity|lia]).
  unfold ok in E. apply andb_prop in E as [E1 E2]. apply Z.eqb_eq in E1, E2.
  split; assumption.
Qed.

Lemma continuation_bits y : 0 <= y < 64 ->
  Z.lor 0x80 y = 0x80 + y /\ Z.land (0x80 + y) 0x3F = y.
Proof.
  intros Hy.
  pose (ok := fun y => (Z.lor 0x80 y =? 0x80 + y) && (Z.land (0x80 + y) 0x3F =? y)).
  assert (E : ok y = true)
    by (apply (forallb_seqZ ok 0 64); [vm_compute; reflexivity|lia]).
  unfold ok in E. apply andb_prop in E as [E1 E2]. apply Z.eqb_eq in E1, E2.
  split; assumption.
Qed.

Lemma low6 cp : Z.land cp 0x3F = cp mod 64.
Proof. apply (Z.land_ones cp 6). lia. Qed.

Lemma shiftr6 cp : Z.shiftr cp 6 = cp / 64.
Proof. apply (Z.shiftr_div_pow2 cp 6). lia. Qed.

Lemma shiftr12 cp : Z.shiftr cp 12 = cp / 4096.
Proof. apply (Z.shiftr_div_pow2 cp 12). lia. Qed.

Lemma shiftr18 cp : Z.shiftr cp 18 = cp / 262144.
Proof. apply (Z.shiftr_div_pow2 cp 18). lia. Qed.

(** The bytes of the encoder, as numbers. *)
Lemma utf8Bytes_value cp :
  0 <= cp < 0x110000 ->
  SdCard.utf8Bytes cp =
  if cp <? 0x80 then [cp]
  else if cp <? 0x800 then [0xC0 + cp / 64; 0x80 + cp mod 64]
  else if cp <? 0x10000 then
    [0xE0 + cp / 4096; 0x80 + cp / 64 mod 64; 0x80 + cp mod 64]
  else [0xF0 + cp / 262144; 0x80 + cp / 4096 mod 64; 0x80 + cp / 64 mod 64;
        0x80 + cp mod 64].
Proof.
  intros Hcp. unfold SdCard.utf8Bytes, Int.u8.
  rewrite !low6, shiftr6, shiftr12, shiftr18.
  assert (H64 : 0 <= cp mod 64 < 64) by (apply Z.mod_pos_bound; lia).
  assert (H64' : 0 <= cp / 64 mod 64 < 64) by (apply Z.mod_pos_bound; lia).
  assert (H64'' : 0 <= cp / 4096 mod 64 < 64) by (apply Z.mod_pos_bound; lia).
  rewrite (proj1 (continuation_bits _ H64)), (proj1 (continuation_bits _ H64')),
          (proj1 (continuation_bits _ H64'')).
  destruct (Z.ltb_spec cp 0x80); [rewrite Z.mod_small by lia; reflexivity|].
  destruct (Z.ltb_spec cp 0x800).
  { assert (Hx : 0 <= cp / 64 < 32) by (Z.div_mod_to_equations; lia).
    rewrite (proj1 (lead2_bits _ Hx)). repeat match goal with
           | |- context [(?a + ?b) mod 256] => rewrite (Z.mod_small (a + b) 256) by lia
           end. reflexivity. }
  destruct (Z.ltb_spec cp 0x10000).
  { assert (Hx : 0 <= cp / 4096 < 16) by (Z.div_mod_to_equations; lia).
    rewrite (proj1 (lead3_bits _ Hx)). repeat match goal with
           | |- context [(?a + ?b) mod 256] => rewrite (Z.mod_small (a + b) 256) by lia
           end. reflexivity. }
  destruct (Z.ltb_spec cp 0x110000); [|lia].
  assert (Hx : 0 <= cp / 262144 < 8) by (Z.div_mod_to_equations; lia).
  rewrite (proj1 (lead4_bits _ Hx)). repeat match goal with
           | |- context [(?a + ?b) mod 256] => rewrite (Z.mod_small (a + b) 256) by lia
           end. reflexivity.
Qed.

Lemma utf8Decode_continuation d b :
  bytesNeeded d <> 0 -> 0x80 <= b <= 0xBF ->
  utf8Decode d b =
  let cp := Int.u32 (Z.lor (Z.shiftl (codepoint d) 6) (Z.land b 0x3F)) in
  let received := Int.u8 (bytesReceived d + 1) in
  if received >=? bytesNeeded d then
    ({| state := state d; codepoint := cp; bytesNeeded := 0;
        bytesReceived := received |}, true)
  else
    ({| state := state d; codepoint := cp; bytesNeeded := bytesNeeded d;
        bytesReceived := received |}, false).
Proof.
  intros Hn Hb. unfold utf8Decode.
  destruct (Z.eqb_spec (bytesNeeded d) 0); [contradiction|].
  rewrite continuation_test by (unfold is_byte; lia).
  destruct (Z.leb_spec 0x80 b); [|lia]. destruct (Z.leb_spec b 0xBF); [|lia].
  reflexivity.
Qed.

Lemma utf8Decode_class d b :
  bytesNeeded d = 0 -> is_byte b ->
  utf8Decode d b =
  if b <=? 0x7F then
    ({| state := state d; codepoint := b;
        bytesNeeded := bytesNeeded d; bytesReceived := bytesReceived d |}, true)
  else if b <=? 0xBF then (utf8Init d, false)
  else if b <=? 0xDF then (start_sequence d (Z.land b 0x1F) 1, false)
  else if b <=? 0xEF then (start_sequence d (Z.land b 0x0F) 2, false)
  else if b <=? 0xF7 then (start_sequence d (Z.land b 0x07) 3, false)
  else (utf8Init d, false).
Proof.
  intros Hn Hb. pose proof (lead_class_range b Hb) as E.
  unfold utf8Decode. rewrite Hn. cbn [Z.eqb].
  unfold lead_class, range_class in E.
  destruct (Z.land b 0x80 =? 0), (Z.land b 0xE0 =? 0xC0), (Z.land b 0xF0 =? 0xE0),
           (Z.land b 0xF8 =? 0xF0);
    destruct (b <=? 0x7F), (b <=? 0xBF), (b <=? 0xDF), (b <=? 0xEF), (b <=? 0xF7);
    try discriminate E; reflexivity.
Qed.

(** One continuation byte 0x80 + y appends the six bits y. *)
Lemma utf8Decode_payload d y :
  bytesNeeded d <> 0 -> 0 <= y < 64 -> 0 <= codepoint d < 0x110000 / 64 ->
  0 <= bytesReceived d < 4 ->
  utf8Decode d (0x80 + y) =
  if bytesReceived d + 1 >=? bytesNeeded d then
    ({| state := state d; codepoint := codepoint d * 64 + y; bytesNeeded := 0;
        bytesReceived := bytesReceived d + 1 |}, true)
  else
    ({| state := state d; codepoint := codepoint d * 64 + y;
        bytesNeeded := bytesNeeded d; bytesReceived := bytesReceived d + 1 |}, false).
Proof.
  intros Hn Hy Hc Hr. rewrite utf8Decode_continuation by (try assumption; lia).
  cbv zeta. rewrite (proj2 (continuation_bits y Hy)).
  rewrite (lor_shiftl (codepoint d) y 6) by lia.
  change (2 ^ 6) with 64.
  unfold Int.u32, Int.u8.
  change (0x110000 / 64) with 17408 in Hc.
  rewrite (Z.mod_small (codepoint d * 64 + y)) by lia.
  rewrite (Z.mod_small (bytesReceived d + 1)) by lia. reflexivity.
Qed.

Ltac payload_step test result :=
  rewrite utf8Decode_payload
    by (cbn [bytesNeeded codepoint bytesReceived start_sequence];
        try assumption; try discriminate; change (0x110000 / 64) with 17408;
        Z.div_mod_to_equations; lia);
  cbn [bytesNeeded codepoint bytesReceived start_sequence];
  change test with result; cbv iota.

Lemma decode_utf8Bytes cp d rest :
  0 <= cp < 0x110000 -> bytesNeeded d = 0 ->
  Host.decode d (SdCard.utf8Bytes cp ++ rest) =
  (cp :: fst (Host.decode Utf8.initial rest), snd (Host.decode Utf8.initial rest)).
Proof.
  intros Hcp Hd. rewrite utf8Bytes_value by exact Hcp.
  assert (H64 : 0 <= cp mod 64 < 64) by (apply Z.mod_pos_bound; lia).
  assert (H64' : 0 <= cp / 64 mod 64 < 64) by (apply Z.mod_pos_bound; lia).
  assert (H64'' : 0 <= cp / 4096 mod 64 < 64) by (apply Z.mod_pos_bound; lia).
  destruct (Z.ltb_spec cp 0x80).
  { cbn [app Host.decode].
    rewrite utf8Decode_class by (try assumption; unfold is_byte; lia).
    destruct (Z.leb_spec cp 0x7F); [|lia].
    change (utf8Init _) with Utf8.initial.
    destruct (Host.decode Utf8.initial rest). reflexivity. }
  destruct (Z.ltb_spec cp 0x800).
  { assert (Hx : 0 <= cp / 64 < 32) by (Z.div_mod_to_equations; lia).
    cbn [app Host.decode].
    rewrite utf8Decode_class by (try assumption; unfold is_byte; lia).
    destruct (Z.leb_spec (0xC0 + cp / 64) 0x7F); [lia|].
    destruct (Z.leb_spec (0xC0 + cp / 64) 0xBF); [lia|].
    destruct (Z.leb_spec (0xC0 + cp / 64) 0xDF); [|lia].
    rewrite (proj2 (lead2_bits _ Hx)).
    payload_step (0 + 1 >=? 1) true.
    change (utf8Init _) with Utf8.initial.
    destruct (Host.decode Utf8.initial rest) as [cps e].
    cbn [utf8GetCodepoint codepoint fst snd]. do 2 f_equal.
    Z.div_mod_to_equations. lia. }
  destruct (Z.ltb_spec cp 0x10000).
  { assert (Hx : 0 <= cp / 4096 < 16) by (Z.div_mod_to_equations; lia).
    cbn [app Host.decode].
    rewrite utf8Decode_class by (try assumption; unfold is_byte; lia).
    destruct (Z.leb_spec (0xE0 + cp / 4096) 0x7F); [lia|].
    destruct (Z.leb_spec (0xE0 + cp / 4096) 0xBF); [lia|].
    destruct (Z.leb_spec (0xE0 + cp / 4096) 0xDF); [lia|].
    destruct (Z.leb_spec (0xE0 + cp / 4096) 0xEF); [|lia].
    rewrite (proj2 (lead3_bits _ Hx)).
    payload_step (0 + 1 >=? 2) false.
    payload_step (0 + 1 + 1 >=? 2) true.
    change (utf8Init _) with Utf8.initial.
    destruct (Host.decode Utf8.initial rest) as [cps e].
    cbn [utf8GetCodepoint codepoint fst snd]. do 2 f_equal.
    Z.div_mod_to_equations. lia. }
  assert (Hx : 0 <= cp / 262144 < 8) by (Z.div_mod_to_equations; lia).
  cbn [app Host.decode].
  rewrite utf8Decode_class by (try assumption; unfold is_byte; lia).
  destruct (Z.leb_spec (0xF0 + cp / 262144) 0x7F); [lia|].
  destruct (Z.leb_spec (0xF0 + cp / 262144) 0xBF); [lia|].
  destruct (Z.leb_spec (0xF0 + cp / 262144) 0xDF); [lia|].
  destruct (Z.leb_spec (0xF0 + cp / 262144) 0xEF); [lia|].
  destruct (Z.leb_spec (0xF0 + cp / 262144) 0xF7); [|lia].
  rewrite (proj2 (lead4_bits _ Hx)).
  payload_step (0 + 1 >=? 3) false.
  payload_step (0 + 1 + 1 >=? 3) false.
  payload_step (0 + 1 + 1 + 1 >=? 3) true.
  change (utf8Init _) with Utf8.initial.
    destruct (Host.decode Utf8.initial rest) as [cps e].
    cbn [utf8GetCodepoint codepoint fst snd]. do 2 f_equal.
    Z.div_mod_to_equations. lia.
Qed.

Lemma decode_utf8 cps : forall d rest,
  Forall (fun cp => 0 <= cp < 0x110000) cps -> bytesNeeded d = 0 ->
  Host.decode d (Host.utf8 cps ++ rest) =
  (cps ++ fst (Host.decode (if cps is [] then d else Utf8.initial) rest),
   snd (Host.decode (if cps is [] then d else Utf8.initial) rest)).
Proof.
  induction cps as [|cp cps IH]; intros d rest Hcps Hd.
  - cbn [Host.utf8 map concat app]. destruct (Host.decode d rest); reflexivity.
  - inversion Hcps as [|? ? Hcp Hrest]; subst.
    unfold Host.utf8 in *. cbn [map concat]. rewrite <- app_assoc.
    rewrite decode_utf8Bytes by assumption.
    rewrite (IH Utf8.initial rest Hrest eq_refl). cbn [fst snd app].
    destruct cps; reflexivity.
Qed.

Lemma utf8Bytes_range cp :
  0 <= cp < 0x110000 -> Forall (fun b => 0 <= b < 256) (SdCard.utf8Bytes cp).
Proof.
  intros Hcp. rewrite utf8Bytes_value by exact Hcp.
  assert (H64 : 0 <= cp mod 64 < 64) by (apply Z.mod_pos_bound; lia).
  assert (H64' : 0 <= cp / 64 mod 64 < 64) by (apply Z.mod_pos_bound; lia).
  assert (H64'' : 0 <= cp / 4096 mod 64 < 64) by (apply Z.mod_pos_bound; lia).
  destruct (Z.ltb_spec cp 0x80); [repeat constructor; lia|].
  destruct (Z.ltb_spec cp 0x800);
    [repeat constructor; Z.div_mod_to_equations; lia|].
  destruct (Z.ltb_spec cp 0x10000);
    repeat constructor; Z.div_mod_to_equations; lia.
Qed.

Lemma utf8Bytes_high cp :
  0x80 <= cp < 0x110000 -> Forall (fun b => 0x80 <= b) (SdCard.utf8Bytes cp).
Proof.
  intros Hcp. rewrite utf8Bytes_value by lia.
  assert (H64 : 0 <= cp mod 64 < 64) by (apply Z.mod_pos_bound; lia).
  assert (H64' : 0 <= cp / 64 mod 64 < 64) by (apply Z.mod_pos_bound; lia).
  assert (H64'' : 0 <= cp / 4096 mod 64 < 64) by (apply Z.mod_pos_bound; lia).
  destruct (Z.ltb_spec cp 0x80); [lia|].
  destruct (Z.ltb_spec cp 0x800);
    [repeat constructor; Z.div_mod_to_equations; lia|].
  destruct (Z.ltb_spec cp 0x10000);
    repeat constructor; Z.div_mod_to_equations; lia.
Qed.

Lemma utf8Bytes_ascii cp : 0 <= cp < 0x80 -> SdCard.utf8Bytes cp = [cp].
Proof.
  intros Hcp. rewrite utf8Bytes_value by lia.
  destruct (Z.ltb_spec cp 0x80); [reflexivity|lia].
Qed.

(** No byte of an encoded codepoint equals [c], when [c] is an ASCII value
    other than the codepoint itself. *)
Lemma utf8Bytes_avoid cp c :
  0 <= cp < 0x110000 -> 0 <= c < 0x80 -> cp <> c ->
  Forall (fun b => b <> c) (SdCard.utf8Bytes cp).
Proof.
  intros Hcp Hc Hne. destruct (Z.lt_ge_cases cp 0x80).
  - rewrite utf8Bytes_ascii by lia. repeat constructor. exact Hne.
  - eapply Forall_impl; [apply utf8Bytes_high; lia|]. intros b Hb. cbv beta in *. lia.
Qed.

Lemma utf8_avoid cps c :
  Forall (fun cp => 0 <= cp < 0x110000 /\ cp <> c) cps -> 0 <= c < 0x80 ->
  Forall (fun b => b <> c) (Host.utf8 cps).
Proof.
  intros Hcps Hc. unfold Host.utf8.
  induction Hcps as [|cp cps [Hcp Hne] _ IH]; [constructor|].
  cbn [map concat]. apply Forall_app. split; [|exact IH].
  apply utf8Bytes_avoid; assumption.
Qed.

Lemma utf8_range cps :
  Forall (fun cp => 0 <= cp < 0x110000) cps ->
  Forall (fun b => 0 <= b < 256) (Host.utf8 cps).
Proof.
  intros Hcps. unfold Host.utf8.
  induction Hcps as [|cp cps Hcp _ IH]; [constructor|].
  cbn [map concat]. apply Forall_app. split; [apply utf8Bytes_range; exact Hcp|exact IH].
Qed.

Lemma echoLoop_decode text : forall d t,
  Forall (fun b => b <> 0) text ->
  echoLoop text d t = type_codepoints (Host.decoded d text) t.
Proof.
  induction text as [|b text IH]; intros d t Htext; [reflexivity|].
  inversion Htext as [|? ? Hb Hrest]; subst.
  unfold Host.decoded. cbn [echoLoop Host.decode].
  destruct (Z.eqb_spec b 0); [contradiction|].
  destruct (utf8Decode d b) as [d' complete]. destruct complete.
  - rewrite IH by exact Hrest. unfold Host.decoded.
    destruct (Host.decode (utf8Init d') text). reflexivity.
  - apply IH. exact Hrest.
Qed.

(** X14: UTF-8 round trip.  The bytes that sdLogRXCodepoint and
    sdLogTXCodepoint build for codepoints below 0x110000 are bytes (0..255)
    and, given to utf8Decode from a decoder that is between characters, come
    back as exactly those codepoints, with the decoder between characters
    again.  So text echoed with terminalLocalEchoText reaches putChar one
    codepoint at a time. *)
Theorem utf8_round_trip (cps : list Z) (d : UTF8Decoder) (t : Terminal) :
  Forall (fun cp => 0 <= cp < 0x110000) cps -> bytesNeeded d = 0 ->
  Forall (fun b => 0 <= b < 256) (Host.utf8 cps) /\
  Host.decoded d (Host.utf8 cps) = cps /\
  bytesNeeded (snd (Host.decode d (Host.utf8 cps))) = 0 /\
  (Forall (fun cp => cp <> 0) cps ->
   terminalLocalEchoText (Host.utf8 cps) t = type_codepoints cps t).
Proof.
  intros Hcps Hd.
  pose proof (decode_utf8 cps d [] Hcps Hd) as E. rewrite app_nil_r in E.
  split; [|split; [|split]].
  - apply utf8_range. exact Hcps.
  - unfold Host.decoded. rewrite E. cbn [fst Host.decode]. apply app_nil_r.
  - rewrite E. cbn [snd Host.decode]. destruct cps; [exact Hd|reflexivity].
  - intros Hnz. unfold terminalLocalEchoText.
    rewrite echoLoop_decode.
    + pose proof (decode_utf8 cps (utf8Init (mkDecoder 0 0 0 0)) [] Hcps eq_refl) as E'.
      rewrite app_nil_r in E'. unfold Host.decoded. rewrite E'.
      cbn [fst Host.decode]. rewrite app_nil_r. reflexivity.
    + apply utf8_avoid; [|lia].
      apply Forall_forall. intros cp Hin. rewrite Forall_forall in Hcps, Hnz.
      split; [apply Hcps|apply Hnz]; exact Hin.
Qed.

Lemma utf8_round_trip_witness :
  let cps := [0x48; 0x44F; 0x20AC; 0x1F600] in
  Host.utf8 cps = [0x48; 0xD1; 0x8F; 0xE2; 0x82; 0xAC; 0xF0; 0x9F; 0x98; 0x80] /\
  Host.decoded Utf8.initial (Host.utf8 cps) = cps /\
  cursorX (terminalLocalEchoText (Host.utf8 cps) (terminalInit Terminal.power_on)) = 4.
Proof.
  intros cps.
  assert (H1 : Forall (fun cp => 0 <= cp < 0x110000) cps)
    by (repeat constructor; discriminate).
  destruct (utf8_round_trip cps Utf8.initial (terminalInit Terminal.power_on) H1 eq_refl)
    as (_ & A & _ & B).
  split; [vm_compute; reflexivity|]. split; [exact A|].
  rewrite B by (repeat constructor; discriminate).
  vm_compute. reflexivity.
Defined.

(** ** Bytes without ESC are decoded and put on the screen *)

Lemma store_set_utf8Decoder y x v d t :
  store y x v (set_utf8Decoder d t) = set_utf8Decoder d (store y x v t).
Proof. unfold store. destruct (in_bounds y x); reflexivity. Qed.

Lemma clearRowFrom_set_utf8Decoder y x0 d t :
  clearRowFrom y x0 (set_utf8Decoder d t) = set_utf8Decoder d (clearRowFrom y x0 t).
Proof.
  unfold clearRowFrom.
  apply (fold_left_commute (fun s x => store y x space s) (set_utf8Decoder d)).
  intros s x. apply store_set_utf8Decoder.
Qed.

Lemma ensureCursorVisible_set_utf8Decoder d t :
  ensureCursorVisible (set_utf8Decoder d t) = set_utf8Decoder d (ensureCursorVisible t).
Proof.
  unfold ensureCursorVisible, cursorLineNumber. cbv zeta. fields.
  repeat match goal with |- context [if ?c then _ else _] => destruct c end;
    reflexivity.
Qed.

Lemma scrollUp_set_utf8Decoder d t :
  scrollUp (set_utf8Decoder d t) = set_utf8Decoder d (scrollUp t).
Proof.
  unfold scrollUp. cbv zeta. fields. rewrite clearRowFrom_set_utf8Decoder. reflexivity.
Qed.

Ltac split_ifs :=
  repeat (match goal with
          | |- context [if ?c then _ else _] =>
              lazymatch c with
              | context [if _ then _ else _] => fail
              | _ => destruct c
              end
          end; fields).

Lemma openLine_set_utf8Decoder d t :
  openLine (set_utf8Decoder d t) = set_utf8Decoder d (openLine t).
Proof.
  unfold openLine. cbv zeta. fields.
  rewrite ?clearRowFrom_set_utf8Decoder. fields. split_ifs;
    rewrite <- ?ensureCursorVisible_set_utf8Decoder, <- ?scrollUp_set_utf8Decoder;
    reflexivity.
Qed.

Lemma putChar_set_utf8Decoder cp d t :
  putChar cp (set_utf8Decoder d t) = set_utf8Decoder d (putChar cp t).
Proof.
  unfold putChar. cbv zeta. fields.
  destruct (cp =? 13); [reflexivity|].
  destruct (cp =? 10); [rewrite <- openLine_set_utf8Decoder; reflexivity|].
  destruct (cp =? 8).
  { destruct (cursorX t >? 0); [|reflexivity].
    rewrite <- store_set_utf8Decoder. reflexivity. }
  destruct (cp >=? 32); [|reflexivity].
  rewrite !store_set_utf8Decoder. fields.
  destruct (Int.add (cursorX (store (cursorY t) (cursorX t) cp t)) 1 >=? TERMINAL_COLS);
    [|reflexivity].
  rewrite <- openLine_set_utf8Decoder. reflexivity.
Qed.

Lemma ensureCursorVisible_set_esc b i a t :
  ensureCursorVisible (set_esc b i a t) = set_esc b i a (ensureCursorVisible t).
Proof.
  unfold ensureCursorVisible, cursorLineNumber. cbv zeta. fields.
  repeat match goal with |- context [if ?c then _ else _] => destruct c end;
    reflexivity.
Qed.

Lemma scrollUp_set_esc b i a t : scrollUp (set_esc b i a t) = set_esc b i a (scrollUp t).
Proof.
  unfold scrollUp. cbv zeta. fields. rewrite clearRowFrom_set_esc. reflexivity.
Qed.

Lemma openLine_set_esc b i a t : openLine (set_esc b i a t) = set_esc b i a (openLine t).
Proof.
  unfold openLine. cbv zeta. fields.
  rewrite ?clearRowFrom_set_esc. fields. split_ifs;
    rewrite <- ?ensureCursorVisible_set_esc, <- ?scrollUp_set_esc; reflexivity.
Qed.

Lemma putChar_set_esc cp b i a t :
  putChar cp (set_esc b i a t) = set_esc b i a (putChar cp t).
Proof.
  unfold putChar. cbv zeta. fields.
  destruct (cp =? 13); [reflexivity|].
  destruct (cp =? 10); [rewrite <- openLine_set_esc; reflexivity|].
  destruct (cp =? 8).
  { destruct (cursorX t >? 0); [|reflexivity].
    rewrite <- store_set_esc. reflexivity. }
  destruct (cp >=? 32); [|reflexivity].
  rewrite !store_set_esc. fields.
  destruct (Int.add (cursorX (store (cursorY t) (cursorX t) cp t)) 1 >=? TERMINAL_COLS);
    [|reflexivity].
  rewrite <- openLine_set_esc. reflexivity.
Qed.

Lemma set_esc_same t : set_esc (escBuffer t) (escIndex t) (inEscSequence t) t = t.
Proof. destruct t; reflexivity. Qed.

Lemma set_utf8Decoder_same t : set_utf8Decoder (utf8Decoder t) t = t.
Proof. destruct t; reflexivity. Qed.

(** putChar neither reads nor writes the interpreter state or the decoder. *)
Lemma putChar_interpreter cp t :
  inEscSequence (putChar cp t) = inEscSequence t /\
  escIndex (putChar cp t) = escIndex t /\
  escBuffer (putChar cp t) = escBuffer t /\
  utf8Decoder (putChar cp t) = utf8Decoder t.
Proof.
  assert (E : putChar cp t =
              set_esc (escBuffer t) (escIndex t) (inEscSequence t) (putChar cp t)).
  { rewrite <- putChar_set_esc, set_esc_same. reflexivity. }
  assert (D : putChar cp t = set_utf8Decoder (utf8Decoder t) (putChar cp t)).
  { rewrite <- putChar_set_utf8Decoder, set_utf8Decoder_same. reflexivity. }
  split; [rewrite E; reflexivity|]. split; [rewrite E; reflexivity|].
  split; [rewrite E; reflexivity|]. rewrite D. reflexivity.
Qed.

Lemma type_codepoints_set_utf8Decoder cps d : forall t,
  type_codepoints cps (set_utf8Decoder d t) = set_utf8Decoder d (type_codepoints cps t).
Proof.
  unfold type_codepoints.
  apply (fold_left_commute (fun s cp => putChar cp s) (set_utf8Decoder d)).
  intros s cp. apply putChar_set_utf8Decoder.
Qed.

Lemma terminalUpdate_plain b t :
  inEscSequence t = false -> b <> 0x1B ->
  terminalUpdate b t =
  if snd (utf8Decode (utf8Decoder t) b)
  then set_utf8Decoder Utf8.initial
         (putChar (utf8GetCodepoint (fst (utf8Decode (utf8Decoder t) b))) t)
  else set_utf8Decoder (fst (utf8Decode (utf8Decoder t) b)) t.
Proof.
  intros Hg Hb. unfold terminalUpdate. rewrite Hg.
  destruct (Z.eqb_spec b 0x1B); [contradiction|].
  destruct (utf8Decode (utf8Decoder t) b) as [d complete]. cbn [fst snd].
  destruct complete; [|reflexivity].
  rewrite putChar_set_utf8Decoder. reflexivity.
Qed.

Lemma feed_plain bytes : forall t,
  inEscSequence t = false -> Forall (fun b => b <> 0x1B) bytes ->
  feed bytes t =
  set_utf8Decoder (snd (Host.decode (utf8Decoder t) bytes))
                  (type_codepoints (Host.decoded (utf8Decoder t) bytes) t).
Proof.
  induction bytes as [|b bytes IH]; intros t Hg Hbytes.
  - cbn. symmetry. apply set_utf8Decoder_same.
  - inversion Hbytes as [|? ? Hb Hrest]; subst.
    rewrite feed_cons, terminalUpdate_plain by assumption.
    unfold Host.decoded. cbn [Host.decode].
    destruct (utf8Decode (utf8Decoder t) b) as [d complete]. cbn [fst snd].
    destruct complete.
    + rewrite IH;
        [|fields; rewrite (proj1 (putChar_interpreter _ _)); exact Hg|exact Hrest].
      fields. unfold Host.decoded.
      change (utf8Init d) with Utf8.initial.
      destruct (Host.decode Utf8.initial bytes) as [cps e]. cbn [fst snd].
      rewrite type_codepoints_set_utf8Decoder. reflexivity.
    + rewrite IH; [|fields; exact Hg|exact Hrest]. fields.
      rewrite type_codepoints_set_utf8Decoder. reflexivity.
Qed.

(** ** Text before the buffer wraps *)

Lemma decode_ascii bytes : forall d,
  Forall (fun b => 0 <= b < 0x80) bytes -> bytesNeeded d = 0 ->
  Host.decode d bytes = (bytes, if bytes is [] then d else Utf8.initial).
Proof.
  intros d Hbytes Hd.
  assert (E : Host.utf8 bytes = bytes).
  { unfold Host.utf8. induction Hbytes as [|b bytes Hb _ IH]; [reflexivity|].
    cbn [map concat]. rewrite utf8Bytes_ascii by exact Hb. rewrite IH. reflexivity. }
  pose proof (decode_utf8 bytes d []) as D. rewrite app_nil_r, E in D.
  rewrite D; [|eapply Forall_impl; [exact Hbytes|]; cbv beta; intros; lia|exact Hd].
  cbn [Host.decode fst snd]. rewrite app_nil_r. reflexivity.
Qed.

Lemma type_codepoints_shaped cps : forall t,
  Forall (fun cp => 32 <= cp) cps -> shaped t -> cursor_in_buffer t ->
  cursorX t + Z.of_nat (length cps) <= TERMINAL_COLS - 1 ->
  shaped (type_codepoints cps t).
Proof.
  induction cps as [|c cps IH]; intros t Hcps Hshape Hcur Hroom; [exact Hshape|].
  inversion Hcps as [|? ? Hc Hrest]; subst. cbn [length] in Hroom.
  unfold type_codepoints. cbn [fold_left].
  fold (type_codepoints cps (putChar c t)).
  destruct Hcur as [Hx Hy]. unfold TERMINAL_COLS, TERMINAL_BUFFER_ROWS in *.
  rewrite putChar_inline;
    [|exact Hc|split; assumption|unfold TERMINAL_COLS; lia].
  pose proof (store_frame (cursorY t) (cursorX t) c t) as F. cbv zeta in F.
  destruct F as (_ & FY & _).
  apply IH; [exact Hrest| | |fields; lia].
  - destruct (store_shaped (cursorY t) (cursorX t) c t Hshape) as [S1 S2].
    split; assumption.
  - split; fields; unfold TERMINAL_COLS, TERMINAL_BUFFER_ROWS; [lia|rewrite FY; lia].
Qed.

Lemma line_feed_shaped t :
  shaped t -> 0 <= cursorY t < TERMINAL_BUFFER_ROWS - 1 -> shaped (putChar 10 t).
Proof.
  intros Hshape Hy. unfold TERMINAL_BUFFER_ROWS in *.
  rewrite putChar_lf, openLine_inside by (fields; int_simpl; unfold TERMINAL_BUFFER_ROWS; lia).
  cbv zeta. fields. rewrite (int_add_small (cursorY t) 1) by int_fits.
  set (u := clearRowFrom (cursorY t + 1) 0 (set_cursorY (cursorY t + 1) (set_cursorX 0 t))).
  assert (Hu : shaped u).
  { apply clearRow_shaped; [|unfold TERMINAL_BUFFER_ROWS; lia|lia].
    destruct Hshape as [S1 S2]. split; assumption. }
  match goal with |- shaped (ensureCursorVisible ?v) =>
    assert (Hv : shaped v) end.
  { destruct ((totalLines t <? TERMINAL_BUFFER_ROWS) && (cursorY t + 1 >=? totalLines t));
      [|exact Hu]. destruct Hu as [S1 S2]. split; assumption. }
  match goal with |- shaped (ensureCursorVisible ?v) =>
    destruct (ensureCursorVisible_frame v) as (F & _) end.
  destruct Hv as [S1 S2]. split; rewrite F; assumption.
Qed.

Lemma drop_blank n : (n <= 53)%nat -> drop n blank_row = replicate (53 - n) space.
Proof. intros Hn. unfold blank_row. apply drop_replicate. Qed.

(** One line of printable ASCII and its line feed, received with the cursor
    at the start of blank row [k]. *)
Lemma line_written u line k :
  shaped u -> inEscSequence u = false -> utf8Decoder u = Utf8.initial ->
  cursorX u = 0 -> cursorY u = k -> 0 <= k < TERMINAL_BUFFER_ROWS - 1 ->
  0 <= totalLines u <= k + 1 -> fault u = false ->
  slot u k = Some blank_row ->
  (length line <= 52)%nat -> Forall (fun b => 32 <= b < 127) line ->
  let u' := feed (line ++ [10]) u in
  shaped u' /\ inEscSequence u' = false /\ utf8Decoder u' = Utf8.initial /\
  cursorX u' = 0 /\ cursorY u' = k + 1 /\ totalLines u' = k + 2 /\ fault u' = false /\
  slot u' (k + 1) = Some blank_row /\
  slot u' k = Some (Host.padded line) /\
  (forall y, y <> k -> y <> k + 1 -> slot u' y = slot u y).
Proof.
  intros Hshape Hg Hdec Hx Hy Hk Htl Hfault Hrow Hlen Hline u'. subst u'.
  unfold TERMINAL_BUFFER_ROWS in *.
  assert (Hascii : Forall (fun b => 0 <= b < 0x80) (line ++ [10])).
  { apply Forall_app. split; [|repeat constructor; lia].
    eapply Forall_impl; [exact Hline|]. cbv beta. intros. lia. }
  assert (Hesc : Forall (fun b => b <> 0x1B) (line ++ [10])).
  { apply Forall_app. split; [|repeat constructor; lia].
    eapply Forall_impl; [exact Hline|]. cbv beta. intros. lia. }
  assert (Hprint : Forall (fun cp => 32 <= cp) line).
  { eapply Forall_impl; [exact Hline|]. cbv beta. intros. lia. }
  rewrite feed_plain by assumption.
  unfold Host.decoded. rewrite Hdec, decode_ascii by (try exact Hascii; reflexivity).
  cbn [fst snd].
  replace (if line ++ [10] is [] then Utf8.initial else Utf8.initial) with Utf8.initial
    by (destruct (line ++ [10]); reflexivity).
  rewrite type_codepoints_snoc.
  assert (Hcur : cursor_in_buffer u).
  { split; unfold TERMINAL_COLS, TERMINAL_BUFFER_ROWS; lia. }
  assert (Hroom : cursorX u + Z.of_nat (length line) <= TERMINAL_COLS - 1)
    by (unfold TERMINAL_COLS; lia).
  set (v := type_codepoints line u).
  destruct (type_codepoints_inline line u Hprint Hcur Hroom)
    as (I1 & I2 & I3 & _ & _ & I6 & I7). fold v in I1, I2, I3, I6, I7.
  assert (Hvrow : slot v k = Some (Host.padded line)).
  { unfold v. rewrite <- Hy.
    rewrite (type_codepoints_slot line u blank_row Hprint Hcur Hroom)
      by (rewrite ?Hy; try exact Hrow; reflexivity).
    rewrite Hx. cbn [Z.to_nat take app Nat.add]. rewrite drop_blank by lia.
    reflexivity. }
  assert (Hvshape : shaped v) by (apply type_codepoints_shaped; assumption).
  assert (Hvcur : cursor_in_buffer v).
  { split; unfold TERMINAL_COLS, TERMINAL_BUFFER_ROWS; lia. }
  assert (Hvy : 0 <= cursorY v < TERMINAL_BUFFER_ROWS - 1)
    by (unfold TERMINAL_BUFFER_ROWS; lia).
  destruct (line_feed_inside v Hvy) as (L1 & L2 & L3 & L4).
  destruct (line_feed_frame v Hvshape Hvcur) as (R1 & R2);
    [unfold Int.int_max; lia|].
  pose proof (line_feed_shaped v Hvshape Hvy) as Hshape'.
  destruct (putChar_interpreter 10 v) as (P1 & _ & _ & _).
  assert (Hvg : inEscSequence v = false).
  { unfold v, type_codepoints. clear -Hg.
    revert u Hg. induction line as [|c line IH]; intros u Hg; [exact Hg|].
    cbn [fold_left]. apply IH. rewrite (proj1 (putChar_interpreter c u)). exact Hg. }
  split; [destruct Hshape' as [S1 S2]; split; assumption|].
  split; [fields; rewrite P1; exact Hvg|].
  split; [reflexivity|]. fields.
  split; [exact L1|]. split; [lia|].
  split.
  { rewrite L3. rewrite I2, I3, Hy. unfold TERMINAL_BUFFER_ROWS.
    destruct (Z.ltb_spec (totalLines u) 100); [|lia].
    rewrite Z.geb_leb. destruct (Z.leb_spec (totalLines u) (k + 1)); [|lia].
    reflexivity. }
  split; [rewrite L4, I6; exact Hfault|].
  change (slot (set_utf8Decoder initial (putChar 10 v)))
    with (slot (putChar 10 v)).
  rewrite L2, I2, Hy in R1, R2.
  split; [exact R1|].
  split; [rewrite R2 by lia; exact Hvrow|].
  intros y Hy1 Hy2. rewrite R2 by lia. apply I7. lia.
Qed.

Lemma text_snoc lines line :
  Host.text (lines ++ [line]) = Host.text lines ++ (line ++ [10]).
Proof.
  unfold Host.text. rewrite map_app, concat_app. cbn [map concat].
  rewrite app_nil_r. reflexivity.
Qed.

(** X15: text received before the buffer wraps is stored line by line.
    After a reset, for up to 99 lines of printable ASCII of at most 52
    characters, each ended by a line feed, buffer row i holds line i padded
    with spaces, the cursor is at the start of the blank row after the last
    line, totalLines is the number of lines plus one (0 if nothing was
    received), and no access left the buffer. *)
Theorem text_stored_line_by_line (lines : list (list Z)) :
  Forall (fun line => (length line <= 52)%nat /\ Forall (fun b => 32 <= b < 127) line)
         lines ->
  (length lines <= 99)%nat ->
  let t := feed (Host.text lines) (terminalInit Terminal.power_on) in
  (forall (i : nat) line,
     lines !! i = Some line -> slot t (Z.of_nat i) = Some (Host.padded line)) /\
  slot t (Z.of_nat (length lines)) = Some blank_row /\
  cursorX t = 0 /\ cursorY t = Z.of_nat (length lines) /\
  totalLines t = (if lines is [] then 0 else Z.of_nat (length lines) + 1) /\
  fault t = false /\ shaped t /\
  inEscSequence t = false /\ utf8Decoder t = Utf8.initial.
Proof.
  induction lines as [|line lines IH] using rev_ind; intros Hvalid Hcount t.
  - subst t. cbn [Host.text map concat feed fold_left length Z.of_nat].
    split; [intros i line Hi; rewrite lookup_nil in Hi; discriminate|].
    split; [vm_compute; reflexivity|].
    split; [reflexivity|]. split; [reflexivity|]. split; [reflexivity|].
    split; [vm_compute; reflexivity|].
    split; [apply shapedb_shaped; vm_compute; reflexivity|].
    split; reflexivity.
  - apply Forall_app in Hvalid as [Hvalid Hline].
    inversion Hline as [|? ? [Hlen Hbytes] _]; subst.
    rewrite length_app in Hcount. cbn [length] in Hcount.
    destruct (IH Hvalid ltac:(lia))
      as (Irows & Iblank & Ix & Iy & Itl & Ifault & Ishape & Ig & Idec).
    subst t. rewrite text_snoc, feed_app.
    set (u := feed (Host.text lines) (terminalInit Terminal.power_on)) in *.
    assert (Htl : 0 <= totalLines u <= Z.of_nat (length lines) + 1)
      by (rewrite Itl; destruct lines; cbn [length]; lia).
    destruct (line_written u line (Z.of_nat (length lines))
                Ishape Ig Idec Ix Iy ltac:(unfold TERMINAL_BUFFER_ROWS; lia)
                Htl Ifault Iblank Hlen Hbytes)
      as (W1 & W2 & W3 & W4 & W5 & W6 & W7 & W8 & W9 & W10).
    rewrite length_app. cbn [length].
    replace (Z.of_nat (length lines + 1)) with (Z.of_nat (length lines) + 1) by lia.
    split.
    { intros i l Hi. destruct (Nat.lt_ge_cases i (length lines)) as [Hlt | Hge].
      - rewrite lookup_app_l in Hi by exact Hlt.
        rewrite W10 by lia. apply Irows. exact Hi.
      - rewrite lookup_app_r in Hi by exact Hge.
        destruct (i - length lines)%nat eqn:E; [|cbn in Hi; discriminate].
        cbn in Hi. inversion Hi; subst l.
        replace (Z.of_nat i) with (Z.of_nat (length lines)) by lia. exact W9. }
    split; [exact W8|]. split; [exact W4|]. split; [exact W5|].
    split; [rewrite W6; destruct lines; cbn [app length]; lia|].
    split; [exact W7|]. split; [exact W1|]. split; [exact W2|exact W3].
Qed.

Lemma text_stored_line_by_line_witness :
  let lines := [Keyboard.lit "login: root"; []; Keyboard.lit "# ls -la /tmp"] in
  let t := feed (Host.text lines) (terminalInit Terminal.power_on) in
  slot t 0 = Some (Keyboard.lit "login: root" ++ replicate 42 space) /\
  slot t 2 = Some (Host.padded (Keyboard.lit "# ls -la /tmp")) /\
  cursorY t = 3 /\ totalLines t = 4.
Proof.
  intros lines t.
  assert (H1 : Forall (fun line => (length line <= 52)%nat /\
                                   Forall (fun b => 32 <= b < 127) line) lines).
  { repeat constructor; cbn; try lia. }
  assert (H2 : (length lines <= 99)%nat) by (cbn; lia).
  destruct (text_stored_line_by_line lines H1 H2) as (R & _ & _ & Y & T & _).
  split; [exact (R 0%nat _ eq_refl)|]. split; [exact (R 2%nat _ eq_refl)|].
  split; [exact Y|exact T].
Defined.

(** ** sdcard.cpp: the write buffer *)

Ltac sd_fields :=
  cbn [SdCard.isRecording SdCard.fileOpen SdCard.fileData SdCard.writeBuffer
       SdCard.bufferPos SdCard.lastFlushTime SdCard.rxLineBuffer SdCard.rxLinePos
       SdCard.txLineBuffer SdCard.txLinePos SdCard.overrun
       SdCard.set_file SdCard.set_write SdCard.set_lastFlushTime SdCard.set_rx
       SdCard.set_tx SdCard.set_overrun].

(** What one byte through writeToBuffer's loop does to a session in
    progress. *)
Lemma writeStep_effect s c :
  SdCard.recording s ->
  let s' := SdCard.writeStep s c in
  SdCard.recording s' /\ SdCard.logged s' = SdCard.logged s ++ [c] /\
  (c = 10 -> SdCard.bufferPos s' = 0) /\
  SdCard.rxLineBuffer s' = SdCard.rxLineBuffer s /\
  SdCard.rxLinePos s' = SdCard.rxLinePos s /\
  SdCard.txLineBuffer s' = SdCard.txLineBuffer s /\
  SdCard.txLinePos s' = SdCard.txLinePos s /\
  SdCard.lastFlushTime s' = SdCard.lastFlushTime s.
Proof.
  intros (Hrec & Hopen & Hover & Hlen & Hpos & Hrx & Hrxp & Htx & Htxp).
  unfold SdCard.BUFFER_SIZE, SdCard.LINE_BUFFER_SIZE in *.
  unfold SdCard.writeStep, SdCard.appendByte, SdCard.BUFFER_SIZE. cbv zeta.
  destruct (Z.leb_spec 0 (SdCard.bufferPos s)); [|lia].
  destruct (Z.ltb_spec (SdCard.bufferPos s) 512); [|lia].
  cbn [andb]. sd_fields.
  rewrite (int_add_small (SdCard.bufferPos s) 1) by int_fits.
  set (p := SdCard.bufferPos s) in *.
  assert (Htake : take (Z.to_nat (p + 1)) (<[Z.to_nat p := c]> (SdCard.writeBuffer s))
                  = take (Z.to_nat p) (SdCard.writeBuffer s) ++ [c]).
  { replace (Z.to_nat (p + 1)) with (S (Z.to_nat p)) by lia.
    rewrite (take_S_r _ _ c) by (apply list_lookup_insert_eq; lia).
    rewrite take_insert_ge by lia. reflexivity. }
  destruct ((p + 1 >=? 512 - 1) || (c =? 10)) eqn:Eflush.
  - unfold SdCard.flushBuffer, SdCard.BUFFER_SIZE. sd_fields.
    rewrite Hrec, Hopen. cbn [negb orb].
    destruct (Z.eqb_spec (p + 1) 0); [lia|]. cbn [orb].
    destruct (Z.leb_spec 0 (p + 1)); [|lia].
    destruct (Z.leb_spec (p + 1) 512); [|lia]. cbn [andb]. sd_fields.
    unfold SdCard.recording, SdCard.logged, SdCard.BUFFER_SIZE, SdCard.LINE_BUFFER_SIZE.
    sd_fields. rewrite length_insert, Htake.
    repeat match goal with |- _ /\ _ => split end; try assumption; try reflexivity;
      try lia.
    cbn [Z.to_nat take]. rewrite app_nil_r, app_assoc. reflexivity.
  - apply orb_false_iff in Eflush as [E1 E2].
    rewrite Z.geb_leb in E1. apply Z.leb_gt in E1. apply Z.eqb_neq in E2.
    unfold SdCard.recording, SdCard.logged, SdCard.BUFFER_SIZE, SdCard.LINE_BUFFER_SIZE.
    sd_fields. rewrite length_insert, Htake.
    repeat match goal with |- _ /\ _ => split end; try assumption; try reflexivity;
      try lia.
    rewrite app_assoc. reflexivity.
Qed.

Lemma writeToBuffer_effect data : forall s,
  SdCard.recording s ->
  let s' := SdCard.writeToBuffer data s in
  SdCard.recording s' /\ SdCard.logged s' = SdCard.logged s ++ data /\
  (last data = Some 10 -> SdCard.bufferPos s' = 0) /\
  SdCard.rxLineBuffer s' = SdCard.rxLineBuffer s /\
  SdCard.rxLinePos s' = SdCard.rxLinePos s /\
  SdCard.txLineBuffer s' = SdCard.txLineBuffer s /\
  SdCard.txLinePos s' = SdCard.txLinePos s /\
  SdCard.lastFlushTime s' = SdCard.lastFlushTime s.
Proof.
  intros s Hs. unfold SdCard.writeToBuffer.
  rewrite (proj1 Hs). cbn [negb]. cbv zeta.
  revert s Hs. induction data as [|c data IH]; intros s Hs.
  - cbn [fold_left last]. rewrite app_nil_r.
    repeat match goal with |- _ /\ _ => split end; try reflexivity; try assumption.
    discriminate.
  - cbn [fold_left].
    destruct (writeStep_effect s c Hs) as (W1 & W2 & W3 & W4 & W5 & W6 & W7 & W8).
    destruct (IH _ W1) as (I1 & I2 & I3 & I4 & I5 & I6 & I7 & I8).
    rewrite I2, W2, I4, I5, I6, I7, I8, <- app_assoc.
    repeat match goal with |- _ /\ _ => split end; try assumption; try reflexivity.
    intros Hlast. destruct data as [|c' data].
    + cbn [last] in Hlast. cbn [fold_left]. apply W3. congruence.
    + apply I3. exact Hlast.
Qed.

(** X16: the write buffer of the logger never overflows and loses nothing.
    While a session is recording to an open file, writeToBuffer keeps
    bufferPos below 511 (so every store stays inside writeBuffer[512]), the
    bytes on the card followed by the bytes still buffered are the earlier
    ones followed by the new data in order, and after data that ends in a
    line feed the buffer is empty and everything is on the card.  When no
    session is recording nothing is written. *)
Theorem writeToBuffer_keeps_stream (s : SdCard.Logger) (data : list Z) :
  (SdCard.recording s ->
   let s' := SdCard.writeToBuffer data s in
   SdCard.recording s' /\
   0 <= SdCard.bufferPos s' < SdCard.BUFFER_SIZE - 1 /\ SdCard.overrun s' = false /\
   SdCard.logged s' = SdCard.logged s ++ data /\
   (last data = Some 10 ->
    SdCard.bufferPos s' = 0 /\ SdCard.fileData s' = SdCard.logged s ++ data)) /\
  (SdCard.isRecording s = false -> SdCard.writeToBuffer data s = s).
Proof.
  split.
  - intros Hs s'. subst s'.
    destruct (writeToBuffer_effect data s Hs) as (W1 & W2 & W3 & _).
    split; [exact W1|].
    destruct W1 as (_ & _ & Hover & _ & Hpos & _).
    split; [exact Hpos|]. split; [exact Hover|]. split; [exact W2|].
    intros Hlast. specialize (W3 Hlast). split; [exact W3|].
    rewrite <- W2. unfold SdCard.logged. rewrite W3. cbn [Z.to_nat take].
    rewrite app_nil_r. reflexivity.
  - intros Hoff. unfold SdCard.writeToBuffer. rewrite Hoff. reflexivity.
Qed.

Lemma writeToBuffer_keeps_stream_witness :
  let s := SdCard.started [61; 61; 10] in
  let s1 := SdCard.writeToBuffer (replicate 600 65) s in
  SdCard.recording s /\
  length (SdCard.fileData s1) = 514%nat /\ SdCard.bufferPos s1 = 89 /\
  SdCard.logged s1 = [61; 61; 10] ++ replicate 600 65 /\
  SdCard.fileData (SdCard.writeToBuffer [66; 10] s1)
    = [61; 61; 10] ++ replicate 600 65 ++ [66; 10].
Proof.
  intros s s1.
  assert (Hs : SdCard.recording s) by (vm_compute; repeat split; discriminate).
  destruct (writeToBuffer_keeps_stream s (replicate 600 65)) as [A _].
  destruct (A Hs) as (R1 & _ & _ & L1 & _). fold s1 in R1, L1.
  destruct (writeToBuffer_keeps_stream s1 [66; 10]) as [B _].
  destruct (B R1) as (_ & _ & _ & _ & F). destruct (F eq_refl) as [_ F2].
  split; [exact Hs|]. split; [vm_compute; reflexivity|].
  split; [vm_compute; reflexivity|]. split; [exact L1|].
  rewrite F2, L1. rewrite <- app_assoc. reflexivity.
Defined.

(** ** sdcard.cpp: line records *)

Lemma tx_accumulate line : forall s,
  SdCard.recording s ->
  Forall (fun b => b <> 10 /\ b <> 13) line ->
  let s' := fold_left SdCard.txStep line s in
  SdCard.recording s' /\ SdCard.logged s' = SdCard.logged s /\
  SdCard.txLinePos s' = Z.min 255 (SdCard.txLinePos s + Z.of_nat (length line)) /\
  take (Z.to_nat (SdCard.txLinePos s')) (SdCard.txLineBuffer s')
  = take (Z.to_nat (SdCard.txLinePos s)) (SdCard.txLineBuffer s)
    ++ take (Z.to_nat (255 - SdCard.txLinePos s)) line /\
  SdCard.rxLineBuffer s' = SdCard.rxLineBuffer s /\
  SdCard.rxLinePos s' = SdCard.rxLinePos s.
Proof.
  induction line as [|c line IH]; intros s Hs Hline.
  - cbn [fold_left length Z.of_nat].
    pose proof Hs as (_ & _ & _ & _ & _ & _ & _ & _ & Hp).
    unfold SdCard.LINE_BUFFER_SIZE in Hp.
    rewrite take_nil, app_nil_r, Z.add_0_r, Z.min_r by lia.
    repeat match goal with |- _ /\ _ => split end; try reflexivity. exact Hs.
  - inversion Hline as [|? ? [Hc1 Hc2] Hrest]; subst. cbn [fold_left].
    pose proof Hs as (Hrec & Hopen & Hover & Hlen & Hpos & Hrx & Hrxp & Htx & Htxp).
    unfold SdCard.BUFFER_SIZE, SdCard.LINE_BUFFER_SIZE in *.
    assert (E : SdCard.txStep s c =
                if SdCard.txLinePos s <? 255
                then SdCard.set_tx (<[Z.to_nat (SdCard.txLinePos s) := c]>
                                      (SdCard.txLineBuffer s))
                                   (SdCard.txLinePos s + 1) s
                else s).
    { unfold SdCard.txStep, SdCard.LINE_BUFFER_SIZE.
      destruct (Z.eqb_spec c 10); [contradiction|].
      destruct (Z.eqb_spec c 13); [contradiction|]. cbn [orb].
      change (256 - 1) with 255.
      destruct (Z.ltb_spec (SdCard.txLinePos s) 255); [|reflexivity].
      destruct (Z.leb_spec 0 (SdCard.txLinePos s)); [|lia].
      rewrite int_add_small by int_fits. reflexivity. }
    rewrite E. set (p := SdCard.txLinePos s) in *.
    destruct (Z.ltb_spec p 255).
    + destruct (IH (SdCard.set_tx (<[Z.to_nat p := c]> (SdCard.txLineBuffer s)) (p + 1) s))
        as (I1 & I2 & I3 & I4 & I5 & I6); [|exact Hrest|].
      { unfold SdCard.recording, SdCard.BUFFER_SIZE, SdCard.LINE_BUFFER_SIZE. sd_fields.
        rewrite length_insert.
        repeat match goal with |- _ /\ _ => split end; try assumption; lia. }
      revert I1 I2 I3 I4 I5 I6. sd_fields. intros I1 I2 I3 I4 I5 I6.
      split; [exact I1|]. split; [exact I2|].
      split; [rewrite I3; cbn [length]; lia|].
      split; [|split; assumption].
      rewrite I4.
      replace (Z.to_nat (p + 1)) with (S (Z.to_nat p)) by lia.
      rewrite (take_S_r _ _ c) by (apply list_lookup_insert_eq; lia).
      rewrite take_insert_ge by lia.
      replace (Z.to_nat (255 - p)) with (S (Z.to_nat (255 - (p + 1)))) by lia.
      cbn [take]. rewrite <- app_assoc. reflexivity.
    + destruct (IH s Hs Hrest) as (I1 & I2 & I3 & I4 & I5 & I6). fold p in I3, I4.
      split; [exact I1|]. split; [exact I2|].
      split; [rewrite I3; cbn [length]; lia|].
      split; [|split; assumption].
      rewrite I4. replace (Z.to_nat (255 - p)) with 0%nat by lia.
      rewrite !take_0. reflexivity.
Qed.

Lemma txLineOut_effect s :
  SdCard.recording s -> 0 < SdCard.txLinePos s ->
  let s' := SdCard.txLineOut s in
  SdCard.recording s' /\
  SdCard.logged s' = SdCard.logged s ++ [62; 62; 32]
    ++ take (Z.to_nat (SdCard.txLinePos s)) (SdCard.txLineBuffer s) ++ [10] /\
  SdCard.txLinePos s' = 0 /\ SdCard.bufferPos s' = 0 /\
  SdCard.rxLineBuffer s' = SdCard.rxLineBuffer s /\
  SdCard.rxLinePos s' = SdCard.rxLinePos s.
Proof.
  intros Hs Hp. unfold SdCard.txLineOut. rewrite Z.gtb_ltb.
  destruct (Z.ltb_spec 0 (SdCard.txLinePos s)); [|lia]. cbv zeta.
  destruct (writeToBuffer_effect [62; 62; 32] s Hs)
    as (A1 & A2 & _ & A4 & A5 & A6 & A7 & _).
  set (s1 := SdCard.writeToBuffer [62; 62; 32] s) in *.
  destruct (writeToBuffer_effect
              (take (Z.to_nat (SdCard.txLinePos s1)) (SdCard.txLineBuffer s1)) s1 A1)
    as (B1 & B2 & _ & B4 & B5 & B6 & B7 & _).
  set (s2 := SdCard.writeToBuffer
               (take (Z.to_nat (SdCard.txLinePos s1)) (SdCard.txLineBuffer s1)) s1) in *.
  destruct (writeToBuffer_effect [10] s2 B1) as (C1 & C2 & C3 & C4 & C5 & C6 & C7 & _).
  set (s3 := SdCard.writeToBuffer [10] s2) in *.
  specialize (C3 eq_refl).
  pose proof C1 as (Hrec & Hopen & Hover & Hlen & Hpos & Hrx & Hrxp & Htx & Htxp).
  unfold SdCard.LINE_BUFFER_SIZE in *.
  split.
  { unfold SdCard.recording, SdCard.LINE_BUFFER_SIZE. sd_fields.
    repeat match goal with |- _ /\ _ => split end; try assumption; lia. }
  change (SdCard.logged (SdCard.set_tx (SdCard.txLineBuffer s3) 0 s3))
    with (SdCard.logged s3). sd_fields.
  split.
  { rewrite C2, B2, A2, A6, A7. rewrite <- !app_assoc. reflexivity. }
  split; [reflexivity|]. split; [exact C3|].
  split; [rewrite C4, B4, A4; reflexivity|rewrite C5, B5, A5; reflexivity].
Qed.

Lemma txStep_end_of_line s c :
  (c = 10 \/ c = 13) -> SdCard.txStep s c = SdCard.txLineOut s.
Proof.
  intros [-> | ->]; reflexivity.
Qed.

Lemma txLineOut_empty s : SdCard.txLinePos s = 0 -> SdCard.txLineOut s = s.
Proof. intros H. unfold SdCard.txLineOut. rewrite H. reflexivity. Qed.

(** X17: a sent line in the session log.  With a session recording and no
    partial line pending, logging a text without CR or LF and then the line
    end CR LF (as the ENTER key does) appends exactly one record to the log:
    ">> ", the first 255 bytes of the text, LF; the record is flushed to the
    card and the line buffer is empty again.  A line end alone adds nothing,
    and without a session the logger does nothing. *)
Theorem sdLogTX_line (s : SdCard.Logger) (line : list Z) :
  (SdCard.recording s -> SdCard.txLinePos s = 0 ->
   Forall (fun b => b <> 10 /\ b <> 13) line -> line <> [] ->
   let s' := SdCard.sdLogTX [13; 10] (SdCard.sdLogTX line s) in
   SdCard.recording s' /\
   SdCard.logged s' = SdCard.logged s ++ [62; 62; 32] ++ take 255 line ++ [10] /\
   SdCard.fileData s' = SdCard.logged s' /\ SdCard.txLinePos s' = 0) /\
  (SdCard.txLinePos s = 0 -> SdCard.sdLogTX [13; 10] s = s) /\
  (SdCard.isRecording s = false -> SdCard.sdLogTX line s = s).
Proof.
  split; [|split].
  - intros Hs Hp Hline Hne s'. subst s'.
    assert (E1 : SdCard.sdLogTX line s = fold_left SdCard.txStep line s).
    { unfold SdCard.sdLogTX. rewrite (proj1 Hs). cbn [negb orb].
      destruct line; [contradiction|]. reflexivity. }
    destruct (tx_accumulate line s Hs Hline) as (A1 & A2 & A3 & A4 & _).
    rewrite <- E1 in A1, A2, A3, A4.
    set (s1 := SdCard.sdLogTX line s) in *.
    assert (Hp1 : 0 < SdCard.txLinePos s1).
    { rewrite A3, Hp. destruct line; [contradiction|]. cbn [length]. lia. }
    assert (E2 : SdCard.sdLogTX [13; 10] s1 = SdCard.txLineOut s1).
    { unfold SdCard.sdLogTX. rewrite (proj1 A1). cbn [negb orb length fold_left].
      rewrite (txStep_end_of_line s1 13) by (right; reflexivity).
      rewrite txStep_end_of_line by (left; reflexivity).
      destruct (txLineOut_effect s1 A1 Hp1) as (_ & _ & B3 & _).
      apply txLineOut_empty. exact B3. }
    rewrite E2.
    destruct (txLineOut_effect s1 A1 Hp1) as (B1 & B2 & B3 & B4 & _).
    split; [exact B1|]. split; [|split; [|exact B3]].
    + rewrite B2, A2, A4, Hp. cbn [Z.to_nat take app]. reflexivity.
    + unfold SdCard.logged. rewrite B4. cbn [Z.to_nat take]. rewrite app_nil_r.
      reflexivity.
  - intros Hp. unfold SdCard.sdLogTX.
    destruct (SdCard.isRecording s); [|reflexivity]. cbn [negb orb length fold_left].
    rewrite (txStep_end_of_line s 13) by (right; reflexivity).
    rewrite (txLineOut_empty s Hp).
    rewrite txStep_end_of_line by (left; reflexivity). apply txLineOut_empty, Hp.
  - intros Hoff. unfold SdCard.sdLogTX. rewrite Hoff. reflexivity.
Qed.

Lemma sdLogTX_line_witness :
  let s := SdCard.started [] in
  let s' := SdCard.sdLogTX [13; 10] (SdCard.sdLogTX (Keyboard.lit "AT+GMR") s) in
  SdCard.fileData s' = Keyboard.lit ">> AT+GMR" ++ [10] /\
  SdCard.sdLogTX [13; 10] s' = s'.
Proof.
  intros s s'.
  assert (Hs : SdCard.recording s) by (vm_compute; repeat split; discriminate).
  destruct (sdLogTX_line s (Keyboard.lit "AT+GMR")) as (A & _).
  destruct A as (A1 & A2 & A3 & A4);
    [exact Hs|reflexivity|repeat constructor; discriminate|discriminate|].
  fold s' in A1, A2, A3, A4.
  destruct (sdLogTX_line s' []) as (_ & B & _).
  split; [rewrite A3, A2; reflexivity|exact (B A4)].
Defined.

Lemma rx_accumulate line : forall s,
  SdCard.recording s ->
  Forall (fun b => b <> 10 /\ b <> 13) line ->
  let s' := fold_left SdCard.rxStep line s in
  SdCard.recording s' /\ SdCard.logged s' = SdCard.logged s /\
  SdCard.rxLinePos s' = Z.min 255 (SdCard.rxLinePos s + Z.of_nat (length line)) /\
  take (Z.to_nat (SdCard.rxLinePos s')) (SdCard.rxLineBuffer s')
  = take (Z.to_nat (SdCard.rxLinePos s)) (SdCard.rxLineBuffer s)
    ++ take (Z.to_nat (255 - SdCard.rxLinePos s)) line /\
  SdCard.txLineBuffer s' = SdCard.txLineBuffer s /\
  SdCard.txLinePos s' = SdCard.txLinePos s.
Proof.
  induction line as [|c line IH]; intros s Hs Hline.
  - cbn [fold_left length Z.of_nat].
    pose proof Hs as (_ & _ & _ & _ & _ & _ & Hp & _ & _).
    unfold SdCard.LINE_BUFFER_SIZE in Hp.
    rewrite take_nil, app_nil_r, Z.add_0_r, Z.min_r by lia.
    repeat match goal with |- _ /\ _ => split end; try reflexivity. exact Hs.
  - inversion Hline as [|? ? [Hc1 Hc2] Hrest]; subst. cbn [fold_left].
    pose proof Hs as (Hrec & Hopen & Hover & Hlen & Hpos & Htx & Htxp & Hrx & Hrxp).
    unfold SdCard.BUFFER_SIZE, SdCard.LINE_BUFFER_SIZE in *.
    assert (E : SdCard.rxStep s c =
                if SdCard.rxLinePos s <? 255
                then SdCard.set_rx (<[Z.to_nat (SdCard.rxLinePos s) := c]>
                                      (SdCard.rxLineBuffer s))
                                   (SdCard.rxLinePos s + 1) s
                else s).
    { unfold SdCard.rxStep, SdCard.LINE_BUFFER_SIZE.
      destruct (Z.eqb_spec c 10); [contradiction|].
      destruct (Z.eqb_spec c 13); [contradiction|]. cbn [orb].
      change (256 - 1) with 255.
      destruct (Z.ltb_spec (SdCard.rxLinePos s) 255); [|reflexivity].
      destruct (Z.leb_spec 0 (SdCard.rxLinePos s)); [|lia].
      rewrite int_add_small by int_fits. reflexivity. }
    rewrite E. set (p := SdCard.rxLinePos s) in *.
    destruct (Z.ltb_spec p 255).
    + destruct (IH (SdCard.set_rx (<[Z.to_nat p := c]> (SdCard.rxLineBuffer s)) (p + 1) s))
        as (I1 & I2 & I3 & I4 & I5 & I6); [|exact Hrest|].
      { unfold SdCard.recording, SdCard.BUFFER_SIZE, SdCard.LINE_BUFFER_SIZE. sd_fields.
        rewrite length_insert.
        repeat match goal with |- _ /\ _ => split end; try assumption; lia. }
      revert I1 I2 I3 I4 I5 I6. sd_fields. intros I1 I2 I3 I4 I5 I6.
      split; [exact I1|]. split; [exact I2|].
      split; [rewrite I3; cbn [length]; lia|].
      split; [|split; assumption].
      rewrite I4.
      replace (Z.to_nat (p + 1)) with (S (Z.to_nat p)) by lia.
      rewrite (take_S_r _ _ c) by (apply list_lookup_insert_eq; lia).
      rewrite take_insert_ge by lia.
      replace (Z.to_nat (255 - p)) with (S (Z.to_nat (255 - (p + 1)))) by lia.
      cbn [take]. rewrite <- app_assoc. reflexivity.
    + destruct (IH s Hs Hrest) as (I1 & I2 & I3 & I4 & I5 & I6). fold p in I3, I4.
      split; [exact I1|]. split; [exact I2|].
      split; [rewrite I3; cbn [length]; lia|].
      split; [|split; assumption].
      rewrite I4. replace (Z.to_nat (255 - p)) with 0%nat by lia.
      rewrite !take_0. reflexivity.
Qed.

Lemma rxLineOut_effect s :
  SdCard.recording s -> 0 < SdCard.rxLinePos s ->
  let s' := SdCard.rxLineOut s in
  SdCard.recording s' /\
  SdCard.logged s' = SdCard.logged s ++ [60; 60; 32]
    ++ take (Z.to_nat (SdCard.rxLinePos s)) (SdCard.rxLineBuffer s) ++ [10] /\
  SdCard.rxLinePos s' = 0 /\ SdCard.bufferPos s' = 0 /\
  SdCard.txLineBuffer s' = SdCard.txLineBuffer s /\
  SdCard.txLinePos s' = SdCard.txLinePos s.
Proof.
  intros Hs Hp. unfold SdCard.rxLineOut. rewrite Z.gtb_ltb.
  destruct (Z.ltb_spec 0 (SdCard.rxLinePos s)); [|lia]. cbv zeta.
  destruct (writeToBuffer_effect [60; 60; 32] s Hs)
    as (A1 & A2 & _ & A4 & A5 & A6 & A7 & _).
  set (s1 := SdCard.writeToBuffer [60; 60; 32] s) in *.
  destruct (writeToBuffer_effect
              (take (Z.to_nat (SdCard.rxLinePos s1)) (SdCard.rxLineBuffer s1)) s1 A1)
    as (B1 & B2 & _ & B4 & B5 & B6 & B7 & _).
  set (s2 := SdCard.writeToBuffer
               (take (Z.to_nat (SdCard.rxLinePos s1)) (SdCard.rxLineBuffer s1)) s1) in *.
  destruct (writeToBuffer_effect [10] s2 B1) as (C1 & C2 & C3 & C4 & C5 & C6 & C7 & _).
  set (s3 := SdCard.writeToBuffer [10] s2) in *.
  specialize (C3 eq_refl).
  pose proof C1 as (Hrec & Hopen & Hover & Hlen & Hpos & Htx & Htxp & Hrx & Hrxp).
  unfold SdCard.LINE_BUFFER_SIZE in *.
  split.
  { unfold SdCard.recording, SdCard.LINE_BUFFER_SIZE. sd_fields.
    repeat match goal with |- _ /\ _ => split end; try assumption; lia. }
  change (SdCard.logged (SdCard.set_rx (SdCard.rxLineBuffer s3) 0 s3))
    with (SdCard.logged s3). sd_fields.
  split.
  { rewrite C2, B2, A2, A4, A5. rewrite <- !app_assoc. reflexivity. }
  split; [reflexivity|]. split; [exact C3|].
  split; [rewrite C6, B6, A6; reflexivity|rewrite C7, B7, A7; reflexivity].
Qed.

Lemma rxStep_end_of_line s c :
  (c = 10 \/ c = 13) -> SdCard.rxStep s c = SdCard.rxLineOut s.
Proof.
  intros [-> | ->]; reflexivity.
Qed.

Lemma rxLineOut_empty s : SdCard.rxLinePos s = 0 -> SdCard.rxLineOut s = s.
Proof. intros H. unfold SdCard.rxLineOut. rewrite H. reflexivity. Qed.


(** ** Received text in the session log *)

Lemma receive_cons b bytes dv :
  Link.receive (b :: bytes) dv = Link.receive bytes (Link.serialUpdate b dv).
Proof. reflexivity. Qed.

Lemma receive_term bytes : forall dv,
  Link.serialOpen dv = true ->
  Link.term (Link.receive bytes dv) = feed bytes (Link.term dv) /\
  Link.serial2 (Link.receive bytes dv) = Link.serial2 dv /\
  Link.serialOpen (Link.receive bytes dv) = true.
Proof.
  induction bytes as [|b bytes IH]; intros dv Hopen.
  - split; [reflexivity|]. split; [reflexivity|exact Hopen].
  - rewrite receive_cons, feed_cons.
    assert (E : Link.serialUpdate b dv =
                Link.mkDevice (terminalUpdate b (Link.term dv))
                              (Link.card (Link.serialUpdate b dv))
                              (Link.terminalSerial dv) (Link.serial2 dv)).
    { unfold Link.serialUpdate. rewrite Hopen. reflexivity. }
    destruct (IH (Link.serialUpdate b dv)) as (I1 & I2 & I3);
      [rewrite E; exact Hopen|].
    rewrite I1, I2, I3. rewrite E.
    split; [reflexivity|]. split; reflexivity.
Qed.

Lemma receive_card bytes : forall dv,
  Link.serialOpen dv = true -> inEscSequence (Link.term dv) = false ->
  Forall (fun b => b <> 0x1B) bytes ->
  Link.card (Link.receive bytes dv) =
  fold_left (fun s cp => SdCard.sdLogRXCodepoint cp s)
            (Host.decoded (utf8Decoder (Link.term dv)) bytes) (Link.card dv).
Proof.
  induction bytes as [|b bytes IH]; intros dv Hopen Hg Hbytes; [reflexivity|].
  inversion Hbytes as [|? ? Hb Hrest]; subst.
  rewrite receive_cons.
  assert (T : Link.term (Link.serialUpdate b dv) = terminalUpdate b (Link.term dv))
    by (unfold Link.serialUpdate; rewrite Hopen; reflexivity).
  assert (O : Link.serialOpen (Link.serialUpdate b dv) = true)
    by (unfold Link.serialUpdate; rewrite Hopen; exact Hopen).
  assert (C : Link.card (Link.serialUpdate b dv) =
              if snd (utf8Decode (utf8Decoder (Link.term dv)) b)
              then SdCard.sdLogRXCodepoint
                     (utf8GetCodepoint (fst (utf8Decode (utf8Decoder (Link.term dv)) b)))
                     (Link.card dv)
              else Link.card dv).
  { unfold Link.serialUpdate. rewrite Hopen, Hg.
    destruct (Z.eqb_spec b 0x1B); [contradiction|].
    destruct (utf8Decode (utf8Decoder (Link.term dv)) b) as [d complete].
    destruct complete; reflexivity. }
  pose proof (terminalUpdate_plain b (Link.term dv) Hg Hb) as U.
  unfold Host.decoded. cbn [Host.decode].
  destruct (utf8Decode (utf8Decoder (Link.term dv)) b) as [d complete].
  cbn [fst snd] in *. destruct complete.
  - rewrite IH; [|exact O| |exact Hrest].
    + rewrite T, U, C. fields. unfold Host.decoded.
      change (utf8Init d) with Utf8.initial.
      destruct (Host.decode Utf8.initial bytes). reflexivity.
    + rewrite T, U. fields. rewrite (proj1 (putChar_interpreter _ _)). exact Hg.
  - rewrite IH; [|exact O| |exact Hrest].
    + rewrite T, U, C. fields. reflexivity.
    + rewrite T, U. fields. exact Hg.
Qed.

Lemma logRX_codepoints cps : forall s,
  SdCard.recording s ->
  Forall (fun cp => 0 <= cp < 0x110000 /\ cp <> 10 /\ cp <> 13) cps ->
  fold_left (fun s cp => SdCard.sdLogRXCodepoint cp s) cps s
  = fold_left SdCard.rxStep (Host.utf8 cps) s.
Proof.
  induction cps as [|cp cps IH]; intros s Hs Hcps; [reflexivity|].
  inversion Hcps as [|? ? (Hcp & H10 & H13) Hrest]; subst.
  unfold Host.utf8. cbn [fold_left map concat]. rewrite fold_left_app.
  assert (E : SdCard.sdLogRXCodepoint cp s = fold_left SdCard.rxStep (SdCard.utf8Bytes cp) s).
  { unfold SdCard.sdLogRXCodepoint. rewrite (proj1 Hs). reflexivity. }
  rewrite E. apply IH; [|exact Hrest].
  apply rx_accumulate; [exact Hs|].
  pose proof (utf8Bytes_avoid cp 10 Hcp ltac:(lia) H10) as A.
  pose proof (utf8Bytes_avoid cp 13 Hcp ltac:(lia) H13) as B.
  rewrite Forall_forall in A, B. apply Forall_forall. intros b Hb.
  split; [apply A|apply B]; exact Hb.
Qed.

(** X18: a received line in the session log.  With the port open, a session
    recording, no partial line pending and the terminal between sequences
    and characters, receiving the UTF-8 bytes of a non-empty line (any
    codepoints below 0x110000 except CR, LF and ESC) and a line feed logs
    exactly one record: "<< ", the first 255 bytes as received, LF.  The
    terminal sees the same bytes as without the logger, and receiving writes
    nothing to Serial2. *)
Theorem received_line_is_logged (dv : Link.Device) (cps : list Z) :
  Link.serialOpen dv = true -> SdCard.recording (Link.card dv) ->
  SdCard.rxLinePos (Link.card dv) = 0 ->
  inEscSequence (Link.term dv) = false ->
  bytesNeeded (utf8Decoder (Link.term dv)) = 0 ->
  Forall (fun cp => 0 <= cp < 0x110000 /\ cp <> 10 /\ cp <> 13 /\ cp <> 0x1B) cps ->
  cps <> [] ->
  let dv' := Link.receive (Host.utf8 cps ++ [10]) dv in
  SdCard.logged (Link.card dv') =
    SdCard.logged (Link.card dv) ++ [60; 60; 32] ++ take 255 (Host.utf8 cps) ++ [10] /\
  SdCard.fileData (Link.card dv') = SdCard.logged (Link.card dv') /\
  SdCard.recording (Link.card dv') /\ SdCard.rxLinePos (Link.card dv') = 0 /\
  Link.term dv' = feed (Host.utf8 cps ++ [10]) (Link.term dv) /\
  Link.serial2 dv' = Link.serial2 dv.
Proof.
  intros Hopen Hrec Hp Hg Hd Hcps Hne dv'. subst dv'.
  assert (Hvalid : Forall (fun cp => 0 <= cp < 0x110000) cps)
    by (eapply Forall_impl; [exact Hcps|]; cbv beta; intros; tauto).
  assert (Heol : Forall (fun cp => 0 <= cp < 0x110000 /\ cp <> 10 /\ cp <> 13) cps)
    by (eapply Forall_impl; [exact Hcps|]; cbv beta; intros; tauto).
  assert (Hesc : Forall (fun b => b <> 0x1B) (Host.utf8 cps ++ [10])).
  { apply Forall_app. split; [|repeat constructor; lia].
    apply utf8_avoid; [|lia].
    eapply Forall_impl; [exact Hcps|]. cbv beta. intros. tauto. }
  destruct (receive_term (Host.utf8 cps ++ [10]) dv Hopen) as (T1 & T2 & _).
  rewrite (receive_card _ dv Hopen Hg Hesc).
  unfold Host.decoded. rewrite (decode_utf8 cps _ [10] Hvalid Hd).
  assert (E10 : Host.decode (if cps is [] then utf8Decoder (Link.term dv) else Utf8.initial)
                            [10] = ([10], Utf8.initial))
    by (destruct cps; [contradiction|reflexivity]).
  rewrite E10. cbn [fst]. rewrite fold_left_app. cbn [fold_left].
  rewrite (logRX_codepoints cps _ Hrec Heol).
  assert (Hbytes : Forall (fun b => b <> 10 /\ b <> 13) (Host.utf8 cps)).
  { pose proof (utf8_avoid cps 10) as A. pose proof (utf8_avoid cps 13) as B.
    assert (A' : Forall (fun b => b <> 10) (Host.utf8 cps)).
    { apply A; [|lia]. eapply Forall_impl; [exact Hcps|]. cbv beta. intros. tauto. }
    assert (B' : Forall (fun b => b <> 13) (Host.utf8 cps)).
    { apply B; [|lia]. eapply Forall_impl; [exact Hcps|]. cbv beta. intros. tauto. }
    rewrite Forall_forall in A', B'. apply Forall_forall. intros b Hb.
    split; [apply A'|apply B']; exact Hb. }
  destruct (rx_accumulate (Host.utf8 cps) (Link.card dv) Hrec Hbytes)
    as (A1 & A2 & A3 & A4 & _).
  set (s1 := fold_left SdCard.rxStep (Host.utf8 cps) (Link.card dv)) in *.
  assert (Hlen : (0 < length (Host.utf8 cps))%nat).
  { destruct cps as [|cp cps]; [contradiction|].
    inversion Hvalid as [|? ? Hcp _]; subst.
    unfold Host.utf8. cbn [map concat]. rewrite length_app.
    rewrite utf8Bytes_value by exact Hcp.
    repeat match goal with |- context [if ?c then _ else _] => destruct c end;
      cbn [length]; lia. }
  assert (Hp1 : 0 < SdCard.rxLinePos s1) by (rewrite A3, Hp; lia).
  assert (E : SdCard.sdLogRXCodepoint 10 s1 = SdCard.rxLineOut s1).
  { unfold SdCard.sdLogRXCodepoint. rewrite (proj1 A1). reflexivity. }
  rewrite E.
  destruct (rxLineOut_effect s1 A1 Hp1) as (B1 & B2 & B3 & B4 & _).
  split; [rewrite B2, A2, A4, Hp; cbn [Z.to_nat take app]; reflexivity|].
  split.
  { unfold SdCard.logged. rewrite B4. cbn [Z.to_nat take]. rewrite app_nil_r.
    reflexivity. }
  split; [exact B1|]. split; [exact B3|]. split; [exact T1|exact T2].
Qed.

Lemma received_line_is_logged_witness :
  let dv := Link.mkDevice (terminalInit Terminal.power_on) (SdCard.started [])
                          (Some Link.External) [] in
  let dv' := Link.receive (Host.utf8 [0x4F; 0x4B; 0x20; 0x43F; 0x440] ++ [10]) dv in
  SdCard.fileData (Link.card dv') = [60; 60; 32; 0x4F; 0x4B; 0x20; 0xD0; 0xBF; 0xD1; 0x80; 10] /\
  cell (Link.term dv') 0 3 = Some 0x43F.
Proof.
  intros dv dv'.
  assert (H1 : SdCard.recording (Link.card dv)) by (vm_compute; repeat split; discriminate).
  assert (H2 : Forall (fun cp => 0 <= cp < 0x110000 /\ cp <> 10 /\ cp <> 13 /\ cp <> 0x1B)
                      [0x4F; 0x4B; 0x20; 0x43F; 0x440]).
  { repeat constructor; discriminate. }
  destruct (received_line_is_logged dv _ eq_refl H1 eq_refl eq_refl eq_refl H2)
    as (A & B & _ & _ & C & _); [discriminate|].
  fold dv' in A, B, C.
  split; [rewrite B, A; vm_compute; reflexivity|].
  rewrite C. vm_compute. reflexivity.
Defined.

(** ** keyboard.cpp: the command history *)

Lemma copyLoop_take cmd : forall buf pos,
  length buf = 256%nat -> 0 <= pos <= 255 ->
  length (fst (copyLoop cmd buf pos)) = 256%nat /\
  snd (copyLoop cmd buf pos) = Z.min 255 (pos + Z.of_nat (length cmd)) /\
  take (Z.to_nat (snd (copyLoop cmd buf pos))) (fst (copyLoop cmd buf pos))
    = take (Z.to_nat pos) buf ++ take (Z.to_nat (255 - pos)) cmd.
Proof.
  induction cmd as [|c cmd IH]; intros buf pos Hlen Hpos.
  - cbn [copyLoop length fst snd Z.of_nat]. rewrite take_nil, app_nil_r.
    split; [exact Hlen|]. split; [lia|reflexivity].
  - cbn [copyLoop length]. unfold INPUT_BUFFER_SIZE. change (256 - 1) with 255.
    destruct (Z.ltb_spec pos 255).
    + rewrite int_add_small by int_fits.
      destruct (IH (<[Z.to_nat pos := c]> buf) (pos + 1)) as (I1 & I2 & I3);
        [rewrite length_insert; exact Hlen|lia|].
      split; [exact I1|]. split; [rewrite I2; lia|].
      rewrite I3.
      replace (Z.to_nat (pos + 1)) with (S (Z.to_nat pos)) by lia.
      rewrite (take_S_r _ _ c) by (apply list_lookup_insert_eq; lia).
      rewrite take_insert_ge by lia.
      replace (Z.to_nat (255 - pos)) with (S (Z.to_nat (255 - (pos + 1)))) by lia.
      cbn [take]. rewrite <- app_assoc. reflexivity.
    + cbn [fst snd]. split; [exact Hlen|]. split; [lia|].
      replace (Z.to_nat (255 - pos)) with 0%nat by lia.
      rewrite take_0, app_nil_r. reflexivity.
Qed.

Lemma load_keyboard cmd k t :
  length (inputBuffer k) = 256%nat ->
  let k' := fst (loadCommandToBuffer cmd (k, t)) in
  commandHistory k' = commandHistory k /\ historyCount k' = historyCount k /\
  currentHistoryIndex k' = currentHistoryIndex k /\
  savedNewCommand k' = savedNewCommand k /\
  length (inputBuffer k') = 256%nat /\ 0 <= inputBufferPos k' <= 255 /\
  editBuffer k' = take 255 cmd.
Proof.
  intros Hlen. cbv zeta. rewrite loadCommandToBuffer_keyboard.
  destruct (copyLoop_take cmd (inputBuffer k) 0 Hlen ltac:(lia)) as (C1 & C2 & C3).
  unfold editBuffer.
  cbn [commandHistory historyCount currentHistoryIndex savedNewCommand inputBuffer
       inputBufferPos].
  repeat match goal with |- _ /\ _ => split end; try reflexivity; try exact C1;
    try (rewrite C2; lia).
  rewrite C3. reflexivity.
Qed.

(** Up while browsing entry i, with an older entry left. *)
Lemma historyUp_older k0 i k t :
  HistorySpec.browsing_from k0 i k -> 0 <= i < historyCount k0 - 1 ->
  historyCount k0 <= MAX_HISTORY ->
  HistorySpec.browsing_from k0 (i + 1) (fst (historyUp (k, t))).
Proof.
  intros (B1 & B2 & B3 & B4 & B5 & B6 & B7) Hi Hmax. unfold MAX_HISTORY in *.
  unfold historyUp. rewrite B2, B3.
  destruct (Z.eqb_spec (historyCount k0) 0); [lia|].
  destruct (Z.eqb_spec i (-1)); [lia|].
  rewrite (int_sub_small (historyCount k0) 1) by int_fits.
  destruct (Z.ltb_spec i (historyCount k0 - 1)); [|lia].
  rewrite int_add_small by int_fits.
  cbn [commandHistory currentHistoryIndex]. rewrite B1.
  match goal with |- context [loadCommandToBuffer ?c (?x, t)] =>
    destruct (load_keyboard c x t B5) as (L1 & L2 & L3 & L4 & L5 & L6 & L7) end.
  unfold HistorySpec.browsing_from.
  rewrite L1, L2, L3, L4, L7. cbn [commandHistory historyCount currentHistoryIndex
                                   savedNewCommand].
  repeat match goal with |- _ /\ _ => split end; try assumption; try reflexivity; lia.
Qed.

(** The first Up, from Editing. *)
Lemma historyUp_first k0 t :
  well_formed k0 -> mode k0 = Editing -> 0 < historyCount k0 ->
  HistorySpec.browsing_from k0 0 (fst (historyUp (k0, t))).
Proof.
  intros Hwf Hmode Hcount.
  pose proof Hwf as (Hlen & Hpos & Hnz & _).
  unfold mode in Hmode.
  destruct (Z.eqb_spec (currentHistoryIndex k0) (-1)) as [Hidx|]; [|discriminate Hmode].
  unfold historyUp.
  destruct (Z.eqb_spec (historyCount k0) 0); [lia|].
  rewrite Hidx. cbn [Z.eqb Pos.eqb]. cbn [commandHistory currentHistoryIndex].
  unfold INPUT_BUFFER_SIZE in Hpos.
  match goal with |- context [loadCommandToBuffer ?c (?x, t)] =>
    destruct (load_keyboard c x t) as (L1 & L2 & L3 & L4 & L5 & L6 & L7) end;
    [cbn [inputBuffer]; rewrite length_insert; exact Hlen|].
  unfold HistorySpec.browsing_from.
  rewrite L1, L2, L3, L4, L7.
  cbn [commandHistory historyCount currentHistoryIndex savedNewCommand].
  repeat match goal with |- _ /\ _ => split end; try assumption; try reflexivity;
    try lia.
  apply c_str_terminated; [lia|exact Hnz].
Qed.

(** Down while browsing entry i > 0, and Down from the newest entry. *)
Lemma historyDown_newer k0 i k t :
  HistorySpec.browsing_from k0 i k -> 0 < i < MAX_HISTORY ->
  HistorySpec.browsing_from k0 (i - 1) (fst (historyDown (k, t))).
Proof.
  intros (B1 & B2 & B3 & B4 & B5 & B6 & B7) Hi. unfold MAX_HISTORY in *.
  unfold historyDown. rewrite B3.
  destruct (Z.eqb_spec i (-1)); [lia|].
  cbn [currentHistoryIndex commandHistory savedNewCommand].
  rewrite int_sub_small by int_fits.
  destruct (Z.eqb_spec (i - 1) (-1)); [lia|]. rewrite B1.
  match goal with |- context [loadCommandToBuffer ?c (?x, t)] =>
    destruct (load_keyboard c x t B5) as (L1 & L2 & L3 & L4 & L5 & L6 & L7) end.
  unfold HistorySpec.browsing_from.
  rewrite L1, L2, L3, L4, L7. cbn [commandHistory historyCount currentHistoryIndex
                                   savedNewCommand].
  repeat match goal with |- _ /\ _ => split end; try assumption; try reflexivity; lia.
Qed.

Lemma historyDown_last k0 k t :
  HistorySpec.browsing_from k0 0 k -> 0 <= inputBufferPos k0 <= 255 ->
  length (inputBuffer k0) = 256%nat ->
  let k' := fst (historyDown (k, t)) in
  mode k' = Editing /\ editBuffer k' = editBuffer k0 /\ savedNewCommand k' = [] /\
  commandHistory k' = commandHistory k0 /\ historyCount k' = historyCount k0.
Proof.
  intros (B1 & B2 & B3 & B4 & B5 & B6 & B7) Hpos Hlen0. cbv zeta.
  unfold historyDown. rewrite B3. cbn [Z.eqb].
  cbn [currentHistoryIndex commandHistory savedNewCommand].
  change (Int.sub 0 1 =? -1) with true. cbv iota.
  match goal with |- context [loadCommandToBuffer ?c (?x, t)] =>
    pose proof (load_keyboard c x t B5) as L;
    destruct (loadCommandToBuffer c (x, t)) as [k1 t1] end.
  cbv zeta in L. cbn [fst] in L.
  destruct L as (L1 & L2 & L3 & L4 & L5 & L6 & L7).
  cbn [historyCount commandHistory currentHistoryIndex savedNewCommand] in L1, L2, L3.
  cbn [fst]. unfold mode, editBuffer in *.
  cbn [commandHistory historyCount inputBuffer inputBufferPos currentHistoryIndex
       savedNewCommand].
  rewrite L3. change (Int.sub 0 1 =? -1) with true. cbv iota.
  rewrite L1, L2, B1, B2.
  repeat match goal with |- _ /\ _ => split end; try reflexivity.
  rewrite L7, B4. apply take_ge.
  rewrite length_take. lia.
Qed.

Lemma history_ups k0 t (n : nat) :
  well_formed k0 -> mode k0 = Editing ->
  Z.of_nat (S n) <= historyCount k0 <= MAX_HISTORY ->
  HistorySpec.browsing_from k0 (Z.of_nat n) (fst (Nat.iter (S n) historyUp (k0, t))).
Proof.
  intros Hwf Hmode. induction n as [|n IH]; intros Hn.
  - cbn [Nat.iter nat_rect Z.of_nat]. apply historyUp_first; try assumption. lia.
  - change (Nat.iter (S (S n)) historyUp (k0, t))
      with (historyUp (Nat.iter (S n) historyUp (k0, t))).
    specialize (IH ltac:(lia)).
    destruct (Nat.iter (S n) historyUp (k0, t)) as [kn tn]. cbn [fst] in IH.
    replace (Z.of_nat (S n)) with (Z.of_nat n + 1) by lia.
    apply historyUp_older; [exact IH|lia|lia].
Qed.

Lemma history_downs k0 (n : nat) : forall k t,
  HistorySpec.browsing_from k0 (Z.of_nat n) k -> Z.of_nat n < MAX_HISTORY ->
  HistorySpec.browsing_from k0 0 (fst (Nat.iter n historyDown (k, t))).
Proof.
  induction n as [|n IH]; intros k t Hk Hn; [exact Hk|].
  rewrite Nat.iter_succ_r.
  destruct (historyDown (k, t)) as [k1 t1] eqn:E.
  apply IH; [|lia].
  replace (Z.of_nat n) with (Z.of_nat (S n) - 1) by lia.
  replace k1 with (fst (historyDown (k, t))) by (rewrite E; reflexivity).
  apply historyDown_newer; [exact Hk|lia].
Qed.

(** X19: browsing the command history and coming back.  From Editing, n
    presses of Up (1 <= n <= number of stored commands) show entry n-1, cut
    to the 255 bytes the input buffer takes, and keep the text that was
    being edited in savedNewCommand; n presses of Down then return to
    Editing with that text back in the input buffer, and the history itself
    is never changed.  Up on the oldest entry, Up with an empty history and
    Down in Editing do nothing. *)
Theorem history_round_trip (k0 : Keyboard) (t : Terminal) (n : nat) :
  (well_formed k0 -> mode k0 = Editing ->
   (1 <= n)%nat -> Z.of_nat n <= historyCount k0 <= MAX_HISTORY ->
   let up := Nat.iter n historyUp (k0, t) in
   let down := Nat.iter n historyDown up in
   HistorySpec.browsing_from k0 (Z.of_nat n - 1) (fst up) /\
   (Z.of_nat n = historyCount k0 -> historyUp up = up) /\
   mode (fst down) = Editing /\ editBuffer (fst down) = editBuffer k0 /\
   commandHistory (fst down) = commandHistory k0 /\
   historyCount (fst down) = historyCount k0) /\
  (historyCount k0 = 0 -> historyUp (k0, t) = (k0, t)) /\
  (mode k0 = Editing -> historyDown (k0, t) = (k0, t)).
Proof.
  split; [|split].
  - intros Hwf Hmode Hn Hcount. cbv zeta.
    destruct n as [|m]; [lia|].
    pose proof (history_ups k0 t m Hwf Hmode Hcount) as Hup.
    set (up := Nat.iter (S m) historyUp (k0, t)) in *.
    replace (Z.of_nat (S m) - 1) with (Z.of_nat m) by lia.
    split; [exact Hup|]. split.
    { intros Hlast. destruct up as [ku tu]. cbn [fst] in Hup.
      destruct Hup as (B1 & B2 & B3 & _).
      unfold historyUp, MAX_HISTORY in *. rewrite B2, B3.
      destruct (Z.eqb_spec (historyCount k0) 0); [reflexivity|].
      destruct (Z.eqb_spec (Z.of_nat m) (-1)); [lia|].
      rewrite int_sub_small by int_fits.
      destruct (Z.ltb_spec (Z.of_nat m) (historyCount k0 - 1)); [lia|reflexivity]. }
    change (Nat.iter (S m) historyDown up) with (historyDown (Nat.iter m historyDown up)).
    destruct up as [ku tu]. cbn [fst] in Hup.
    pose proof (history_downs k0 m ku tu Hup ltac:(lia)) as Hdown.
    destruct (Nat.iter m historyDown (ku, tu)) as [kd td]. cbn [fst] in Hdown.
    pose proof Hwf as (Hlen & Hpos & _).
    unfold INPUT_BUFFER_SIZE in Hpos.
    destruct (historyDown_last k0 kd td Hdown ltac:(lia) Hlen) as (D1 & D2 & _ & D4 & D5).
    repeat match goal with |- _ /\ _ => split end; assumption.
  - intros H0. unfold historyUp. rewrite H0. reflexivity.
  - intros Hmode. unfold mode in Hmode. unfold historyDown.
    destruct (currentHistoryIndex k0 =? -1); [reflexivity|discriminate Hmode].
Qed.

Lemma history_round_trip_witness :
  let t := terminalInit Terminal.power_on in
  let up := Nat.iter 3 historyUp (typing_cd, t) in
  editBuffer (fst up) = lit "ls" /\ savedNewCommand (fst up) = lit "cd" /\
  historyUp up = up /\
  editBuffer (fst (Nat.iter 3 historyDown up)) = lit "cd" /\
  mode (fst (Nat.iter 3 historyDown up)) = Editing.
Proof.
  intros t up.
  assert (H1 : well_formed typing_cd).
  { split; [reflexivity|]. split; [vm_compute; split; discriminate|].
    split; [vm_compute; repeat constructor; discriminate|vm_compute; lia]. }
  destruct (history_round_trip typing_cd t 3) as (A & _).
  destruct (A H1 eq_refl ltac:(lia) ltac:(vm_compute; split; discriminate))
    as ((_ & _ & _ & B4 & _ & _ & B7) & C & D1 & D2 & _).
  fold up in B4, B7, C, D1, D2.
  split; [rewrite B7; vm_compute; reflexivity|].
  split; [rewrite B4; vm_compute; reflexivity|].
  split; [apply C; reflexivity|]. split; [rewrite D2; vm_compute; reflexivity|exact D1].
Defined.

Lemma shiftDown_push command (h : list Str) :
  length h = 10%nat ->
  <[0%nat := command]> (shiftDown h) = command :: take 9 h.
Proof.
  intros Hlen.
  do 10 (destruct h as [|? h]; [discriminate Hlen|]).
  destruct h; [|discriminate Hlen]. reflexivity.
Qed.

Lemma saveCommandToHistory_effect command k :
  length (commandHistory k) = 10%nat -> 0 <= historyCount k <= MAX_HISTORY ->
  command <> [] ->
  saveCommandToHistory command k =
  mkKeyboard (command :: take 9 (commandHistory k))
             (Z.min MAX_HISTORY (historyCount k + 1))
             (inputBuffer k) (inputBufferPos k)
             (currentHistoryIndex k) (savedNewCommand k).
Proof.
  intros Hlen Hcount Hne. unfold saveCommandToHistory, MAX_HISTORY in *.
  destruct command as [|c rest]; [congruence|].
  cbn [length]. destruct (Z.eqb_spec (Z.of_nat (S (length rest))) 0); [lia|].
  cbv zeta. rewrite shiftDown_push by assumption.
  f_equal. destruct (Z.ltb_spec (historyCount k) 10).
  - rewrite int_add_small by int_fits. lia.
  - lia.
Qed.

(** X20: the command history keeps the last ten submitted commands, newest
    first.  After any sequence of saveCommandToHistory calls on the
    power-on state, commandHistory lists the non-empty commands from the
    most recent backwards, cut to MAX_HISTORY entries (unused entries are
    the empty String), and historyCount is their number, at most 10; empty
    commands are not recorded, and the input line is not touched. *)
Theorem history_keeps_last_ten (commands : list Str) :
  let submitted := List.filter (fun c => negb (Nat.eqb (length c) 0)) commands in
  let k := fold_left (fun k c => saveCommandToHistory c k) commands power_on in
  commandHistory k = take 10 (reverse submitted ++ replicate 10 []) /\
  historyCount k = Z.min MAX_HISTORY (Z.of_nat (length submitted)) /\
  inputBuffer k = inputBuffer power_on /\ inputBufferPos k = 0 /\
  currentHistoryIndex k = -1 /\ savedNewCommand k = [].
Proof.
  cbv zeta.
  induction commands as [|c commands IH] using rev_ind.
  - cbn. repeat split; reflexivity.
  - rewrite fold_left_app. cbn [fold_left].
    set (k := fold_left (fun k c => saveCommandToHistory c k) commands power_on) in *.
    rewrite List.filter_app. cbn [List.filter].
    destruct IH as (H1 & H2 & H3 & H4 & H5 & H6).
    destruct c as [|b c].
    + cbn [length Nat.eqb negb]. rewrite app_nil_r.
      change (saveCommandToHistory [] k) with k. tauto.
    + cbn [length Nat.eqb negb].
      assert (Hlen : length (commandHistory k) = 10%nat).
      { rewrite H1, length_take, length_app, length_replicate. lia. }
      rewrite saveCommandToHistory_effect;
        [|exact Hlen|rewrite H2; unfold MAX_HISTORY; lia|discriminate].
      cbn [commandHistory historyCount inputBuffer inputBufferPos
           currentHistoryIndex savedNewCommand].
      split; [|split; [|tauto]].
      * rewrite H1, reverse_app. cbn [reverse rev app].
        change (reverse [b :: c]) with [b :: c]. cbn [app take].
        f_equal. rewrite take_take. reflexivity.
      * rewrite H2, length_app. cbn [length]. unfold MAX_HISTORY, Str. lia.
Qed.

(** ** keyboard.cpp: the touch handler *)

Import Link Touch.

Lemma scanRow_hit {A : Type} (offset keyW touchX : Z) (row : list A) :
  forall (c : nat) (col : Z) (key : A),
  0 <= keyW -> row !! c = Some key ->
  offset + (col + Z.of_nat c) * (keyW + keySpacing) <= touchX
    <= offset + (col + Z.of_nat c) * (keyW + keySpacing) + keyW ->
  scanRow offset keyW touchX col row = Some key.
Proof.
  unfold keySpacing.
  induction row as [|k row IH]; intros c col key Hw Hc Hx; [discriminate Hc|].
  cbn [scanRow]. unfold within, keySpacing.
  destruct c as [|c].
  - cbn in Hc. injection Hc as ->. rewrite Z.add_0_r in Hx.
    destruct (Z.geb_spec touchX (offset + col * (keyW + 2))); [|lia].
    destruct (Z.leb_spec touchX (offset + col * (keyW + 2) + keyW)); [|lia].
    reflexivity.
  - cbn in Hc.
    assert (Hout : (touchX >=? offset + col * (keyW + 2))
                   && (touchX <=? offset + col * (keyW + 2) + keyW) = false).
    { apply andb_false_iff. right. apply Z.leb_gt. nia. }
    rewrite Hout. apply (IH c (col + 1) key Hw Hc).
    replace (col + 1 + Z.of_nat c) with (col + Z.of_nat (S c)) by lia. exact Hx.
Qed.

Lemma scanRow_some {A : Type} (offset keyW touchX : Z) (row : list A) :
  forall (col : Z) (key : A),
  scanRow offset keyW touchX col row = Some key ->
  exists c : nat, row !! c = Some key /\
    offset + (col + Z.of_nat c) * (keyW + keySpacing) <= touchX
      <= offset + (col + Z.of_nat c) * (keyW + keySpacing) + keyW.
Proof.
  induction row as [|k row IH]; intros col key H; [discriminate H|].
  cbn [scanRow] in H. unfold within in H.
  destruct (Z.geb_spec touchX (offset + col * (keyW + keySpacing)));
    [destruct (Z.leb_spec touchX (offset + col * (keyW + keySpacing) + keyW))|];
    cbn [andb] in H.
  - injection H as ->. exists 0%nat. split; [reflexivity|]. rewrite Z.add_0_r. lia.
  - destruct (IH _ _ H) as (c & Hc & Hx). exists (S c). split; [exact Hc|].
    replace (col + Z.of_nat (S c)) with (col + 1 + Z.of_nat c) by lia. exact Hx.
  - destruct (IH _ _ H) as (c & Hc & Hx). exists (S c). split; [exact Hc|].
    replace (col + Z.of_nat (S c)) with (col + 1 + Z.of_nat c) by lia. exact Hx.
Qed.

Lemma scanRows_hit {A : Type} (keyW touchX touchY : Z) :
  forall (rows : list (list A)) (offsets : list Z) (r : nat) (row : Z)
         (keysOfRow : list A) (offset : Z) (c : nat) (key : A),
  0 <= keyW ->
  rows !! r = Some keysOfRow -> offsets !! r = Some offset ->
  keysOfRow !! c = Some key ->
  rowY (row + Z.of_nat r) <= touchY <= rowY (row + Z.of_nat r) + keyHeight ->
  offset + Z.of_nat c * (keyW + keySpacing) <= touchX
    <= offset + Z.of_nat c * (keyW + keySpacing) + keyW ->
  scanRows keyW touchX touchY row offsets rows = Some key.
Proof.
  induction rows as [|ks rows IH]; intros offsets r row keysOfRow offset c key
    Hw Hr Ho Hc Hy Hx; [discriminate Hr|].
  destruct offsets as [|o offsets]; [discriminate Ho|].
  cbn [scanRows]. unfold within.
  destruct r as [|r].
  - cbn in Hr, Ho. injection Hr as ->. injection Ho as ->.
    rewrite Z.add_0_r in Hy.
    destruct (Z.geb_spec touchY (rowY row)); [|lia].
    destruct (Z.leb_spec touchY (rowY row + keyHeight)); [|lia].
    cbn [andb]. rewrite (scanRow_hit offset keyW touchX keysOfRow c 0 key Hw Hc Hx).
    reflexivity.
  - cbn in Hr, Ho.
    assert (Hout : (touchY >=? rowY row) && (touchY <=? rowY row + keyHeight) = false).
    { apply andb_false_iff. right. apply Z.leb_gt.
      unfold rowY, keyHeight, keySpacing, KEYBOARD_Y_POS in *. lia. }
    rewrite Hout. apply (IH offsets r (row + 1) keysOfRow offset c key Hw Hr Ho Hc); [|exact Hx].
    replace (row + 1 + Z.of_nat r) with (row + Z.of_nat (S r)) by lia. exact Hy.
Qed.

Lemma scanRows_some {A : Type} (keyW touchX touchY : Z) :
  forall (rows : list (list A)) (offsets : list Z) (row : Z) (key : A),
  scanRows keyW touchX touchY row offsets rows = Some key ->
  exists (r c : nat) (keysOfRow : list A) (offset : Z),
    rows !! r = Some keysOfRow /\ offsets !! r = Some offset /\
    keysOfRow !! c = Some key /\
    rowY (row + Z.of_nat r) <= touchY <= rowY (row + Z.of_nat r) + keyHeight /\
    offset + Z.of_nat c * (keyW + keySpacing) <= touchX
      <= offset + Z.of_nat c * (keyW + keySpacing) + keyW.
Proof.
  induction rows as [|ks rows IH]; intros offsets row key H;
    [destruct offsets; cbn in H; discriminate H|].
  destruct offsets as [|o offsets]; [cbn in H; discriminate H|].
  cbn [scanRows] in H.
  assert (Hrest : scanRows keyW touchX touchY (row + 1) offsets rows = Some key ->
    exists (r c : nat) (keysOfRow : list A) (offset : Z),
      (ks :: rows) !! r = Some keysOfRow /\ (o :: offsets) !! r = Some offset /\
      keysOfRow !! c = Some key /\
      rowY (row + Z.of_nat r) <= touchY <= rowY (row + Z.of_nat r) + keyHeight /\
      offset + Z.of_nat c * (keyW + keySpacing) <= touchX
        <= offset + Z.of_nat c * (keyW + keySpacing) + keyW).
  { intros H'. destruct (IH _ _ _ H') as (r & c & kr & off & H1 & H2 & H3 & H4 & H5).
    exists (S r), c, kr, off. repeat split; try assumption;
    replace (row + Z.of_nat (S r)) with (row + 1 + Z.of_nat r) by lia; lia. }
  destruct (within touchY (rowY row) (rowY row + keyHeight)) eqn:Hy; [|exact (Hrest H)].
  destruct (scanRow o keyW touchX 0 ks) as [k|] eqn:Hk; [|exact (Hrest H)].
  injection H as ->.
  destruct (scanRow_some _ _ _ _ _ _ Hk) as (c & Hc & Hx).
  exists 0%nat, c, ks, o. rewrite Z.add_0_r. rewrite Z.add_0_l in Hx.
  unfold within in Hy. apply andb_true_iff in Hy. destruct Hy as [Hy1 Hy2].
  repeat split; try assumption; lia.
Qed.

Ltac panel_fields :=
  cbn [keys device shiftPressed currentLayout lastTouchTime stray
       set_keys set_device set_shift set_layout set_lastTouchTime set_stray
       set_term set_input echo echoText
       inputBuffer inputBufferPos commandHistory historyCount
       currentHistoryIndex savedNewCommand
       term card terminalSerial serial2] in *.

Lemma same_but_input_refl p : same_but_input p p.
Proof. repeat split. Qed.

Lemma same_but_input_trans p q r :
  same_but_input p q -> same_but_input q r -> same_but_input p r.
Proof.
  unfold same_but_input. intros (A1 & A2 & A3 & A4 & A5 & A6 & A7 & A8 & A9)
    (B1 & B2 & B3 & B4 & B5 & B6 & B7 & B8 & B9).
  repeat split; congruence.
Qed.

Lemma pushByte_effect c p :
  length (inputBuffer (keys p)) = 256%nat ->
  0 <= inputBufferPos (keys p) <= 255 ->
  let q := pushByte c p in
  editBuffer (keys q) = take 255 (editBuffer (keys p) ++ [c]) /\
  length (inputBuffer (keys q)) = 256%nat /\
  0 <= inputBufferPos (keys q) <= 255 /\
  inputBufferPos (keys p) <= inputBufferPos (keys q) /\
  same_but_input p q.
Proof.
  intros Hlen Hpos q. subst q. unfold pushByte, INPUT_BUFFER_SIZE.
  destruct (Z.ltb_spec (inputBufferPos (keys p)) (256 - 1)).
  - unfold poke, INPUT_BUFFER_SIZE.
    destruct (Z.leb_spec 0 (inputBufferPos (keys p))); [|lia].
    destruct (Z.ltb_spec (inputBufferPos (keys p)) 256); [|lia].
    cbn [andb]. panel_fields. rewrite int_add_small by int_fits.
    split; [|split; [rewrite length_insert; exact Hlen|
             split; [lia|split; [lia|repeat split]]]].
    unfold editBuffer. panel_fields.
    replace (Z.to_nat (inputBufferPos (keys p) + 1))
      with (S (Z.to_nat (inputBufferPos (keys p)))) by lia.
    rewrite (take_S_r _ (Z.to_nat (inputBufferPos (keys p))) c)
      by (apply list_lookup_insert_eq; lia).
    rewrite take_insert_ge by lia.
    symmetry. apply take_ge.
    rewrite length_app, length_take. cbn [length]. lia.
  - assert (Hp : inputBufferPos (keys p) = 255) by lia.
    split; [|split; [exact Hlen|split; [lia|split; [lia|apply same_but_input_refl]]]].
    unfold editBuffer. rewrite Hp. rewrite take_app_le by (rewrite length_take; lia).
    rewrite take_take. reflexivity.
Qed.

Lemma pushBytes_effect chars : forall p,
  length (inputBuffer (keys p)) = 256%nat ->
  0 <= inputBufferPos (keys p) <= 255 ->
  let q := pushBytes chars p in
  editBuffer (keys q) = take 255 (editBuffer (keys p) ++ chars) /\
  length (inputBuffer (keys q)) = 256%nat /\
  0 <= inputBufferPos (keys q) <= 255 /\
  inputBufferPos (keys p) <= inputBufferPos (keys q) /\
  same_but_input p q.
Proof.
  induction chars as [|c chars IH]; intros p Hlen Hpos; cbv zeta.
  - cbn [pushBytes]. rewrite app_nil_r.
    split; [|split; [exact Hlen|split; [exact Hpos|split; [lia|apply same_but_input_refl]]]].
    unfold editBuffer. rewrite take_take. f_equal. lia.
  - cbn [pushBytes]. unfold INPUT_BUFFER_SIZE.
    destruct (Z.ltb_spec (inputBufferPos (keys p)) (256 - 1)).
    + destruct (pushByte_effect c p Hlen Hpos) as (A1 & A2 & A3 & A4 & A5).
      destruct (IH (pushByte c p) A2 A3) as (B1 & B2 & B3 & B4 & B5).
      split; [|split; [exact B2|split; [exact B3|split;
               [lia|exact (same_but_input_trans _ _ _ A5 B5)]]]].
      rewrite B1, A1.
      rewrite (take_ge (editBuffer (keys p) ++ [c]))
        by (rewrite length_app; unfold editBuffer;
            rewrite length_take; cbn [length]; lia).
      rewrite <- app_assoc. reflexivity.
    + assert (Hp : inputBufferPos (keys p) = 255) by lia.
      split; [|split; [exact Hlen|split; [lia|split; [lia|apply same_but_input_refl]]]].
      unfold editBuffer. rewrite Hp. rewrite take_app_le by (rewrite length_take; lia).
      rewrite take_take. reflexivity.
Qed.

Lemma specialKeys_above touchX touchY p :
  touchY < 208 -> specialKeys touchX touchY p = None.
Proof.
  intros Hy. unfold specialKeys, within, keyHeight, keySpacing, KEYBOARD_Y_POS.
  destruct (Z.geb_spec touchY (80 + 4 * (30 + 2))); [lia|reflexivity].
Qed.

Lemma regular_row_above (r : nat) touchY :
  (r < 4)%nat -> touchY <= rowY (Z.of_nat r) + keyHeight -> touchY < 208.
Proof. unfold rowY, keyHeight, keySpacing, KEYBOARD_Y_POS. lia. Qed.

Lemma keyboardEN_lower_case rowkeys key :
  rowkeys ∈ keyboardEN -> key ∈ rowkeys -> 97 <= key <= 122.
Proof.
  intros Hr Hk.
  assert (H : Forall (Forall (fun k => 97 <= k <= 122)) keyboardEN)
    by (vm_compute; repeat constructor; discriminate).
  rewrite Forall_forall in H. specialize (H _ Hr).
  rewrite Forall_forall in H. exact (H _ Hk).
Qed.

(** X21: a touch on a key of the English layout.  When the debounce time
    has passed and the touch lies in the rectangle of the key in row r,
    column c of keyboardEN, the handler appends that lower-case letter to
    the input line (nothing once 255 chars are stored) and echoes it on the
    terminal; with SHIFT on it is the upper-case letter instead, and SHIFT
    is released.  Nothing is written to Serial2 or to the session log, and
    the command history is not touched. *)
Theorem english_key_typed (now touchX touchY : Z) (p : Panel)
    (r c : nat) (rowkeys : list Z) (offset key : Z) :
  currentLayout p = LAYOUT_EN ->
  touchDebounce <= Int.u32 (now - lastTouchTime p) ->
  keyboardEN !! r = Some rowkeys -> [2; 10; 25] !! r = Some offset ->
  rowkeys !! c = Some key ->
  rowY (Z.of_nat r) <= touchY <= rowY (Z.of_nat r) + keyHeight ->
  offset + Z.of_nat c * (keyWidth + keySpacing) <= touchX
    <= offset + Z.of_nat c * (keyWidth + keySpacing) + keyWidth ->
  length (inputBuffer (keys p)) = 256%nat ->
  0 <= inputBufferPos (keys p) <= 255 ->
  let q := handleKeyboardTouch now (Some (touchX, touchY)) p in
  let typed := if shiftPressed p then key - 32 else key in
  97 <= key <= 122 /\
  editBuffer (keys q) = take 255 (editBuffer (keys p) ++ [typed]) /\
  term (device q) = putChar typed (term (device p)) /\
  card (device q) = card (device p) /\ serial2 (device q) = serial2 (device p) /\
  shiftPressed q = false /\ currentLayout q = LAYOUT_EN /\
  lastTouchTime q = now /\ stray q = stray p /\
  commandHistory (keys q) = commandHistory (keys p) /\
  historyCount (keys q) = historyCount (keys p) /\
  currentHistoryIndex (keys q) = currentHistoryIndex (keys p).
Proof.
  intros Hlayout Htime Hr Ho Hc Hy Hx Hlen Hpos q typed.
  assert (Hkey : 97 <= key <= 122).
  { apply (keyboardEN_lower_case rowkeys key).
    - apply list_elem_of_lookup. exists r. exact Hr.
    - apply list_elem_of_lookup. exists c. exact Hc. }
  assert (Hrow : (r < 4)%nat).
  { apply lookup_lt_Some in Hr. cbn in Hr. lia. }
  subst q. unfold handleKeyboardTouch.
  destruct (Z.ltb_spec (Int.u32 (now - lastTouchTime p)) touchDebounce); [lia|].
  destruct (Z.ltb_spec touchY KEYBOARD_Y_POS) as [Hup|_].
  { unfold rowY, keyHeight, keySpacing, KEYBOARD_Y_POS in *. lia. }
  rewrite specialKeys_above by (apply (regular_row_above r); [exact Hrow|lia]).
  set (p0 := set_lastTouchTime now p).
  change (currentLayout p0) with (currentLayout p). rewrite Hlayout.
  rewrite (scanRows_hit keyWidth touchX touchY keyboardEN [2; 10; 25] r 0
             rowkeys offset c key); try assumption; [|unfold keyWidth; lia].
  unfold englishKey. change (shiftPressed p0) with (shiftPressed p).
  set (p1 := if shiftPressed p then set_shift false p0 else p0).
  assert (H1 : keys p1 = keys p /\ device p1 = device p /\ shiftPressed p1 = false /\
               currentLayout p1 = LAYOUT_EN /\ lastTouchTime p1 = now /\
               stray p1 = stray p).
  { unfold p1, p0. destruct (shiftPressed p) eqn:Hs; cbn;
      rewrite ?Hlayout, ?Hs; repeat split; reflexivity. }
  destruct H1 as (K1 & K2 & K3 & K4 & K5 & K6).
  assert (Htyped : (if shiftPressed p then Int.u8 (key - 32) else key) = typed).
  { unfold typed. destruct (shiftPressed p); [|reflexivity].
    unfold Int.u8. apply Z.mod_small. lia. }
  rewrite Htyped.
  assert (Hu32 : Int.u32 typed = typed).
  { unfold Int.u32, typed. destruct (shiftPressed p); apply Z.mod_small; lia. }
  destruct (pushByte_effect typed p1)
    as (A1 & A2 & A3 & _ & B1 & B2 & B3 & B4 & B5 & B6 & B7 & B8 & B9);
    [rewrite K1; exact Hlen|rewrite K1; exact Hpos|].
  unfold echo, terminalLocalEcho. panel_fields.
  rewrite B5, K2, Hu32, A1, K1, B1, B2, B3, B6, B7, B8, B9, K1, K3, K4, K5, K6.
  repeat split; try reflexivity; lia.
Qed.

Lemma english_key_typed_witness :
  let d := mkDevice (terminalInit Terminal.power_on) SdCard.idle (Some External) [] in
  let p := set_shift true (Touch.power_on d) in
  let q := handleKeyboardTouch 1000 (Some (40, 90)) p in
  editBuffer (keys q) = lit "W" /\ shiftPressed q = false /\ serial2 (device q) = [].
Proof.
  intros d p q.
  destruct (english_key_typed 1000 40 90 p 0 1 (lit "qwertyuiop") 2 119)
    as (_ & A & _ & _ & B & C & _); try reflexivity;
    try (vm_compute; split; discriminate); try (vm_compute; discriminate).
  fold q in A, B, C. split; [rewrite A; reflexivity|]. split; [exact C|exact B].
Defined.

Lemma echoLoop_nul text rest : forall d t,
  Forall (fun b => b <> 0) text ->
  echoLoop (text ++ 0 :: rest) d t = echoLoop text d t.
Proof.
  induction text as [|b text IH]; intros d t Hne; [reflexivity|].
  apply Forall_cons in Hne. destruct Hne as [Hb Hne].
  cbn [app echoLoop]. destruct (Z.eqb_spec b 0); [contradiction|].
  destruct (utf8Decode d b) as [d' complete]. destruct complete; apply IH; exact Hne.
Qed.

Lemma echoText_codepoint cp t :
  0 < cp < 0x110000 ->
  terminalLocalEchoText (SdCard.utf8Bytes cp ++ [0]) t = putChar cp t.
Proof.
  intros Hcp. unfold terminalLocalEchoText.
  assert (Hne : Forall (fun b => b <> 0) (SdCard.utf8Bytes cp))
    by (apply utf8Bytes_avoid; lia).
  rewrite echoLoop_nul by exact Hne. rewrite echoLoop_decode by exact Hne.
  unfold Host.decoded.
  rewrite <- (app_nil_r (SdCard.utf8Bytes cp)).
  rewrite decode_utf8Bytes by (try reflexivity; lia). reflexivity.
Qed.

Lemma keyboardRU_letters rowkeys b1 b2 :
  rowkeys ∈ keyboardRU -> (b1, b2) ∈ rowkeys ->
  let lower := Z.lor (Z.shiftl (Z.land b1 0x1F) 6) (Z.land b2 0x3F) in
  (Z.land b1 0xE0 =? 0xC0) && (Z.land b2 0xC0 =? 0x80) = true /\
  0x0430 <= lower <= 0x044F /\ SdCard.utf8Bytes lower = [b1; b2].
Proof.
  intros Hr Hk.
  pose (ok := fun b : Z * Z =>
    let lower := Z.lor (Z.shiftl (Z.land (fst b) 0x1F) 6) (Z.land (snd b) 0x3F) in
    (Z.land (fst b) 0xE0 =? 0xC0) && (Z.land (snd b) 0xC0 =? 0x80)
    && (0x0430 <=? lower) && (lower <=? 0x044F)
    && (lower <? 0x800) && negb (lower <? 0x80)
    && (Int.u8 (Z.lor 0xC0 (Z.shiftr lower 6)) =? fst b)
    && (Int.u8 (Z.lor 0x80 (Z.land lower 0x3F)) =? snd b)).
  assert (H : forallb (forallb ok) keyboardRU = true) by (vm_compute; reflexivity).
  rewrite forallb_forall in H. specialize (H rowkeys (proj1 (list_elem_of_In _ _) Hr)).
  rewrite forallb_forall in H. specialize (H (b1, b2) (proj1 (list_elem_of_In _ _) Hk)).
  unfold ok in H. cbn [fst snd] in H. cbv zeta in H |- *.
  set (lower := Z.lor _ _) in *.
  repeat (apply andb_true_iff in H; destruct H as [H ?]).
  split; [apply andb_true_iff; split; assumption|].
  split; [lia|].
  unfold SdCard.utf8Bytes.
  destruct (lower <? 128); [discriminate|].
  destruct (lower <? 2048); [|discriminate].
  f_equal; [|f_equal]; lia.
Qed.

(** X22: a touch on a key of the Russian layout.  Every key of keyboardRU
    holds the two UTF-8 bytes of a lower-case letter U+0430..U+044F.  When
    the debounce time has passed and the touch lies in the 24-pixel-wide
    rectangle of the key in row r, column c, the handler appends the two
    bytes of that letter to the input line, or of the upper-case letter 32
    codepoints below when SHIFT is on (which is then released), and echoes
    the letter as one codepoint, which drawUnicodeChar draws with a glyph of
    the Cyrillic font.  The input line holds at most 255 bytes, so with 254
    bytes stored only the first byte of the letter is kept.  Nothing is
    written to Serial2. *)
Theorem russian_key_typed (now touchX touchY : Z) (p : Panel)
    (r c : nat) (rowkeys : list (Z * Z)) (offset b1 b2 : Z) :
  currentLayout p = LAYOUT_RU ->
  touchDebounce <= Int.u32 (now - lastTouchTime p) ->
  keyboardRU !! r = Some rowkeys -> [5; 10; 30] !! r = Some offset ->
  rowkeys !! c = Some (b1, b2) ->
  rowY (Z.of_nat r) <= touchY <= rowY (Z.of_nat r) + keyHeight ->
  offset + Z.of_nat c * (24 + keySpacing) <= touchX
    <= offset + Z.of_nat c * (24 + keySpacing) + 24 ->
  length (inputBuffer (keys p)) = 256%nat ->
  0 <= inputBufferPos (keys p) <= 255 ->
  let q := handleKeyboardTouch now (Some (touchX, touchY)) p in
  let lower := Z.lor (Z.shiftl (Z.land b1 0x1F) 6) (Z.land b2 0x3F) in
  let typed := if shiftPressed p then lower - 0x20 else lower in
  0x0430 <= lower <= 0x044F /\ SdCard.utf8Bytes lower = [b1; b2] /\
  editBuffer (keys q) = take 255 (editBuffer (keys p) ++ SdCard.utf8Bytes typed) /\
  term (device q) = putChar typed (term (device p)) /\
  Font.drawUnicodeChar typed = Font.Glyph (typed - 0x0410) /\
  0 <= typed - 0x0410 < Font.glyphCount /\
  card (device q) = card (device p) /\ serial2 (device q) = serial2 (device p) /\
  shiftPressed q = false /\ currentLayout q = LAYOUT_RU /\
  lastTouchTime q = now /\ stray q = stray p /\
  commandHistory (keys q) = commandHistory (keys p) /\
  historyCount (keys q) = historyCount (keys p) /\
  currentHistoryIndex (keys q) = currentHistoryIndex (keys p).
Proof.
  intros Hlayout Htime Hr Ho Hc Hy Hx Hlen Hpos q lower typed.
  destruct (keyboardRU_letters rowkeys b1 b2) as (Hvalid & Hlower & Hbytes).
  { apply list_elem_of_lookup. exists r. exact Hr. }
  { apply list_elem_of_lookup. exists c. exact Hc. }
  fold lower in Hlower, Hbytes.
  assert (Hrow : (r < 4)%nat).
  { apply lookup_lt_Some in Hr. cbn in Hr. lia. }
  assert (Htyped : 0x0410 <= typed <= 0x044F).
  { unfold typed. destruct (shiftPressed p); lia. }
  split; [exact Hlower|]. split; [exact Hbytes|].
  subst q. unfold handleKeyboardTouch.
  destruct (Z.ltb_spec (Int.u32 (now - lastTouchTime p)) touchDebounce); [lia|].
  destruct (Z.ltb_spec touchY KEYBOARD_Y_POS) as [Hup|_].
  { unfold rowY, keyHeight, keySpacing, KEYBOARD_Y_POS in *. lia. }
  rewrite specialKeys_above by (apply (regular_row_above r); [exact Hrow|lia]).
  set (p0 := set_lastTouchTime now p).
  change (currentLayout p0) with (currentLayout p). rewrite Hlayout.
  rewrite (scanRows_hit 24 touchX touchY keyboardRU [5; 10; 30] r 0
             rowkeys offset c (b1, b2)); try assumption; [|lia].
  unfold russianKey. rewrite Hvalid. fold lower.
  change (shiftPressed p0) with (shiftPressed p).
  assert (Hin : (lower >=? 0x0430) && (lower <=? 0x044F) = true).
  { apply andb_true_iff. split; [apply Z.geb_le|apply Z.leb_le]; lia. }
  rewrite <- andb_assoc, Hin, andb_true_r.
  assert (Hcp : (if shiftPressed p then Int.u32 (lower - 0x20) else lower) = typed).
  { unfold typed. destruct (shiftPressed p); [|reflexivity].
    unfold Int.u32. apply Z.mod_small. lia. }
  rewrite Hcp.
  destruct (Z.ltb_spec typed 0x80); [lia|].
  destruct (Z.ltb_spec typed 0x800); [|lia].
  assert (Hutf : [Int.u8 (Z.lor 0xC0 (Z.shiftr typed 6));
                  Int.u8 (Z.lor 0x80 (Z.land typed 0x3F))] = SdCard.utf8Bytes typed).
  { unfold SdCard.utf8Bytes.
    destruct (Z.ltb_spec typed 128); [lia|].
    destruct (Z.ltb_spec typed 2048); [reflexivity|lia]. }
  rewrite Hutf.
  set (p1 := if shiftPressed p then set_shift false p0 else p0).
  assert (Hp1 : keys p1 = keys p /\ device p1 = device p /\ shiftPressed p1 = false /\
               currentLayout p1 = LAYOUT_RU /\ lastTouchTime p1 = now /\
               stray p1 = stray p).
  { unfold p1, p0. destruct (shiftPressed p) eqn:Hs; cbn;
      rewrite ?Hlayout, ?Hs; repeat split; reflexivity. }
  destruct Hp1 as (K1 & K2 & K3 & K4 & K5 & K6).
  destruct (pushBytes_effect (SdCard.utf8Bytes typed) p1)
    as (A1 & A2 & A3 & _ & B1 & B2 & B3 & B4 & B5 & B6 & B7 & B8 & B9);
    [rewrite K1; exact Hlen|rewrite K1; exact Hpos|].
  unfold echoText. panel_fields.
  rewrite B5, K2, echoText_codepoint by lia.
  rewrite A1, K1, B1, B2, B3, B6, B7, B8, B9, K1, K3, K4, K5, K6.
  assert (Hdraw : Font.drawUnicodeChar typed = Font.Glyph (typed - 0x0410)).
  { unfold Font.drawUnicodeChar, Font.glyphCount.
    destruct (Z.ltb_spec typed 128); [lia|].
    destruct (Z.leb_spec typed 0x042F).
    - replace (typed >=? 1040) with true by (symmetry; apply Z.geb_le; lia).
      cbn [andb].
      replace ((typed - 1040 >=? 0) && (typed - 1040 <? 64)) with true; [reflexivity|].
      symmetry. apply andb_true_iff. split; [apply Z.geb_le|apply Z.ltb_lt]; lia.
    - rewrite andb_false_r.
      destruct (Z.eqb_spec typed 1025); [lia|].
      replace ((typed >=? 1072) && (typed <=? 1103)) with true
        by (symmetry; apply andb_true_iff; split; [apply Z.geb_le|apply Z.leb_le]; lia).
      replace ((32 + (typed - 1072) >=? 0) && (32 + (typed - 1072) <? 64)) with true
        by (symmetry; apply andb_true_iff; split; [apply Z.geb_le|apply Z.ltb_lt]; lia).
      f_equal. lia. }
  unfold Font.glyphCount.
  repeat split; try reflexivity; try assumption; lia.
Qed.

Lemma russian_key_typed_witness :
  let d := mkDevice (terminalInit Terminal.power_on) SdCard.idle (Some External) [] in
  let p := set_shift true (set_layout LAYOUT_RU (Touch.power_on d)) in
  let q := handleKeyboardTouch 1000 (Some (40, 90)) p in
  editBuffer (keys q) = [208; 166] /\ shiftPressed q = false /\
  Font.drawUnicodeChar 0x0426 = Font.Glyph 22.
Proof.
  intros d p q.
  destruct (russian_key_typed 1000 40 90 p 0 1
              [(208, 185); (209, 134); (209, 131); (208, 186); (208, 181); (208, 189);
               (208, 179); (209, 136); (209, 137); (208, 183); (209, 133); (209, 138)]
              5 209 134)
    as (_ & _ & A & _ & B & _ & _ & _ & C & _); try reflexivity;
    try (vm_compute; split; discriminate); try (vm_compute; discriminate).
  fold q in A, C. split; [rewrite A; reflexivity|]. split; [exact C|exact B].
Defined.

Lemma keyboardSYM_on_screen rowkeys (c : nat) key :
  rowkeys ∈ keyboardSYM -> rowkeys !! c = Some key -> (c < 10)%nat ->
  key <> 126 /\ key <> 96 /\ 33 <= key <= 125.
Proof.
  intros Hr Hc Hlt.
  pose (ok := fun k : Z => negb (k =? 126) && negb (k =? 96) && (33 <=? k) && (k <=? 125)).
  assert (H : forallb (fun row => forallb ok (take 10 row)) keyboardSYM = true)
    by (vm_compute; reflexivity).
  rewrite forallb_forall in H. specialize (H rowkeys (proj1 (list_elem_of_In _ _) Hr)).
  rewrite forallb_forall in H.
  assert (Hin : key ∈ take 10 rowkeys).
  { apply list_elem_of_lookup. exists c. rewrite lookup_take_lt by exact Hlt. exact Hc. }
  specialize (H key (proj1 (list_elem_of_In _ _) Hin)). unfold ok in H.
  repeat (apply andb_true_iff in H; destruct H as [H ?]).
  apply negb_true_iff in H, H2. split; [|split]; lia.
Qed.

(** X23: a touch on a key of the symbols layout.  When the debounce time
    has passed and the touch lies in the rectangle of the key in row r,
    column c of keyboardSYM, the handler appends that char to the input line
    (nothing once 255 chars are stored) and echoes it; SHIFT is left as it
    is and nothing is written to Serial2.  The keys are 32 pixels apart from
    x = 5, so whatever the hit test of this layout returns for a touch with
    x at most SCREEN_WIDTH = 320 is one of the first ten keys of a row: the
    last two keys of the fourth row, the tilde and the backquote, cannot be
    typed. *)
Theorem symbol_key_typed (now touchX touchY : Z) (p : Panel)
    (r c : nat) (rowkeys : list Z) (key : Z) :
  currentLayout p = LAYOUT_SYM ->
  touchDebounce <= Int.u32 (now - lastTouchTime p) ->
  keyboardSYM !! r = Some rowkeys -> rowkeys !! c = Some key ->
  rowY (Z.of_nat r) <= touchY <= rowY (Z.of_nat r) + keyHeight ->
  5 + Z.of_nat c * (keyWidth + keySpacing) <= touchX
    <= 5 + Z.of_nat c * (keyWidth + keySpacing) + keyWidth ->
  length (inputBuffer (keys p)) = 256%nat ->
  0 <= inputBufferPos (keys p) <= 255 ->
  let q := handleKeyboardTouch now (Some (touchX, touchY)) p in
  editBuffer (keys q) = take 255 (editBuffer (keys p) ++ [key]) /\
  term (device q) = putChar key (term (device p)) /\
  card (device q) = card (device p) /\ serial2 (device q) = serial2 (device p) /\
  shiftPressed q = shiftPressed p /\ currentLayout q = LAYOUT_SYM /\
  lastTouchTime q = now /\ stray q = stray p /\
  commandHistory (keys q) = commandHistory (keys p) /\
  historyCount (keys q) = historyCount (keys p) /\
  currentHistoryIndex (keys q) = currentHistoryIndex (keys p) /\
  (forall x y hit,
     scanRows keyWidth x y 0 [5; 5; 5; 5] keyboardSYM = Some hit ->
     x <= SCREEN_WIDTH -> hit <> 126 /\ hit <> 96).
Proof.
  intros Hlayout Htime Hr Hc Hy Hx Hlen Hpos q.
  assert (Hrow : (r < 4)%nat).
  { apply lookup_lt_Some in Hr. cbn in Hr. lia. }
  assert (Ho : [5; 5; 5; 5] !! r = Some 5).
  { do 4 (destruct r as [|r]; [reflexivity|]). lia. }
  assert (Hkey : 0 <= key < 256).
  { assert (H : Forall (Forall (fun k => 0 <= k < 256)) keyboardSYM)
      by (vm_compute; repeat constructor; discriminate).
    rewrite Forall_forall in H.
    specialize (H rowkeys ltac:(apply list_elem_of_lookup; exists r; exact Hr)).
    rewrite Forall_forall in H.
    exact (H key ltac:(apply list_elem_of_lookup; exists c; exact Hc)). }
  subst q. unfold handleKeyboardTouch.
  destruct (Z.ltb_spec (Int.u32 (now - lastTouchTime p)) touchDebounce); [lia|].
  destruct (Z.ltb_spec touchY KEYBOARD_Y_POS) as [Hup|_].
  { unfold rowY, keyHeight, keySpacing, KEYBOARD_Y_POS in *. lia. }
  rewrite specialKeys_above by (apply (regular_row_above r); [exact Hrow|lia]).
  set (p0 := set_lastTouchTime now p).
  change (currentLayout p0) with (currentLayout p). rewrite Hlayout.
  rewrite (scanRows_hit keyWidth touchX touchY keyboardSYM [5; 5; 5; 5] r 0
             rowkeys 5 c key); try assumption; [|unfold keyWidth; lia].
  unfold plainKey.
  destruct (pushByte_effect key p0)
    as (A1 & A2 & A3 & _ & B1 & B2 & B3 & B4 & B5 & B6 & B7 & B8 & B9);
    [exact Hlen|exact Hpos|].
  unfold echo, terminalLocalEcho. panel_fields.
  rewrite B5, A1, B1, B2, B3, B6, B7, B8, B9.
  unfold Int.u32. rewrite Z.mod_small by lia.
  repeat match goal with |- _ /\ _ => split end; try reflexivity; try assumption.
  intros x y hit Hhit Hscreen.
  destruct (scanRows_some _ _ _ _ _ _ _ Hhit)
    as (r' & c' & row' & off & R1 & R2 & R3 & _ & R5).
  assert (Hoff : off = 5).
  { do 4 (destruct r' as [|r']; [cbn in R2; congruence|]). discriminate R2. }
  assert (Hcol : (c' < 10)%nat).
  { unfold SCREEN_WIDTH, keyWidth, keySpacing in *. lia. }
  destruct (keyboardSYM_on_screen row' c' hit) as (N1 & N2 & _);
    [apply list_elem_of_lookup; exists r'; exact R1|exact R3|exact Hcol|].
  split; assumption.
Qed.

Lemma symbol_key_typed_witness :
  let d := mkDevice (terminalInit Terminal.power_on) SdCard.idle (Some External) [] in
  let p := set_layout LAYOUT_SYM (Touch.power_on d) in
  let q := handleKeyboardTouch 1000 (Some (280, 190)) p in
  editBuffer (keys q) = lit "/" /\ serial2 (device q) = [].
Proof.
  intros d p q.
  destruct (symbol_key_typed 1000 280 190 p 3 8
              [59; 58; 39; 34; 60; 62; 44; 46; 47; 63; 126; 96] 47)
    as (A & _ & _ & B & _); try reflexivity;
    try (vm_compute; split; discriminate); try (vm_compute; discriminate).
  fold q in A, B. split; [rewrite A; reflexivity|exact B].
Defined.

(** *** The BKSP key *)

Lemma top_bits b : 0 <= b < 256 -> Z.land b 0xC0 = 64 * (b / 64).
Proof.
  intros Hb.
  pose (ok := fun b => Z.land b 0xC0 =? 64 * (b / 64)).
  assert (H : forallb ok (seqZ 0 256) = true) by (vm_compute; reflexivity).
  apply Z.eqb_eq. exact (forallb_seqZ ok 0 256 H b ltac:(lia)).
Qed.

Lemma utf8Bytes_shape cp :
  0 <= cp < 0x110000 ->
  exists lead conts,
    SdCard.utf8Bytes cp = lead :: conts /\ (length conts <= 3)%nat /\
    Z.land lead 0xC0 <> 0x80 /\
    Forall (fun b => Z.land b 0xC0 = 0x80) conts.
Proof.
  intros Hcp. rewrite utf8Bytes_value by exact Hcp.
  assert (Hc : forall y, 0 <= y < 64 -> Z.land (0x80 + y) 0xC0 = 0x80).
  { intros y Hy. rewrite top_bits by lia.
    replace ((128 + y) / 64) with 2 by (Z.div_mod_to_equations; lia).
    reflexivity. }
  assert (Hl : forall x, 0 <= x < 64 -> Z.land (0xC0 + x) 0xC0 <> 0x80).
  { intros y Hy. rewrite top_bits by lia.
    replace ((192 + y) / 64) with 3 by (Z.div_mod_to_equations; lia).
    lia. }
  destruct (Z.ltb_spec cp 0x80); [|destruct (Z.ltb_spec cp 0x800);
    [|destruct (Z.ltb_spec cp 0x10000)]].
  - exists cp, []. split; [reflexivity|]. split; [cbn; lia|]. split; [|constructor].
    rewrite top_bits by lia.
    assert (0 <= cp / 64 < 2)
      by (split; [apply Z.div_pos; lia|apply Z.div_lt_upper_bound; lia]).
    lia.
  - eexists _, _. split; [reflexivity|]. split; [cbn; lia|].
    assert (0 <= cp / 64 < 32)
      by (split; [apply Z.div_pos; lia|apply Z.div_lt_upper_bound; lia]).
    split; [apply Hl; lia|].
    repeat constructor; apply Hc; apply Z.mod_pos_bound; lia.
  - eexists _, _. split; [reflexivity|]. split; [cbn; lia|].
    assert (0 <= cp / 4096 < 16)
      by (split; [apply Z.div_pos; lia|apply Z.div_lt_upper_bound; lia]).
    split; [replace (0xE0 + cp / 4096) with (0xC0 + (32 + cp / 4096)) by lia;
            apply Hl; lia|].
    repeat constructor; apply Hc; apply Z.mod_pos_bound; lia.
  - eexists _, _. split; [reflexivity|]. split; [cbn; lia|].
    assert (0 <= cp / 262144 < 5)
      by (split; [apply Z.div_pos; lia|apply Z.div_lt_upper_bound; lia]).
    split; [replace (0xF0 + cp / 262144) with (0xC0 + (48 + cp / 262144)) by lia;
            apply Hl; lia|].
    repeat constructor; apply Hc; apply Z.mod_pos_bound; lia.
Qed.

Lemma set_input_same p :
  set_input (inputBuffer (keys p)) (inputBufferPos (keys p)) p = p.
Proof. destruct p as [[] ? ? ? ? ?]. reflexivity. Qed.

Lemma skipContinuation_stops (k : nat) : forall (fuel : nat) (n : Z) (p : Panel),
  0 <= n -> inputBufferPos (keys p) = n + Z.of_nat k -> n + Z.of_nat k <= 256 ->
  (forall i, n < i <= n + Z.of_nat k -> Z.land (peek p i) 0xC0 = 0x80) ->
  n = 0 \/ Z.land (peek p n) 0xC0 <> 0x80 ->
  (k <= fuel)%nat ->
  skipContinuation fuel p = set_input (inputBuffer (keys p)) n p.
Proof.
  induction k as [|k IH]; intros fuel n p Hn Hpos Hmax Hcont Hlead Hfuel.
  - rewrite Z.add_0_r in Hpos. subst n. rewrite set_input_same.
    destruct fuel as [|fuel]; cbn [skipContinuation]; [reflexivity|].
    destruct Hlead as [Hz|Hlead].
    + rewrite Hz. reflexivity.
    + destruct (Z.eqb_spec (Z.land (peek p (inputBufferPos (keys p))) 0xC0) 0x80);
        [contradiction|].
      rewrite andb_false_r. reflexivity.
  - destruct fuel as [|fuel]; [lia|]. cbn [skipContinuation]. rewrite Hpos.
    replace (n + Z.of_nat (S k) >? 0) with true by (symmetry; apply Z.gtb_lt; lia).
    rewrite (Hcont (n + Z.of_nat (S k))) by lia.
    cbn [andb Z.eqb Pos.eqb].
    rewrite int_sub_small by int_fits.
    rewrite (IH fuel n); panel_fields; try lia; try assumption.
    + reflexivity.
    + intros i Hi. apply (Hcont i). lia.
Qed.

(** X24: the BKSP key (and the DEL key of the navigation layout) removes
    one character, not one byte.  When the input line ends with the UTF-8
    bytes of a codepoint (one to four bytes), the key takes exactly these
    bytes off the end of the line, whatever precedes them; the loop over the
    continuation bytes stops at the lead byte and reads inside inputBuffer.
    The key echoes a backspace to the terminal and writes nothing to
    Serial2.  With an empty input line nothing is removed, and the backspace
    is still echoed. *)
Theorem backspace_removes_character (p : Panel) (pre : list Z) (cp : Z) :
  (length (inputBuffer (keys p)) = 256%nat ->
   0 <= inputBufferPos (keys p) <= 255 ->
   editBuffer (keys p) = pre ++ SdCard.utf8Bytes cp -> 0 <= cp < 0x110000 ->
   let q := backspaceKey p in
   editBuffer (keys q) = pre /\
   inputBuffer (keys q) = inputBuffer (keys p) /\
   term (device q) = putChar 8 (term (device p)) /\
   card (device q) = card (device p) /\ serial2 (device q) = serial2 (device p) /\
   stray q = stray p /\ shiftPressed q = shiftPressed p /\
   currentLayout q = currentLayout p /\
   commandHistory (keys q) = commandHistory (keys p) /\
   historyCount (keys q) = historyCount (keys p) /\
   currentHistoryIndex (keys q) = currentHistoryIndex (keys p)) /\
  (inputBufferPos (keys p) = 0 ->
   keys (backspaceKey p) = keys p /\
   term (device (backspaceKey p)) = putChar 8 (term (device p))).
Proof.
  split.
  - intros Hlen Hpos Hedit Hcp q.
    destruct (utf8Bytes_shape cp Hcp) as (lead & conts & Hbytes & Hshort & Hlead & Hconts).
    rewrite Hbytes in Hedit.
    assert (Hsize : inputBufferPos (keys p)
                    = Z.of_nat (length pre) + 1 + Z.of_nat (length conts)).
    { apply (f_equal length) in Hedit. unfold editBuffer in Hedit.
      rewrite length_take, length_app in Hedit. cbn [length] in Hedit. lia. }
    assert (Hbuf : forall i : nat, (i < Z.to_nat (inputBufferPos (keys p)))%nat ->
                   inputBuffer (keys p) !! i = (pre ++ lead :: conts) !! i).
    { intros i Hi. rewrite <- Hedit. unfold editBuffer.
      rewrite lookup_take_lt by exact Hi. reflexivity. }
    subst q. unfold backspaceKey.
    replace (inputBufferPos (keys p) >? 0) with true by (symmetry; apply Z.gtb_lt; lia).
    rewrite int_sub_small by int_fits.
    set (p1 := set_input (inputBuffer (keys p)) (inputBufferPos (keys p) - 1) p).
    assert (Hp1 : inputBufferPos (keys p1) = inputBufferPos (keys p) - 1) by reflexivity.
    rewrite Hp1. unfold INPUT_BUFFER_SIZE.
    destruct (Z.ltb_spec (inputBufferPos (keys p) - 1) 256); [|lia].
    rewrite (skipContinuation_stops (length conts) _ (Z.of_nat (length pre)) p1);
      try lia.
    + unfold echo, terminalLocalEcho, editBuffer, p1. panel_fields.
      change (Int.u32 8) with 8.
      repeat match goal with |- _ /\ _ => split end; try reflexivity.
      rewrite Nat2Z.id.
      assert (Hpre : take (length pre) (editBuffer (keys p)) = pre)
        by (rewrite Hedit, take_app_length; reflexivity).
      unfold editBuffer in Hpre. rewrite take_take in Hpre.
      rewrite Nat.min_l in Hpre by lia. exact Hpre.
    + intros i Hi. unfold peek, p1. panel_fields.
      rewrite Hbuf by lia.
      replace (Z.to_nat i)
        with (length pre + S (Z.to_nat (i - Z.of_nat (length pre) - 1)))%nat by lia.
      rewrite lookup_app_r by lia.
      replace (length pre + S (Z.to_nat (i - Z.of_nat (length pre) - 1)) - length pre)%nat
        with (S (Z.to_nat (i - Z.of_nat (length pre) - 1))) by lia.
      set (j := Z.to_nat (i - Z.of_nat (length pre) - 1)).
      assert (Hj : (j < length conts)%nat) by lia.
      destruct (lookup_lt_is_Some_2 conts j Hj) as [b Hb].
      rewrite (lookup_cons_ne_0 conts lead (S j)) by lia.
      cbn [Nat.pred]. rewrite Hb. rewrite Forall_lookup in Hconts.
      exact (Hconts _ _ Hb).
    + right. unfold peek, p1. panel_fields.
      rewrite Hbuf by lia. rewrite Nat2Z.id.
      rewrite lookup_app_r by lia. rewrite Nat.sub_diag. exact Hlead.
  - intros Hz. unfold backspaceKey. rewrite Hz. cbn [Z.gtb Z.compare].
    unfold echo, terminalLocalEcho. panel_fields. change (Int.u32 8) with 8.
    split; reflexivity.
Qed.

Lemma backspace_removes_character_witness :
  let d := mkDevice (terminalInit Terminal.power_on) SdCard.idle (Some External) [] in
  let p := Touch.set_input (<[0%nat := 108]> (<[1%nat := 208]> (<[2%nat := 182]>
             (replicate 256 0)))) 3 (Touch.power_on d) in
  editBuffer (keys p) = [108; 208; 182] /\
  editBuffer (keys (backspaceKey p)) = [108] /\ stray (backspaceKey p) = false.
Proof.
  intros d p. split; [reflexivity|].
  destruct (backspace_removes_character p [108] 0x0436) as (A & _).
  destruct A as (A1 & _ & _ & _ & _ & A6 & _); try reflexivity;
    try (vm_compute; split; discriminate); try (split; [discriminate|reflexivity]).
  split; [exact A1|exact A6].
Defined.
